(** * Formal model of the Zstd container unpackers

    The development embeds the extraction core of three Python programs,
    [NpkUnlocker.py], [NpkUnlock_GUI.py] and [PPKUnlocker.py]: the magic-byte
    classifier, the frame scanner, the per-frame extraction task, the
    windowed block loop and the run drivers, and beside it the parts of the
    graphical tool that work on their results: the flow layout, the file
    table and its filters, the progress bar, the settings and the launcher.
    Part I holds the definitions, one module per source file, Part II the
    properties proved about them.  The modules of the source files take the
    calls into the decompressor and the file system to do their work; the
    modules [Raising_GUI] and [Raising_PPK] give the tasks with their
    handlers for [Exception]. *)

(** * Part I: definitions *)

From Stdlib Require Import List Arith Lia Bool Sorted.
From Stdlib Require Import Strings.Byte Strings.String Strings.Ascii.
From stdpp Require Import base list strings gmap pretty.

#[global] Instance byte_eq_dec : EqDecision byte := Byte.byte_eq_dec.

(** ** Python built-ins used by the sources *)

Module Py.

(** [sub] occurs in [data] at index [i]: [data[i:i+len(sub)] == sub]. *)
Definition occurs_at (sub data : list byte) (i : nat) : bool :=
  bool_decide (take (length sub) (drop i data) = sub).

(** Linear search of [sub] in the suffix [l], which starts at index [i]
    of the whole buffer. *)
Fixpoint find_from (sub l : list byte) (i : nat) : option nat :=
  if bool_decide (take (length sub) l = sub) then Some i
  else match l with
       | [] => None
       | _ :: t => find_from sub t (S i)
       end.

(** [data.find(sub, start)]: the lowest index [>= start] at which [sub]
    occurs, [None] standing for Python's [-1]. *)
Definition find (data sub : list byte) (start : nat) : option nat :=
  if start <=? length data then find_from sub (drop start data) start
  else None.

(** [data[a:b]] for non-negative bounds. *)
Definition slice (data : list byte) (a b : nat) : list byte :=
  take (b - a) (drop a data).

(** [data[-n:]] for [n > 0]. *)
Definition last_bytes (data : list byte) (n : nat) : list byte :=
  drop (length data - n) data.

(** Bytes of an ASCII literal [b"..."]. *)
Definition b (s : string) : list byte := String.list_byte_of_string s.

(** Upper-case hexadecimal digits of [n], most significant first, as
    produced by the [X] format type. *)
Definition hex_digit (d : N) : ascii :=
  Ascii.ascii_of_N (if (d <? 10)%N then 48 + d else 55 + d)%N.

Fixpoint hex_pos (fuel : nat) (n : N) (acc : string) : string :=
  match fuel with
  | 0 => acc
  | S fuel' =>
      let acc' := String (hex_digit (n mod 16)%N) acc in
      if (n <? 16)%N then acc' else hex_pos fuel' (n / 16)%N acc'
  end.

Definition hex_upper (n : nat) : string :=
  hex_pos (S (N.to_nat (N.log2 (N.of_nat n)))) (N.of_nat n) "".

Fixpoint zeros (k : nat) : string :=
  match k with 0 => "" | S k' => String "0" (zeros k') end.

(** Left zero padding to a minimum width, the [0w] format flag. *)
Definition zfill (w : nat) (s : string) : string :=
  zeros (w - String.length s) +:+ s.

(** [f"{n:04d}"] and [f"{n:08X}"]. *)
Definition fmt_04d (n : nat) : string := zfill 4 (pretty n).
Definition fmt_08X (n : nat) : string := zfill 8 (hex_upper n).

(** [s[:8]] on a [str]. *)
Definition str_take8 (s : string) : string := String.substring 0 8 s.

End Py.

(** ** External primitives

    [hashlib.md5(b).hexdigest()], [zstd.ZstdDecompressor().decompress(b)] and
    the floating-point formatting [f"{x:.2f}"] are not code of the
    repository; the model is parametric in them. *)

Inductive decode_result :=
  | Decoded (payload : list byte)
  | ZstdError (text : string).

Class Primitives := {
  (** [hashlib.md5(b).hexdigest()] *)
  md5_hexdigest : list byte → string;
  (** [zstd.ZstdDecompressor().decompress(b)]; [ZstdError] carries [str(e)] *)
  zstd_decompress : list byte → decode_result;
  (** [f"{n / d:.2f}"] *)
  fmt_2f : nat → N → string;
}.

(** ** Sequential and interleaved execution

    Code that mutates shared objects is written as a program of atomic
    actions on a state [S].  [exec] runs a program alone, from start to
    end; [interleave] runs a pool of programs under a schedule, one atomic
    action at a time, as the worker threads of a [ThreadPoolExecutor] do. *)
Definition State (S A : Type) : Type := S → A * S.

Definition gets {S A} (f : S → A) : State S A := λ σ, (f σ, σ).
Definition modify {S} (f : S → S) : State S unit := λ σ, (tt, f σ).

Inductive prog (S R : Type) : Type :=
  | Ret (r : R)
  | Act {A : Type} (a : State S A) (k : A → prog S R).
Arguments Ret {S R} r.
Arguments Act {S R A} a k.

Fixpoint prog_bind {S A B} (f : A → prog S B) (p : prog S A) : prog S B :=
  match p with
  | Ret r => f r
  | Act a k => Act a (λ x, prog_bind f (k x))
  end.

#[global] Instance prog_ret {S} : MRet (prog S) := λ A r, Ret r.
#[global] Instance prog_mbind {S} : MBind (prog S) := λ A B f p, prog_bind f p.

Definition atomic {S A} (a : State S A) : prog S A := Act a Ret.
Definition when_ {S} (c : bool) (p : prog S unit) : prog S unit :=
  if c then p else mret tt.

Fixpoint exec {S R} (p : prog S R) (σ : S) : R * S :=
  match p with
  | Ret r => (r, σ)
  | Act a k => let '(x, σ') := a σ in exec (k x) σ'
  end.

Definition is_done {S R} (p : prog S R) : bool :=
  match p with Ret _ => true | Act _ _ => false end.

(** One atomic action of [p]. *)
Definition step {S R} (p : prog S R) (σ : S) : prog S R * S :=
  match p with
  | Ret r => (Ret r, σ)
  | Act a k => let '(x, σ') := a σ in (k x, σ')
  end.

(** A pool entry: a submitted task and whether a worker has picked it up. *)
Record job (S R : Type) := { job_started : bool; job_prog : prog S R }.
Arguments job_started {S R} j.
Arguments job_prog {S R} j.

Definition job_running {S R} (j : job S R) : bool :=
  job_started j && negb (is_done (job_prog j)).

(** Task [i] may take a step when a worker already runs it, or when it is
    the next one in the queue and fewer than [max_workers] tasks are
    running. *)
Definition can_step {S R} (max_workers : nat) (pool : list (job S R)) (i : nat) : bool :=
  match pool !! i with
  | None => false
  | Some j =>
      negb (is_done (job_prog j))
      && (job_started j
          || (forallb job_started (take i pool)
              && (length (List.filter job_running pool) <? max_workers)))
  end.

Fixpoint interleave {S R} (max_workers : nat) (schedule : list nat)
    (pool : list (job S R)) (σ : S) : list (job S R) * S :=
  match schedule with
  | [] => (pool, σ)
  | i :: schedule' =>
      match pool !! i with
      | Some j =>
          if can_step max_workers pool i then
            let '(p', σ') := step (job_prog j) σ in
            interleave max_workers schedule'
              (<[i := {| job_started := true; job_prog := p' |}]> pool) σ'
          else interleave max_workers schedule' pool σ
      | None => interleave max_workers schedule' pool σ
      end
  end.

(** Leaving the [with ThreadPoolExecutor(...)] block waits for every task:
    what is still pending runs to its end, in queue order. *)
Fixpoint join {S R} (pool : list (job S R)) (σ : S) : list R * S :=
  match pool with
  | [] => ([], σ)
  | j :: pool' =>
      let '(r, σ1) := exec (job_prog j) σ in
      let '(rs, σ2) := join pool' σ1 in
      (r :: rs, σ2)
  end.

Definition submit_all {S R} (tasks : list (prog S R)) : list (job S R) :=
  map (λ p, {| job_started := false; job_prog := p |}) tasks.

(** The results of the futures, in submission order. *)
Definition run_pool {S R} (max_workers : nat) (schedule : list nat)
    (tasks : list (prog S R)) (σ : S) : list R * S :=
  let '(pool, σ') := interleave max_workers schedule (submit_all tasks) σ in
  join pool σ'.

(** Weakest precondition of a program run alone. *)
Definition wp {S A} (p : prog S A) (Q : A → S → Prop) (σ : S) : Prop :=
  Q (exec p σ).1 (exec p σ).2.

(** [sim R p]: every atomic action of [p] returns the same value from two
    [R]-related states and leaves them [R]-related. *)
Fixpoint sim {S A} (R : S → S → Prop) (p : prog S A) : Prop :=
  match p with
  | Ret _ => True
  | Act a k =>
      (∀ σ1 σ2, R σ1 σ2 → (a σ1).1 = (a σ2).1 ∧ R (a σ1).2 (a σ2).2)
      ∧ ∀ x, sim R (k x)
  end.

(** [p], run alone from two [R]-related states, returns the same value and
    leaves [R']-related states. *)
Definition rel_exec {S A} (R R' : S → S → Prop) (p : prog S A) : Prop :=
  ∀ σ1 σ2, R σ1 σ2 →
    (exec p σ1).1 = (exec p σ2).1 ∧ R' (exec p σ1).2 (exec p σ2).2.

(** [enumerate(l)]. *)
Definition enumerate {A} (l : list A) : list (nat * A) := zip (seq 0 (length l)) l.

(** The file system as the programs use it: files written by path, and the
    set of directories created.  Writes and directory creation are taken to
    succeed. *)
Record filesystem := {
  fs_files : gmap string (list byte);
  fs_dirs : gset string;
}.

Definition fs_mkdir (p : string) (fs : filesystem) : filesystem :=
  {| fs_files := fs_files fs; fs_dirs := {[p]} ∪ fs_dirs fs |}.

Definition fs_write (p : string) (content : list byte) (fs : filesystem) : filesystem :=
  {| fs_files := <[p := content]> (fs_files fs); fs_dirs := fs_dirs fs |}.

(** [os.path.join(a, b)] for a relative component [b]. *)
Definition path_join (a b : string) : string := a +:+ "/" +:+ b.

(** ** NpkUnlocker.py *)

Module NpkUnlocker.

Definition FILE_CATEGORY_MAP : gmap string string :=
  list_to_map
    [ (".wem", "音频文件"); (".bnk", "音频文件"); (".png", "图片纹理");
      (".dds", "图片纹理"); (".ktx", "图片纹理"); (".tga", "图片纹理");
      (".mesh", "模型文件"); (".npk", "数据包文件"); (".zst", "压缩文件");
      ("", "未知文件") ].

Definition TGA_TAIL_MAGIC : list byte := Py.b "TRUEVISION-XFILE." ++ [x00].
Definition MESH_MAGIC : list byte := [x34; x80; xc8; xbb].
Definition PNG_MAGIC : list byte := x89 :: Py.b "PNG".
Definition KTX_MAGIC : list byte := xab :: Py.b "KTX 11" ++ [xbb].
Definition ZSTD_MAGIC : list byte := [x28; xb5; x2f; xfd].

Definition detect_file_extension (data : list byte) : string :=
  if bool_decide (data = []) then ""
  else if (4 <=? length data) && bool_decide (take 4 data = MESH_MAGIC)
  then ".mesh"
  else if (4 <=? length data) && bool_decide (take 4 data = PNG_MAGIC)
  then ".png"
  else if (8 <=? length data) && bool_decide (take 8 data = KTX_MAGIC)
  then ".ktx"
  else if (3 <=? length data) && bool_decide (take 3 data = Py.b "DDS")
  then ".dds"
  else if (12 <=? length data) && bool_decide (take 4 data = Py.b "RIFF")
          && bool_decide (Py.slice data 8 12 = Py.b "WAVE")
  then ".wem"
  else if (4 <=? length data) && bool_decide (take 4 data = Py.b "BKHD")
  then ".bnk"
  else if (4 <=? length data) && bool_decide (take 4 data = Py.b "AKPK")
  then ".npk"
  else if (4 <=? length data) && bool_decide (take 4 data = ZSTD_MAGIC)
  then ".zst"
  else if (length TGA_TAIL_MAGIC <=? length data)
          && bool_decide (Py.last_bytes data (length TGA_TAIL_MAGIC) = TGA_TAIL_MAGIC)
  then ".tga"
  else "".

(** The scanning loop of [extract_zstd_container]:
    [pos = data.find(ZSTD_MAGIC, pos)], stop on [-1], else record [pos]
    and advance by [len(ZSTD_MAGIC)].  [fuel] bounds the iterations of
    [while True]; [None] means the bound was hit. *)
Fixpoint scan_loop (fuel : nat) (data : list byte) (pos : nat)
    (frame_positions : list nat) : option (list nat) :=
  match fuel with
  | 0 => None
  | S fuel' =>
      match Py.find data ZSTD_MAGIC pos with
      | None => Some frame_positions
      | Some p => scan_loop fuel' data (p + length ZSTD_MAGIC) (frame_positions ++ [p])
      end
  end.

Definition scan_frames (data : list byte) : option (list nat) :=
  scan_loop (S (length data)) data 0 [].

(** The speed switches at the top of the file. *)
Definition FAST_MODE : bool := true.
Definition MAX_THREADS : nat := 8.

(** What the tasks of one run share: the [extracted_hashes] set, the file
    system and standard output. *)
Record run_state := {
  extracted_hashes : gset string;
  fs : filesystem;
  stdout : list string;
}.

Definition with_hashes (f : gset string → gset string) (σ : run_state) :=
  {| extracted_hashes := f (extracted_hashes σ); fs := fs σ; stdout := stdout σ |}.
Definition with_fs (f : filesystem → filesystem) (σ : run_state) :=
  {| extracted_hashes := extracted_hashes σ; fs := f (fs σ); stdout := stdout σ |}.

Definition newline : string := String (Ascii.ascii_of_nat 10) "".

(** [print(s)] and [print(s, end='')]. *)
Definition print (s : string) : prog run_state unit :=
  atomic (modify (λ σ, {| extracted_hashes := extracted_hashes σ; fs := fs σ;
                          stdout := stdout σ ++ [s +:+ newline] |})).
Definition print_noend (s : string) : prog run_state unit :=
  atomic (modify (λ σ, {| extracted_hashes := extracted_hashes σ; fs := fs σ;
                          stdout := stdout σ ++ [s] |})).

(** How a call of [extract_zstd_container] ends: with the count it
    returns, or with the exception that [ThreadPoolExecutor] raises for a
    pool of no workers. *)
Inductive outcome :=
  | Returned (extracted_count : nat)
  | Raised (exception : string).

Definition dashes : string := "--------------------------------------------------".

Section Run.
Context `{Primitives}.

Definition extract_single_frame (data : list byte) (frame_start : nat)
    (output_root : string) (frame_idx : nat) : prog run_state bool :=
  match zstd_decompress (drop frame_start data) with
  | ZstdError e =>
      _ ← print ("帧 " +:+ pretty (frame_idx + 1) +:+ " 解压失败: " +:+ e);
      mret false
  | Decoded decompressed =>
      let file_hash := md5_hexdigest decompressed in
      dup ← atomic (gets (λ σ, bool_decide (file_hash ∈ extracted_hashes σ)));
      if dup : bool then
        _ ← print ("跳过重复帧 " +:+ pretty (frame_idx + 1)
                   +:+ " (哈希: " +:+ Py.str_take8 file_hash +:+ ")");
        mret false
      else
      let ext := detect_file_extension decompressed in
      let category := default "未知文件" (FILE_CATEGORY_MAP !! ext) in
      let category_folder := path_join output_root category in
      _ ← atomic (modify (with_fs (fs_mkdir category_folder)));
      let output_filename := "extracted_frame_" +:+ pretty (frame_idx + 1) +:+ ext in
      let output_path := path_join category_folder output_filename in
      _ ← atomic (modify (with_fs (fs_write output_path decompressed)));
      _ ← atomic (modify (with_hashes (λ hs, {[file_hash]} ∪ hs)));
      _ ← print ("成功解压: " +:+ output_filename +:+ " -> " +:+ category
                 +:+ " (大小: " +:+ fmt_2f (length decompressed) 1024%N +:+ " KB)");
      mret true
  end.

Definition processing_line (i total frame_start : nat) : string :=
  "正在处理第 " +:+ pretty (i + 1) +:+ "/" +:+ pretty total
  +:+ " 个Zstd帧 @ " +:+ Py.fmt_08X frame_start +:+ ": ".

(** [thread_task] of the multi-threaded branch. *)
Definition thread_task (data : list byte) (output_folder : string)
    (total frame_idx frame_start : nat) : prog run_state bool :=
  _ ← print_noend (processing_line frame_idx total frame_start);
  extract_single_frame data frame_start output_folder frame_idx.

(** [for future in futures: if future.result(): extracted_count += 1]. *)
Fixpoint collect (results : list bool) (extracted_count : nat) : nat :=
  match results with
  | [] => extracted_count
  | r :: results' => collect results' (if r then extracted_count + 1 else extracted_count)
  end.

(** The serial branch. *)
Fixpoint serial_loop (data : list byte) (output_folder : string) (total : nat)
    (frames : list (nat * nat)) (extracted_count : nat) : prog run_state nat :=
  match frames with
  | [] => mret extracted_count
  | (i, frame_start) :: frames' =>
      _ ← print_noend (processing_line i total frame_start);
      result ← extract_single_frame data frame_start output_folder i;
      serial_loop data output_folder total frames'
        (if result : bool then extracted_count + 1 else extracted_count)
  end.

(** [extract_zstd_container], for given values of the two switches.
    [schedule] is the order in which the pool's workers take their
    steps in the multi-threaded branch.  The outer [option] is [None]
    only if the scanning loop hits its bound. *)
Definition extract_zstd_container_with (fast_mode : bool) (max_threads : nat)
    (schedule : list nat) (pkg_file_path : string) (data : list byte)
    (output_folder : string) : option (prog run_state outcome) :=
  frame_positions ← scan_frames data;
  Some (
    _ ← atomic (modify (with_fs (fs_mkdir output_folder)));
    let file_size := length data in
    _ ← print ("文件: " +:+ pkg_file_path);
    _ ← print ("大小: " +:+ pretty file_size +:+ " 字节 ("
               +:+ fmt_2f file_size (1024 * 1024)%N +:+ " MB)");
    _ ← print "开始解析Zstd容器结构...";
    _ ← print dashes;
    _ ← print "正在扫描Zstd帧位置...";
    _ ← print ("总共找到 " +:+ pretty (length frame_positions) +:+ " 个Zstd帧");
    _ ← print "开始提取...";
    _ ← print dashes;
    _ ← atomic (modify (with_hashes (λ _, ∅)));
    extracted ←
      (if fast_mode && (0 <? length frame_positions) then
         if max_threads =? 0
         then mret (Raised "max_workers must be greater than 0")
         else
         results ← atomic (run_pool max_threads schedule
                             (map (λ '(i, frame_start),
                                     thread_task data output_folder
                                       (length frame_positions) i frame_start)
                                  (enumerate frame_positions)));
         mret (Returned (collect results 0))
       else
         extracted_count ← serial_loop data output_folder (length frame_positions)
                             (enumerate frame_positions) 0;
         mret (Returned extracted_count));
    match extracted with
    | Raised exception => mret (Raised exception)
    | Returned extracted_count =>
        _ ← print dashes;
        _ ← print ("提取完成! 共提取 " +:+ pretty extracted_count +:+ " 个不重复文件");
        mret (Returned extracted_count)
    end).

Definition extract_zstd_container :=
  extract_zstd_container_with FAST_MODE MAX_THREADS.

End Run.

End NpkUnlocker.

(** ** NpkUnlock_GUI.py *)

Module NpkUnlock_GUI.

Definition FILE_CATEGORY_MAP : gmap string string :=
  list_to_map
    [ (".wem", "普通文件"); (".bnk", "普通文件"); (".png", "图片文件");
      (".dds", "图片文件"); (".ktx", "图片文件"); (".tga", "图片文件");
      (".mesh", "模型文件"); (".npk", "数据文件"); (".zst", "压缩文件");
      ("", "未知文件") ].

Definition TGA_TAIL_MAGIC : list byte := Py.b "TRUEVISION-XFILE." ++ [x00].

Definition detect_file_extension (data : list byte) : string :=
  if bool_decide (data = []) then ""
  else
    let mesh_magic := [x34; x80; xc8; xbb] in
    if (4 <=? length data) && bool_decide (take 4 data = mesh_magic)
    then ".mesh"
    else
      let png_magic := x89 :: Py.b "PNG" in
      if (4 <=? length data) && bool_decide (take 4 data = png_magic)
      then ".png"
      else
        let ktx_magic := xab :: Py.b "KTX 11" ++ [xbb] in
        if (8 <=? length data) && bool_decide (take 8 data = ktx_magic)
        then ".ktx"
        else if (3 <=? length data) && bool_decide (take 3 data = Py.b "DDS")
        then ".dds"
        else if (12 <=? length data) && bool_decide (take 4 data = Py.b "RIFF")
                && bool_decide (Py.slice data 8 12 = Py.b "WAVE")
        then ".wem"
        else if (4 <=? length data) && bool_decide (take 4 data = Py.b "BKHD")
        then ".bnk"
        else if (4 <=? length data) && bool_decide (take 4 data = Py.b "AKPK")
        then ".npk"
        else if (4 <=? length data)
                && bool_decide (take 4 data = [x28; xb5; x2f; xfd])
        then ".zst"
        else if (length TGA_TAIL_MAGIC <=? length data)
                && bool_decide (Py.last_bytes data (length TGA_TAIL_MAGIC)
                                = TGA_TAIL_MAGIC)
        then ".tga"
        else "".

(** [scan_zstd_frames]; [fuel] bounds the iterations of [while True] and
    [None] means the bound was hit. *)
Fixpoint scan_loop (fuel : nat) (data magic : list byte) (pos : nat)
    (positions : list nat) : option (list nat) :=
  match fuel with
  | 0 => None
  | S fuel' =>
      match Py.find data magic pos with
      | None => Some positions
      | Some p => scan_loop fuel' data magic (p + length magic) (positions ++ [p])
      end
  end.

Definition scan_zstd_frames (data : list byte) : option (list nat) :=
  let magic := [x28; xb5; x2f; xfd] in
  scan_loop (S (length data)) data magic 0 [].

(** The [info] dictionary handed to [file_signal]. *)
Record info := {
  info_name : string;
  info_ext : string;
  info_category : string;
  info_size : nat;
  info_path : string;
}.

(** What a task can touch: the [extracted_hashes] set it was handed, the
    file system, and the worker's [_stop] flag.  The flag is written by
    another thread; [polls] counts the reads made so far and the reader is
    given the value observed at each read. *)
Record task_state := {
  extracted_hashes : gset string;
  fs : filesystem;
  polls : nat;
}.

Definition with_hashes (f : gset string → gset string) (σ : task_state) :=
  {| extracted_hashes := f (extracted_hashes σ); fs := fs σ; polls := polls σ |}.
Definition with_fs (f : filesystem → filesystem) (σ : task_state) :=
  {| extracted_hashes := extracted_hashes σ; fs := f (fs σ); polls := polls σ |}.

(** One read of the flag: [stop_flag()] in a task, [self._stop] in [run].
    [stop_at k] is the value seen by the read number [k]. *)
Definition read_stop (stop_at : nat → bool) : State task_state bool :=
  λ σ, (stop_at (polls σ),
        {| extracted_hashes := extracted_hashes σ; fs := fs σ; polls := S (polls σ) |}).

Definition frame_prefix (frame_idx frame_start : nat) : string :=
  "[帧 " +:+ Py.fmt_04d (frame_idx + 1) +:+ " @ 0x" +:+ Py.fmt_08X frame_start +:+ "] ".

Definition msg_not_started : string := "任务已中断（未开始解压该帧）".
Definition msg_skip_decompress (prefix : string) : string :=
  prefix +:+ "任务已中断（跳过解压）".
Definition msg_not_written_after_decompress (prefix : string) : string :=
  prefix +:+ "任务已中断（解压完成但未写入文件）".
Definition msg_not_written (prefix : string) : string :=
  prefix +:+ "任务已中断（未写入文件）".
Definition msg_duplicate (prefix file_hash : string) : string :=
  prefix +:+ "跳过重复帧 (哈希: " +:+ Py.str_take8 file_hash +:+ ")".
Definition msg_decode_failed (prefix e : string) : string :=
  prefix +:+ "解压失败: " +:+ e.

Section Task.
Context `{Primitives}.

Definition msg_success (prefix output_filename category : string)
    (size : nat) (file_hash : string) : string :=
  prefix +:+ "成功解压: " +:+ output_filename +:+ " -> " +:+ category +:+ " "
  +:+ "(大小: " +:+ fmt_2f size 1024%N +:+ " KB, 哈希: " +:+ Py.str_take8 file_hash +:+ ")".

Definition extract_single_frame (data : list byte) (frame_start : nat)
    (output_root : string) (frame_idx : nat) (stop_flag : nat → bool)
    (enable_md5 enable_type_detect : bool)
    : prog task_state (bool * string * option info) :=
  s ← atomic (read_stop stop_flag);
  if s : bool then mret (false, msg_not_started, None) else
  let prefix := frame_prefix frame_idx frame_start in
  s ← atomic (read_stop stop_flag);
  if s : bool then mret (false, msg_skip_decompress prefix, None) else
  match zstd_decompress (drop frame_start data) with
  | ZstdError e => mret (false, msg_decode_failed prefix e, None)
  | Decoded decompressed =>
      s ← atomic (read_stop stop_flag);
      if s : bool
      then mret (false, msg_not_written_after_decompress prefix, None)
      else
      let file_hash := md5_hexdigest decompressed in
      dup ← (if enable_md5
             then atomic (gets (λ σ, bool_decide (file_hash ∈ extracted_hashes σ)))
             else mret false);
      if dup : bool then mret (false, msg_duplicate prefix file_hash, None) else
      let ext := if enable_type_detect
                 then detect_file_extension decompressed else "" in
      let category := default "未知文件" (FILE_CATEGORY_MAP !! ext) in
      let category_folder := path_join output_root category in
      _ ← atomic (modify (with_fs (fs_mkdir category_folder)));
      let output_filename := "extracted_frame_" +:+ pretty (frame_idx + 1) +:+ ext in
      let output_path := path_join category_folder output_filename in
      s ← atomic (read_stop stop_flag);
      if s : bool then mret (false, msg_not_written prefix, None) else
      _ ← atomic (modify (with_fs (fs_write output_path decompressed)));
      _ ← when_ enable_md5 (atomic (modify (with_hashes (λ hs, {[file_hash]} ∪ hs))));
      let size := length decompressed in
      mret (true,
            msg_success prefix output_filename category size file_hash,
            Some {| info_name := output_filename; info_ext := ext;
                    info_category := category; info_size := size;
                    info_path := output_path |})
  end.

(** What [ExtractWorker] emits.  A log line is kept as the arguments of
    [format_gui_log_line]: logger name, level and message; the time
    stamp it prepends is left out. *)
Inductive signal :=
  | log_signal (logger_name level message : string)
  | progress_signal (done total : nat)
  | file_signal (i : info)
  | finished_signal (extracted_count : nat)
  | error_signal (logger_name level message : string).

Definition gui_info (message : string) : signal := log_signal "gui" "INFO" message.

(** The artifacts announced by a run, and the counts it finished with. *)
Definition artifacts (out : list signal) : list info :=
  omap (λ s, match s with file_signal i => Some i | _ => None end) out.
Definition finished_counts (out : list signal) : list nat :=
  omap (λ s, match s with finished_signal n => Some n | _ => None end) out.
Definition error_messages (out : list signal) : list string :=
  omap (λ s, match s with error_signal _ _ m => Some m | _ => None end) out.
Definition extract_log (out : list signal) : list string :=
  omap (λ s, match s with
             | log_signal "gui.extract" _ m => Some m
             | _ => None
             end) out.

Definition rule : string :=
  "------------------------------------------------------------".
Definition double_rule : string :=
  "============================================================".

(** The body shared by both loops of [run] once a task's result
    [(ok, msg, info)] is known. *)
Definition account (r : bool * string * option info) (position total : nat)
    (acc : nat * list signal) : nat * list signal :=
  let '(ok, msg, inf) := r in
  let '(extracted_count, out) := acc in
  let out := out ++ [log_signal "gui.extract" "INFO" msg] in
  let '(extracted_count, out) :=
    match ok, inf with
    | true, Some i => (extracted_count + 1, out ++ [file_signal i])
    | _, _ => (extracted_count, out)
    end in
  (extracted_count, out ++ [progress_signal (position + 1) total]).

(** The normal mode: [for i, frame_start in enumerate(frame_positions)]. *)
Fixpoint serial_loop (data : list byte) (output_root : string)
    (stop_flag : nat → bool) (enable_md5 enable_type_detect : bool)
    (total : nat) (frames : list (nat * nat)) (acc : nat * list signal)
    : prog task_state (nat * list signal) :=
  match frames with
  | [] => mret acc
  | (i, frame_start) :: frames' =>
      s ← atomic (read_stop stop_flag);
      if s : bool then mret acc else
      r ← extract_single_frame data frame_start output_root i stop_flag
            enable_md5 enable_type_detect;
      serial_loop data output_root stop_flag enable_md5 enable_type_detect
        total frames' (account r i total acc)
  end.

(** The fast mode, first loop: one [executor.submit] per frame until
    the flag is seen set. *)
Fixpoint submit_loop (data : list byte) (output_root : string)
    (stop_flag : nat → bool) (enable_md5 enable_type_detect : bool)
    (frames : list (nat * nat))
    (futures : list (prog task_state (bool * string * option info)))
    : prog task_state (list (prog task_state (bool * string * option info))) :=
  match frames with
  | [] => mret futures
  | (i, frame_start) :: frames' =>
      s ← atomic (read_stop stop_flag);
      if s : bool then mret futures else
      submit_loop data output_root stop_flag enable_md5 enable_type_detect frames'
        (futures ++ [extract_single_frame data frame_start output_root i
                       stop_flag enable_md5 enable_type_detect])
  end.

(** The fast mode, second loop: [for idx, future in enumerate(futures)]. *)
Fixpoint collect_loop (stop_flag : nat → bool) (total : nat)
    (results : list (nat * (bool * string * option info)))
    (acc : nat * list signal) : prog task_state (nat * list signal) :=
  match results with
  | [] => mret acc
  | (idx, r) :: results' =>
      s ← atomic (read_stop stop_flag);
      if s : bool then mret acc else
      collect_loop stop_flag total results' (account r idx total acc)
  end.

(** The end of [run], common to both modes. *)
Definition finish (stop_flag : nat → bool) (acc : nat * list signal)
    : prog task_state (list signal) :=
  let '(extracted_count, out) := acc in
  s ← atomic (read_stop stop_flag);
  mret (out ++
        (if s : bool then [gui_info "解包已停止。"]
         else [ gui_info rule;
                gui_info ("解压完成! 共提取 " +:+ pretty extracted_count
                          +:+ " 个不重复文件") ])
        ++ [finished_signal extracted_count]).

(** [ExtractWorker.run].  [input] is the content of [input_file], or
    [None] when the file does not exist.  [schedule] is the order in
    which the pool's workers take their steps in the fast mode; the
    pool runs between the two loops of the main thread.  The outer
    [option] is [None] only if the scanning loop hits its bound. *)
Definition run (input_file : string) (input : option (list byte))
    (output_root : string) (fast_mode : bool) (max_threads : nat)
    (enable_md5 enable_type_detect : bool) (stop_flag : nat → bool)
    (schedule : list nat) : option (prog task_state (list signal)) :=
  match input with
  | None =>
      Some (mret [error_signal "gui" "ERROR" ("错误：文件不存在 -> " +:+ input_file)])
  | Some data =>
      frame_positions ← scan_zstd_frames data;
      Some (
        _ ← atomic (modify (with_fs (fs_mkdir output_root)));
        let file_size := length data in
        let out :=
          [ gui_info double_rule; gui_info "开始解包任务...";
            gui_info ("文件: " +:+ input_file);
            gui_info ("大小: " +:+ pretty file_size +:+ " 字节 ("
                      +:+ fmt_2f file_size (1024 * 1024)%N +:+ " MB)");
            gui_info "开始解析 Zstd 容器结构..."; gui_info rule;
            gui_info "正在扫描 Zstd 帧位置..." ] in
        let total_frames := length frame_positions in
        s ← atomic (read_stop stop_flag);
        if s : bool then
          mret (out ++ [gui_info "解包已停止（扫描阶段后）。"; finished_signal 0])
        else
        let out := out ++
          [ gui_info ("总共找到 " +:+ pretty total_frames +:+ " 个 Zstd 帧");
            gui_info "开始解压..."; gui_info rule ] in
        if total_frames =? 0 then mret (out ++ [finished_signal 0]) else
        _ ← atomic (modify (with_hashes (λ _, ∅)));
        let out := out ++ [progress_signal 0 total_frames] in
        if fast_mode then
          let out := out ++
            [ gui_info ("[快速模式] 使用多线程解压, 线程数=" +:+ pretty max_threads) ] in
          if max_threads =? 0 then
            mret (out ++ [error_signal "gui" "ERROR"
                            ("解压过程中发生异常: " +:+ "max_workers must be greater than 0")])
          else
          futures ← submit_loop data output_root stop_flag enable_md5
                      enable_type_detect (enumerate frame_positions) [];
          results ← atomic (run_pool max_threads schedule futures);
          acc ← collect_loop stop_flag total_frames (enumerate results) (0, out);
          finish stop_flag acc
        else
          let out := out ++ [gui_info "[正常模式] 串行解压"] in
          acc ← serial_loop data output_root stop_flag enable_md5
                  enable_type_detect total_frames (enumerate frame_positions) (0, out);
          finish stop_flag acc
      )
  end.

End Task.

End NpkUnlock_GUI.

(** ** NpkUnlock_GUI.py: [FlowLayout] *)

Module FlowLayout.

(** [QSize] and [QRect] as the layout uses them: a rectangle is built from
    its top-left corner and its size, and [right()] is the column of its
    last pixel. *)
Record QSize := { width : Z; height : Z }.
Record QRect := { rect_x : Z; rect_y : Z; rect_width : Z; rect_height : Z }.

Definition right (rect : QRect) : Z := (rect_x rect + rect_width rect - 1)%Z.

Section Items.
Context {Item : Type}.

(** [item.widget()], as the size hint of the widget; [None] for an item
    that holds no widget. *)
Variable widget : Item → option QSize.

Definition addItem (itemList : list Item) (item : Item) : list Item :=
  itemList ++ [item].

Definition count (itemList : list Item) : Z := Z.of_nat (length itemList).

Definition itemAt (itemList : list Item) (index : Z) : option Item :=
  if ((0 <=? index) && (index <? Z.of_nat (length itemList)))%Z
  then itemList !! Z.to_nat index
  else None.

(** [takeAt] returns the item and leaves the list without it. *)
Definition takeAt (itemList : list Item) (index : Z) : option Item * list Item :=
  if ((0 <=? index) && (index <? Z.of_nat (length itemList)))%Z
  then (itemList !! Z.to_nat index, delete (Z.to_nat index) itemList)
  else (None, itemList).

(** The loop of [doLayout]: the cursor [(x, y)], the height of the current
    line, and the calls of [item.setGeometry] made so far. *)
Fixpoint doLayout_loop (spacing : Z) (rect : QRect) (testOnly : bool)
    (itemList : list Item) (x y lineHeight : Z) (geometries : list (Item * QRect))
    : Z * Z * list (Item * QRect) :=
  match itemList with
  | [] => (y, lineHeight, geometries)
  | item :: itemList' =>
      match widget item with
      | None => doLayout_loop spacing rect testOnly itemList' x y lineHeight geometries
      | Some sizeHint =>
          let spaceX := spacing in
          let spaceY := spacing in
          let nextX := (x + width sizeHint + spaceX)%Z in
          let wrap := ((right rect <? nextX - spaceX) && (0 <? lineHeight))%Z in
          let x := if wrap then rect_x rect else x in
          let y := if wrap then (y + lineHeight + spaceY)%Z else y in
          let nextX := if wrap then (x + width sizeHint + spaceX)%Z else nextX in
          let lineHeight := if wrap then 0%Z else lineHeight in
          let geometries :=
            if testOnly then geometries
            else geometries ++
                 [(item, {| rect_x := x; rect_y := y; rect_width := width sizeHint;
                            rect_height := height sizeHint |})] in
          doLayout_loop spacing rect testOnly itemList' nextX y
            (lineHeight `max` height sizeHint)%Z geometries
      end
  end.

(** [doLayout] returns the height used; the geometries it set are kept
    beside it. *)
Definition doLayout (spacing : Z) (itemList : list Item) (rect : QRect)
    (testOnly : bool) : Z * list (Item * QRect) :=
  let '(y, lineHeight, geometries) :=
    doLayout_loop spacing rect testOnly itemList (rect_x rect) (rect_y rect) 0%Z [] in
  ((y + lineHeight - rect_y rect)%Z, geometries).

Definition heightForWidth (spacing : Z) (itemList : list Item) (width : Z) : Z :=
  (doLayout spacing itemList
     {| rect_x := 0; rect_y := 0; rect_width := width; rect_height := 0 |} true).1.

End Items.

End FlowLayout.

(** ** NpkUnlock_GUI.py: [MainWindow] *)

Module MainWindow.

(** [update_progress]: the value handed to [progress_bar.setValue].  The
    quotient [current * 100 / total] is a float that [int] truncates; for
    operands below 2^53 that is the truncated integer quotient. *)
Definition update_progress (current total : Z) : Z :=
  if (total <=? 0)%Z then 0%Z else ((current * 100) `quot` total)%Z.

(** [sub in s] on two [str]. *)
Fixpoint str_in (sub s : string) : bool :=
  String.prefix sub s
  || match s with
     | EmptyString => false
     | String _ s' => str_in sub s'
     end.

(** A row of [table_files]: the texts of its five columns. *)
Record row := {
  col_name : string;
  col_ext : string;
  col_category : string;
  col_size : string;
  col_path : string;
}.

Section Table.
Context `{Primitives}.

(** [str.strip()] and [str.lower()]. *)
Variable str_strip str_lower : string → string.

Definition format_size (size : nat) : string :=
  if (N.of_nat size <? 1024 * 1024)%N
  then fmt_2f size 1024%N +:+ " KB"
  else fmt_2f size (1024 * 1024)%N +:+ " MB".

(** [apply_filters]: the rows that the table shows, for the text of the
    search box, the state of the six filter buttons and the list
    [all_files].  The colours of the cells are left out. *)
Definition apply_filters (edit_search : string)
    (btn_filter_audio btn_filter_image btn_filter_mesh btn_filter_data
     btn_filter_zst btn_filter_unknown : bool)
    (all_files : list NpkUnlock_GUI.info) : list row :=
  let search_text := str_lower (str_strip edit_search) in
  let enabled_categories : gset string :=
    (if btn_filter_audio then {["普通文件"]} else ∅)
    ∪ (if btn_filter_image then {["图片文件"]} else ∅)
    ∪ (if btn_filter_mesh then {["模型文件"]} else ∅)
    ∪ (if btn_filter_data then {["数据文件"]} else ∅)
    ∪ (if btn_filter_zst then {["压缩文件"]} else ∅)
    ∪ (if btn_filter_unknown then {["未知文件"]} else ∅) in
  omap (λ info,
          let name := NpkUnlock_GUI.info_name info in
          let category := NpkUnlock_GUI.info_category info in
          if negb (bool_decide (category ∈ enabled_categories)) then None
          else if negb (bool_decide (search_text = ""))
                  && negb (str_in search_text (str_lower name))
          then None
          else
            let size_text := format_size (NpkUnlock_GUI.info_size info) in
            let category_display :=
              if bool_decide (category = "普通文件") then "音频文件" else category in
            Some {| col_name := name;
                    col_ext := NpkUnlock_GUI.info_ext info;
                    col_category := category_display;
                    col_size := size_text;
                    col_path := NpkUnlock_GUI.info_path info |})
       all_files.

End Table.

End MainWindow.

(** ** NpkUnlock_GUI.py: the settings *)

(** The values held by the settings dictionaries and by [QSettings]. *)
Module PyValue.

Inductive value :=
  | Str (s : string)
  | Int (z : Z)
  | Bool (b : bool).

(** Truth value of an object, as [if] and the conditional expression
    take it. *)
Definition truth (v : value) : bool :=
  match v with
  | Str s => negb (bool_decide (s = ""))
  | Int z => negb (bool_decide (z = 0%Z))
  | Bool b => b
  end.

(** [v == s] for a [str] literal [s]. *)
Definition eq_str (v : value) (s : string) : bool :=
  match v with
  | Str t => bool_decide (t = s)
  | _ => false
  end.

(** [d.get(key, default)]. *)
Definition get (d : gmap string value) (key : string) (default_ : value) : value :=
  default default_ (d !! key).

End PyValue.

Module SettingsDialog.

(** What [collect_settings] reads from the widgets of the dialog. *)
Record widgets := {
  combo_font : string;
  spin_font_size : Z;
  combo_theme : Z;
  spin_default_threads : Z;
  chk_default_fast : bool;
  edit_default_output : string;
  combo_log_level : string;
  chk_log_to_file : bool;
  edit_log_dir : string;
  chk_show_program_log_in_gui : bool;
  chk_show_extract_log_in_gui : bool;
  chk_remember_last_input : bool;
  chk_remember_last_output : bool;
  chk_remember_window : bool;
  chk_remember_theme_font : bool;
  chk_enable_md5 : bool;
  chk_enable_type_detect : bool;
  chk_enable_crash_log : bool;
}.

Section Collect.

(** [str.strip()]. *)
Variable str_strip : string → string.

Definition collect_settings (w : widgets) : gmap string PyValue.value :=
  let s : gmap string PyValue.value := ∅ in
  let s := <["font_family" := PyValue.Str (combo_font w)]> s in
  let s := <["font_size" := PyValue.Int (spin_font_size w)]> s in
  let s := <["theme" := PyValue.Str (if bool_decide (combo_theme w = 0%Z)
                                      then "dark" else "light")]> s in
  let s := <["default_threads" := PyValue.Int (spin_default_threads w)]> s in
  let s := <["default_fast" := PyValue.Bool (chk_default_fast w)]> s in
  let s := <["default_output_dir" := PyValue.Str (str_strip (edit_default_output w))]> s in
  let s := <["log_level" := PyValue.Str (combo_log_level w)]> s in
  let s := <["log_to_file" := PyValue.Bool (chk_log_to_file w)]> s in
  let s := <["log_dir" := PyValue.Str (str_strip (edit_log_dir w))]> s in
  let s := <["show_program_log_in_gui" :=
               PyValue.Bool (chk_show_program_log_in_gui w)]> s in
  let s := <["show_extract_log_in_gui" :=
               PyValue.Bool (chk_show_extract_log_in_gui w)]> s in
  let s := <["remember_last_input" := PyValue.Bool (chk_remember_last_input w)]> s in
  let s := <["remember_last_output" := PyValue.Bool (chk_remember_last_output w)]> s in
  let s := <["remember_window" := PyValue.Bool (chk_remember_window w)]> s in
  let s := <["remember_theme_font" := PyValue.Bool (chk_remember_theme_font w)]> s in
  let s := <["enable_md5" := PyValue.Bool (chk_enable_md5 w)]> s in
  let s := <["enable_type_detect" := PyValue.Bool (chk_enable_type_detect w)]> s in
  let s := <["enable_crash_log" := PyValue.Bool (chk_enable_crash_log w)]> s in
  s.

End Collect.

End SettingsDialog.

(** [MainWindow.load_settings], [save_settings] and [apply_settings]. *)
Module AppSettings.

(** The store behind [QSettings]: a value by key. *)
Definition QSettings := string → option PyValue.value.

Section Store.

(** [int(s)] on a [str]; [None] when it raises. *)
Variable int_of_str : string → option Z.

(** What [QSettings.value] hands back for a value given to [setValue]:
    the native back end keeps the type, the INI back end answers with
    text. *)
Variable persist : PyValue.value → PyValue.value.

Definition int (v : PyValue.value) : option Z :=
  match v with
  | PyValue.Int z => Some z
  | PyValue.Bool b => Some (if b then 1 else 0)%Z
  | PyValue.Str s => int_of_str s
  end.

Definition value (settings : QSettings) (key : string) (defaultValue : PyValue.value)
    : PyValue.value :=
  default defaultValue (settings key).

Definition setValue (key : string) (v : PyValue.value) (settings : QSettings)
    : QSettings :=
  λ k, if String.eqb k key then Some (persist v) else settings k.

(** [load_settings]; [None] when one of the two [int(...)] raises. *)
Definition load_settings (settings : QSettings) : option (gmap string PyValue.value) :=
  let v := value settings in
  let flag key default_ := PyValue.Bool (PyValue.eq_str (v key (PyValue.Str default_)) "true") in
  let s : gmap string PyValue.value := ∅ in
  let s := <["font_family" := v "font_family" (PyValue.Str "微软雅黑")]> s in
  font_size ← int (v "font_size" (PyValue.Int 10));
  let s := <["font_size" := PyValue.Int font_size]> s in
  let s := <["theme" := v "theme" (PyValue.Str "dark")]> s in
  default_threads ← int (v "default_threads" (PyValue.Int 8));
  let s := <["default_threads" := PyValue.Int default_threads]> s in
  let s := <["default_fast" := flag "default_fast" "true"]> s in
  let s := <["default_output_dir" := v "default_output_dir" (PyValue.Str "")]> s in
  let s := <["log_level" := v "log_level" (PyValue.Str "INFO")]> s in
  let s := <["log_to_file" := flag "log_to_file" "false"]> s in
  let s := <["log_dir" := v "log_dir" (PyValue.Str "")]> s in
  let s := <["show_program_log_in_gui" := flag "show_program_log_in_gui" "true"]> s in
  let s := <["show_extract_log_in_gui" := flag "show_extract_log_in_gui" "true"]> s in
  let s := <["remember_last_input" := flag "remember_last_input" "true"]> s in
  let s := <["remember_last_output" := flag "remember_last_output" "true"]> s in
  let s := <["remember_window" := flag "remember_window" "true"]> s in
  let s := <["remember_theme_font" := flag "remember_theme_font" "true"]> s in
  let s := <["enable_md5" := flag "enable_md5" "true"]> s in
  let s := <["enable_type_detect" := flag "enable_type_detect" "true"]> s in
  let s := <["enable_crash_log" := flag "enable_crash_log" "false"]> s in
  let s := <["last_input" := v "last_input" (PyValue.Str "")]> s in
  let s := <["last_output" := v "last_output" (PyValue.Str "")]> s in
  Some s.

(** [save_settings], from the dictionary [app_settings]. *)
Definition save_settings (app_settings : gmap string PyValue.value)
    (settings : QSettings) : QSettings :=
  let s := app_settings in
  let w := setValue in
  let text key default_ :=
    PyValue.Str (if PyValue.truth (PyValue.get s key (PyValue.Bool default_))
                 then "true" else "false") in
  let settings := w "font_family" (PyValue.get s "font_family" (PyValue.Str "微软雅黑"))
                    settings in
  let settings := w "font_size" (PyValue.get s "font_size" (PyValue.Int 10)) settings in
  let settings := w "theme" (PyValue.get s "theme" (PyValue.Str "dark")) settings in
  let settings := w "default_threads" (PyValue.get s "default_threads" (PyValue.Int 8))
                    settings in
  let settings := w "default_fast" (text "default_fast" true) settings in
  let settings := w "default_output_dir"
                    (PyValue.get s "default_output_dir" (PyValue.Str "")) settings in
  let settings := w "log_level" (PyValue.get s "log_level" (PyValue.Str "INFO"))
                    settings in
  let settings := w "log_to_file" (text "log_to_file" false) settings in
  let settings := w "log_dir" (PyValue.get s "log_dir" (PyValue.Str "")) settings in
  let settings := w "show_program_log_in_gui" (text "show_program_log_in_gui" true)
                    settings in
  let settings := w "show_extract_log_in_gui" (text "show_extract_log_in_gui" true)
                    settings in
  let settings := w "remember_last_input" (text "remember_last_input" true) settings in
  let settings := w "remember_last_output" (text "remember_last_output" true)
                    settings in
  let settings := w "remember_window" (text "remember_window" true) settings in
  let settings := w "remember_theme_font" (text "remember_theme_font" true) settings in
  let settings := w "enable_md5" (text "enable_md5" true) settings in
  let settings := w "enable_type_detect" (text "enable_type_detect" true) settings in
  let settings := w "enable_crash_log" (text "enable_crash_log" false) settings in
  let settings := w "last_input" (PyValue.get s "last_input" (PyValue.Str "")) settings in
  let settings := w "last_output" (PyValue.get s "last_output" (PyValue.Str ""))
                    settings in
  settings.

(** [apply_settings], as far as it touches [app_settings] and the store:
    the update of the dictionary, the three keys that [apply_font] and
    [apply_theme] assign, and [save_settings]. *)
Definition apply_settings (s : gmap string PyValue.value)
    (app_settings : gmap string PyValue.value) (settings : QSettings)
    : gmap string PyValue.value * QSettings :=
  let app_settings := s ∪ app_settings in
  let app_settings :=
    <["font_family" := PyValue.get s "font_family" (PyValue.Str "微软雅黑")]>
      app_settings in
  let app_settings :=
    <["font_size" := PyValue.get s "font_size" (PyValue.Int 10)]> app_settings in
  let app_settings :=
    <["theme" := PyValue.get s "theme" (PyValue.Str "dark")]> app_settings in
  (app_settings, save_settings app_settings settings).

End Store.

End AppSettings.

(** ** NpkUnlock_GUI.py: the launcher *)

Module Launcher.

(** [l[-n:]] on a list, for [n > 0]. *)
Definition last_items {A} (n : nat) (l : list A) : list A := drop (length l - n) l.

(** [line.rstrip("\n")]. *)
Fixpoint rstrip_newline (line : string) : string :=
  match line with
  | EmptyString => EmptyString
  | String c line' =>
      let rest := rstrip_newline line' in
      if Ascii.eqb c (Ascii.ascii_of_nat 10) && bool_decide (rest = EmptyString)
      then EmptyString
      else String c rest
  end.

(** [reader]: the loop over the lines of the child's output; [lines] is
    the list it keeps.  The echo of each line on the parent's own output
    is left out. *)
Fixpoint reader (stdout : list string) (lines : list string) : list string :=
  match stdout with
  | [] => lines
  | line :: stdout' =>
      let line := rstrip_newline line in
      let lines := lines ++ [line] in
      let lines := if 800 <? length lines then last_items 800 lines else lines in
      reader stdout' lines
  end.

(** ["\n".join(l)]. *)
Fixpoint join_lines (l : list string) : string :=
  match l with
  | [] => ""
  | [line] => line
  | line :: l' => line +:+ String (Ascii.ascii_of_nat 10) (join_lines l')
  end.

(** [run_launcher_parent], from the output and the return code of the
    child process: [None] when the child ended normally, else the text
    handed to [CrashWindow]. *)
Definition run_launcher_parent (stdout : list string) (returncode : Z) : option string :=
  let lines := reader stdout [] in
  let rc := returncode in
  if bool_decide (rc = 0%Z) then None
  else
    let tail_count := 200 in
    let tail_lines := last_items tail_count lines in
    let log_tail := join_lines tail_lines in
    Some log_tail.

End Launcher.

(** ** PPKUnlocker.py *)

Module PPKUnlocker.

Definition MAX_THREADS : nat := 4.
Definition MAX_BLOCK_SIZE : nat := 20 * 1024 * 1024.

Definition FILE_CATEGORY_MAP : gmap string string :=
  list_to_map
    [ (".wem", "音频文件"); (".bnk", "音频文件"); (".png", "图片纹理");
      (".dds", "图片纹理"); (".ktx", "图片纹理"); (".tga", "图片纹理");
      (".mesh", "模型文件"); (".npk", "数据包文件"); (".zst", "压缩文件");
      ("", "未知文件") ].

Definition TGA_TAIL_MAGIC : list byte := Py.b "TRUEVISION-XFILE." ++ [x00].
Definition MESH_MAGIC : list byte := [x34; x80; xc8; xbb].
Definition PNG_MAGIC : list byte := x89 :: Py.b "PNG".
Definition KTX_MAGIC : list byte := xab :: Py.b "KTX 11" ++ [xbb].
Definition ZSTD_MAGIC : list byte := [x28; xb5; x2f; xfd].

Definition detect_file_extension (data : list byte) : string :=
  if bool_decide (data = []) then ""
  else if (4 <=? length data) && bool_decide (take 4 data = MESH_MAGIC)
  then ".mesh"
  else if (4 <=? length data) && bool_decide (take 4 data = PNG_MAGIC)
  then ".png"
  else if (8 <=? length data) && bool_decide (take 8 data = KTX_MAGIC)
  then ".ktx"
  else if (3 <=? length data) && bool_decide (take 3 data = Py.b "DDS")
  then ".dds"
  else if (12 <=? length data) && bool_decide (take 4 data = Py.b "RIFF")
          && bool_decide (Py.slice data 8 12 = Py.b "WAVE")
  then ".wem"
  else if (4 <=? length data) && bool_decide (take 4 data = Py.b "BKHD")
  then ".bnk"
  else if (4 <=? length data) && bool_decide (take 4 data = Py.b "AKPK")
  then ".npk"
  else if (4 <=? length data) && bool_decide (take 4 data = [x28; xb5; x2f; xfd])
  then ".zst"
  else if (length TGA_TAIL_MAGIC <=? length data)
          && bool_decide (Py.last_bytes data (length TGA_TAIL_MAGIC) = TGA_TAIL_MAGIC)
  then ".tga"
  else "".

(** What the threads of one process share: the module-level set
    [DUPLICATE_MD5] and the file system. *)
Record shared := {
  DUPLICATE_MD5 : gset string;
  fs : filesystem;
}.

(** The state right after the module is loaded: [DUPLICATE_MD5 = set()]. *)
Definition module_loaded (files : filesystem) : shared :=
  {| DUPLICATE_MD5 := ∅; fs := files |}.

Definition with_md5s (f : gset string → gset string) (σ : shared) :=
  {| DUPLICATE_MD5 := f (DUPLICATE_MD5 σ); fs := fs σ |}.
Definition with_fs (f : filesystem → filesystem) (σ : shared) :=
  {| DUPLICATE_MD5 := DUPLICATE_MD5 σ; fs := f (fs σ) |}.

(** How one block left the loop body.  The first three are the three
    [continue] statements, in source order; the last is the fall-through
    after the file was saved. *)
Inductive outcome :=
  | TooSmall
  | Duplicate
  | DecodeFailed
  | Saved (save_path : string) (decompressed : list byte).

(** One entry per loop iteration that found a magic number: the bounds of
    [zstd_data] and how the iteration ended.  The record is a by-product
    kept for stating properties; the source keeps only the two counters. *)
Record block := {
  magic_pos : nat;
  block_end : nat;
  block_outcome : outcome;
}.

(** The dictionary returned on success, and the by-product. *)
Record result := {
  file : string;
  processed : nat;
  extracted : nat;
  blocks : list block;
}.

(** The local variables of the loop. *)
Record locals := {
  offset : nat;
  block_idx : nat;
  processed_blocks : nat;
  extracted_blocks : nat;
  seen : list block;
}.

Section Process.
Context `{Primitives}.

(** The body of [while offset < len(file_data)], with [max_block_size]
    for the constant [MAX_BLOCK_SIZE].  [fuel] bounds the iterations;
    [None] means the bound was hit. *)
Fixpoint block_loop (fuel : nat) (max_block_size : nat) (file_name : string)
    (file_data : list byte) (output_root : string) (l : locals)
    : prog shared (option locals) :=
  match fuel with
  | 0 => mret None
  | S fuel' =>
      if offset l <? length file_data then
        match Py.find file_data ZSTD_MAGIC (offset l) with
        | None => mret (Some l)
        | Some magic_pos =>
            let next_magic_pos := Py.find file_data ZSTD_MAGIC (magic_pos + 4) in
            let block_end :=
              (default (length file_data) next_magic_pos) `min` (magic_pos + max_block_size) in
            let zstd_data := Py.slice file_data magic_pos block_end in
            let processed_blocks := processed_blocks l + 1 in
            let continue (o : outcome) :=
              block_loop fuel' max_block_size file_name file_data output_root
                {| offset := block_end; block_idx := block_idx l;
                   processed_blocks := processed_blocks;
                   extracted_blocks := extracted_blocks l;
                   seen := seen l ++ [{| magic_pos := magic_pos;
                                         block_end := block_end;
                                         block_outcome := o |}] |} in
            if length zstd_data <? 1024 then continue TooSmall else
            let block_md5 := md5_hexdigest zstd_data in
            dup ← atomic (gets (λ σ, bool_decide (block_md5 ∈ DUPLICATE_MD5 σ)));
            if dup : bool then continue Duplicate else
            _ ← atomic (modify (with_md5s (λ s, {[block_md5]} ∪ s)));
            match zstd_decompress zstd_data with
            | ZstdError _ => continue DecodeFailed
            | Decoded decompressed =>
                let file_ext := detect_file_extension decompressed in
                let category := default "未知文件" (FILE_CATEGORY_MAP !! file_ext) in
                let category_dir := path_join output_root category in
                _ ← atomic (modify (with_fs (fs_mkdir category_dir)));
                let save_name :=
                  file_name +:+ "_block" +:+ pretty (block_idx l) +:+ file_ext in
                let save_path := path_join category_dir save_name in
                _ ← atomic (modify (with_fs (fs_write save_path decompressed)));
                block_loop fuel' max_block_size file_name file_data output_root
                  {| offset := block_end; block_idx := block_idx l + 1;
                     processed_blocks := processed_blocks;
                     extracted_blocks := extracted_blocks l + 1;
                     seen := seen l ++ [{| magic_pos := magic_pos;
                                           block_end := block_end;
                                           block_outcome := Saved save_path decompressed |}] |}
            end
        end
      else mret (Some l)
  end.

Definition process_ppk_file_with (max_block_size : nat) (file_name : string)
    (file_data : list byte) (output_root : string) : prog shared (option result) :=
  l ← block_loop (S (length file_data)) max_block_size file_name file_data output_root
        {| offset := 0; block_idx := 0; processed_blocks := 0;
           extracted_blocks := 0; seen := [] |};
  mret (l ← l;
        Some {| file := file_name; processed := processed_blocks l;
                extracted := extracted_blocks l; blocks := seen l |}).

Definition process_ppk_file := process_ppk_file_with MAX_BLOCK_SIZE.

(** The pool of [main]: one [process_ppk_file] per file, [MAX_THREADS]
    workers; [schedule] is the order in which the workers take their
    steps. *)
Definition run_files (max_block_size : nat) (schedule : list nat)
    (ppk_files : list (string * list byte)) (output_root : string)
    : State shared (list (option result)) :=
  run_pool MAX_THREADS schedule
    (map (λ '(file_name, file_data),
            process_ppk_file_with max_block_size file_name file_data output_root)
         ppk_files).

End Process.

End PPKUnlocker.

(** ** PPKUnlocker.py: the statistics of [main] *)

Module PPKUnlocker_main.

(** The dictionary that a task of the pool hands back: [status] is
    ["success"] or ["failed"]. *)
Inductive report :=
  | success (file : string) (processed extracted : nat)
  | failed (file error : string).

(** What [process_ppk_file] returns when nothing raised. *)
Definition report_of (r : PPKUnlocker.result) : report :=
  success (PPKUnlocker.file r) (PPKUnlocker.processed r) (PPKUnlocker.extracted r).

Record statistics := {
  total_processed : nat;
  total_extracted : nat;
  failed_files : nat;
}.

(** [for res in results], from the three counters in [acc]. *)
Fixpoint tally (results : list report) (acc : statistics) : statistics :=
  match results with
  | [] => acc
  | success _ processed extracted :: results' =>
      tally results'
        {| total_processed := total_processed acc + processed;
           total_extracted := total_extracted acc + extracted;
           failed_files := failed_files acc |}
  | failed _ _ :: results' =>
      tally results'
        {| total_processed := total_processed acc;
           total_extracted := total_extracted acc;
           failed_files := failed_files acc + 1 |}
  end.

(** The counters that [main] prints, for the list [results] that the loop
    over [as_completed] has built. *)
Definition final_statistics (results : list report) : statistics :=
  tally results {| total_processed := 0; total_extracted := 0; failed_files := 0 |}.

End PPKUnlocker_main.

(** ** The classifier as the specification words it

    An ordered chain of structural checks, evaluated first match first,
    with the empty label when none matches. *)

Module Spec.

Definition has_prefix (signature data : list byte) : bool :=
  bool_decide (signature `prefix_of` data).

Definition has_trailer (signature data : list byte) : bool :=
  bool_decide (signature `suffix_of` data).

(** A 12-byte prefix [RIFF....WAVE], the four bytes in the middle free. *)
Definition has_riff_wave_prefix (data : list byte) : bool :=
  match data with
  | r :: i :: f1 :: f2 :: _ :: _ :: _ :: _ :: w :: a :: v :: e :: _ =>
      bool_decide ([r; i; f1; f2] = Py.b "RIFF" ∧ [w; a; v; e] = Py.b "WAVE")
  | _ => false
  end.

Definition classifier_chain : list ((list byte → bool) * string) :=
  [ (has_prefix [x34; x80; xc8; xbb], ".mesh");
    (has_prefix (x89 :: Py.b "PNG"), ".png");
    (has_prefix (xab :: Py.b "KTX 11" ++ [xbb]), ".ktx");
    (has_prefix (Py.b "DDS"), ".dds");
    (has_riff_wave_prefix, ".wem");
    (has_prefix (Py.b "BKHD"), ".bnk");
    (has_prefix (Py.b "AKPK"), ".npk");
    (has_prefix [x28; xb5; x2f; xfd], ".zst");
    (has_trailer (Py.b "TRUEVISION-XFILE." ++ [x00]), ".tga") ].

Fixpoint first_match (chain : list ((list byte → bool) * string))
    (data : list byte) : string :=
  match chain with
  | [] => ""
  | (check, label) :: chain' =>
      if check data then label else first_match chain' data
  end.

Definition classify (data : list byte) : string :=
  first_match classifier_chain data.

(** Every offset of the buffer at which the 4-byte signature occurs, in
    ascending order. *)
Definition signature_offsets (data : list byte) : list nat :=
  List.filter (Py.occurs_at [x28; xb5; x2f; xfd] data) (seq 0 (length data)).

(** The windows of the windowed mode: each scanned offset paired with the
    smaller of the next scanned offset (the buffer end when there is none)
    and the offset plus the size cap. *)
Fixpoint windows (max_block_size buffer_end : nat) (offsets : list nat)
    : list (nat * nat) :=
  match offsets with
  | [] => []
  | start :: rest =>
      (start, (hd buffer_end rest) `min` (start + max_block_size))
      :: windows max_block_size buffer_end rest
  end.

End Spec.

(** ** The tasks when a call raises

    [extract_single_frame] and [process_ppk_file] wrap their bodies in
    [try ... except Exception].  The definitions above take the calls into
    the decompressor and the file system to do their work; the definitions
    of this module take from an environment what each of these calls does,
    so that the handler is reached. *)

Module Raising_GUI.

(** What the calls of one extraction task do: each may raise an exception
    that [except Exception] catches, given by its [str(e)].  For
    [decompress] this is an exception other than [ZstdError].  A write that
    raises leaves the file with the bytes written before. *)
Record task_calls := {
  new_decompressor_raises : option string;
  decompress_raises : option string;
  makedirs_raises : option string;
  open_raises : option string;
  write_raises : option (nat * string);
}.

(** No call raises. *)
Definition as_intended : task_calls :=
  {| new_decompressor_raises := None; decompress_raises := None;
     makedirs_raises := None; open_raises := None; write_raises := None |}.

Definition msg_exception (prefix e : string) : string := prefix +:+ "处理异常: " +:+ e.

Section Task.
Context `{Primitives}.

(** [extract_single_frame] of [NpkUnlock_GUI.py] with its handler for
    [Exception]. *)
Definition extract_single_frame (calls : task_calls) (data : list byte)
    (frame_start : nat) (output_root : string) (frame_idx : nat)
    (stop_flag : nat → bool) (enable_md5 enable_type_detect : bool)
    : prog NpkUnlock_GUI.task_state (bool * string * option NpkUnlock_GUI.info) :=
  s ← atomic (NpkUnlock_GUI.read_stop stop_flag);
  if s : bool then mret (false, NpkUnlock_GUI.msg_not_started, None) else
  let prefix := NpkUnlock_GUI.frame_prefix frame_idx frame_start in
  match new_decompressor_raises calls with
  | Some e => mret (false, msg_exception prefix e, None)
  | None =>
  s ← atomic (NpkUnlock_GUI.read_stop stop_flag);
  if s : bool then mret (false, NpkUnlock_GUI.msg_skip_decompress prefix, None) else
  match decompress_raises calls with
  | Some e => mret (false, msg_exception prefix e, None)
  | None =>
  match zstd_decompress (drop frame_start data) with
  | ZstdError e => mret (false, NpkUnlock_GUI.msg_decode_failed prefix e, None)
  | Decoded decompressed =>
      s ← atomic (NpkUnlock_GUI.read_stop stop_flag);
      if s : bool
      then mret (false, NpkUnlock_GUI.msg_not_written_after_decompress prefix, None)
      else
      let file_hash := md5_hexdigest decompressed in
      dup ← (if enable_md5
             then atomic (gets (λ σ, bool_decide
                                       (file_hash ∈ NpkUnlock_GUI.extracted_hashes σ)))
             else mret false);
      if dup : bool then mret (false, NpkUnlock_GUI.msg_duplicate prefix file_hash, None)
      else
      let ext := if enable_type_detect
                 then NpkUnlock_GUI.detect_file_extension decompressed else "" in
      let category := default "未知文件" (NpkUnlock_GUI.FILE_CATEGORY_MAP !! ext) in
      let category_folder := path_join output_root category in
      match makedirs_raises calls with
      | Some e => mret (false, msg_exception prefix e, None)
      | None =>
      _ ← atomic (modify (NpkUnlock_GUI.with_fs (fs_mkdir category_folder)));
      let output_filename := "extracted_frame_" +:+ pretty (frame_idx + 1) +:+ ext in
      let output_path := path_join category_folder output_filename in
      s ← atomic (NpkUnlock_GUI.read_stop stop_flag);
      if s : bool then mret (false, NpkUnlock_GUI.msg_not_written prefix, None) else
      match open_raises calls with
      | Some e => mret (false, msg_exception prefix e, None)
      | None =>
      match write_raises calls with
      | Some (written, e) =>
          _ ← atomic (modify (NpkUnlock_GUI.with_fs
                                (fs_write output_path (take written decompressed))));
          mret (false, msg_exception prefix e, None)
      | None =>
      _ ← atomic (modify (NpkUnlock_GUI.with_fs (fs_write output_path decompressed)));
      _ ← when_ enable_md5
            (atomic (modify (NpkUnlock_GUI.with_hashes (λ hs, {[file_hash]} ∪ hs))));
      let size := length decompressed in
      mret (true,
            NpkUnlock_GUI.msg_success prefix output_filename category size file_hash,
            Some {| NpkUnlock_GUI.info_name := output_filename;
                    NpkUnlock_GUI.info_ext := ext;
                    NpkUnlock_GUI.info_category := category;
                    NpkUnlock_GUI.info_size := size;
                    NpkUnlock_GUI.info_path := output_path |})
      end end end
  end end end.

End Task.

End Raising_GUI.

(** ** The block extractor when a call raises *)

Module Raising_PPK.

(** What saving the block found at an offset does: it goes through, or
    creating the category folder, opening the file or writing it raises an
    exception, given by its [str(e)]; a write that raises leaves the file
    with the bytes written before. *)
Inductive save_call :=
  | saves
  | mkdir_raised (e : string)
  | open_raised (e : string)
  | write_raised (written : nat) (e : string).

(** What the calls of [process_ppk_file] into the file system do for one
    file: reading it may raise, and so may saving the block found at an
    offset. *)
Record file_calls := {
  read_raises : option string;
  save_at : nat → save_call;
}.

(** No call raises. *)
Definition as_intended : file_calls :=
  {| read_raises := None; save_at := λ _, saves |}.

(** Some call for this file can raise. *)
Definition may_raise (calls : file_calls) (file_data : list byte) : bool :=
  bool_decide (read_raises calls ≠ None)
  || existsb (λ magic_pos, match save_at calls magic_pos with
                           | saves => false
                           | _ => true
                           end) (Spec.signature_offsets file_data).

(** [str(e)[:100]]. *)
Definition str_take100 (s : string) : string := String.substring 0 100 s.

Section Process.
Context `{Primitives}.

(** The body of [while offset < len(file_data)] as in [PPKUnlocker], with
    the calls that can raise: the loop ends with its local variables, or
    with the exception that leaves it. *)
Fixpoint block_loop (calls : file_calls) (fuel : nat) (max_block_size : nat)
    (file_name : string) (file_data : list byte) (output_root : string)
    (l : PPKUnlocker.locals)
    : prog PPKUnlocker.shared (option (PPKUnlocker.locals + string)) :=
  match fuel with
  | 0 => mret None
  | S fuel' =>
      if PPKUnlocker.offset l <? length file_data then
        match Py.find file_data PPKUnlocker.ZSTD_MAGIC (PPKUnlocker.offset l) with
        | None => mret (Some (inl l))
        | Some magic_pos =>
            let next_magic_pos :=
              Py.find file_data PPKUnlocker.ZSTD_MAGIC (magic_pos + 4) in
            let block_end :=
              (default (length file_data) next_magic_pos)
              `min` (magic_pos + max_block_size) in
            let zstd_data := Py.slice file_data magic_pos block_end in
            let processed_blocks := PPKUnlocker.processed_blocks l + 1 in
            let continue (o : PPKUnlocker.outcome) :=
              block_loop calls fuel' max_block_size file_name file_data output_root
                {| PPKUnlocker.offset := block_end;
                   PPKUnlocker.block_idx := PPKUnlocker.block_idx l;
                   PPKUnlocker.processed_blocks := processed_blocks;
                   PPKUnlocker.extracted_blocks := PPKUnlocker.extracted_blocks l;
                   PPKUnlocker.seen :=
                     PPKUnlocker.seen l
                     ++ [{| PPKUnlocker.magic_pos := magic_pos;
                            PPKUnlocker.block_end := block_end;
                            PPKUnlocker.block_outcome := o |}] |} in
            if length zstd_data <? 1024 then continue PPKUnlocker.TooSmall else
            let block_md5 := md5_hexdigest zstd_data in
            dup ← atomic (gets (λ σ, bool_decide
                                       (block_md5 ∈ PPKUnlocker.DUPLICATE_MD5 σ)));
            if dup : bool then continue PPKUnlocker.Duplicate else
            _ ← atomic (modify (PPKUnlocker.with_md5s (λ s, {[block_md5]} ∪ s)));
            match zstd_decompress zstd_data with
            | ZstdError _ => continue PPKUnlocker.DecodeFailed
            | Decoded decompressed =>
                let file_ext := PPKUnlocker.detect_file_extension decompressed in
                let category :=
                  default "未知文件" (PPKUnlocker.FILE_CATEGORY_MAP !! file_ext) in
                let category_dir := path_join output_root category in
                let save_name :=
                  file_name +:+ "_block" +:+ pretty (PPKUnlocker.block_idx l)
                  +:+ file_ext in
                let save_path := path_join category_dir save_name in
                match save_at calls magic_pos with
                | mkdir_raised e => mret (Some (inr e))
                | open_raised e =>
                    _ ← atomic (modify (PPKUnlocker.with_fs (fs_mkdir category_dir)));
                    mret (Some (inr e))
                | write_raised written e =>
                    _ ← atomic (modify (PPKUnlocker.with_fs (fs_mkdir category_dir)));
                    _ ← atomic (modify (PPKUnlocker.with_fs
                                          (fs_write save_path (take written decompressed))));
                    mret (Some (inr e))
                | saves =>
                    _ ← atomic (modify (PPKUnlocker.with_fs (fs_mkdir category_dir)));
                    _ ← atomic (modify (PPKUnlocker.with_fs
                                          (fs_write save_path decompressed)));
                    block_loop calls fuel' max_block_size file_name file_data
                      output_root
                      {| PPKUnlocker.offset := block_end;
                         PPKUnlocker.block_idx := PPKUnlocker.block_idx l + 1;
                         PPKUnlocker.processed_blocks := processed_blocks;
                         PPKUnlocker.extracted_blocks :=
                           PPKUnlocker.extracted_blocks l + 1;
                         PPKUnlocker.seen :=
                           PPKUnlocker.seen l
                           ++ [{| PPKUnlocker.magic_pos := magic_pos;
                                  PPKUnlocker.block_end := block_end;
                                  PPKUnlocker.block_outcome :=
                                    PPKUnlocker.Saved save_path decompressed |}] |}
                end
            end
        end
      else mret (Some (inl l))
  end.

(** [process_ppk_file] with its handler: the dictionary it returns, with
    status ["success"] or ["failed"]; [None] only if the loop hits its
    bound. *)
Definition process_ppk_file_with (calls : file_calls) (max_block_size : nat)
    (file_name : string) (file_data : list byte) (output_root : string)
    : prog PPKUnlocker.shared (option PPKUnlocker_main.report) :=
  match read_raises calls with
  | Some e => mret (Some (PPKUnlocker_main.failed file_name (str_take100 e)))
  | None =>
      r ← block_loop calls (S (length file_data)) max_block_size file_name file_data
            output_root
            {| PPKUnlocker.offset := 0; PPKUnlocker.block_idx := 0;
               PPKUnlocker.processed_blocks := 0; PPKUnlocker.extracted_blocks := 0;
               PPKUnlocker.seen := [] |};
      mret (r ← r;
            Some (match r with
                  | inl l =>
                      PPKUnlocker_main.success file_name
                        (PPKUnlocker.processed_blocks l) (PPKUnlocker.extracted_blocks l)
                  | inr e => PPKUnlocker_main.failed file_name (str_take100 e)
                  end))
  end.

(** The pool of [main] over files given with their contents and with what
    the calls made for them do. *)
Definition run_files (max_block_size : nat) (schedule : list nat)
    (ppk_files : list (string * list byte * file_calls)) (output_root : string)
    : State PPKUnlocker.shared (list (option PPKUnlocker_main.report)) :=
  run_pool PPKUnlocker.MAX_THREADS schedule
    (map (λ '(file_name, file_data, calls),
            process_ppk_file_with calls max_block_size file_name file_data output_root)
         ppk_files).

End Process.

End Raising_PPK.

(** ** Stand-ins for the external primitives

    A decompressor and a digest small enough to run inside the proof
    assistant, used to exercise the model on concrete containers.  A toy
    frame is the signature, one length byte [n], then [n] payload bytes. *)

Module Toy.

Definition decompress (block : list byte) : decode_result :=
  match block with
  | m0 :: m1 :: m2 :: m3 :: n :: rest =>
      if bool_decide ([m0; m1; m2; m3] = [x28; xb5; x2f; xfd]) then
        if bool_decide (n = x00) then ZstdError "corrupt frame"
        else if Byte.to_nat n <=? length rest
        then Decoded (take (Byte.to_nat n) rest)
        else ZstdError "truncated frame"
      else ZstdError "not a frame"
  | _ => ZstdError "truncated frame"
  end.

(** Thirty-two hexadecimal digits computed from the bytes. *)
Definition checksum (payload : list byte) : N :=
  foldl (λ acc c, (acc * 257 + Byte.to_N c + 1) mod 4294967291)%N 7%N payload.

Definition digest (payload : list byte) : string :=
  string_of_list_ascii
    (map (λ i, Py.hex_digit ((checksum payload / 16 ^ N.of_nat i) mod 16)%N) (seq 0 32)).

#[global] Instance primitives : Primitives :=
  {| md5_hexdigest := digest;
     zstd_decompress := decompress;
     fmt_2f := λ n d, pretty (N.of_nat n `div` d)%N |}.

(** A toy frame holding [payload] (at most 255 bytes). *)
Definition frame (payload : list byte) : list byte :=
  [x28; xb5; x2f; xfd] ++ [default x00 (Byte.of_nat (length payload))] ++ payload.

Definition empty_fs : filesystem := {| fs_files := ∅; fs_dirs := ∅ |}.

Definition never : nat → bool := λ _, false.

End Toy.

(** ** Vocabulary for the statements of Part II *)

Abbreviation ZSTD := [x28; xb5; x2f; xfd] (only parsing).

(** The signature offsets at or after [pos]. *)
Definition offsets_from (data : list byte) (pos : nat) : list nat :=
  List.filter (Py.occurs_at ZSTD data) (seq pos (length data - pos)).

(** A PNG header followed by the TGA trailer: the second and the ninth
    check both match. *)
Definition png_with_tga_trailer : list byte :=
  (x89 :: Py.b "PNG") ++ Py.b "TRUEVISION-XFILE." ++ [x00].

(** Two signatures, at offsets 1 and 7 of a 12-byte buffer. *)
Definition two_signatures : list byte :=
  [x00] ++ ZSTD ++ [x01; x02] ++ ZSTD ++ [x03].

(** The bound on one call of [extract_zstd_container]: a returned count is
    at most [total]; an exception means a pool of no workers. *)
Definition returned_at_most (total : nat) (fast_mode : bool) (max_threads : nat)
    (o : NpkUnlocker.outcome) : Prop :=
  match o with
  | NpkUnlocker.Returned extracted_count => extracted_count ≤ total
  | NpkUnlocker.Raised _ => fast_mode = true ∧ max_threads = 0
  end.

(** The counter of [run] equals the number of [file_signal]s emitted so
    far, and no [finished_signal] has been emitted yet. *)
Definition acc_ok (acc : nat * list NpkUnlock_GUI.signal) : Prop :=
  length (NpkUnlock_GUI.artifacts acc.2) = acc.1
  ∧ NpkUnlock_GUI.finished_counts acc.2 = [].

(** The bound on the signals of one run of the worker. *)
Definition count_bounded (total : nat) (out : list NpkUnlock_GUI.signal) : Prop :=
  length (NpkUnlock_GUI.artifacts out) ≤ total
  ∧ ∀ n, n ∈ NpkUnlock_GUI.finished_counts out →
         n = length (NpkUnlock_GUI.artifacts out).

(** The state of a task after [k] more reads of the stop flag. *)
Definition polled (k : nat) (σ : NpkUnlock_GUI.task_state) : NpkUnlock_GUI.task_state :=
  {| NpkUnlock_GUI.extracted_hashes := NpkUnlock_GUI.extracted_hashes σ;
     NpkUnlock_GUI.fs := NpkUnlock_GUI.fs σ;
     NpkUnlock_GUI.polls := k + NpkUnlock_GUI.polls σ |}.

(** The state of the command-line tool after printing [lines]. *)
Definition printed (lines : list string) (σ : NpkUnlocker.run_state)
    : NpkUnlocker.run_state :=
  {| NpkUnlocker.extracted_hashes := NpkUnlocker.extracted_hashes σ;
     NpkUnlocker.fs := NpkUnlocker.fs σ;
     NpkUnlocker.stdout := NpkUnlocker.stdout σ ++ lines |}.

Definition cli_failure_line (frame_idx : nat) (e : string) : string :=
  ("帧 " +:+ pretty (frame_idx + 1) +:+ " 解压失败: " +:+ e) +:+ NpkUnlocker.newline.

(** A run that ends normally: its last signal is [finished_signal] and no
    [error_signal] was emitted. *)
Definition completed_with (n : nat) (out : list NpkUnlock_GUI.signal) : Prop :=
  ∃ out', out = out' ++ [NpkUnlock_GUI.finished_signal n]
          ∧ NpkUnlock_GUI.error_messages out' = [].


(** A single signature followed by a length byte that promises more
    payload than the buffer holds. *)
Definition truncated_container : list byte := ZSTD ++ [x05; x01].

Definition fresh_task_state : NpkUnlock_GUI.task_state :=
  {| NpkUnlock_GUI.extracted_hashes := ∅; NpkUnlock_GUI.fs := Toy.empty_fs;
     NpkUnlock_GUI.polls := 0 |}.

Definition fresh_run_state : NpkUnlocker.run_state :=
  {| NpkUnlocker.extracted_hashes := ∅; NpkUnlocker.fs := Toy.empty_fs;
     NpkUnlocker.stdout := [] |}.

Section TaskOutcome.
Context `{Primitives}.

(** The names a task derives from the payload it decompressed. *)
Definition gui_ext (enable_type_detect : bool) (decompressed : list byte) : string :=
  if enable_type_detect then NpkUnlock_GUI.detect_file_extension decompressed else "".
Definition gui_category (ext : string) : string :=
  default "未知文件" (NpkUnlock_GUI.FILE_CATEGORY_MAP !! ext).
Definition gui_filename (frame_idx : nat) (ext : string) : string :=
  "extracted_frame_" +:+ pretty (frame_idx + 1) +:+ ext.
Definition gui_path (output_root : string) (frame_idx : nat) (ext : string) : string :=
  path_join (path_join output_root (gui_category ext)) (gui_filename frame_idx ext).

(** The state a task leaves when it stops at its last checkpoint: four
    reads of the flag, the category folder created, nothing written. *)
Definition after_mkdir (output_root ext : string) (σ : NpkUnlock_GUI.task_state)
    : NpkUnlock_GUI.task_state :=
  {| NpkUnlock_GUI.extracted_hashes := NpkUnlock_GUI.extracted_hashes σ;
     NpkUnlock_GUI.fs := fs_mkdir (path_join output_root (gui_category ext))
                           (NpkUnlock_GUI.fs σ);
     NpkUnlock_GUI.polls := 4 + NpkUnlock_GUI.polls σ |}.

(** The state a task leaves when it succeeds. *)
Definition after_write (output_root : string) (frame_idx : nat) (ext : string)
    (enable_md5 : bool) (decompressed : list byte) (σ : NpkUnlock_GUI.task_state)
    : NpkUnlock_GUI.task_state :=
  {| NpkUnlock_GUI.extracted_hashes :=
       if enable_md5
       then {[md5_hexdigest decompressed]} ∪ NpkUnlock_GUI.extracted_hashes σ
       else NpkUnlock_GUI.extracted_hashes σ;
     NpkUnlock_GUI.fs :=
       fs_write (gui_path output_root frame_idx ext) decompressed
         (fs_mkdir (path_join output_root (gui_category ext)) (NpkUnlock_GUI.fs σ));
     NpkUnlock_GUI.polls := 4 + NpkUnlock_GUI.polls σ |}.

(** What an extraction task run alone returns and leaves behind, read off
    the four reads of the flag, the decompressor and the hash set. *)
Definition task_outcome (data : list byte) (frame_start : nat) (output_root : string)
    (frame_idx : nat) (stop_flag : nat → bool) (enable_md5 enable_type_detect : bool)
    (σ : NpkUnlock_GUI.task_state)
    : (bool * string * option NpkUnlock_GUI.info) * NpkUnlock_GUI.task_state :=
  let k := NpkUnlock_GUI.polls σ in
  let prefix := NpkUnlock_GUI.frame_prefix frame_idx frame_start in
  if stop_flag k then ((false, NpkUnlock_GUI.msg_not_started, None), polled 1 σ)
  else if stop_flag (1 + k)
  then ((false, NpkUnlock_GUI.msg_skip_decompress prefix, None), polled 2 σ)
  else
    match zstd_decompress (drop frame_start data) with
    | ZstdError e => ((false, NpkUnlock_GUI.msg_decode_failed prefix e, None), polled 2 σ)
    | Decoded decompressed =>
        let file_hash := md5_hexdigest decompressed in
        let ext := gui_ext enable_type_detect decompressed in
        if stop_flag (2 + k)
        then ((false, NpkUnlock_GUI.msg_not_written_after_decompress prefix, None),
              polled 3 σ)
        else if enable_md5 && bool_decide (file_hash ∈ NpkUnlock_GUI.extracted_hashes σ)
        then ((false, NpkUnlock_GUI.msg_duplicate prefix file_hash, None), polled 3 σ)
        else if stop_flag (3 + k)
        then ((false, NpkUnlock_GUI.msg_not_written prefix, None),
              after_mkdir output_root ext σ)
        else ((true,
               NpkUnlock_GUI.msg_success prefix (gui_filename frame_idx ext)
                 (gui_category ext) (length decompressed) file_hash,
               Some {| NpkUnlock_GUI.info_name := gui_filename frame_idx ext;
                       NpkUnlock_GUI.info_ext := ext;
                       NpkUnlock_GUI.info_category := gui_category ext;
                       NpkUnlock_GUI.info_size := length decompressed;
                       NpkUnlock_GUI.info_path := gui_path output_root frame_idx ext |}),
              after_write output_root frame_idx ext enable_md5 decompressed σ)
    end.

End TaskOutcome.

(** A container holding one toy frame with a one-byte payload. *)
Definition one_frame : list byte := Toy.frame [x01].

(** The flag raised between the third and the fourth read. *)
Definition raised_before_fourth_read : nat → bool := λ k, 3 <=? k.

(** Two states of a run that hold the same hash set. *)
Definition same_hashes (σ1 σ2 : NpkUnlock_GUI.task_state) : Prop :=
  NpkUnlock_GUI.extracted_hashes σ1 = NpkUnlock_GUI.extracted_hashes σ2.
Definition cli_same_hashes (σ1 σ2 : NpkUnlocker.run_state) : Prop :=
  NpkUnlocker.extracted_hashes σ1 = NpkUnlocker.extracted_hashes σ2.
Definition same_md5s (σ1 σ2 : PPKUnlocker.shared) : Prop :=
  PPKUnlocker.DUPLICATE_MD5 σ1 = PPKUnlocker.DUPLICATE_MD5 σ2.

(** [hs] holds only digests of payloads decompressed at signature offsets
    of [data]. *)
Definition from_this_container `{Primitives} (data : list byte) (hs : gset string) : Prop :=
  ∀ h, h ∈ hs →
       ∃ pos decompressed,
         pos ∈ Spec.signature_offsets data
         ∧ zstd_decompress (drop pos data) = Decoded decompressed
         ∧ h = md5_hexdigest decompressed.

Section BlockStep.
Context `{Primitives}.

(** The bounds and the bytes of the block that starts at [magic_pos]. *)
Definition ppk_block_end (max_block_size : nat) (file_data : list byte)
    (magic_pos : nat) : nat :=
  (default (length file_data) (Py.find file_data PPKUnlocker.ZSTD_MAGIC (magic_pos + 4)))
  `min` (magic_pos + max_block_size).

Definition ppk_block_bytes (max_block_size : nat) (file_data : list byte)
    (magic_pos : nat) : list byte :=
  Py.slice file_data magic_pos (ppk_block_end max_block_size file_data magic_pos).

Definition bytes_of (file_data : list byte) (b : PPKUnlocker.block) : list byte :=
  Py.slice file_data (PPKUnlocker.magic_pos b) (PPKUnlocker.block_end b).

Definition ppk_save_path (file_name output_root : string) (block_idx : nat)
    (decompressed : list byte) : string :=
  let file_ext := PPKUnlocker.detect_file_extension decompressed in
  path_join
    (path_join output_root (default "未知文件" (PPKUnlocker.FILE_CATEGORY_MAP !! file_ext)))
    (file_name +:+ "_block" +:+ pretty block_idx +:+ file_ext).

(** The local variables after an iteration that ended in [continue]. *)
Definition ppk_continue (l : PPKUnlocker.locals) (magic_pos block_end : nat)
    (o : PPKUnlocker.outcome) : PPKUnlocker.locals :=
  {| PPKUnlocker.offset := block_end;
     PPKUnlocker.block_idx := PPKUnlocker.block_idx l;
     PPKUnlocker.processed_blocks := PPKUnlocker.processed_blocks l + 1;
     PPKUnlocker.extracted_blocks := PPKUnlocker.extracted_blocks l;
     PPKUnlocker.seen :=
       PPKUnlocker.seen l ++ [{| PPKUnlocker.magic_pos := magic_pos;
                                 PPKUnlocker.block_end := block_end;
                                 PPKUnlocker.block_outcome := o |}] |}.

(** The local variables after an iteration that saved a file. *)
Definition ppk_saved (l : PPKUnlocker.locals) (magic_pos block_end : nat)
    (save_path : string) (decompressed : list byte) : PPKUnlocker.locals :=
  {| PPKUnlocker.offset := block_end;
     PPKUnlocker.block_idx := PPKUnlocker.block_idx l + 1;
     PPKUnlocker.processed_blocks := PPKUnlocker.processed_blocks l + 1;
     PPKUnlocker.extracted_blocks := PPKUnlocker.extracted_blocks l + 1;
     PPKUnlocker.seen :=
       PPKUnlocker.seen l ++ [{| PPKUnlocker.magic_pos := magic_pos;
                                 PPKUnlocker.block_end := block_end;
                                 PPKUnlocker.block_outcome :=
                                   PPKUnlocker.Saved save_path decompressed |}] |}.

Definition ppk_marked (block_md5 : string) (σ : PPKUnlocker.shared) : PPKUnlocker.shared :=
  PPKUnlocker.with_md5s (λ s, {[block_md5]} ∪ s) σ.

(** One iteration of the block loop, run alone, on the block found at
    [magic_pos]: the local variables and the shared state it leaves. *)
Definition block_step (max_block_size : nat) (file_name : string)
    (file_data : list byte) (output_root : string) (l : PPKUnlocker.locals)
    (magic_pos : nat) (σ : PPKUnlocker.shared)
    : PPKUnlocker.locals * PPKUnlocker.shared :=
  let block_end := ppk_block_end max_block_size file_data magic_pos in
  let zstd_data := ppk_block_bytes max_block_size file_data magic_pos in
  let block_md5 := md5_hexdigest zstd_data in
  if length zstd_data <? 1024
  then (ppk_continue l magic_pos block_end PPKUnlocker.TooSmall, σ)
  else if bool_decide (block_md5 ∈ PPKUnlocker.DUPLICATE_MD5 σ)
  then (ppk_continue l magic_pos block_end PPKUnlocker.Duplicate, σ)
  else
    match zstd_decompress zstd_data with
    | ZstdError _ =>
        (ppk_continue l magic_pos block_end PPKUnlocker.DecodeFailed,
         ppk_marked block_md5 σ)
    | Decoded decompressed =>
        let save_path :=
          ppk_save_path file_name output_root (PPKUnlocker.block_idx l) decompressed in
        (ppk_saved l magic_pos block_end save_path decompressed,
         PPKUnlocker.with_fs
           (λ fs, fs_write save_path decompressed
                    (fs_mkdir
                       (path_join output_root
                          (default "未知文件"
                             (PPKUnlocker.FILE_CATEGORY_MAP
                                !! PPKUnlocker.detect_file_extension decompressed)))
                       fs))
           (ppk_marked block_md5 σ))
    end.

(** How the outcome recorded for a block relates to the bytes of the block
    and to the set [D] of digests held when the block was reached. *)
Definition outcome_ok (D : gset string) (zstd_data : list byte)
    (o : PPKUnlocker.outcome) : Prop :=
  match o with
  | PPKUnlocker.TooSmall => length zstd_data < 1024
  | PPKUnlocker.Duplicate =>
      1024 ≤ length zstd_data ∧ md5_hexdigest zstd_data ∈ D
  | PPKUnlocker.DecodeFailed =>
      1024 ≤ length zstd_data ∧ (md5_hexdigest zstd_data ∉ D)
      ∧ ∃ e, zstd_decompress zstd_data = ZstdError e
  | PPKUnlocker.Saved _ decompressed =>
      1024 ≤ length zstd_data ∧ (md5_hexdigest zstd_data ∉ D)
      ∧ zstd_decompress zstd_data = Decoded decompressed
  end.

(** The set of digests after a block with outcome [o]. *)
Definition digests_after (D : gset string) (zstd_data : list byte)
    (o : PPKUnlocker.outcome) : gset string :=
  match o with
  | PPKUnlocker.TooSmall | PPKUnlocker.Duplicate => D
  | PPKUnlocker.DecodeFailed | PPKUnlocker.Saved _ _ => {[md5_hexdigest zstd_data]} ∪ D
  end.

(** A sequence of blocks processed one after the other from the set [D]. *)
Fixpoint trace_ok (file_data : list byte) (D : gset string)
    (trace : list PPKUnlocker.block) : Prop :=
  match trace with
  | [] => True
  | b :: trace' =>
      outcome_ok D (bytes_of file_data b) (PPKUnlocker.block_outcome b)
      ∧ trace_ok file_data
          (digests_after D (bytes_of file_data b) (PPKUnlocker.block_outcome b)) trace'
  end.

Fixpoint digests_final (file_data : list byte) (D : gset string)
    (trace : list PPKUnlocker.block) : gset string :=
  match trace with
  | [] => D
  | b :: trace' =>
      digests_final file_data
        (digests_after D (bytes_of file_data b) (PPKUnlocker.block_outcome b)) trace'
  end.

Definition bounds (b : PPKUnlocker.block) : nat * nat :=
  (PPKUnlocker.magic_pos b, PPKUnlocker.block_end b).

Definition is_saved (b : PPKUnlocker.block) : bool :=
  match PPKUnlocker.block_outcome b with PPKUnlocker.Saved _ _ => true | _ => false end.

End BlockStep.

(** A 512-byte block between two signatures, then a short tail. *)
Definition small_block_container : list byte :=
  ZSTD ++ replicate 508 x00 ++ ZSTD ++ [x01; x02].

Definition fresh_shared : PPKUnlocker.shared := PPKUnlocker.module_loaded Toy.empty_fs.

(** Two byte-identical blocks of 1024 bytes that do not decompress. *)
Definition corrupt_block : list byte := ZSTD ++ replicate 1020 x00.
Definition twin_corrupt_blocks : list byte := corrupt_block ++ corrupt_block.

(** What the loop records for the two blocks of [twin_corrupt_blocks]. *)
Definition first_corrupt_block : PPKUnlocker.block :=
  {| PPKUnlocker.magic_pos := 0; PPKUnlocker.block_end := 1024;
     PPKUnlocker.block_outcome := PPKUnlocker.DecodeFailed |}.
Definition second_corrupt_block : PPKUnlocker.block :=
  {| PPKUnlocker.magic_pos := 1024; PPKUnlocker.block_end := 2048;
     PPKUnlocker.block_outcome := PPKUnlocker.Duplicate |}.


(** A container with two frames that hold the same one-byte payload. *)
Definition twin_frames : list byte := Toy.frame [x01] ++ Toy.frame [x01].

(** The signals of the worker in fast mode with two threads on
    [twin_frames], for a given order of the worker steps. *)
Definition twin_run (schedule : list nat) : list NpkUnlock_GUI.signal :=
  match NpkUnlock_GUI.run "gui2.npk" (Some twin_frames) "Output" true 2 true true
          Toy.never schedule with
  | Some p => (exec p fresh_task_state).1
  | None => []
  end.

(** Both tasks reach the membership test before either reaches the
    insertion: three reads of the flag and the test, for each task. *)
Definition racy_schedule : list nat := [0; 0; 0; 0; 1; 1; 1; 1].

(** A 1024-byte block that the toy decompressor accepts, and two files
    holding it. *)
Definition good_block : list byte := ZSTD ++ [xff] ++ replicate 1019 x07.
Definition twin_files : list (string * list byte) :=
  [("0a1b2c3d", good_block); ("4e5f6a7b", good_block)].

Definition extracted_per_file (schedule : list nat) : list (option nat) :=
  map (fmap PPKUnlocker.extracted)
    (PPKUnlocker.run_files 4096 schedule twin_files "Output" fresh_shared).1.

(** Two frames that hold the same four-byte PNG signature, and the
    signals of a serial run of the worker on them. *)
Definition twin_png_frames : list byte :=
  Toy.frame (x89 :: Py.b "PNG") ++ Toy.frame (x89 :: Py.b "PNG").

Definition png_run (enable_md5 : bool) : list NpkUnlock_GUI.signal :=
  match NpkUnlock_GUI.run "gui2.npk" (Some twin_png_frames) "Output" false 1
          enable_md5 true Toy.never [] with
  | Some p => (exec p fresh_task_state).1
  | None => []
  end.

(** ** Vocabulary for the properties of whole runs *)

(** [always P p]: whatever the states in which the atomic actions of [p]
    run, so also when other tasks run in between, the value [p] returns
    satisfies [P]. *)
Fixpoint always {S A} (P : A → Prop) (p : prog S A) : Prop :=
  match p with
  | Ret r => P r
  | Act a k => ∀ σ, always P (k (a σ).1)
  end.

(** The labels the classifier is written to return. *)
Definition labels : list string :=
  [".mesh"; ".png"; ".ktx"; ".dds"; ".wem"; ".bnk"; ".npk"; ".zst"; ".tga"; ""].

(** One buffer for each label. *)
Definition sample (label : string) : list byte :=
  if bool_decide (label = ".mesh") then [x34; x80; xc8; xbb]
  else if bool_decide (label = ".png") then x89 :: Py.b "PNG"
  else if bool_decide (label = ".ktx") then xab :: Py.b "KTX 11" ++ [xbb]
  else if bool_decide (label = ".dds") then Py.b "DDS"
  else if bool_decide (label = ".wem") then Py.b "RIFF" ++ Py.b "size" ++ Py.b "WAVE"
  else if bool_decide (label = ".bnk") then Py.b "BKHD"
  else if bool_decide (label = ".npk") then Py.b "AKPK"
  else if bool_decide (label = ".zst") then ZSTD
  else if bool_decide (label = ".tga") then Py.b "TRUEVISION-XFILE." ++ [x00]
  else [].

(** The [(done, total)] pairs a run reported to the progress bar. *)
Definition progress_reports (out : list NpkUnlock_GUI.signal) : list (nat * nat) :=
  omap (λ s, match s with
             | NpkUnlock_GUI.progress_signal done total => Some (done, total)
             | _ => None
             end) out.

(** The reports of a run that was not interrupted: [(0, total)], then one
    per frame. *)
Definition all_reports (total : nat) : list (nat * nat) :=
  map (λ done, (done, total)) (seq 0 (S total)).

Section FrameResult.
Context `{Primitives}.

(** The [info] dictionary of the frame number [frame_idx] when its payload is
    [decompressed]. *)
Definition frame_info (output_root : string) (enable_type_detect : bool)
    (frame_idx : nat) (decompressed : list byte) : NpkUnlock_GUI.info :=
  let ext := gui_ext enable_type_detect decompressed in
  {| NpkUnlock_GUI.info_name := gui_filename frame_idx ext;
     NpkUnlock_GUI.info_ext := ext;
     NpkUnlock_GUI.info_category := gui_category ext;
     NpkUnlock_GUI.info_size := length decompressed;
     NpkUnlock_GUI.info_path := gui_path output_root frame_idx ext |}.

(** What the task of a frame returns when the index of digests is switched
    off and nobody asks to stop. *)
Definition frame_result (data : list byte) (output_root : string)
    (enable_type_detect : bool) (frame_idx frame_start : nat)
    : bool * string * option NpkUnlock_GUI.info :=
  let prefix := NpkUnlock_GUI.frame_prefix frame_idx frame_start in
  match zstd_decompress (drop frame_start data) with
  | ZstdError e => (false, NpkUnlock_GUI.msg_decode_failed prefix e, None)
  | Decoded decompressed =>
      let i := frame_info output_root enable_type_detect frame_idx decompressed in
      (true,
       NpkUnlock_GUI.msg_success prefix (NpkUnlock_GUI.info_name i)
         (NpkUnlock_GUI.info_category i) (length decompressed)
         (md5_hexdigest decompressed),
       Some i)
  end.

(** The artifact of a frame that decompresses. *)
Definition frame_artifact (data : list byte) (output_root : string)
    (enable_type_detect : bool) (frame : nat * nat) : option NpkUnlock_GUI.info :=
  match zstd_decompress (drop frame.2 data) with
  | ZstdError _ => None
  | Decoded decompressed =>
      Some (frame_info output_root enable_type_detect frame.1 decompressed)
  end.

(** The artifact [i] is on disk: the file at its path holds [info_size i]
    bytes. *)
Definition on_disk (files : filesystem) (i : NpkUnlock_GUI.info) : Prop :=
  ∃ payload, fs_files files !! NpkUnlock_GUI.info_path i = Some payload
             ∧ NpkUnlock_GUI.info_size i = length payload.

End FrameResult.

Section OnDisk.
Context `{Primitives}.

(** The artifact [a] is the one of a frame numbered below [n] of
    [frame_positions], and the file at its path holds the payload of that
    frame. *)
Definition stored (data : list byte) (output_root : string)
    (enable_type_detect : bool) (frame_positions : list nat) (n : nat)
    (files : filesystem) (a : NpkUnlock_GUI.info) : Prop :=
  ∃ frame_idx frame_start decompressed,
    frame_idx < n
    ∧ frame_positions !! frame_idx = Some frame_start
    ∧ zstd_decompress (drop frame_start data) = Decoded decompressed
    ∧ a = frame_info output_root enable_type_detect frame_idx decompressed
    ∧ fs_files files !! NpkUnlock_GUI.info_path a = Some decompressed.

(** Every artifact announced so far is stored, each under a path of its
    own. *)
Definition disk_ok (data : list byte) (output_root : string)
    (enable_type_detect : bool) (frame_positions : list nat) (n : nat)
    (files : filesystem) (announced : list NpkUnlock_GUI.info) : Prop :=
  Forall (stored data output_root enable_type_detect frame_positions n files) announced
  ∧ NoDup (map NpkUnlock_GUI.info_path announced).

End OnDisk.

(** The artifact that [run] announces for the result of a task. *)
Definition announced (r : bool * string * option NpkUnlock_GUI.info)
    : list NpkUnlock_GUI.info :=
  match r with
  | (true, _, Some i) => [i]
  | _ => []
  end.

(** The artifacts of those of [frames] that decompress, in frame order. *)
Definition decodable_artifacts `{Primitives} (data : list byte) (output_root : string)
    (enable_type_detect : bool) (frames : list (nat * nat)) : list NpkUnlock_GUI.info :=
  omap (frame_artifact data output_root enable_type_detect) frames.

(** The number of signatures in each file of a list. *)
Definition signatures_per_file (ppk_files : list (string * list byte)) : list nat :=
  map (λ f, length (Spec.signature_offsets f.2)) ppk_files.

(** The digests of the payloads of those of [frames] that decompress. *)
Definition payload_digests `{Primitives} (data : list byte) (frames : list (nat * nat))
    : list string :=
  omap (λ frame : nat * nat,
          match zstd_decompress (drop frame.2 data) with
          | Decoded decompressed => Some (md5_hexdigest decompressed)
          | ZstdError _ => None
          end) frames.

(** No ["/"] occurs in [s]. *)
Fixpoint no_slash (s : string) : bool :=
  match s with
  | EmptyString => true
  | String c s' => negb (Ascii.eqb c "/") && no_slash s'
  end.

(** The blocks of a trace that were saved, in the order of the trace. *)
Definition saved_blocks (trace : list PPKUnlocker.block) : list PPKUnlocker.block :=
  List.filter is_saved trace.

(** The [k]-th saved block of the trace is in the file named after [k], with
    its payload as content. *)
Definition saved_on_disk (file_name output_root : string) (files : filesystem)
    (trace : list PPKUnlocker.block) : Prop :=
  ∀ k b save_path decompressed,
    saved_blocks trace !! k = Some b →
    PPKUnlocker.block_outcome b = PPKUnlocker.Saved save_path decompressed →
    save_path = ppk_save_path file_name output_root k decompressed
    ∧ fs_files files !! save_path = Some decompressed.

(** Three buttons of 60 by 20 pixels, as size hints. *)
Definition three_buttons : list FlowLayout.QSize :=
  replicate 3 {| FlowLayout.width := 60; FlowLayout.height := 20 |}.

(** A strip 150 pixels wide at the origin. *)
Definition narrow_strip : FlowLayout.QRect :=
  {| FlowLayout.rect_x := 0; FlowLayout.rect_y := 0;
     FlowLayout.rect_width := 150; FlowLayout.rect_height := 0 |}.

(** The dialog as it opens on a fresh installation, with the font size
    raised to 12. *)
Definition dialog_with_font_12 : SettingsDialog.widgets :=
  {| SettingsDialog.combo_font := "微软雅黑";
     SettingsDialog.spin_font_size := 12;
     SettingsDialog.combo_theme := 0;
     SettingsDialog.spin_default_threads := 8;
     SettingsDialog.chk_default_fast := true;
     SettingsDialog.edit_default_output := "";
     SettingsDialog.combo_log_level := "INFO";
     SettingsDialog.chk_log_to_file := false;
     SettingsDialog.edit_log_dir := "";
     SettingsDialog.chk_show_program_log_in_gui := true;
     SettingsDialog.chk_show_extract_log_in_gui := true;
     SettingsDialog.chk_remember_last_input := true;
     SettingsDialog.chk_remember_last_output := true;
     SettingsDialog.chk_remember_window := true;
     SettingsDialog.chk_remember_theme_font := true;
     SettingsDialog.chk_enable_md5 := true;
     SettingsDialog.chk_enable_type_detect := true;
     SettingsDialog.chk_enable_crash_log := false |}.

(** A store that holds nothing yet. *)
Definition empty_store : AppSettings.QSettings := λ _, None.

(** ** Vocabulary for tasks that run beside other tasks *)

(** [guar G p]: every atomic action of [p], from whatever state, makes a
    [G]-step. *)
Fixpoint guar {S A} (G : S → S → Prop) (p : prog S A) : Prop :=
  match p with
  | Ret _ => True
  | Act a k => (∀ σ, G σ (a σ).2) ∧ ∀ x, guar G (k x)
  end.

(** [post R Q p σ]: when [p] continues from [σ] while other tasks move the
    state along [R] before each of its actions and after its last one, the
    value it returns and every later state satisfy [Q]. *)
Fixpoint post {S A} (R : S → S → Prop) (Q : A → S → Prop) (p : prog S A) (σ : S)
    : Prop :=
  match p with
  | Ret r => ∀ σ', R σ σ' → Q r σ'
  | Act a k => ∀ σ', R σ σ' → post R Q (k (a σ').1) (a σ').2
  end.

(** [marks h d ok p]: an action of [p] leaves the set [h] of the state as
    it is, or adds [d] to it, and from there on [p] always returns a value
    that [ok] accepts. *)
Fixpoint marks {S A} (h : S → gset string) (d : option string) (ok : A → Prop)
    (p : prog S A) : Prop :=
  match p with
  | Ret _ => True
  | Act a k =>
      (∀ σ, h (a σ).2 = h σ
            ∨ ∃ d', d = Some d' ∧ h (a σ).2 = {[d']} ∪ h σ ∧ always ok (k (a σ).1))
      ∧ ∀ x, marks h d ok (k x)
  end.

(** The state moves on with a set [h] that only grows. *)
Definition grows {S} (h : S → gset string) (σ σ' : S) : Prop := h σ ⊆ h σ'.

(** ** Vocabulary for runs in which a frame fails *)

Section Processed.
Context `{Primitives}.

(** The digest of the payload of a frame that decompresses. *)
Definition frame_digest (data : list byte) (frame : nat * nat) : option string :=
  match zstd_decompress (drop frame.2 data) with
  | Decoded decompressed => Some (md5_hexdigest decompressed)
  | ZstdError _ => None
  end.

(** What the task of [frame] returns when nobody asks to stop: the failure
    of the decompressor or the artifact, as [frame_result] has them, or,
    with the index of digests switched on, the notice that the payload is
    a duplicate. *)
Definition frame_processed (data : list byte) (output_root : string)
    (enable_md5 enable_type_detect : bool) (frame : nat * nat)
    (r : bool * string * option NpkUnlock_GUI.info) : Prop :=
  r = frame_result data output_root enable_type_detect frame.1 frame.2
  ∨ (enable_md5 = true
     ∧ ∃ decompressed,
         zstd_decompress (drop frame.2 data) = Decoded decompressed
         ∧ r = (false,
                NpkUnlock_GUI.msg_duplicate
                  (NpkUnlock_GUI.frame_prefix frame.1 frame.2)
                  (md5_hexdigest decompressed),
                None)).

(** Every content held by a frame that decompresses leaves the run: some
    frame with that digest has a result that [ok] accepts. *)
Definition every_content_extracted {A} (data : list byte) (frames : list (nat * nat))
    (ok : A → bool) (results : list A) : Prop :=
  ∀ d, Some d ∈ map (frame_digest data) frames →
       ∃ i frame r, frames !! i = Some frame
                    ∧ frame_digest data frame = Some d
                    ∧ results !! i = Some r
                    ∧ ok r = true.

End Processed.

(** Whether a task of the graphical tool reports success. *)
Definition reports_success (r : bool * string * option NpkUnlock_GUI.info) : bool := r.1.1.

(** The command-line tool moves on: the set of digests grows and no line
    leaves standard output. *)
Definition cli_grows (σ σ' : NpkUnlocker.run_state) : Prop :=
  NpkUnlocker.extracted_hashes σ ⊆ NpkUnlocker.extracted_hashes σ'
  ∧ ∀ line, line ∈ NpkUnlocker.stdout σ → line ∈ NpkUnlocker.stdout σ'.

(** What the task of a frame has printed when it is done: the line that
    announces the frame and, when the frame does not decompress, the line
    that reports the failure. *)
Definition cli_reported `{Primitives} (data : list byte) (total : nat)
    (frame : nat * nat) (stdout : list string) : Prop :=
  NpkUnlocker.processing_line frame.1 total frame.2 ∈ stdout
  ∧ ∀ e, zstd_decompress (drop frame.2 data) = ZstdError e →
         cli_failure_line frame.1 e ∈ stdout.

(** A frame that the toy decompressor rejects, followed by a frame that
    holds a one-byte payload. *)
Definition bad_then_good : list byte := (ZSTD ++ [x00]) ++ Toy.frame [x01].

(** The signals of a second run of the worker on [twin_frames], in fast
    mode with two threads, started in the state that a first run left;
    [first] and [second] are the orders of the worker steps of the two
    runs. *)
Definition twin_rerun (first second : list nat) : list NpkUnlock_GUI.signal :=
  match NpkUnlock_GUI.run "gui2.npk" (Some twin_frames) "Output" true 2 true true
          Toy.never first,
        NpkUnlock_GUI.run "gui2.npk" (Some twin_frames) "Output" true 2 true true
          Toy.never second with
  | Some p, Some p' => (exec p' (exec p fresh_task_state).2).1
  | _, _ => []
  end.

(** The numbers of blocks extracted by two passes of the block extractor
    over one file that holds [good_block], the second pass in the process
    of the first. *)
Definition two_passes : list (option nat) * list (option nat) :=
  let ppk_files := [("0a1b2c3d", good_block)] in
  let first_pass := PPKUnlocker.run_files 4096 [] ppk_files "Output" fresh_shared in
  let second_pass := PPKUnlocker.run_files 4096 [] ppk_files "Output" first_pass.2 in
  (map (fmap PPKUnlocker.extracted) first_pass.1,
   map (fmap PPKUnlocker.extracted) second_pass.1).

(** Two files that hold the same block that does not decompress, and how
    the blocks of each file left the loop, for a given order of the steps
    of the two threads. *)
Definition twin_corrupt_files : list (string * list byte) :=
  [("0a1b2c3d", corrupt_block); ("4e5f6a7b", corrupt_block)].

Definition outcomes_per_file (schedule : list nat)
    : list (option (list PPKUnlocker.outcome)) :=
  map (fmap (λ res, map PPKUnlocker.block_outcome (PPKUnlocker.blocks res)))
    (PPKUnlocker.run_files 4096 schedule twin_corrupt_files "Output" fresh_shared).1.

(** A disk that is full when the file of the frame is written: [open]
    creates the file and [write] raises before the first byte. *)
Definition disk_full : Raising_GUI.task_calls :=
  {| Raising_GUI.new_decompressor_raises := None; Raising_GUI.decompress_raises := None;
     Raising_GUI.makedirs_raises := None; Raising_GUI.open_raises := None;
     Raising_GUI.write_raises := Some (0, "No space left on device") |}.

(** The two files of [twin_files] on a disk that is full when the block of
    the second file is written. *)
Definition twin_files_disk_full : list (string * list byte * Raising_PPK.file_calls) :=
  [("0a1b2c3d", good_block, Raising_PPK.as_intended);
   ("4e5f6a7b", good_block,
    {| Raising_PPK.read_raises := None;
       Raising_PPK.save_at := λ _, Raising_PPK.write_raised 0 "No space left on device" |})].

(** ** Vocabulary for the index of the block extractor *)

Section PpkDigests.
Context `{Primitives}.

(** The digests of the blocks that start at [offsets] and pass the size
    filter. *)
Definition ppk_digests_at (max_block_size : nat) (file_data : list byte)
    (offsets : list nat) : list string :=
  omap (λ magic_pos,
          let zstd_data := ppk_block_bytes max_block_size file_data magic_pos in
          if length zstd_data <? 1024 then None else Some (md5_hexdigest zstd_data))
       offsets.

(** The digests that the files of a pass can put into the index. *)
Definition ppk_digests (max_block_size : nat) (ppk_files : list (string * list byte))
    : gset string :=
  list_to_set
    (concat (map (λ f, ppk_digests_at max_block_size f.2 (Spec.signature_offsets f.2))
               ppk_files)).

(** The index moves on by digests of [D] only, and loses none. *)
Definition ppk_adds (D : gset string) (σ σ' : PPKUnlocker.shared) : Prop :=
  PPKUnlocker.DUPLICATE_MD5 σ ⊆ PPKUnlocker.DUPLICATE_MD5 σ'
  ∧ PPKUnlocker.DUPLICATE_MD5 σ' ⊆ PPKUnlocker.DUPLICATE_MD5 σ ∪ D.

End PpkDigests.

(** * Part II: properties *)

(** ** The model on concrete inputs *)

Example fmt_08X_255 : Py.fmt_08X 255 = "000000FF".
Proof. reflexivity. Qed.

Example fmt_04d_7 : Py.fmt_04d 7 = "0007".
Proof. reflexivity. Qed.

Example frame_prefix_first : NpkUnlock_GUI.frame_prefix 0 16 = "[帧 0001 @ 0x00000010] ".
Proof. reflexivity. Qed.

Example find_from_start :
  Py.find [x00; x28; xb5; x2f; xfd; x28] [x28; xb5; x2f; xfd] 0 = Some 1
  ∧ Py.find [x00; x28; xb5; x2f; xfd; x28] [x28; xb5; x2f; xfd] 2 = None
  ∧ Py.find [x00; x28] [x28] 3 = None.
Proof. by repeat split. Qed.

Example rule_lengths :
  String.length NpkUnlocker.dashes = 50 ∧ String.length NpkUnlock_GUI.rule = 60
  ∧ String.length NpkUnlock_GUI.double_rule = 60.
Proof. by repeat split. Qed.

Example tga_trailer_is_18_bytes : length NpkUnlocker.TGA_TAIL_MAGIC = 18.
Proof. reflexivity. Qed.

(** Two frames with the same PNG payload: one artifact in the image
    category with the duplicate check, two without it. *)
Example twin_png_with_dedup :
  map NpkUnlock_GUI.info_path (NpkUnlock_GUI.artifacts (png_run true))
  = ["Output/图片文件/extracted_frame_1.png"]
  ∧ NpkUnlock_GUI.finished_counts (png_run true) = [1].
Proof. vm_compute. by split. Qed.

Example twin_png_without_dedup :
  map NpkUnlock_GUI.info_path (NpkUnlock_GUI.artifacts (png_run false))
  = ["Output/图片文件/extracted_frame_1.png"; "Output/图片文件/extracted_frame_2.png"]
  ∧ NpkUnlock_GUI.finished_counts (png_run false) = [2].
Proof. vm_compute. by split. Qed.

(** ** Slices, prefixes and search *)

Lemma prefix_take_iff (signature data : list byte) :
  signature `prefix_of` data ↔
  length signature ≤ length data ∧ take (length signature) data = signature.
Proof.
  split.
  - intros [k ->]. rewrite length_app. split; [lia|].
    by rewrite take_app_length.
  - intros [_ Ht]. exists (drop (length signature) data).
    rewrite <- Ht at 1. by rewrite take_drop.
Qed.

Lemma suffix_drop_iff (signature data : list byte) :
  signature `suffix_of` data ↔
  length signature ≤ length data ∧
  Py.last_bytes data (length signature) = signature.
Proof.
  unfold Py.last_bytes. split.
  - intros [k ->]. rewrite length_app. split; [lia|].
    replace (length k + length signature - length signature) with (length k) by lia.
    by rewrite drop_app_length.
  - intros [_ Hd]. exists (take (length data - length signature) data).
    rewrite <- Hd at 2. by rewrite take_drop.
Qed.

Lemma prefix_check (n : nat) (signature data : list byte) :
  length signature = n →
  (n <=? length data) && bool_decide (take n data = signature)
  = Spec.has_prefix signature data.
Proof.
  intros <-. unfold Spec.has_prefix.
  destruct (Nat.leb_spec (length signature) (length data)) as [Hle|Hlt]; simpl.
  - apply bool_decide_ext. rewrite prefix_take_iff. tauto.
  - symmetry. apply bool_decide_eq_false. rewrite prefix_take_iff. lia.
Qed.

Lemma trailer_check (n : nat) (signature data : list byte) :
  length signature = n →
  (n <=? length data) && bool_decide (Py.last_bytes data n = signature)
  = Spec.has_trailer signature data.
Proof.
  intros <-. unfold Spec.has_trailer.
  destruct (Nat.leb_spec (length signature) (length data)) as [Hle|Hlt]; simpl.
  - apply bool_decide_ext. rewrite suffix_drop_iff. tauto.
  - symmetry. apply bool_decide_eq_false. rewrite suffix_drop_iff. lia.
Qed.

Lemma riff_wave_check (data : list byte) :
  (12 <=? length data) && bool_decide (take 4 data = Py.b "RIFF")
    && bool_decide (Py.slice data 8 12 = Py.b "WAVE")
  = Spec.has_riff_wave_prefix data.
Proof.
  do 12 (destruct data as [|? data]; [reflexivity|]).
  unfold Spec.has_riff_wave_prefix, Py.slice. cbn [length Nat.leb andb take drop Nat.sub].
  rewrite take_0. symmetry. apply bool_decide_and.
Qed.

Lemma first_match_priority chain data i check label :
  chain !! i = Some (check, label) →
  check data = true →
  (∀ j c l, j < i → chain !! j = Some (c, l) → c data = false) →
  Spec.first_match chain data = label.
Proof.
  revert i. induction chain as [|[c0 l0] chain IH]; intros i Hi Hc Hearlier.
  - by rewrite lookup_nil in Hi.
  - destruct i as [|i]; simpl in *.
    + injection Hi as -> ->. by rewrite Hc.
    + rewrite (Hearlier 0 c0 l0) by (lia || done).
      apply (IH i); [done..|].
      intros j c l Hj Hl. apply (Hearlier (S j) c l); [lia|done].
Qed.

Lemma first_match_none chain data :
  (∀ c l, (c, l) ∈ chain → c data = false) →
  Spec.first_match chain data = "".
Proof.
  induction chain as [|[c0 l0] chain IH]; intros Hall; [done|].
  simpl. rewrite (Hall c0 l0) by left.
  apply IH. intros c l Hin. apply (Hall c l). by right.
Qed.

Lemma classify_empty : Spec.classify [] = "".
Proof. reflexivity. Qed.

Lemma NpkUnlocker_detect_classify data :
  NpkUnlocker.detect_file_extension data = Spec.classify data.
Proof.
  unfold NpkUnlocker.detect_file_extension.
  case_bool_decide as Hnil; [by subst|].
  rewrite !prefix_check by reflexivity.
  rewrite riff_wave_check, trailer_check by reflexivity.
  reflexivity.
Qed.

Lemma GUI_detect_classify data :
  NpkUnlock_GUI.detect_file_extension data = Spec.classify data.
Proof.
  unfold NpkUnlock_GUI.detect_file_extension.
  case_bool_decide as Hnil; [by subst|].
  cbv zeta.
  rewrite !prefix_check by reflexivity.
  rewrite riff_wave_check, trailer_check by reflexivity.
  reflexivity.
Qed.

Lemma PPK_detect_classify data :
  PPKUnlocker.detect_file_extension data = Spec.classify data.
Proof.
  unfold PPKUnlocker.detect_file_extension.
  case_bool_decide as Hnil; [by subst|].
  rewrite !prefix_check by reflexivity.
  rewrite riff_wave_check, trailer_check by reflexivity.
  reflexivity.
Qed.

(** ** The frame scanner *)

Lemma find_from_None sub l i :
  Py.find_from sub l i = None →
  ∀ k, k ≤ length l → take (length sub) (drop k l) ≠ sub.
Proof.
  revert i. induction l as [|a l IH]; intros i; simpl.
  - case_bool_decide as Hs; [done|]. intros _ k Hk.
    by replace k with 0 by lia.
  - case_bool_decide as Hs; [done|]. intros Hf [|k] Hk; [done|].
    simpl. apply (IH _ Hf). lia.
Qed.

Lemma find_from_Some sub l i p :
  Py.find_from sub l i = Some p →
  ∃ k, p = i + k ∧ k ≤ length l ∧ take (length sub) (drop k l) = sub ∧
       ∀ j, j < k → take (length sub) (drop j l) ≠ sub.
Proof.
  revert i. induction l as [|a l IH]; intros i; simpl.
  - case_bool_decide as Hs; [|done]. intros [= <-].
    exists 0. repeat split; [lia|done|done|lia].
  - case_bool_decide as Hs.
    + intros [= <-]. exists 0. repeat split; [lia|lia|done|lia].
    + intros Hf. destruct (IH _ Hf) as (k & -> & Hk & Hocc & Hmin).
      exists (S k). repeat split; [lia|lia|done|].
      intros [|j] Hj; [done|]. simpl. apply Hmin. lia.
Qed.

Lemma occurs_at_true sub data i :
  Py.occurs_at sub data i = true ↔ take (length sub) (drop i data) = sub.
Proof. apply bool_decide_eq_true. Qed.

Lemma occurs_at_false sub data i :
  Py.occurs_at sub data i = false ↔ take (length sub) (drop i data) ≠ sub.
Proof. apply bool_decide_eq_false. Qed.

Lemma occurs_at_bound sub data i :
  Py.occurs_at sub data i = true → i + length sub ≤ length data ∨ sub = [].
Proof.
  rewrite occurs_at_true. intros Ht.
  destruct sub as [|a sub]; [by right|left].
  apply (f_equal length) in Ht.
  rewrite length_take, length_drop in Ht. cbn [length] in *. lia.
Qed.

Lemma find_None data sub start i :
  sub ≠ [] → Py.find data sub start = None → start ≤ i →
  Py.occurs_at sub data i = false.
Proof.
  intros Hsub Hf Hi. apply not_true_iff_false. intros Hocc.
  destruct (occurs_at_bound _ _ _ Hocc) as [Hb|]; [|done].
  unfold Py.find in Hf.
  destruct (Nat.leb_spec start (length data)) as [Hle|Hgt]; [|lia].
  apply (find_from_None _ _ _ Hf (i - start)).
  - rewrite length_drop. lia.
  - rewrite drop_drop. replace (start + (i - start)) with i by lia.
    by apply occurs_at_true.
Qed.

Lemma find_Some data sub start p :
  Py.find data sub start = Some p →
  start ≤ p ∧ Py.occurs_at sub data p = true ∧
  ∀ i, start ≤ i → i < p → Py.occurs_at sub data i = false.
Proof.
  unfold Py.find.
  destruct (Nat.leb_spec start (length data)) as [Hle|Hgt]; [|done].
  intros Hf. destruct (find_from_Some _ _ _ _ Hf) as (k & -> & Hk & Hocc & Hmin).
  rewrite drop_drop in Hocc.
  split; [lia|]. split; [by apply occurs_at_true|].
  intros i Hi1 Hi2. apply occurs_at_false.
  specialize (Hmin (i - start)). rewrite drop_drop in Hmin.
  replace (start + (i - start)) with i in Hmin by lia.
  apply Hmin. lia.
Qed.

(** The signature has no border: two occurrences never overlap. *)
Lemma zstd_no_overlap data p k :
  Py.occurs_at ZSTD data p = true → 0 < k → k < 4 →
  Py.occurs_at ZSTD data (p + k) = false.
Proof.
  rewrite occurs_at_true, occurs_at_false.
  rewrite <- drop_drop. generalize (drop p data). clear data p.
  intros l Hl Hk0 Hk4.
  destruct l as [|b0 [|b1 [|b2 [|b3 l]]]]; try done.
  simpl in Hl. injection Hl as -> -> -> ->.
  destruct k as [|[|[|[|k]]]]; try lia; simpl.
  - destruct l as [|? l]; cbn; congruence.
  - destruct l as [|? [|? l]]; cbn; congruence.
  - destruct l as [|? [|? [|? l]]]; cbn; congruence.
Qed.

Lemma filter_seq_nil (f : nat → bool) a n :
  (∀ i, a ≤ i → i < a + n → f i = false) → List.filter f (seq a n) = [].
Proof.
  revert a. induction n as [|n IH]; intros a Hf; [done|].
  simpl. rewrite Hf by lia. apply IH. intros i ??. apply Hf; lia.
Qed.

Lemma offsets_from_None data pos :
  Py.find data ZSTD pos = None → offsets_from data pos = [].
Proof.
  intros Hf. apply filter_seq_nil. intros i Hi _.
  by apply (find_None data ZSTD pos).
Qed.

Lemma offsets_from_Some data pos p :
  Py.find data ZSTD pos = Some p →
  offsets_from data pos = p :: offsets_from data (p + 4) ∧ p + 4 ≤ length data.
Proof.
  intros Hf. destruct (find_Some _ _ _ _ Hf) as (Hle & Hocc & Hmin).
  destruct (occurs_at_bound _ _ _ Hocc) as [Hb|]; [|done]. simpl in Hb.
  split; [|done]. unfold offsets_from.
  replace (length data - pos) with ((p - pos) + (4 + (length data - (p + 4)))) by lia.
  rewrite seq_app, List.filter_app.
  rewrite filter_seq_nil by (intros; apply Hmin; lia).
  replace (pos + (p - pos)) with p by lia.
  rewrite seq_app, List.filter_app. cbn [seq List.filter app].
  rewrite Hocc.
  replace (S p) with (p + 1) by lia.
  replace (S (p + 1)) with (p + 2) by lia.
  replace (S (p + 2)) with (p + 3) by lia.
  rewrite !(zstd_no_overlap data p) by (done || lia).
  reflexivity.
Qed.

Lemma GUI_scan_loop_spec fuel data pos positions :
  length data - pos < fuel →
  NpkUnlock_GUI.scan_loop fuel data ZSTD pos positions
  = Some (positions ++ offsets_from data pos).
Proof.
  revert pos positions. induction fuel as [|fuel IH]; intros pos positions Hfuel.
  - lia.
  - simpl. destruct (Py.find data ZSTD pos) as [p|] eqn:Hf.
    + destruct (offsets_from_Some _ _ _ Hf) as [-> Hb].
      destruct (find_Some _ _ _ _ Hf) as (Hle & _).
      rewrite IH by lia. by rewrite <- app_assoc.
    + by rewrite offsets_from_None, app_nil_r.
Qed.

Lemma GUI_scan_zstd_frames_spec data :
  NpkUnlock_GUI.scan_zstd_frames data = Some (Spec.signature_offsets data).
Proof.
  unfold NpkUnlock_GUI.scan_zstd_frames. cbv zeta.
  rewrite GUI_scan_loop_spec by lia.
  unfold offsets_from, Spec.signature_offsets. by rewrite Nat.sub_0_r.
Qed.

Lemma NpkUnlocker_scan_loop_eq fuel data pos positions :
  NpkUnlocker.scan_loop fuel data pos positions
  = NpkUnlock_GUI.scan_loop fuel data ZSTD pos positions.
Proof.
  revert pos positions. induction fuel as [|fuel IH]; intros; [done|].
  simpl. unfold NpkUnlocker.ZSTD_MAGIC. destruct (Py.find _ _ _); [apply IH|done].
Qed.

Lemma NpkUnlocker_scan_frames_spec data :
  NpkUnlocker.scan_frames data = Some (Spec.signature_offsets data).
Proof.
  unfold NpkUnlocker.scan_frames. rewrite NpkUnlocker_scan_loop_eq.
  apply GUI_scan_zstd_frames_spec.
Qed.

Lemma signature_offsets_elem data p :
  p ∈ Spec.signature_offsets data ↔
  p < length data ∧ Py.occurs_at ZSTD data p = true.
Proof.
  unfold Spec.signature_offsets.
  rewrite list_elem_of_In, List.filter_In, in_seq. intuition lia.
Qed.

Lemma filter_seq_sorted (f : nat → bool) a n :
  StronglySorted lt (List.filter f (seq a n)).
Proof.
  revert a. induction n as [|n IH]; intros a; simpl; [constructor|].
  destruct (f a); [|apply IH].
  constructor; [apply IH|].
  apply List.Forall_forall. intros x Hx.
  apply List.filter_In in Hx as [Hx _]. apply in_seq in Hx. lia.
Qed.

(** ** Running programs *)

Section Exec.
Context {S : Type}.

Lemma exec_bind {A B} (p : prog S A) (f : A → prog S B) σ :
  exec (p ≫= f) σ = let '(x, σ') := exec p σ in exec (f x) σ'.
Proof.
  revert σ. induction p as [r|X a k IH]; intros σ; [done|].
  change (exec (Act a k ≫= f) σ)
    with (let '(x, σ') := a σ in exec (k x ≫= f) σ').
  simpl. destruct (a σ) as [x σ']. apply IH.
Qed.

Lemma exec_atomic {A} (a : State S A) σ : exec (atomic a) σ = a σ.
Proof. simpl. by destruct (a σ). Qed.

Lemma wp_ret {A} (r : A) (Q : A → S → Prop) σ : Q r σ → wp (mret r) Q σ.
Proof. done. Qed.

Lemma wp_bind {A B} (p : prog S A) (f : A → prog S B) (Q : B → S → Prop) σ :
  wp p (λ x σ', wp (f x) Q σ') σ → wp (p ≫= f) Q σ.
Proof. unfold wp. rewrite exec_bind. by destruct (exec p σ). Qed.

Lemma wp_atomic {A} (a : State S A) (Q : A → S → Prop) σ :
  Q (a σ).1 (a σ).2 → wp (atomic a) Q σ.
Proof. unfold wp. by rewrite exec_atomic. Qed.

Lemma wp_mono {A} (p : prog S A) (Q Q' : A → S → Prop) σ :
  (∀ x σ', Q x σ' → Q' x σ') → wp p Q σ → wp p Q' σ.
Proof. unfold wp. auto. Qed.

Lemma exec_step {A} (p : prog S A) σ :
  exec (step p σ).1 (step p σ).2 = exec p σ.
Proof. destruct p as [r|X a k]; [done|]. simpl. by destruct (a σ). Qed.

(** A pool of one task behaves as the task run alone, whatever the
    schedule. *)
Lemma interleave_single {R} max_workers schedule (j : job S R) σ :
  ∃ j', (interleave max_workers schedule [j] σ).1 = [j']
        ∧ exec (job_prog j') (interleave max_workers schedule [j] σ).2
          = exec (job_prog j) σ.
Proof.
  revert j σ. induction schedule as [|i schedule IH]; intros j σ.
  - by exists j.
  - simpl. destruct i as [|i]; simpl; [|apply IH].
    destruct (can_step max_workers [j] 0); [|apply IH].
    pose proof (exec_step (job_prog j) σ) as Hs.
    destruct (step (job_prog j) σ) as [p' σ']. simpl in *.
    destruct (IH {| job_started := true; job_prog := p' |} σ') as (j' & Hj & He).
    exists j'. split; [done|]. by rewrite He.
Qed.

Lemma run_pool_single {R} max_workers schedule (p : prog S R) σ :
  run_pool max_workers schedule [p] σ = ([(exec p σ).1], (exec p σ).2).
Proof.
  unfold run_pool. simpl submit_all.
  destruct (interleave_single max_workers schedule
              {| job_started := false; job_prog := p |} σ) as (j' & Hj & He).
  destruct (interleave _ _ _ _) as [pool σ']. simpl in *. subst pool.
  simpl. rewrite He. by destruct (exec p σ).
Qed.

(** The pool keeps one result per submitted task. *)
Lemma length_interleave {R} max_workers schedule (pool : list (job S R)) σ :
  length (interleave max_workers schedule pool σ).1 = length pool.
Proof.
  revert pool σ. induction schedule as [|i schedule IH]; intros pool σ; [done|].
  simpl. destruct (pool !! i) as [j|]; [|apply IH].
  destruct (can_step max_workers pool i); [|apply IH].
  destruct (step (job_prog j) σ) as [p' σ'].
  rewrite IH. apply length_insert.
Qed.

Lemma length_join {R} (pool : list (job S R)) σ :
  length (join pool σ).1 = length pool.
Proof.
  revert σ. induction pool as [|j pool IH]; intros σ; [done|].
  simpl. destruct (exec (job_prog j) σ) as [r σ1].
  specialize (IH σ1). destruct (join pool σ1) as [rs σ2]. simpl in *. by rewrite IH.
Qed.

Lemma length_run_pool {R} max_workers schedule (tasks : list (prog S R)) σ :
  length (run_pool max_workers schedule tasks σ).1 = length tasks.
Proof.
  unfold run_pool.
  pose proof (length_interleave max_workers schedule (submit_all tasks) σ) as Hi.
  destruct (interleave max_workers schedule (submit_all tasks) σ) as [pool σ'].
  rewrite length_join. simpl in Hi. rewrite Hi. apply length_map.
Qed.

(** Programs that cannot tell two related states apart. *)
Lemma sim_bind {A B} (R : S → S → Prop) (p : prog S A) (f : A → prog S B) :
  sim R p → (∀ x, sim R (f x)) → sim R (p ≫= f).
Proof.
  intros Hp Hf. induction p as [r|X a k IH]; [apply Hf|].
  destruct Hp as [Ha Hk]. split; [done|]. intros x. apply IH, Hk.
Qed.

Lemma sim_atomic {A} (R : S → S → Prop) (a : State S A) :
  (∀ σ1 σ2, R σ1 σ2 → (a σ1).1 = (a σ2).1 ∧ R (a σ1).2 (a σ2).2) →
  sim R (atomic a).
Proof. intros Ha. by split. Qed.

Lemma sim_ret {A} (R : S → S → Prop) (r : A) : sim R (mret r : prog S A).
Proof. done. Qed.

Lemma exec_sim {A} (R : S → S → Prop) (p : prog S A) σ1 σ2 :
  sim R p → R σ1 σ2 →
  (exec p σ1).1 = (exec p σ2).1 ∧ R (exec p σ1).2 (exec p σ2).2.
Proof.
  revert σ1 σ2. induction p as [r|X a k IH]; intros σ1 σ2 Hp HR; [done|].
  destruct Hp as [Ha Hk]. destruct (Ha _ _ HR) as [Hx HR']. simpl.
  destruct (a σ1) as [x1 σ1'], (a σ2) as [x2 σ2']. simpl in *. subst x2.
  by apply IH.
Qed.

Lemma rel_exec_sim {A} (R : S → S → Prop) (p : prog S A) :
  sim R p → rel_exec R R p.
Proof. intros Hp σ1 σ2 HR. by apply exec_sim. Qed.

Lemma rel_exec_ret {A} (R : S → S → Prop) (r : A) : rel_exec R R (mret r).
Proof. by intros σ1 σ2 HR. Qed.

Lemma rel_exec_atomic {A} (R R' : S → S → Prop) (a : State S A) :
  (∀ σ1 σ2, R σ1 σ2 → (a σ1).1 = (a σ2).1 ∧ R' (a σ1).2 (a σ2).2) →
  rel_exec R R' (atomic a).
Proof. intros Ha σ1 σ2 HR. rewrite !exec_atomic. by apply Ha. Qed.

Lemma rel_exec_bind {A B} (R R' R'' : S → S → Prop) (p : prog S A)
    (f : A → prog S B) :
  rel_exec R R' p → (∀ x, rel_exec R' R'' (f x)) → rel_exec R R'' (p ≫= f).
Proof.
  intros Hp Hf σ1 σ2 HR. rewrite !exec_bind.
  destruct (Hp σ1 σ2 HR) as [Hx HR'].
  destruct (exec p σ1) as [x1 σ1'], (exec p σ2) as [x2 σ2']. simpl in *. subst x2.
  by apply Hf.
Qed.

Lemma step_sim {A} (R : S → S → Prop) (p : prog S A) σ1 σ2 :
  sim R p → R σ1 σ2 →
  (step p σ1).1 = (step p σ2).1 ∧ R (step p σ1).2 (step p σ2).2
  ∧ sim R (step p σ1).1.
Proof.
  destruct p as [r|X a k]; intros Hp HR; [done|].
  destruct Hp as [Ha Hk]. destruct (Ha _ _ HR) as [Hx HR']. simpl.
  destruct (a σ1) as [x1 σ1'], (a σ2) as [x2 σ2']. simpl in *. subst x2.
  by repeat split.
Qed.

Lemma interleave_sim {A} (R : S → S → Prop) max_workers schedule
    (pool : list (job S A)) σ1 σ2 :
  Forall (λ j, sim R (job_prog j)) pool → R σ1 σ2 →
  (interleave max_workers schedule pool σ1).1
  = (interleave max_workers schedule pool σ2).1
  ∧ R (interleave max_workers schedule pool σ1).2
      (interleave max_workers schedule pool σ2).2
  ∧ Forall (λ j, sim R (job_prog j)) (interleave max_workers schedule pool σ1).1.
Proof.
  revert pool σ1 σ2. induction schedule as [|i schedule IH]; intros pool σ1 σ2 Hpool HR.
  - done.
  - simpl. destruct (pool !! i) as [j|] eqn:Hj; [|by apply IH].
    destruct (can_step max_workers pool i); [|by apply IH].
    pose proof (Forall_lookup_1 _ _ _ _ Hpool Hj) as Hsim.
    destruct (step_sim R (job_prog j) σ1 σ2 Hsim HR) as (Hp & HR' & Hsim').
    destruct (step (job_prog j) σ1) as [p1 σ1'], (step (job_prog j) σ2) as [p2 σ2'].
    simpl in *. subst p2. apply IH; [|done].
    by apply Forall_insert.
Qed.

Lemma join_sim {A} (R : S → S → Prop) (pool : list (job S A)) σ1 σ2 :
  Forall (λ j, sim R (job_prog j)) pool → R σ1 σ2 →
  (join pool σ1).1 = (join pool σ2).1 ∧ R (join pool σ1).2 (join pool σ2).2.
Proof.
  revert σ1 σ2. induction pool as [|j pool IH]; intros σ1 σ2 Hpool HR; [done|].
  apply Forall_cons in Hpool as [Hj Hpool]. simpl.
  destruct (exec_sim R (job_prog j) σ1 σ2 Hj HR) as [Hr HR'].
  destruct (exec (job_prog j) σ1) as [r1 σ1'], (exec (job_prog j) σ2) as [r2 σ2'].
  simpl in *. subst r2.
  destruct (IH σ1' σ2' Hpool HR') as [Hrs HR''].
  destruct (join pool σ1') as [rs1 σ1''], (join pool σ2') as [rs2 σ2''].
  simpl in *. by subst rs2.
Qed.

Lemma run_pool_sim {A} (R : S → S → Prop) max_workers schedule
    (tasks : list (prog S A)) σ1 σ2 :
  Forall (sim R) tasks → R σ1 σ2 →
  (run_pool max_workers schedule tasks σ1).1
  = (run_pool max_workers schedule tasks σ2).1
  ∧ R (run_pool max_workers schedule tasks σ1).2
      (run_pool max_workers schedule tasks σ2).2.
Proof.
  intros Htasks HR. unfold run_pool.
  assert (Hpool : Forall (λ j, sim R (job_prog j)) (submit_all tasks)).
  { unfold submit_all. apply Forall_fmap. by eapply Forall_impl. }
  destruct (interleave_sim R max_workers schedule _ σ1 σ2 Hpool HR)
    as (Hp & HR' & Hpool').
  destruct (interleave max_workers schedule (submit_all tasks) σ1) as [pool1 σ1'],
           (interleave max_workers schedule (submit_all tasks) σ2) as [pool2 σ2'].
  simpl in *. subst pool2. by apply join_sim.
Qed.

End Exec.

Lemma length_enumerate {A} (l : list A) : length (enumerate l) = length l.
Proof. unfold enumerate. rewrite length_zip, length_seq. lia. Qed.

Lemma sorted_consecutive (l : list nat) i p q :
  StronglySorted lt l → l !! i = Some p → l !! S i = Some q → p < q.
Proof.
  intros Hs. revert i. induction Hs as [|a l Hs IH Hall]; intros i Hp Hq.
  - by rewrite lookup_nil in Hp.
  - destruct i as [|i]; simpl in *.
    + injection Hp as ->. rewrite List.Forall_forall in Hall.
      apply Hall. apply list_elem_of_In. eapply list_elem_of_lookup_2; eauto.
    + eauto.
Qed.

(** ** The classifier's priority order *)

(** C3.  For every byte string the three copies of [detect_file_extension]
    return the label of the first matching check in the chain mesh prefix,
    PNG prefix, KTX prefix, DDS prefix, RIFF/WAVE prefix, BKHD prefix, AKPK
    prefix, zstd prefix, TGA trailer, and the empty label when none matches.
    Hence a check that matches while no earlier one does decides the label,
    whatever later checks say. *)
Theorem C3_classifier_first_match_priority (data : list byte) :
  NpkUnlocker.detect_file_extension data = Spec.classify data
  ∧ NpkUnlock_GUI.detect_file_extension data = Spec.classify data
  ∧ PPKUnlocker.detect_file_extension data = Spec.classify data
  ∧ (∀ i check label,
       Spec.classifier_chain !! i = Some (check, label) →
       check data = true →
       (∀ j c l, j < i → Spec.classifier_chain !! j = Some (c, l) → c data = false) →
       NpkUnlocker.detect_file_extension data = label)
  ∧ ((∀ c l, (c, l) ∈ Spec.classifier_chain → c data = false) →
     NpkUnlocker.detect_file_extension data = "").
Proof.
  split; [apply NpkUnlocker_detect_classify|].
  split; [apply GUI_detect_classify|].
  split; [apply PPK_detect_classify|].
  rewrite NpkUnlocker_detect_classify. split.
  - intros i check label. apply first_match_priority.
  - apply first_match_none.
Qed.

Lemma C3_witness :
  Spec.has_trailer (Py.b "TRUEVISION-XFILE." ++ [x00]) png_with_tga_trailer = true
  ∧ NpkUnlocker.detect_file_extension png_with_tga_trailer = ".png".
Proof.
  split; [reflexivity|].
  destruct (C3_classifier_first_match_priority png_with_tga_trailer)
    as (_ & _ & _ & Hprio & _).
  apply (Hprio 1 (Spec.has_prefix (x89 :: Py.b "PNG")) ".png").
  - reflexivity.
  - reflexivity.
  - intros j c l Hj Hl.
    destruct j as [|j]; [|lia].
    injection Hl as <- _. reflexivity.
Defined.

(** ** The scanner finds every signature *)

(** C4.  For every buffer both scanning loops return, in ascending order,
    exactly the offsets at which the four bytes [28 B5 2F FD] occur: every
    occurrence is reported, nothing else is, consecutive offsets are at
    least four bytes apart, and the position in the list is the order of
    discovery. *)
Theorem C4_scanner_reports_every_signature (data : list byte) :
  NpkUnlock_GUI.scan_zstd_frames data = Some (Spec.signature_offsets data)
  ∧ NpkUnlocker.scan_frames data = Some (Spec.signature_offsets data)
  ∧ (∀ p, p ∈ Spec.signature_offsets data ↔
          p + 4 ≤ length data ∧ Py.slice data p (p + 4) = ZSTD)
  ∧ StronglySorted lt (Spec.signature_offsets data)
  ∧ (∀ i p q, Spec.signature_offsets data !! i = Some p →
              Spec.signature_offsets data !! S i = Some q → p + 4 ≤ q).
Proof.
  split; [apply GUI_scan_zstd_frames_spec|].
  split; [apply NpkUnlocker_scan_frames_spec|].
  split; [|split].
  - intros p. rewrite signature_offsets_elem. unfold Py.slice.
    replace (p + 4 - p) with 4 by lia. split.
    + intros [_ Hocc]. split.
      * by destruct (occurs_at_bound _ _ _ Hocc).
      * by apply occurs_at_true in Hocc.
    + intros [Hb Hs]. split; [lia|]. by apply occurs_at_true.
  - apply filter_seq_sorted.
  - intros i p q Hp Hq.
    pose proof (sorted_consecutive _ _ _ _ (filter_seq_sorted _ _ _) Hp Hq) as Hlt.
    apply list_elem_of_lookup_2, signature_offsets_elem in Hp as [_ Hp].
    apply list_elem_of_lookup_2, signature_offsets_elem in Hq as [_ Hq].
    destruct (decide (p + 4 ≤ q)) as [|Hn]; [done|].
    replace q with (p + (q - p)) in Hq by lia.
    rewrite (zstd_no_overlap data p (q - p)) in Hq by (done || lia). done.
Qed.

Lemma C4_witness :
  NpkUnlock_GUI.scan_zstd_frames two_signatures = Some [1; 7] ∧ 1 + 4 ≤ 7.
Proof.
  destruct (C4_scanner_reports_every_signature two_signatures)
    as (Hscan & _ & _ & _ & Hgap).
  split.
  - rewrite Hscan. reflexivity.
  - apply (Hgap 0 1 7); reflexivity.
Defined.

(** ** Counting artifacts *)

Ltac wp_atomic_step := apply wp_bind; apply wp_atomic; cbn beta.

Section Counting.
Context `{Primitives}.

Lemma NpkUnlocker_collect_le results c :
  NpkUnlocker.collect results c ≤ c + length results.
Proof.
  revert c. induction results as [|r results IH]; intros c; simpl; [lia|].
  specialize (IH (if r then c + 1 else c)). destruct r; lia.
Qed.

Lemma NpkUnlocker_serial_loop_le data output_folder total frames c σ :
  wp (NpkUnlocker.serial_loop data output_folder total frames c)
     (λ n _, n ≤ c + length frames) σ.
Proof.
  revert c σ. induction frames as [|[i frame_start] frames IH]; intros c σ.
  - apply wp_ret. simpl. lia.
  - cbn [NpkUnlocker.serial_loop]. unfold NpkUnlocker.print_noend.
    wp_atomic_step. apply wp_bind. unfold wp at 1.
    eapply wp_mono; [|apply IH].
    cbn beta. intros n _ Hn. cbn [length].
    destruct (exec _ _).1; lia.
Qed.

Lemma NpkUnlocker_extracted_le_found fast_mode max_threads schedule
    pkg_file_path data output_folder σ :
  ∃ p, NpkUnlocker.extract_zstd_container_with fast_mode max_threads schedule
         pkg_file_path data output_folder = Some p
       ∧ returned_at_most (length (Spec.signature_offsets data)) fast_mode
           max_threads (exec p σ).1.
Proof.
  unfold NpkUnlocker.extract_zstd_container_with.
  rewrite NpkUnlocker_scan_frames_spec. cbn [mbind option_bind].
  eexists. split; [reflexivity|].
  set (frame_positions := Spec.signature_offsets data).
  set (Q := returned_at_most (length frame_positions) fast_mode max_threads).
  match goal with |- Q (exec ?p σ).1 => change (wp p (λ o _, Q o) σ) end.
  unfold NpkUnlocker.print.
  do 10 wp_atomic_step.
  apply wp_bind.
  match goal with |- wp _ _ ?σ' => generalize σ'; intros σ1 end.
  eapply (wp_mono _ (λ o _, Q o)).
  { intros [n|exception] σ2 Hn; [|by apply wp_ret].
    do 2 wp_atomic_step. by apply wp_ret. }
  subst Q. destruct fast_mode; cbn [andb].
  - destruct (0 <? length frame_positions).
    + destruct (Nat.eqb_spec max_threads 0) as [Hz|_]; [by apply wp_ret|].
      wp_atomic_step. apply wp_ret. simpl.
      etrans; [apply NpkUnlocker_collect_le|].
      rewrite length_run_pool, length_map, length_enumerate. lia.
    + apply wp_bind. eapply wp_mono; [|apply NpkUnlocker_serial_loop_le].
      cbn beta. intros n σ2 Hn. apply wp_ret. simpl.
      rewrite length_enumerate in Hn. lia.
  - apply wp_bind. eapply wp_mono; [|apply NpkUnlocker_serial_loop_le].
    cbn beta. intros n σ2 Hn. apply wp_ret. simpl.
    rewrite length_enumerate in Hn. lia.
Qed.

Lemma artifacts_app out1 out2 :
  NpkUnlock_GUI.artifacts (out1 ++ out2)
  = NpkUnlock_GUI.artifacts out1 ++ NpkUnlock_GUI.artifacts out2.
Proof. apply omap_app. Qed.

Lemma finished_counts_app out1 out2 :
  NpkUnlock_GUI.finished_counts (out1 ++ out2)
  = NpkUnlock_GUI.finished_counts out1 ++ NpkUnlock_GUI.finished_counts out2.
Proof. apply omap_app. Qed.

Lemma account_ok r position total acc :
  acc_ok acc →
  acc_ok (NpkUnlock_GUI.account r position total acc)
  ∧ (NpkUnlock_GUI.account r position total acc).1 ≤ acc.1 + 1.
Proof.
  destruct r as [[ok msg] inf], acc as [c out]. intros [Ha Hf]. simpl in *.
  unfold acc_ok.
  destruct ok, inf as [i|]; simpl;
    rewrite ?artifacts_app, ?finished_counts_app, ?length_app, ?Hf, ?Ha;
    simpl; split; (split || idtac); lia || done.
Qed.

Lemma GUI_serial_loop_count data output_root stop_flag enable_md5
    enable_type_detect total frames acc σ :
  acc_ok acc →
  wp (NpkUnlock_GUI.serial_loop data output_root stop_flag enable_md5
        enable_type_detect total frames acc)
     (λ acc' _, acc_ok acc' ∧ acc'.1 ≤ acc.1 + length frames) σ.
Proof.
  revert acc σ. induction frames as [|[i frame_start] frames IH]; intros acc σ Hacc.
  - apply wp_ret. split; [done|]. simpl. lia.
  - cbn [NpkUnlock_GUI.serial_loop]. wp_atomic_step.
    destruct (NpkUnlock_GUI.read_stop stop_flag σ).1.
    { apply wp_ret. split; [done|]. lia. }
    apply wp_bind. unfold wp at 1.
    destruct (account_ok (exec (NpkUnlock_GUI.extract_single_frame data frame_start
                output_root i stop_flag enable_md5 enable_type_detect)
                (NpkUnlock_GUI.read_stop stop_flag σ).2).1 i total acc Hacc)
      as [Hok Hle].
    eapply wp_mono; [|by apply IH].
    cbn beta. intros acc' _ [Hok' Hle']. split; [done|]. cbn [length]. lia.
Qed.

Lemma GUI_submit_loop_length data output_root stop_flag enable_md5
    enable_type_detect frames futures σ :
  wp (NpkUnlock_GUI.submit_loop data output_root stop_flag enable_md5
        enable_type_detect frames futures)
     (λ futures' _, length futures' ≤ length futures + length frames) σ.
Proof.
  revert futures σ. induction frames as [|[i frame_start] frames IH]; intros futures σ.
  - apply wp_ret. lia.
  - cbn [NpkUnlock_GUI.submit_loop]. wp_atomic_step.
    destruct (NpkUnlock_GUI.read_stop stop_flag σ).1.
    { apply wp_ret. lia. }
    eapply wp_mono; [|apply IH].
    cbn beta. intros futures' _. rewrite length_app. simpl. lia.
Qed.

Lemma GUI_collect_loop_count stop_flag total results acc σ :
  acc_ok acc →
  wp (NpkUnlock_GUI.collect_loop stop_flag total results acc)
     (λ acc' _, acc_ok acc' ∧ acc'.1 ≤ acc.1 + length results) σ.
Proof.
  revert acc σ. induction results as [|[idx r] results IH]; intros acc σ Hacc.
  - apply wp_ret. split; [done|]. simpl. lia.
  - cbn [NpkUnlock_GUI.collect_loop]. wp_atomic_step.
    destruct (NpkUnlock_GUI.read_stop stop_flag σ).1.
    { apply wp_ret. split; [done|]. lia. }
    destruct (account_ok r idx total acc Hacc) as [Hok Hle].
    eapply wp_mono; [|by apply IH].
    cbn beta. intros acc' _ [Hok' Hle']. split; [done|]. cbn [length]. lia.
Qed.

Lemma GUI_finish_count stop_flag total acc σ :
  acc_ok acc → acc.1 ≤ total →
  wp (NpkUnlock_GUI.finish stop_flag acc) (λ out _, count_bounded total out) σ.
Proof.
  destruct acc as [c out]. intros [Ha Hf] Hle. cbn [fst snd] in *.
  unfold NpkUnlock_GUI.finish. wp_atomic_step. apply wp_ret.
  unfold count_bounded.
  destruct (NpkUnlock_GUI.read_stop stop_flag σ).1;
    rewrite !artifacts_app, !finished_counts_app, Hf, !length_app, Ha; simpl;
    (split; [lia|]); intros n Hn; apply list_elem_of_singleton in Hn; lia.
Qed.

Lemma GUI_extracted_le_found input_file input output_root fast_mode max_threads
    enable_md5 enable_type_detect stop_flag schedule σ :
  ∃ p, NpkUnlock_GUI.run input_file input output_root fast_mode max_threads
         enable_md5 enable_type_detect stop_flag schedule = Some p
       ∧ count_bounded (length (Spec.signature_offsets (default [] input)))
           (exec p σ).1.
Proof.
  unfold NpkUnlock_GUI.run. destruct input as [data|]; cbn [default from_option id].
  2:{ eexists. split; [reflexivity|]. split; [simpl; lia|].
      intros n Hn. by apply elem_of_nil in Hn. }
  rewrite GUI_scan_zstd_frames_spec. cbn [mbind option_bind].
  eexists. split; [reflexivity|].
  set (frame_positions := Spec.signature_offsets data).
  match goal with |- count_bounded _ (exec ?p σ).1 =>
    change (wp p (λ out _, count_bounded (length frame_positions) out) σ) end.
  wp_atomic_step. cbv zeta. wp_atomic_step.
  match goal with |- context [NpkUnlock_GUI.read_stop stop_flag ?σ'] =>
    destruct (NpkUnlock_GUI.read_stop stop_flag σ') as [s σ1] end.
  cbn [fst snd]. destruct s.
  { apply wp_ret. split; [simpl; lia|].
    intros n Hn. apply list_elem_of_singleton in Hn. by subst. }
  destruct (length frame_positions =? 0) eqn:Hz.
  { apply wp_ret. split; [simpl; lia|].
    intros n Hn. apply list_elem_of_singleton in Hn. by subst. }
  wp_atomic_step.
  match goal with |- wp _ _ ?σ' => generalize σ'; intros σ2 end.
  destruct fast_mode.
  - destruct (max_threads =? 0).
    { apply wp_ret. split; [simpl; lia|]. intros n Hn. by apply elem_of_nil in Hn. }
    apply wp_bind. eapply wp_mono; [|apply GUI_submit_loop_length].
    cbn beta. intros futures σ3 Hfut. wp_atomic_step.
    apply wp_bind.
    eapply wp_mono; [|apply GUI_collect_loop_count; by split].
    cbn beta. intros acc σ4 [Hok Hle].
    apply GUI_finish_count; [done|].
    rewrite length_enumerate, length_run_pool in Hle.
    rewrite length_enumerate in Hfut. simpl in *. lia.
  - apply wp_bind.
    eapply wp_mono; [|apply GUI_serial_loop_count; by split].
    cbn beta. intros acc σ3 [Hok Hle].
    apply GUI_finish_count; [done|].
    rewrite length_enumerate in Hle. simpl in *. lia.
Qed.

End Counting.

(** ** Decode failures *)

Section DecodeFailure.
Context `{Primitives}.

Lemma GUI_task_decode_failure data frame_start output_root frame_idx stop_flag
    enable_md5 enable_type_detect σ e :
  zstd_decompress (drop frame_start data) = ZstdError e →
  stop_flag (NpkUnlock_GUI.polls σ) = false →
  stop_flag (S (NpkUnlock_GUI.polls σ)) = false →
  exec (NpkUnlock_GUI.extract_single_frame data frame_start output_root frame_idx
          stop_flag enable_md5 enable_type_detect) σ
  = ((false,
      NpkUnlock_GUI.msg_decode_failed
        (NpkUnlock_GUI.frame_prefix frame_idx frame_start) e,
      None),
     polled 2 σ).
Proof.
  intros He H0 H1. unfold NpkUnlock_GUI.extract_single_frame.
  rewrite exec_bind, exec_atomic. cbn [NpkUnlock_GUI.read_stop]. rewrite H0.
  cbv zeta.
  rewrite exec_bind, exec_atomic. cbn [NpkUnlock_GUI.read_stop NpkUnlock_GUI.polls].
  rewrite H1, He. reflexivity.
Qed.
Lemma NpkUnlocker_task_decode_failure data frame_start output_root frame_idx σ e :
  zstd_decompress (drop frame_start data) = ZstdError e →
  exec (NpkUnlocker.extract_single_frame data frame_start output_root frame_idx) σ
  = (false, printed [cli_failure_line frame_idx e] σ).
Proof.
  intros He. unfold NpkUnlocker.extract_single_frame. rewrite He. reflexivity.
Qed.

Lemma GUI_serial_loop_decode_failure data output_root stop_flag enable_md5
    enable_type_detect total i frame_start rest acc σ e :
  zstd_decompress (drop frame_start data) = ZstdError e →
  stop_flag (NpkUnlock_GUI.polls σ) = false →
  stop_flag (1 + NpkUnlock_GUI.polls σ) = false →
  stop_flag (2 + NpkUnlock_GUI.polls σ) = false →
  exec (NpkUnlock_GUI.serial_loop data output_root stop_flag enable_md5
          enable_type_detect total ((i, frame_start) :: rest) acc) σ
  = exec (NpkUnlock_GUI.serial_loop data output_root stop_flag enable_md5
            enable_type_detect total rest
            (NpkUnlock_GUI.account
               (false,
                NpkUnlock_GUI.msg_decode_failed
                  (NpkUnlock_GUI.frame_prefix i frame_start) e,
                None) i total acc))
         (polled 3 σ).
Proof.
  intros He H0 H1 H2. cbn [NpkUnlock_GUI.serial_loop].
  rewrite exec_bind, exec_atomic. cbn [NpkUnlock_GUI.read_stop]. rewrite H0.
  rewrite exec_bind.
  rewrite (GUI_task_decode_failure _ _ _ _ _ _ _ _ e) by done.
  reflexivity.
Qed.

Lemma NpkUnlocker_serial_loop_decode_failure data output_folder total i
    frame_start rest c σ e :
  zstd_decompress (drop frame_start data) = ZstdError e →
  exec (NpkUnlocker.serial_loop data output_folder total ((i, frame_start) :: rest) c) σ
  = exec (NpkUnlocker.serial_loop data output_folder total rest c)
         (printed [NpkUnlocker.processing_line i total frame_start;
                   cli_failure_line i e] σ).
Proof.
  intros He. cbn [NpkUnlocker.serial_loop].
  rewrite exec_bind. unfold NpkUnlocker.print_noend. rewrite exec_atomic.
  cbn [modify]. rewrite exec_bind.
  rewrite (NpkUnlocker_task_decode_failure _ _ _ _ _ e) by done.
  unfold printed. cbn. by rewrite <- app_assoc.
Qed.

Lemma error_messages_app out1 out2 :
  NpkUnlock_GUI.error_messages (out1 ++ out2)
  = NpkUnlock_GUI.error_messages out1 ++ NpkUnlock_GUI.error_messages out2.
Proof. apply omap_app. Qed.

Lemma account_no_error r position total acc :
  NpkUnlock_GUI.error_messages acc.2 = [] →
  NpkUnlock_GUI.error_messages (NpkUnlock_GUI.account r position total acc).2 = [].
Proof.
  destruct r as [[ok msg] inf], acc as [c out]. simpl. intros He.
  destruct ok, inf as [i|]; simpl; by rewrite !error_messages_app, He.
Qed.

Lemma GUI_serial_loop_no_error data output_root stop_flag enable_md5
    enable_type_detect total frames acc σ :
  NpkUnlock_GUI.error_messages acc.2 = [] →
  wp (NpkUnlock_GUI.serial_loop data output_root stop_flag enable_md5
        enable_type_detect total frames acc)
     (λ acc' _, NpkUnlock_GUI.error_messages acc'.2 = []) σ.
Proof.
  revert acc σ. induction frames as [|[i frame_start] frames IH]; intros acc σ Hacc.
  - by apply wp_ret.
  - cbn [NpkUnlock_GUI.serial_loop]. wp_atomic_step.
    destruct (NpkUnlock_GUI.read_stop stop_flag σ).1; [by apply wp_ret|].
    apply wp_bind. unfold wp at 1. apply IH. by apply account_no_error.
Qed.

Lemma GUI_collect_loop_no_error stop_flag total results acc σ :
  NpkUnlock_GUI.error_messages acc.2 = [] →
  wp (NpkUnlock_GUI.collect_loop stop_flag total results acc)
     (λ acc' _, NpkUnlock_GUI.error_messages acc'.2 = []) σ.
Proof.
  revert acc σ. induction results as [|[idx r] results IH]; intros acc σ Hacc.
  - by apply wp_ret.
  - cbn [NpkUnlock_GUI.collect_loop]. wp_atomic_step.
    destruct (NpkUnlock_GUI.read_stop stop_flag σ).1; [by apply wp_ret|].
    apply IH. by apply account_no_error.
Qed.

Lemma GUI_finish_completes stop_flag acc σ :
  NpkUnlock_GUI.error_messages acc.2 = [] →
  wp (NpkUnlock_GUI.finish stop_flag acc) (λ out _, completed_with acc.1 out) σ.
Proof.
  destruct acc as [c out]. cbn [fst snd]. intros He.
  unfold NpkUnlock_GUI.finish. wp_atomic_step. apply wp_ret.
  eexists. rewrite app_assoc. split; [reflexivity|].
  rewrite error_messages_app, He.
  by destruct (NpkUnlock_GUI.read_stop stop_flag σ).1.
Qed.

Lemma GUI_run_completes input_file data output_root fast_mode max_threads
    enable_md5 enable_type_detect stop_flag schedule σ :
  fast_mode = false ∨ 0 < max_threads →
  ∃ p, NpkUnlock_GUI.run input_file (Some data) output_root fast_mode max_threads
         enable_md5 enable_type_detect stop_flag schedule = Some p
       ∧ ∃ n, completed_with n (exec p σ).1.
Proof.
  intros Hpool. unfold NpkUnlock_GUI.run.
  rewrite GUI_scan_zstd_frames_spec. cbn [mbind option_bind].
  eexists. split; [reflexivity|].
  set (frame_positions := Spec.signature_offsets data).
  match goal with |- ∃ n, completed_with n (exec ?p σ).1 =>
    change (wp p (λ out _, ∃ n, completed_with n out) σ) end.
  wp_atomic_step. cbv zeta. wp_atomic_step.
  match goal with |- context [NpkUnlock_GUI.read_stop stop_flag ?σ'] =>
    destruct (NpkUnlock_GUI.read_stop stop_flag σ') as [s σ1] end.
  cbn [fst snd]. destruct s.
  { apply wp_ret. exists 0. eexists (_ ++ [_]).
    split; [by rewrite <- app_assoc|reflexivity]. }
  destruct (length frame_positions =? 0) eqn:Hz.
  { apply wp_ret. exists 0. eexists. split; [reflexivity|]. reflexivity. }
  wp_atomic_step.
  match goal with |- wp _ _ ?σ' => generalize σ'; intros σ2 end.
  destruct fast_mode.
  - destruct Hpool as [|Hpool]; [done|].
    destruct (Nat.eqb_spec max_threads 0) as [|_]; [lia|].
    apply wp_bind. unfold wp at 1. wp_atomic_step.
    apply wp_bind.
    eapply wp_mono; [|apply GUI_collect_loop_no_error; reflexivity].
    cbn beta. intros acc σ4 Hok.
    eapply wp_mono; [|by apply GUI_finish_completes]. cbn beta. eauto.
  - apply wp_bind.
    eapply wp_mono; [|apply GUI_serial_loop_no_error; reflexivity].
    cbn beta. intros acc σ3 Hok.
    eapply wp_mono; [|by apply GUI_finish_completes]. cbn beta. eauto.
Qed.

Lemma GUI_single_truncated_frame input_file data output_root fast_mode max_threads
    enable_md5 enable_type_detect stop_flag schedule σ pos e :
  Spec.signature_offsets data = [pos] →
  zstd_decompress (drop pos data) = ZstdError e →
  (∀ k, stop_flag k = false) →
  fast_mode = false ∨ 0 < max_threads →
  ∃ p, NpkUnlock_GUI.run input_file (Some data) output_root fast_mode max_threads
         enable_md5 enable_type_detect stop_flag schedule = Some p
       ∧ ∃ out', (exec p σ).1 = out' ++ [NpkUnlock_GUI.finished_signal 0]
                 ∧ NpkUnlock_GUI.artifacts out' = []
                 ∧ NpkUnlock_GUI.error_messages out' = []
                 ∧ NpkUnlock_GUI.extract_log out'
                   = [NpkUnlock_GUI.msg_decode_failed
                        (NpkUnlock_GUI.frame_prefix 0 pos) e]
                 ∧ fs_files (NpkUnlock_GUI.fs (exec p σ).2)
                   = fs_files (NpkUnlock_GUI.fs σ).
Proof.
  intros Hsig He Hstop Hpool. unfold NpkUnlock_GUI.run.
  rewrite GUI_scan_zstd_frames_spec, Hsig. cbn [mbind option_bind].
  eexists. split; [reflexivity|].
  rewrite exec_bind, exec_atomic. cbn [modify]. cbv zeta.
  rewrite exec_bind, exec_atomic. cbn [NpkUnlock_GUI.read_stop]. rewrite Hstop.
  cbn [length Nat.eqb].
  rewrite exec_bind, exec_atomic. cbn [modify].
  destruct fast_mode.
  - destruct Hpool as [|Hpool]; [done|].
    destruct (Nat.eqb_spec max_threads 0) as [|_]; [lia|].
    cbn [enumerate length seq zip zip_with NpkUnlock_GUI.submit_loop].
    rewrite !exec_bind, exec_atomic. cbn [NpkUnlock_GUI.read_stop]. rewrite Hstop.
    cbn [exec mret prog_ret app].
    rewrite exec_bind, exec_atomic, run_pool_single.
    erewrite GUI_task_decode_failure by (done || apply Hstop).
    cbn [fst snd enumerate length seq zip zip_with NpkUnlock_GUI.collect_loop].
    rewrite !exec_bind, exec_atomic. cbn [NpkUnlock_GUI.read_stop]. rewrite Hstop.
    cbn [exec mret prog_ret NpkUnlock_GUI.account].
    unfold NpkUnlock_GUI.finish.
    rewrite exec_bind, exec_atomic. cbn [NpkUnlock_GUI.read_stop]. rewrite Hstop.
    cbn [exec mret prog_ret fst snd].
    eexists. rewrite !app_assoc. split; [reflexivity|].
    repeat split.
  - cbn [enumerate length seq zip zip_with].
    rewrite exec_bind.
    erewrite GUI_serial_loop_decode_failure by (done || apply Hstop).
    cbn [NpkUnlock_GUI.serial_loop exec mret prog_ret].
    unfold NpkUnlock_GUI.finish. cbn [NpkUnlock_GUI.account].
    rewrite exec_bind, exec_atomic. cbn [NpkUnlock_GUI.read_stop]. rewrite Hstop.
    cbn [exec mret prog_ret fst snd].
    eexists. rewrite !app_assoc. split; [reflexivity|].
    repeat split.
Qed.

Lemma NpkUnlocker_single_truncated_frame fast_mode max_threads schedule
    pkg_file_path data output_folder σ pos e :
  Spec.signature_offsets data = [pos] →
  zstd_decompress (drop pos data) = ZstdError e →
  fast_mode = false ∨ 0 < max_threads →
  ∃ p, NpkUnlocker.extract_zstd_container_with fast_mode max_threads schedule
         pkg_file_path data output_folder = Some p
       ∧ (exec p σ).1 = NpkUnlocker.Returned 0
       ∧ fs_files (NpkUnlocker.fs (exec p σ).2) = fs_files (NpkUnlocker.fs σ).
Proof.
  intros Hsig He Hpool. unfold NpkUnlocker.extract_zstd_container_with.
  rewrite NpkUnlocker_scan_frames_spec, Hsig. cbn [mbind option_bind].
  eexists. split; [reflexivity|].
  match goal with |- (exec ?p σ).1 = ?o ∧ _ =>
    change (wp p (λ r σ', r = o
              ∧ fs_files (NpkUnlocker.fs σ') = fs_files (NpkUnlocker.fs σ)) σ) end.
  unfold NpkUnlocker.print.
  do 10 wp_atomic_step.
  cbn [length Nat.ltb Nat.leb enumerate seq zip zip_with map].
  apply wp_bind.
  destruct fast_mode; cbn [andb].
  - destruct Hpool as [|Hpool]; [done|].
    destruct (Nat.eqb_spec max_threads 0) as [|_]; [lia|].
    wp_atomic_step. rewrite run_pool_single.
    unfold NpkUnlocker.thread_task, NpkUnlocker.print_noend.
    rewrite exec_bind, exec_atomic. cbn [modify].
    rewrite (NpkUnlocker_task_decode_failure _ _ _ _ _ e) by done.
    apply wp_ret. cbn [fst snd NpkUnlocker.collect].
    do 2 wp_atomic_step. by apply wp_ret.
  - apply wp_bind. unfold wp at 1.
    rewrite (NpkUnlocker_serial_loop_decode_failure _ _ _ _ _ _ _ _ e) by done.
    cbn [NpkUnlocker.serial_loop exec mret prog_ret fst snd].
    apply wp_ret. do 2 wp_atomic_step. by apply wp_ret.
Qed.

End DecodeFailure.

(** ** The checkpoints of an extraction task *)

Section Checkpoints.
Context `{Primitives}.

Lemma GUI_task_exec data frame_start output_root frame_idx stop_flag enable_md5
    enable_type_detect σ :
  exec (NpkUnlock_GUI.extract_single_frame data frame_start output_root frame_idx
          stop_flag enable_md5 enable_type_detect) σ
  = task_outcome data frame_start output_root frame_idx stop_flag enable_md5
      enable_type_detect σ.
Proof.
  unfold NpkUnlock_GUI.extract_single_frame, task_outcome. cbv zeta.
  cbn [Nat.add].
  rewrite exec_bind, exec_atomic. cbn [NpkUnlock_GUI.read_stop].
  destruct (stop_flag (NpkUnlock_GUI.polls σ)); [reflexivity|].
  rewrite exec_bind, exec_atomic. cbn [NpkUnlock_GUI.read_stop NpkUnlock_GUI.polls].
  destruct (stop_flag (S (NpkUnlock_GUI.polls σ))); [reflexivity|].
  destruct (zstd_decompress (drop frame_start data)) as [decompressed|e]; [|reflexivity].
  rewrite exec_bind, exec_atomic. cbn [NpkUnlock_GUI.read_stop NpkUnlock_GUI.polls].
  destruct (stop_flag (S (S (NpkUnlock_GUI.polls σ)))); [reflexivity|].
  rewrite exec_bind.
  destruct enable_md5; cbn [andb].
  - rewrite exec_atomic. cbn [gets NpkUnlock_GUI.extracted_hashes].
    case_bool_decide as Hdup; [reflexivity|].
    rewrite exec_bind, exec_atomic. cbn [modify].
    rewrite exec_bind, exec_atomic.
    cbn [NpkUnlock_GUI.read_stop NpkUnlock_GUI.polls NpkUnlock_GUI.with_fs].
    destruct (stop_flag (S (S (S (NpkUnlock_GUI.polls σ))))); reflexivity.
  - cbn [exec mret prog_ret].
    rewrite exec_bind, exec_atomic. cbn [modify].
    rewrite exec_bind, exec_atomic.
    cbn [NpkUnlock_GUI.read_stop NpkUnlock_GUI.polls NpkUnlock_GUI.with_fs].
    destruct (stop_flag (S (S (S (NpkUnlock_GUI.polls σ))))); reflexivity.
Qed.

Lemma append_inj_prefix (p a b : string) : p +:+ a = p +:+ b → a = b.
Proof. induction p as [|c p IH]; simpl; [done|]. intros [= Heq]. auto. Qed.

Lemma interrupt_messages_distinct frame_idx frame_start :
  let prefix := NpkUnlock_GUI.frame_prefix frame_idx frame_start in
  NoDup [ NpkUnlock_GUI.msg_not_started;
          NpkUnlock_GUI.msg_skip_decompress prefix;
          NpkUnlock_GUI.msg_not_written_after_decompress prefix;
          NpkUnlock_GUI.msg_not_written prefix ].
Proof.
  intros prefix.
  assert (Hstart : ∀ rest, NpkUnlock_GUI.msg_not_started ≠ prefix +:+ rest).
  { intros rest. unfold prefix, NpkUnlock_GUI.frame_prefix. simpl. discriminate. }
  assert (Hsuffix : ∀ a b, String.eqb a b = false → prefix +:+ a ≠ prefix +:+ b).
  { intros a b Hab Heq. apply append_inj_prefix in Heq.
    apply String.eqb_neq in Hab. done. }
  unfold NpkUnlock_GUI.msg_skip_decompress,
    NpkUnlock_GUI.msg_not_written_after_decompress, NpkUnlock_GUI.msg_not_written.
  repeat constructor; rewrite ?not_elem_of_cons; repeat split;
    auto using not_elem_of_nil.
Qed.

Lemma GUI_task_reads data frame_start output_root frame_idx stop_flag enable_md5
    enable_type_detect σ :
  let r := exec (NpkUnlock_GUI.extract_single_frame data frame_start output_root
                   frame_idx stop_flag enable_md5 enable_type_detect) σ in
  NpkUnlock_GUI.polls r.2 ≤ 4 + NpkUnlock_GUI.polls σ
  ∧ (r.1.1.1 = true → NpkUnlock_GUI.polls r.2 = 4 + NpkUnlock_GUI.polls σ).
Proof.
  cbv zeta. rewrite GUI_task_exec. unfold task_outcome. cbv zeta.
  repeat match goal with
         | |- context [if ?c then _ else _] => destruct c
         | |- context [match ?c with Decoded _ => _ | ZstdError _ => _ end] => destruct c
         end; simpl; split; (lia || done).
Qed.

Lemma GUI_task_interrupted data frame_start output_root frame_idx stop_flag
    enable_md5 enable_type_detect σ j :
  let r := exec (NpkUnlock_GUI.extract_single_frame data frame_start output_root
                   frame_idx stop_flag enable_md5 enable_type_detect) σ in
  NpkUnlock_GUI.polls σ ≤ j → j < NpkUnlock_GUI.polls r.2 → stop_flag j = true →
  r.1.1.1 = false ∧ r.1.2 = None
  ∧ fs_files (NpkUnlock_GUI.fs r.2) = fs_files (NpkUnlock_GUI.fs σ)
  ∧ NpkUnlock_GUI.extracted_hashes r.2 = NpkUnlock_GUI.extracted_hashes σ.
Proof.
  cbv zeta. rewrite GUI_task_exec. unfold task_outcome. cbv zeta.
  set (k := NpkUnlock_GUI.polls σ).
  destruct (stop_flag k) eqn:H0; [done|].
  destruct (stop_flag (1 + k)) eqn:H1; [done|].
  destruct (zstd_decompress (drop frame_start data)) as [decompressed|e]; [|done].
  destruct (stop_flag (2 + k)) eqn:H2; [done|].
  destruct (enable_md5 && _); [done|].
  destruct (stop_flag (3 + k)) eqn:H3; [done|].
  cbn [fst snd after_write NpkUnlock_GUI.polls]. fold k. intros Hle Hlt Hj.
  assert (j = k ∨ j = 1 + k ∨ j = 2 + k ∨ j = 3 + k) as Hcases by lia.
  destruct Hcases as [Hc|[Hc|[Hc|Hc]]]; subst j; congruence.
Qed.

End Checkpoints.


(** A task that runs to its end reads the flag four times, not three, and
    a flag raised just before the fourth read stops the task after the
    category was chosen and its folder created, with a message of its
    own. *)
Lemma C8_counterexample :
  let task stop_flag :=
    NpkUnlock_GUI.extract_single_frame one_frame 0 "Output" 0 stop_flag true true in
  ¬ (NpkUnlock_GUI.polls (exec (task Toy.never) fresh_task_state).2 ≤ 3)
  ∧ (exec (task raised_before_fourth_read) fresh_task_state).1
    = (false, NpkUnlock_GUI.msg_not_written (NpkUnlock_GUI.frame_prefix 0 0), None)
  ∧ (NpkUnlock_GUI.msg_not_written (NpkUnlock_GUI.frame_prefix 0 0)
     ∉ [ NpkUnlock_GUI.msg_not_started;
         NpkUnlock_GUI.msg_skip_decompress (NpkUnlock_GUI.frame_prefix 0 0);
         NpkUnlock_GUI.msg_not_written_after_decompress (NpkUnlock_GUI.frame_prefix 0 0) ])
  ∧ fs_dirs (NpkUnlock_GUI.fs (exec (task raised_before_fourth_read) fresh_task_state).2)
    = {["Output/未知文件"]}.
Proof.
  cbv zeta. split; [|split; [|split]].
  - vm_compute. lia.
  - vm_compute. reflexivity.
  - pose proof (interrupt_messages_distinct 0 0) as Hnd. cbv zeta in Hnd.
    apply NoDup_cons in Hnd as [Ha Hnd]. apply NoDup_cons in Hnd as [Hb Hnd].
    apply NoDup_cons in Hnd as [Hc _].
    intros Hin. repeat (apply elem_of_cons in Hin as [Hin|Hin]).
    + apply Ha. rewrite <- Hin. do 2 right. left.
    + apply Hb. rewrite <- Hin. right. left.
    + apply Hc. rewrite <- Hin. left.
    + by apply elem_of_nil in Hin.
  - rewrite GUI_task_exec. vm_compute. reflexivity.
Qed.

(** C8, amended.  An extraction task reads the cancellation flag at four
    checkpoints: on entry, before decompressing, after decompressing and
    before the duplicate check, and after the category folder was created
    and before the file is written.  A flag found set at a checkpoint ends
    the task with that checkpoint's own message; the four messages differ;
    and whenever any read of the task finds the flag set, the task returns
    failure with no artifact, writes no file and records no hash. *)
Theorem C8_four_checkpoints `{Primitives} (data : list byte) (frame_start : nat)
    (output_root : string) (frame_idx : nat) (stop_flag : nat → bool)
    (enable_md5 enable_type_detect : bool) (σ : NpkUnlock_GUI.task_state) :
  let k := NpkUnlock_GUI.polls σ in
  let prefix := NpkUnlock_GUI.frame_prefix frame_idx frame_start in
  let r := exec (NpkUnlock_GUI.extract_single_frame data frame_start output_root
                   frame_idx stop_flag enable_md5 enable_type_detect) σ in
  NpkUnlock_GUI.polls r.2 ≤ 4 + k
  ∧ (r.1.1.1 = true → NpkUnlock_GUI.polls r.2 = 4 + k)
  ∧ (stop_flag k = true →
     r = ((false, NpkUnlock_GUI.msg_not_started, None), polled 1 σ))
  ∧ (stop_flag k = false → stop_flag (1 + k) = true →
     r = ((false, NpkUnlock_GUI.msg_skip_decompress prefix, None), polled 2 σ))
  ∧ (∀ decompressed,
       stop_flag k = false → stop_flag (1 + k) = false →
       zstd_decompress (drop frame_start data) = Decoded decompressed →
       stop_flag (2 + k) = true →
       r = ((false, NpkUnlock_GUI.msg_not_written_after_decompress prefix, None),
            polled 3 σ))
  ∧ (∀ decompressed,
       stop_flag k = false → stop_flag (1 + k) = false →
       zstd_decompress (drop frame_start data) = Decoded decompressed →
       stop_flag (2 + k) = false →
       enable_md5 && bool_decide (md5_hexdigest decompressed
                                  ∈ NpkUnlock_GUI.extracted_hashes σ) = false →
       stop_flag (3 + k) = true →
       r = ((false, NpkUnlock_GUI.msg_not_written prefix, None),
            after_mkdir output_root (gui_ext enable_type_detect decompressed) σ))
  ∧ NoDup [ NpkUnlock_GUI.msg_not_started;
            NpkUnlock_GUI.msg_skip_decompress prefix;
            NpkUnlock_GUI.msg_not_written_after_decompress prefix;
            NpkUnlock_GUI.msg_not_written prefix ]
  ∧ (∀ j, k ≤ j → j < NpkUnlock_GUI.polls r.2 → stop_flag j = true →
          r.1.1.1 = false ∧ r.1.2 = None
          ∧ fs_files (NpkUnlock_GUI.fs r.2) = fs_files (NpkUnlock_GUI.fs σ)
          ∧ NpkUnlock_GUI.extracted_hashes r.2 = NpkUnlock_GUI.extracted_hashes σ).
Proof.
  intros k prefix r.
  split; [apply GUI_task_reads|]. split; [apply GUI_task_reads|].
  split; [|split; [|split; [|split; [|split]]]].
  - intros H0. subst r. rewrite GUI_task_exec. unfold task_outcome. cbv zeta.
    fold k. by rewrite H0.
  - intros H0 H1. subst r. rewrite GUI_task_exec. unfold task_outcome. cbv zeta.
    fold k prefix. by rewrite H0, H1.
  - intros d H0 H1 Hd H2. subst r. rewrite GUI_task_exec. unfold task_outcome.
    cbv zeta. fold k prefix. by rewrite H0, H1, Hd, H2.
  - intros d H0 H1 Hd H2 Hdup H3. subst r. rewrite GUI_task_exec.
    unfold task_outcome. cbv zeta. fold k prefix. by rewrite H0, H1, Hd, H2, Hdup, H3.
  - apply interrupt_messages_distinct.
  - intros j. apply GUI_task_interrupted.
Qed.

Lemma C8_witness :
  raised_before_fourth_read 3 = true
  ∧ fs_files (NpkUnlock_GUI.fs
                (exec (NpkUnlock_GUI.extract_single_frame one_frame 0 "Output" 0
                         raised_before_fourth_read true true) fresh_task_state).2)
    = ∅.
Proof.
  split; [reflexivity|].
  destruct (C8_four_checkpoints one_frame 0 "Output" 0 raised_before_fourth_read
              true true fresh_task_state) as (_ & _ & _ & _ & _ & _ & _ & Hset).
  cbv zeta in Hset.
  destruct (Hset 3) as (_ & _ & Hfiles & _).
  - simpl. lia.
  - vm_compute. lia.
  - reflexivity.
  - rewrite Hfiles. reflexivity.
Defined.

(** ** The hash set of a run *)

Section RunTwice.
Context `{Primitives}.

Lemma GUI_read_stop_sim stop_flag :
  (∀ k, stop_flag k = false) →
  sim same_hashes (atomic (NpkUnlock_GUI.read_stop stop_flag)).
Proof.
  intros Hstop. apply sim_atomic. intros σ1 σ2 HR.
  cbn [NpkUnlock_GUI.read_stop fst snd]. by rewrite !Hstop.
Qed.

Lemma GUI_task_sim data frame_start output_root frame_idx stop_flag enable_md5
    enable_type_detect :
  (∀ k, stop_flag k = false) →
  sim same_hashes
    (NpkUnlock_GUI.extract_single_frame data frame_start output_root frame_idx
       stop_flag enable_md5 enable_type_detect).
Proof.
  intros Hstop. unfold NpkUnlock_GUI.extract_single_frame. cbv zeta.
  apply sim_bind; [by apply GUI_read_stop_sim|]. intros [|]; [apply sim_ret|].
  apply sim_bind; [by apply GUI_read_stop_sim|]. intros [|]; [apply sim_ret|].
  destruct (zstd_decompress (drop frame_start data)) as [decompressed|e];
    [|apply sim_ret].
  apply sim_bind; [by apply GUI_read_stop_sim|]. intros [|]; [apply sim_ret|].
  apply sim_bind.
  { destruct enable_md5; [|apply sim_ret].
    apply sim_atomic. intros σ1 σ2 HR. cbn [gets fst snd]. by rewrite HR. }
  intros [|]; [apply sim_ret|].
  apply sim_bind; [by apply sim_atomic|]. intros _.
  apply sim_bind; [by apply GUI_read_stop_sim|]. intros [|]; [apply sim_ret|].
  apply sim_bind; [by apply sim_atomic|]. intros _.
  apply sim_bind; [|intros _; apply sim_ret].
  destruct enable_md5; cbn [when_]; [|apply sim_ret].
  apply sim_atomic. intros σ1 σ2 HR. split; [done|].
  unfold same_hashes in *. cbn. by rewrite HR.
Qed.

Lemma GUI_serial_loop_sim data output_root stop_flag enable_md5 enable_type_detect
    total frames acc :
  (∀ k, stop_flag k = false) →
  sim same_hashes
    (NpkUnlock_GUI.serial_loop data output_root stop_flag enable_md5
       enable_type_detect total frames acc).
Proof.
  intros Hstop. revert acc.
  induction frames as [|[i frame_start] frames IH]; intros acc; [apply sim_ret|].
  cbn [NpkUnlock_GUI.serial_loop].
  apply sim_bind; [by apply GUI_read_stop_sim|]. intros [|]; [apply sim_ret|].
  apply sim_bind; [by apply GUI_task_sim|]. intros r. apply IH.
Qed.

Lemma GUI_finish_sim stop_flag acc :
  (∀ k, stop_flag k = false) →
  sim same_hashes (NpkUnlock_GUI.finish stop_flag acc).
Proof.
  intros Hstop. unfold NpkUnlock_GUI.finish. destruct acc as [c out].
  apply sim_bind; [by apply GUI_read_stop_sim|]. intros s. apply sim_ret.
Qed.

Lemma GUI_collect_loop_sim stop_flag total results acc :
  (∀ k, stop_flag k = false) →
  sim same_hashes (NpkUnlock_GUI.collect_loop stop_flag total results acc).
Proof.
  intros Hstop. revert acc.
  induction results as [|[idx r] results IH]; intros acc; [apply sim_ret|].
  cbn [NpkUnlock_GUI.collect_loop].
  apply sim_bind; [by apply GUI_read_stop_sim|]. intros [|]; [apply sim_ret|].
  apply IH.
Qed.

(** With the flag never raised the first loop of the fast mode submits one
    task per frame. *)
Lemma GUI_submit_loop_exec data output_root stop_flag enable_md5 enable_type_detect
    frames futures σ :
  (∀ k, stop_flag k = false) →
  exec (NpkUnlock_GUI.submit_loop data output_root stop_flag enable_md5
          enable_type_detect frames futures) σ
  = (futures ++
     map (λ '(i, frame_start),
            NpkUnlock_GUI.extract_single_frame data frame_start output_root i
              stop_flag enable_md5 enable_type_detect) frames,
     polled (length frames) σ).
Proof.
  intros Hstop. revert futures σ.
  induction frames as [|[i frame_start] frames IH]; intros futures σ.
  - cbn. rewrite app_nil_r. by destruct σ.
  - cbn [NpkUnlock_GUI.submit_loop]. rewrite exec_bind, exec_atomic.
    cbn [NpkUnlock_GUI.read_stop]. rewrite Hstop, IH.
    cbn [map length]. rewrite <- app_assoc. f_equal.
    unfold polled. cbn. f_equal. lia.
Qed.

Lemma GUI_run_reproducible input_file data output_root fast_mode max_threads
    enable_md5 enable_type_detect stop_flag schedule :
  (∀ k, stop_flag k = false) →
  ∃ p, NpkUnlock_GUI.run input_file (Some data) output_root fast_mode max_threads
         enable_md5 enable_type_detect stop_flag schedule = Some p
       ∧ ∀ σ σ',
           (exec p σ).1 = (exec p σ').1
           ∧ (Spec.signature_offsets data ≠ [] →
              NpkUnlock_GUI.extracted_hashes (exec p σ).2
              = NpkUnlock_GUI.extracted_hashes (exec p σ').2)
           ∧ (Spec.signature_offsets data = [] →
              NpkUnlock_GUI.extracted_hashes (exec p σ).2
              = NpkUnlock_GUI.extracted_hashes σ).
Proof.
  intros Hstop. unfold NpkUnlock_GUI.run.
  rewrite GUI_scan_zstd_frames_spec. cbn [mbind option_bind].
  eexists. split; [reflexivity|]. intros σ σ'.
  rewrite !(exec_bind (atomic (modify _))), !exec_atomic. cbn [modify]. cbv zeta.
  rewrite !(exec_bind (atomic (NpkUnlock_GUI.read_stop _))), !exec_atomic.
  cbn [NpkUnlock_GUI.read_stop]. rewrite !Hstop.
  destruct (Spec.signature_offsets data) as [|pos positions] eqn:Hsig.
  { cbn [length Nat.eqb exec mret prog_ret fst snd]. by repeat split. }
  cbn [length Nat.eqb].
  rewrite !(exec_bind (atomic (modify _))), !exec_atomic. cbn [modify].
  destruct fast_mode.
  - destruct (max_threads =? 0).
    { cbn [exec mret prog_ret fst snd]. by repeat split. }
    rewrite !(exec_bind (NpkUnlock_GUI.submit_loop _ _ _ _ _ _ _)).
    rewrite !GUI_submit_loop_exec by done.
    match goal with
    | |- (exec ?q ?s1).1 = (exec ?q ?s2).1 ∧ _ =>
        assert (Hq : sim same_hashes q);
        [|destruct (exec_sim same_hashes q s1 s2 Hq eq_refl) as [Hout Hhs]]
    end.
    { apply sim_bind.
      - apply sim_atomic. intros σ1 σ2 HR. apply run_pool_sim; [|done].
        apply Forall_app. split; [constructor|].
        apply Forall_fmap, Forall_forall. intros [i frame_start] _.
        by apply GUI_task_sim.
      - intros results.
        apply sim_bind; [by apply GUI_collect_loop_sim|].
        intros acc. by apply GUI_finish_sim. }
    by repeat split.
  - match goal with
    | |- (exec ?q ?s1).1 = (exec ?q ?s2).1 ∧ _ =>
        assert (Hq : sim same_hashes q);
        [|destruct (exec_sim same_hashes q s1 s2 Hq eq_refl) as [Hout Hhs]]
    end.
    { apply sim_bind; [by apply GUI_serial_loop_sim|].
      intros acc. by apply GUI_finish_sim. }
    by repeat split.
Qed.

Lemma GUI_task_hashes data frame_start output_root frame_idx stop_flag enable_md5
    enable_type_detect σ :
  let σ' := (exec (NpkUnlock_GUI.extract_single_frame data frame_start output_root
                     frame_idx stop_flag enable_md5 enable_type_detect) σ).2 in
  NpkUnlock_GUI.extracted_hashes σ' = NpkUnlock_GUI.extracted_hashes σ
  ∨ ∃ decompressed,
      zstd_decompress (drop frame_start data) = Decoded decompressed
      ∧ NpkUnlock_GUI.extracted_hashes σ'
        = {[md5_hexdigest decompressed]} ∪ NpkUnlock_GUI.extracted_hashes σ.
Proof.
  cbv zeta. rewrite GUI_task_exec. unfold task_outcome. cbv zeta.
  destruct (stop_flag _); [by left|].
  destruct (stop_flag _); [by left|].
  destruct (zstd_decompress (drop frame_start data)) as [decompressed|e]; [|by left].
  destruct (stop_flag _); [by left|].
  destruct (enable_md5 && _); [by left|].
  destruct (stop_flag _); [by left|].
  destruct enable_md5; [right|by left]. by exists decompressed.
Qed.

Lemma GUI_serial_loop_hashes data output_root stop_flag enable_md5 enable_type_detect
    total frames acc σ :
  (∀ i pos, (i, pos) ∈ frames → pos ∈ Spec.signature_offsets data) →
  from_this_container data (NpkUnlock_GUI.extracted_hashes σ) →
  wp (NpkUnlock_GUI.serial_loop data output_root stop_flag enable_md5
        enable_type_detect total frames acc)
     (λ _ σ', from_this_container data (NpkUnlock_GUI.extracted_hashes σ')
              ∧ NpkUnlock_GUI.extracted_hashes σ ⊆ NpkUnlock_GUI.extracted_hashes σ') σ.
Proof.
  revert acc σ. induction frames as [|[i frame_start] frames IH]; intros acc σ Hin Hinv.
  - by apply wp_ret.
  - cbn [NpkUnlock_GUI.serial_loop]. wp_atomic_step.
    destruct (NpkUnlock_GUI.read_stop stop_flag σ).1; [by apply wp_ret|].
    apply wp_bind. unfold wp at 1.
    set (σ1 := (NpkUnlock_GUI.read_stop stop_flag σ).2).
    pose proof (GUI_task_hashes data frame_start output_root i stop_flag enable_md5
                  enable_type_detect σ1) as Htask. cbv zeta in Htask.
    set (σ2 := (exec _ σ1).2) in *.
    assert (Hinv2 : from_this_container data (NpkUnlock_GUI.extracted_hashes σ2)
                    ∧ NpkUnlock_GUI.extracted_hashes σ ⊆ NpkUnlock_GUI.extracted_hashes σ2).
    { destruct Htask as [->|(d & Hd & ->)]; [done|].
      split; [|by apply union_subseteq_r'].
      intros h [->%elem_of_singleton|Hh]%elem_of_union; [|by apply Hinv].
      exists frame_start, d. split; [|done]. apply (Hin i). left. }
    destruct Hinv2 as [Hinv2 Hsub].
    eapply wp_mono; [|apply IH; [|done]].
    + cbn beta. intros _ σ3 [Hinv3 Hsub3]. split; [done|]. by etrans.
    + intros i' pos' Hin'. apply (Hin i'). by right.
Qed.

Lemma enumerate_elem {A} (l : list A) i x : (i, x) ∈ enumerate l → x ∈ l.
Proof. unfold enumerate. apply elem_of_zip_r. Qed.

Lemma GUI_run_hashes input_file data output_root max_threads enable_md5
    enable_type_detect stop_flag schedule σ :
  Spec.signature_offsets data ≠ [] →
  (∀ k, stop_flag k = false) →
  ∃ p, NpkUnlock_GUI.run input_file (Some data) output_root false max_threads
         enable_md5 enable_type_detect stop_flag schedule = Some p
       ∧ from_this_container data (NpkUnlock_GUI.extracted_hashes (exec p σ).2).
Proof.
  intros Hsig Hstop. unfold NpkUnlock_GUI.run.
  rewrite GUI_scan_zstd_frames_spec. cbn [mbind option_bind].
  eexists. split; [reflexivity|].
  match goal with |- from_this_container _ (_ (exec ?p σ).2) =>
    change (wp p (λ _ σ', from_this_container data
                            (NpkUnlock_GUI.extracted_hashes σ')) σ) end.
  wp_atomic_step. cbv zeta. wp_atomic_step.
  cbn [NpkUnlock_GUI.read_stop fst snd]. rewrite Hstop.
  destruct (Nat.eqb_spec (length (Spec.signature_offsets data)) 0) as [Hz|_].
  { by destruct (Spec.signature_offsets data). }
  wp_atomic_step. apply wp_bind.
  eapply wp_mono; [|apply GUI_serial_loop_hashes].
  - cbn beta. intros acc σ1 [Hinv _]. destruct acc as [c out].
    unfold NpkUnlock_GUI.finish. wp_atomic_step. by apply wp_ret.
  - intros i pos. apply enumerate_elem.
  - intros h Hh. cbn in Hh. by apply not_elem_of_empty in Hh.
Qed.

End RunTwice.

(** ** The block loop of the windowed mode *)

Section BlockLoop.
Context `{Primitives}.

Lemma block_loop_done fuel max_block_size file_name file_data output_root l σ :
  length file_data ≤ PPKUnlocker.offset l
  ∨ Py.find file_data ZSTD (PPKUnlocker.offset l) = None →
  exec (PPKUnlocker.block_loop (S fuel) max_block_size file_name file_data
          output_root l) σ
  = (Some l, σ).
Proof.
  intros Hend. cbn [PPKUnlocker.block_loop]. unfold PPKUnlocker.ZSTD_MAGIC.
  destruct (Nat.ltb_spec (PPKUnlocker.offset l) (length file_data)) as [Hlt|Hge];
    [|done].
  destruct Hend as [Hle| ->]; [lia|done].
Qed.

Lemma block_loop_unfold fuel max_block_size file_name file_data output_root l
    magic_pos σ :
  PPKUnlocker.offset l < length file_data →
  Py.find file_data ZSTD (PPKUnlocker.offset l) = Some magic_pos →
  exec (PPKUnlocker.block_loop (S fuel) max_block_size file_name file_data
          output_root l) σ
  = exec (PPKUnlocker.block_loop fuel max_block_size file_name file_data output_root
            (block_step max_block_size file_name file_data output_root l magic_pos σ).1)
         (block_step max_block_size file_name file_data output_root l magic_pos σ).2.
Proof.
  intros Hlt Hfind. cbn [PPKUnlocker.block_loop].
  apply Nat.ltb_lt in Hlt. rewrite Hlt.
  unfold PPKUnlocker.ZSTD_MAGIC. rewrite Hfind. cbv zeta.
  unfold block_step, ppk_block_bytes, ppk_block_end, PPKUnlocker.ZSTD_MAGIC. cbv zeta.
  destruct (length _ <? 1024); [reflexivity|].
  rewrite exec_bind, exec_atomic. cbn [gets].
  case_bool_decide as Hdup; [reflexivity|].
  rewrite exec_bind, exec_atomic. cbn [modify].
  destruct (zstd_decompress _) as [decompressed|e]; [|reflexivity].
  rewrite exec_bind, exec_atomic. cbn [modify].
  rewrite exec_bind, exec_atomic. cbn [modify].
  reflexivity.
Qed.

Lemma offsets_from_skip data a b :
  a ≤ b → b ≤ length data →
  (∀ i, a ≤ i → i < b → Py.occurs_at ZSTD data i = false) →
  offsets_from data a = offsets_from data b.
Proof.
  intros Hab Hb Hnone. unfold offsets_from.
  replace (length data - a) with ((b - a) + (length data - b)) by lia.
  rewrite seq_app, List.filter_app.
  rewrite filter_seq_nil by (intros; apply Hnone; lia).
  simpl. by replace (a + (b - a)) with b by lia.
Qed.

(** The block found at [magic_pos] ends after [magic_pos], inside the
    buffer, and no signature lies between its end and the next one. *)
Lemma ppk_block_end_spec max_block_size data off magic_pos :
  0 < max_block_size →
  Py.find data ZSTD off = Some magic_pos →
  let block_end := ppk_block_end max_block_size data magic_pos in
  off ≤ magic_pos ∧ magic_pos < block_end ∧ block_end ≤ length data
  ∧ offsets_from data off = magic_pos :: offsets_from data block_end
  ∧ block_end
    = (hd (length data) (offsets_from data block_end)) `min` (magic_pos + max_block_size).
Proof.
  intros Hmax Hfind. cbv zeta.
  destruct (find_Some _ _ _ _ Hfind) as (Hle & Hocc & _).
  destruct (offsets_from_Some _ _ _ Hfind) as [Hoffs Hb].
  unfold ppk_block_end, PPKUnlocker.ZSTD_MAGIC.
  destruct (Py.find data ZSTD (magic_pos + 4)) as [q|] eqn:Hnext; cbn [from_option id].
  - destruct (find_Some _ _ _ _ Hnext) as (Hq & Hqocc & Hqmin).
    destruct (offsets_from_Some _ _ _ Hnext) as [Hqoffs Hqb].
    assert (Hskip : offsets_from data (q `min` (magic_pos + max_block_size))
                    = offsets_from data (magic_pos + 4)).
    { destruct (decide (q `min` (magic_pos + max_block_size) ≤ magic_pos + 4)).
      - apply offsets_from_skip; [done|lia|]. intros i Hi1 Hi2.
        replace i with (magic_pos + (i - magic_pos)) by lia.
        apply zstd_no_overlap; [done|lia|lia].
      - symmetry. apply offsets_from_skip; [lia|lia|]. intros i Hi1 Hi2.
        apply Hqmin; lia. }
    rewrite Hskip, Hoffs, Hqoffs. cbn [hd]. repeat split; lia || done.
  - assert (Hskip : offsets_from data (length data `min` (magic_pos + max_block_size))
                    = offsets_from data (magic_pos + 4)).
    { destruct (decide (length data `min` (magic_pos + max_block_size) ≤ magic_pos + 4)).
      - apply offsets_from_skip; [done|lia|]. intros i Hi1 Hi2.
        replace i with (magic_pos + (i - magic_pos)) by lia.
        apply zstd_no_overlap; [done|lia|lia].
      - symmetry. apply offsets_from_skip; [lia|lia|]. intros i Hi1 Hi2.
        by apply (find_None data ZSTD (magic_pos + 4)). }
    rewrite Hskip, Hoffs, (offsets_from_None _ _ Hnext). cbn [hd].
    repeat split; lia || done.
Qed.

Lemma offsets_from_end data off :
  length data ≤ off → offsets_from data off = [].
Proof. intros Hle. unfold offsets_from. by replace (length data - off) with 0 by lia. Qed.

(** What one iteration adds to the trace. *)
Lemma block_step_spec max_block_size file_name file_data output_root l magic_pos σ :
  let r := block_step max_block_size file_name file_data output_root l magic_pos σ in
  ∃ b, PPKUnlocker.seen r.1 = PPKUnlocker.seen l ++ [b]
       ∧ bounds b = (magic_pos, ppk_block_end max_block_size file_data magic_pos)
       ∧ PPKUnlocker.offset r.1 = ppk_block_end max_block_size file_data magic_pos
       ∧ outcome_ok (PPKUnlocker.DUPLICATE_MD5 σ) (bytes_of file_data b)
           (PPKUnlocker.block_outcome b)
       ∧ PPKUnlocker.DUPLICATE_MD5 r.2
         = digests_after (PPKUnlocker.DUPLICATE_MD5 σ) (bytes_of file_data b)
             (PPKUnlocker.block_outcome b)
       ∧ PPKUnlocker.processed_blocks r.1 = PPKUnlocker.processed_blocks l + 1
       ∧ PPKUnlocker.extracted_blocks r.1
         = PPKUnlocker.extracted_blocks l + (if is_saved b then 1 else 0).
Proof.
  cbv zeta. unfold block_step. cbv zeta.
  destruct (Nat.ltb_spec (length (ppk_block_bytes max_block_size file_data magic_pos)) 1024)
    as [Hsmall|Hbig].
  { eexists. split; [reflexivity|]. repeat split; try done; simpl; lia. }
  case_bool_decide as Hdup.
  { eexists. split; [reflexivity|]. repeat split; try done; simpl; lia. }
  destruct (zstd_decompress _) as [decompressed|e] eqn:Hz.
  - eexists. split; [reflexivity|]. repeat split; try done; simpl; lia.
  - eexists. split; [reflexivity|].
    repeat split; try done; try (by exists e); simpl; lia.
Qed.

Lemma block_loop_trace fuel max_block_size file_name file_data output_root l σ :
  0 < max_block_size →
  length file_data - PPKUnlocker.offset l < fuel →
  ∃ l' σ' trace,
    exec (PPKUnlocker.block_loop fuel max_block_size file_name file_data
            output_root l) σ = (Some l', σ')
    ∧ PPKUnlocker.seen l' = PPKUnlocker.seen l ++ trace
    ∧ map bounds trace
      = Spec.windows max_block_size (length file_data)
          (offsets_from file_data (PPKUnlocker.offset l))
    ∧ trace_ok file_data (PPKUnlocker.DUPLICATE_MD5 σ) trace
    ∧ PPKUnlocker.DUPLICATE_MD5 σ'
      = digests_final file_data (PPKUnlocker.DUPLICATE_MD5 σ) trace
    ∧ PPKUnlocker.processed_blocks l' = PPKUnlocker.processed_blocks l + length trace
    ∧ PPKUnlocker.extracted_blocks l'
      = PPKUnlocker.extracted_blocks l + length (List.filter is_saved trace).
Proof.
  intros Hmax. revert l σ. induction fuel as [|fuel IH]; intros l σ Hfuel; [lia|].
  destruct (decide (length file_data ≤ PPKUnlocker.offset l)) as [Hend|Hin].
  { exists l, σ, []. rewrite block_loop_done by by left.
    rewrite offsets_from_end by done. rewrite app_nil_r. simpl.
    repeat split; lia || done. }
  destruct (Py.find file_data ZSTD (PPKUnlocker.offset l)) as [magic_pos|] eqn:Hfind.
  2:{ exists l, σ, []. rewrite block_loop_done by by right.
      rewrite offsets_from_None by done. rewrite app_nil_r. simpl.
      repeat split; lia || done. }
  rewrite (block_loop_unfold _ _ _ _ _ _ magic_pos) by (lia || done).
  destruct (ppk_block_end_spec max_block_size _ _ _ Hmax Hfind)
    as (Hle & Hlt & Hb & Hoffs & Hend).
  destruct (block_step_spec max_block_size file_name file_data output_root l magic_pos σ)
    as (b & Hseen & Hbounds & Hoff & Hok & Hdup & Hproc & Hext).
  destruct (block_step _ _ _ _ _ _ _) as [l1 σ1]. cbn [fst snd] in *.
  destruct (IH l1 σ1) as (l' & σ' & trace & Hexec & Hseen' & Hwin & Htrace & Hdup' & Hp & He).
  { rewrite Hoff. lia. }
  exists l', σ', (b :: trace). rewrite Hexec. split; [done|].
  split; [by rewrite Hseen', Hseen, <- app_assoc|].
  split.
  { rewrite Hoffs. cbn [map Spec.windows]. rewrite Hbounds, <- Hend.
    by rewrite <- Hoff, Hwin. }
  split; [by cbn [trace_ok]; rewrite <- Hdup|].
  split; [by cbn [digests_final]; rewrite <- Hdup|].
  cbn [length List.filter]. destruct (is_saved b); cbn [length]; lia.
Qed.

Lemma process_ppk_file_trace max_block_size file_name file_data output_root σ :
  0 < max_block_size →
  ∃ res σ',
    exec (PPKUnlocker.process_ppk_file_with max_block_size file_name file_data
            output_root) σ = (Some res, σ')
    ∧ map bounds (PPKUnlocker.blocks res)
      = Spec.windows max_block_size (length file_data)
          (Spec.signature_offsets file_data)
    ∧ trace_ok file_data (PPKUnlocker.DUPLICATE_MD5 σ) (PPKUnlocker.blocks res)
    ∧ PPKUnlocker.DUPLICATE_MD5 σ'
      = digests_final file_data (PPKUnlocker.DUPLICATE_MD5 σ) (PPKUnlocker.blocks res)
    ∧ PPKUnlocker.processed res = length (PPKUnlocker.blocks res)
    ∧ PPKUnlocker.extracted res
      = length (List.filter is_saved (PPKUnlocker.blocks res)).
Proof.
  intros Hmax. unfold PPKUnlocker.process_ppk_file_with. rewrite exec_bind.
  destruct (block_loop_trace (S (length file_data)) max_block_size file_name file_data
              output_root
              {| PPKUnlocker.offset := 0; PPKUnlocker.block_idx := 0;
                 PPKUnlocker.processed_blocks := 0; PPKUnlocker.extracted_blocks := 0;
                 PPKUnlocker.seen := [] |} σ Hmax)
    as (l' & σ' & trace & Hexec & Hseen & Hwin & Htrace & Hdup & Hp & He).
  { simpl. lia. }
  rewrite Hexec. eexists _, σ'. split; [reflexivity|].
  cbn [PPKUnlocker.blocks PPKUnlocker.processed PPKUnlocker.extracted].
  cbn [PPKUnlocker.seen PPKUnlocker.offset PPKUnlocker.processed_blocks
       PPKUnlocker.extracted_blocks app] in *.
  rewrite Hseen. repeat split; try done.
  rewrite Hwin. unfold offsets_from, Spec.signature_offsets. by rewrite Nat.sub_0_r.
Qed.

(** Facts read off a trace. *)
Lemma trace_ok_too_small file_data D trace b :
  trace_ok file_data D trace → b ∈ trace →
  (length (bytes_of file_data b) < 1024 ↔
   PPKUnlocker.block_outcome b = PPKUnlocker.TooSmall).
Proof.
  revert D. induction trace as [|b0 trace IH]; intros D Htrace Hin.
  - by apply elem_of_nil in Hin.
  - destruct Htrace as [Hok Htrace].
    apply elem_of_cons in Hin as [->|Hin]; [|by eapply IH].
    unfold outcome_ok in Hok.
    destruct (PPKUnlocker.block_outcome b0); split; intros ?; try done; lia.
Qed.

Lemma trace_ok_saved file_data D trace b save_path decompressed :
  trace_ok file_data D trace → b ∈ trace →
  PPKUnlocker.block_outcome b = PPKUnlocker.Saved save_path decompressed →
  zstd_decompress (bytes_of file_data b) = Decoded decompressed.
Proof.
  revert D. induction trace as [|b0 trace IH]; intros D Htrace Hin Hout.
  - by apply elem_of_nil in Hin.
  - destruct Htrace as [Hok Htrace].
    apply elem_of_cons in Hin as [->|Hin]; [|by eapply IH].
    unfold outcome_ok in Hok. rewrite Hout in Hok. tauto.
Qed.

Lemma digests_after_mono D zstd_data o : D ⊆ digests_after D zstd_data o.
Proof. destruct o; simpl; (done || apply union_subseteq_r). Qed.

Lemma digests_final_mono file_data D trace : D ⊆ digests_final file_data D trace.
Proof.
  revert D. induction trace as [|b trace IH]; intros D; [done|].
  simpl. etrans; [apply digests_after_mono|apply IH].
Qed.

Lemma trace_ok_duplicate file_data D trace b :
  trace_ok file_data D trace → b ∈ trace →
  1024 ≤ length (bytes_of file_data b) →
  md5_hexdigest (bytes_of file_data b) ∈ D →
  PPKUnlocker.block_outcome b = PPKUnlocker.Duplicate.
Proof.
  revert D. induction trace as [|b0 trace IH]; intros D Htrace Hin Hbig Hmd5.
  - by apply elem_of_nil in Hin.
  - destruct Htrace as [Hok Htrace].
    apply elem_of_cons in Hin as [->|Hin].
    + unfold outcome_ok in Hok.
      destruct (PPKUnlocker.block_outcome b0); try done; [lia|tauto|tauto].
    + eapply IH; [done..|]. by apply digests_after_mono.
Qed.

Lemma trace_ok_marked file_data D trace b :
  trace_ok file_data D trace → b ∈ trace →
  1024 ≤ length (bytes_of file_data b) →
  md5_hexdigest (bytes_of file_data b) ∈ digests_final file_data D trace.
Proof.
  revert D. induction trace as [|b0 trace IH]; intros D Htrace Hin Hbig.
  - by apply elem_of_nil in Hin.
  - destruct Htrace as [Hok Htrace]. simpl.
    apply elem_of_cons in Hin as [->|Hin]; [|by apply IH].
    apply digests_final_mono. unfold outcome_ok, digests_after in *.
    destruct (PPKUnlocker.block_outcome b0); try lia; try tauto;
      apply elem_of_union_l, elem_of_singleton; reflexivity.
Qed.

Lemma trace_ok_second_is_duplicate file_data D trace i j bi bj :
  trace_ok file_data D trace →
  trace !! i = Some bi → trace !! j = Some bj → i < j →
  bytes_of file_data bi = bytes_of file_data bj →
  1024 ≤ length (bytes_of file_data bi) →
  PPKUnlocker.block_outcome bj = PPKUnlocker.Duplicate.
Proof.
  revert D i j. induction trace as [|b0 trace IH]; intros D i j Htrace Hi Hj Hlt Heq Hbig.
  - by rewrite lookup_nil in Hi.
  - destruct Htrace as [Hok Htrace].
    destruct j as [|j]; [lia|]. simpl in Hj.
    destruct i as [|i]; simpl in Hi.
    + injection Hi as ->.
      eapply trace_ok_duplicate; [done|by eapply list_elem_of_lookup_2|congruence|].
      rewrite <- Heq. unfold outcome_ok, digests_after in *.
      destruct (PPKUnlocker.block_outcome bi); try lia; try tauto;
        apply elem_of_union_l, elem_of_singleton; reflexivity.
    + eapply (IH _ i j); [done..|lia|done|done].
Qed.

End BlockLoop.

(** ** Windows and the size filter *)

Lemma length_windows max_block_size buffer_end offsets :
  length (Spec.windows max_block_size buffer_end offsets) = length offsets.
Proof. induction offsets as [|p offsets IH]; simpl; [done|]. by rewrite IH. Qed.

Lemma MAX_BLOCK_SIZE_pos : 0 < PPKUnlocker.MAX_BLOCK_SIZE.
Proof.
  unfold PPKUnlocker.MAX_BLOCK_SIZE.
  apply Nat.mul_pos_pos; [apply Nat.mul_pos_pos|]; lia.
Qed.

(** C6.  In the windowed mode the loop visits every scanned signature and
    cuts, for each, the bytes from that signature up to the smaller of the
    next signature (the buffer end after the last one) and the signature
    plus [max_block_size], 20 MiB unless changed; a block shorter than 1024
    bytes leaves the loop at the size filter, which changes neither the
    digest set nor the file system and comes before any decompression. *)
Theorem C6_windowed_blocks_and_size_filter `{Primitives} (max_block_size : nat)
    (file_name : string) (file_data : list byte) (output_root : string)
    (σ : PPKUnlocker.shared) :
  0 < max_block_size →
  (PPKUnlocker.process_ppk_file
   = PPKUnlocker.process_ppk_file_with (20 * 1024 * 1024)
   ∧ 0 < PPKUnlocker.MAX_BLOCK_SIZE)
  ∧ (∃ res σ',
       exec (PPKUnlocker.process_ppk_file_with max_block_size file_name file_data
               output_root) σ = (Some res, σ')
       ∧ map bounds (PPKUnlocker.blocks res)
         = Spec.windows max_block_size (length file_data)
             (Spec.signature_offsets file_data)
       ∧ PPKUnlocker.processed res = length (Spec.signature_offsets file_data)
       ∧ ∀ b, b ∈ PPKUnlocker.blocks res →
              (length (bytes_of file_data b) < 1024 ↔
               PPKUnlocker.block_outcome b = PPKUnlocker.TooSmall)
              ∧ ∀ save_path decompressed,
                  PPKUnlocker.block_outcome b
                  = PPKUnlocker.Saved save_path decompressed →
                  zstd_decompress (bytes_of file_data b) = Decoded decompressed)
  ∧ (∀ fuel l magic_pos σ0,
       PPKUnlocker.offset l < length file_data →
       Py.find file_data ZSTD (PPKUnlocker.offset l) = Some magic_pos →
       length (ppk_block_bytes max_block_size file_data magic_pos) < 1024 →
       exec (PPKUnlocker.block_loop (S fuel) max_block_size file_name file_data
               output_root l) σ0
       = exec (PPKUnlocker.block_loop fuel max_block_size file_name file_data
                 output_root
                 (ppk_continue l magic_pos
                    (ppk_block_end max_block_size file_data magic_pos)
                    PPKUnlocker.TooSmall))
              σ0).
Proof.
  intros Hmax. split; [split; [reflexivity|apply MAX_BLOCK_SIZE_pos]|]. split.
  - destruct (process_ppk_file_trace max_block_size file_name file_data output_root
                σ Hmax) as (res & σ' & Hexec & Hwin & Htrace & _ & Hp & _).
    exists res, σ'. split; [done|]. split; [done|]. split.
    { rewrite Hp, <- (length_map bounds), Hwin. apply length_windows. }
    intros b Hb. split; [by eapply trace_ok_too_small|].
    intros save_path decompressed. by eapply trace_ok_saved.
  - intros fuel l magic_pos σ0 Hlt Hfind Hsmall.
    rewrite (block_loop_unfold _ _ _ _ _ _ magic_pos) by done.
    unfold block_step. cbv zeta.
    apply Nat.ltb_lt in Hsmall. by rewrite Hsmall.
Qed.

Lemma C6_witness :
  ∃ res σ',
    exec (PPKUnlocker.process_ppk_file_with 4096 "0a1b2c3d" small_block_container
            "Output") fresh_shared = (Some res, σ')
    ∧ map bounds (PPKUnlocker.blocks res) = [(0, 512); (512, 518)]
    ∧ PPKUnlocker.processed res = 2.
Proof.
  destruct (C6_windowed_blocks_and_size_filter 4096 "0a1b2c3d" small_block_container
              "Output" fresh_shared) as (_ & (res & σ' & Hexec & Hwin & Hp & _) & _).
  - lia.
  - exists res, σ'. split; [exact Hexec|]. split.
    + rewrite Hwin. vm_compute. reflexivity.
    + rewrite Hp. vm_compute. reflexivity.
Defined.

(** ** Marking before decompressing *)

(** In one thread: a block that passes the size filter and is not yet
    known has its digest added to [DUPLICATE_MD5] before it is
    decompressed, and a failed decompression leaves the digest in the set.
    So every block of at least 1024 bytes of a file is in the set when the
    file is done, and of two byte-identical blocks of one file that do not
    decompress the second ends at the duplicate check and none is saved. *)
Lemma PPK_failed_block_stays_marked `{Primitives} (max_block_size : nat)
    (file_name : string) (file_data : list byte) (output_root : string)
    (σ : PPKUnlocker.shared) :
  0 < max_block_size →
  (∃ res σ',
     exec (PPKUnlocker.process_ppk_file_with max_block_size file_name file_data
             output_root) σ = (Some res, σ')
     ∧ PPKUnlocker.DUPLICATE_MD5 σ ⊆ PPKUnlocker.DUPLICATE_MD5 σ'
     ∧ (∀ b, b ∈ PPKUnlocker.blocks res →
             1024 ≤ length (bytes_of file_data b) →
             md5_hexdigest (bytes_of file_data b) ∈ PPKUnlocker.DUPLICATE_MD5 σ')
     ∧ (∀ i j bi bj e,
          PPKUnlocker.blocks res !! i = Some bi →
          PPKUnlocker.blocks res !! j = Some bj →
          i < j →
          bytes_of file_data bi = bytes_of file_data bj →
          1024 ≤ length (bytes_of file_data bi) →
          zstd_decompress (bytes_of file_data bi) = ZstdError e →
          PPKUnlocker.block_outcome bj = PPKUnlocker.Duplicate
          ∧ (PPKUnlocker.block_outcome bi = PPKUnlocker.DecodeFailed
             ∨ PPKUnlocker.block_outcome bi = PPKUnlocker.Duplicate)
          ∧ ∀ b, b ∈ PPKUnlocker.blocks res →
                 bytes_of file_data b = bytes_of file_data bi →
                 is_saved b = false))
  ∧ (∀ fuel l magic_pos σ0 e,
       PPKUnlocker.offset l < length file_data →
       Py.find file_data ZSTD (PPKUnlocker.offset l) = Some magic_pos →
       let zstd_data := ppk_block_bytes max_block_size file_data magic_pos in
       1024 ≤ length zstd_data →
       md5_hexdigest zstd_data ∉ PPKUnlocker.DUPLICATE_MD5 σ0 →
       zstd_decompress zstd_data = ZstdError e →
       exec (PPKUnlocker.block_loop (S fuel) max_block_size file_name file_data
               output_root l) σ0
       = exec (PPKUnlocker.block_loop fuel max_block_size file_name file_data
                 output_root
                 (ppk_continue l magic_pos
                    (ppk_block_end max_block_size file_data magic_pos)
                    PPKUnlocker.DecodeFailed))
              (ppk_marked (md5_hexdigest zstd_data) σ0)).
Proof.
  intros Hmax. split.
  - destruct (process_ppk_file_trace max_block_size file_name file_data output_root
                σ Hmax) as (res & σ' & Hexec & _ & Htrace & Hdup & _).
    exists res, σ'. split; [done|]. rewrite Hdup.
    split; [apply digests_final_mono|].
    split; [intros b Hb Hbig; by apply trace_ok_marked|].
    intros i j bi bj e Hi Hj Hlt Heq Hbig Hfail.
    split; [exact (trace_ok_second_is_duplicate _ _ _ i j bi bj Htrace Hi Hj Hlt Heq Hbig)|].
    assert (Hnot_saved : ∀ b, b ∈ PPKUnlocker.blocks res →
              bytes_of file_data b = bytes_of file_data bi → is_saved b = false).
    { intros b Hb Hbytes. unfold is_saved.
      destruct (PPKUnlocker.block_outcome b) as [| | |save_path d] eqn:Hout; try done.
      pose proof (trace_ok_saved _ _ _ _ _ _ Htrace Hb Hout) as Hd.
      rewrite Hbytes in Hd. congruence. }
    split; [|done].
    apply list_elem_of_lookup_2 in Hi.
    pose proof (Hnot_saved bi Hi eq_refl) as Hns.
    pose proof (trace_ok_too_small _ _ _ _ Htrace Hi) as Hsmall.
    unfold is_saved in Hns.
    destruct (PPKUnlocker.block_outcome bi) eqn:Hout; [|by right|by left|done].
    assert (length (bytes_of file_data bi) < 1024) by by apply Hsmall. lia.
  - intros fuel l magic_pos σ0 e Hlt Hfind zstd_data Hbig Hnew Hfail.
    rewrite (block_loop_unfold _ _ _ _ _ _ magic_pos) by done.
    unfold block_step. cbv zeta. fold zstd_data.
    apply Nat.ltb_ge in Hbig. rewrite Hbig.
    rewrite bool_decide_eq_false_2 by done. by rewrite Hfail.
Qed.

Lemma twin_corrupt_blocks_trace :
  PPKUnlocker.blocks <$>
    (exec (PPKUnlocker.process_ppk_file_with 4096 "0a1b2c3d" twin_corrupt_blocks
             "Output") fresh_shared).1
  = Some [first_corrupt_block; second_corrupt_block].
Proof. vm_compute. reflexivity. Qed.

Lemma first_corrupt_block_size :
  1024 ≤ length (bytes_of twin_corrupt_blocks first_corrupt_block).
Proof. vm_compute. lia. Qed.

(** ** Artifacts and frames *)

(** C1.  Whatever the container, the switches, the schedule of the worker
    threads and the moments at which the stop flag is raised, a run extracts
    at most as many artifacts as the scanner found frame positions: the
    count returned by [extract_zstd_container], and the number of
    [file_signal]s of [ExtractWorker.run], which is also the count carried
    by its [finished_signal]; a missing input file counts as no frame and
    gives no artifact.  The block extractor saves at most as many blocks as
    it found signatures. *)
Theorem C1_extracted_at_most_frames_found `{Primitives} :
  (∀ data fast_mode max_threads schedule pkg_file_path output_folder σ,
     ∃ p, NpkUnlocker.extract_zstd_container_with fast_mode max_threads schedule
            pkg_file_path data output_folder = Some p
          ∧ match (exec p σ).1 with
            | NpkUnlocker.Returned extracted_count =>
                extracted_count ≤ length (Spec.signature_offsets data)
            | NpkUnlocker.Raised _ => fast_mode = true ∧ max_threads = 0
            end)
  ∧ (∀ input_file input output_root fast_mode max_threads enable_md5
       enable_type_detect stop_flag schedule σ,
     ∃ p, NpkUnlock_GUI.run input_file input output_root fast_mode max_threads
            enable_md5 enable_type_detect stop_flag schedule = Some p
          ∧ length (NpkUnlock_GUI.artifacts (exec p σ).1)
            ≤ length (Spec.signature_offsets (default [] input))
          ∧ Forall (λ n, n = length (NpkUnlock_GUI.artifacts (exec p σ).1))
              (NpkUnlock_GUI.finished_counts (exec p σ).1))
  ∧ (∀ file_name file_data output_root σ,
     ∃ res σ',
       exec (PPKUnlocker.process_ppk_file file_name file_data output_root) σ
       = (Some res, σ')
       ∧ PPKUnlocker.extracted res ≤ PPKUnlocker.processed res
       ∧ PPKUnlocker.processed res = length (Spec.signature_offsets file_data)).
Proof.
  split; [|split].
  - intros. apply NpkUnlocker_extracted_le_found.
  - intros.
    destruct (GUI_extracted_le_found input_file input output_root fast_mode
                max_threads enable_md5 enable_type_detect stop_flag schedule σ)
      as (p & Hp & Hle & Hfin).
    exists p. split; [done|]. split; [done|].
    by apply Forall_forall.
  - intros file_name file_data output_root σ.
    destruct (process_ppk_file_trace PPKUnlocker.MAX_BLOCK_SIZE file_name file_data
                output_root σ MAX_BLOCK_SIZE_pos)
      as (res & σ' & Hexec & Hwin & _ & _ & Hp & He).
    exists res, σ'. split; [exact Hexec|]. split.
    + rewrite Hp, He. apply List.filter_length_le.
    + rewrite Hp, <- (length_map bounds), Hwin. apply length_windows.
Qed.

(** ** What is fingerprinted *)

Section Fingerprint.
Context `{Primitives}.

Lemma NpkUnlocker_task_duplicate data frame_start output_root frame_idx σ decompressed :
  zstd_decompress (drop frame_start data) = Decoded decompressed →
  md5_hexdigest decompressed ∈ NpkUnlocker.extracted_hashes σ →
  exec (NpkUnlocker.extract_single_frame data frame_start output_root frame_idx) σ
  = (false,
     printed [("跳过重复帧 " +:+ pretty (frame_idx + 1) +:+ " (哈希: "
               +:+ Py.str_take8 (md5_hexdigest decompressed) +:+ ")")
              +:+ NpkUnlocker.newline] σ).
Proof.
  intros Hd Hin. unfold NpkUnlocker.extract_single_frame. rewrite Hd. cbv zeta.
  rewrite exec_bind, exec_atomic. cbn [gets].
  rewrite bool_decide_eq_true_2 by done. reflexivity.
Qed.

Lemma NpkUnlocker_task_admitted data frame_start output_root frame_idx σ decompressed :
  zstd_decompress (drop frame_start data) = Decoded decompressed →
  md5_hexdigest decompressed ∉ NpkUnlocker.extracted_hashes σ →
  let r := exec (NpkUnlocker.extract_single_frame data frame_start output_root
                   frame_idx) σ in
  r.1 = true
  ∧ NpkUnlocker.extracted_hashes r.2
    = {[md5_hexdigest decompressed]} ∪ NpkUnlocker.extracted_hashes σ.
Proof.
  intros Hd Hin. cbv zeta. unfold NpkUnlocker.extract_single_frame. rewrite Hd.
  cbv zeta. rewrite exec_bind, exec_atomic. cbn [gets].
  rewrite bool_decide_eq_false_2 by done. split; reflexivity.
Qed.





End Fingerprint.





(** ** Running twice *)

Section RunTwiceMore.
Context `{Primitives}.

Lemma NpkUnlocker_print_sim s : sim cli_same_hashes (NpkUnlocker.print s).
Proof. by apply sim_atomic. Qed.

Lemma NpkUnlocker_print_noend_sim s : sim cli_same_hashes (NpkUnlocker.print_noend s).
Proof. by apply sim_atomic. Qed.

Lemma NpkUnlocker_task_sim data frame_start output_root frame_idx :
  sim cli_same_hashes
    (NpkUnlocker.extract_single_frame data frame_start output_root frame_idx).
Proof.
  unfold NpkUnlocker.extract_single_frame.
  destruct (zstd_decompress (drop frame_start data)) as [decompressed|e].
  - cbv zeta. apply sim_bind.
    { apply sim_atomic. intros σ1 σ2 HR. cbn [gets fst snd]. by rewrite HR. }
    intros [|].
    { apply sim_bind; [apply NpkUnlocker_print_sim|]. intros _. apply sim_ret. }
    apply sim_bind; [by apply sim_atomic|]. intros _.
    apply sim_bind; [by apply sim_atomic|]. intros _.
    apply sim_bind.
    { apply sim_atomic. intros σ1 σ2 HR. split; [done|].
      unfold cli_same_hashes in *. cbn. by rewrite HR. }
    intros _. apply sim_bind; [apply NpkUnlocker_print_sim|]. intros _. apply sim_ret.
  - apply sim_bind; [apply NpkUnlocker_print_sim|]. intros _. apply sim_ret.
Qed.

Lemma NpkUnlocker_serial_loop_sim data output_folder total frames c :
  sim cli_same_hashes (NpkUnlocker.serial_loop data output_folder total frames c).
Proof.
  revert c. induction frames as [|[i frame_start] frames IH]; intros c; [apply sim_ret|].
  cbn [NpkUnlocker.serial_loop].
  apply sim_bind; [apply NpkUnlocker_print_noend_sim|]. intros _.
  apply sim_bind; [apply NpkUnlocker_task_sim|]. intros r. apply IH.
Qed.

Lemma NpkUnlocker_run_reproducible fast_mode max_threads schedule pkg_file_path data
    output_folder :
  ∃ p, NpkUnlocker.extract_zstd_container_with fast_mode max_threads schedule
         pkg_file_path data output_folder = Some p
       ∧ ∀ σ σ',
           (exec p σ).1 = (exec p σ').1
           ∧ NpkUnlocker.extracted_hashes (exec p σ).2
             = NpkUnlocker.extracted_hashes (exec p σ').2.
Proof.
  unfold NpkUnlocker.extract_zstd_container_with.
  rewrite NpkUnlocker_scan_frames_spec. cbn [mbind option_bind].
  eexists. split; [reflexivity|].
  match goal with |- ∀ σ σ', (exec ?p σ).1 = _ ∧ _ =>
    cut (rel_exec (λ _ _, True) cli_same_hashes p);
    [intros Hrel σ σ'; by apply Hrel|] end.
  unfold NpkUnlocker.print.
  do 9 (eapply (rel_exec_bind _ (λ _ _, True));
        [by apply rel_exec_atomic|intros _]).
  eapply (rel_exec_bind _ cli_same_hashes); [by apply rel_exec_atomic|intros _].
  apply rel_exec_sim.
  apply sim_bind.
  - destruct (fast_mode && _).
    + destruct (max_threads =? 0); [apply sim_ret|].
      apply sim_bind; [|intros results; apply sim_ret].
      apply sim_atomic. intros σ1 σ2 HR. apply run_pool_sim; [|done].
      apply Forall_fmap, Forall_forall. intros [i frame_start] _.
      unfold NpkUnlocker.thread_task.
      apply sim_bind; [apply NpkUnlocker_print_noend_sim|]. intros _.
      apply NpkUnlocker_task_sim.
    + apply sim_bind; [apply NpkUnlocker_serial_loop_sim|]. intros c. apply sim_ret.
  - intros [c|exception]; [|apply sim_ret].
    apply sim_bind; [by apply sim_atomic|]. intros _.
    apply sim_bind; [by apply sim_atomic|]. intros _. apply sim_ret.
Qed.

Lemma PPK_block_loop_sim fuel max_block_size file_name file_data output_root l :
  sim same_md5s
    (PPKUnlocker.block_loop fuel max_block_size file_name file_data output_root l).
Proof.
  revert l. induction fuel as [|fuel IH]; intros l; [apply sim_ret|].
  cbn [PPKUnlocker.block_loop].
  destruct (_ <? _); [|apply sim_ret].
  destruct (Py.find _ _ _) as [magic_pos|]; [|apply sim_ret].
  cbv zeta. destruct (_ <? 1024); [apply IH|].
  apply sim_bind.
  { apply sim_atomic. intros σ1 σ2 HR. cbn [gets fst snd]. by rewrite HR. }
  intros [|]; [apply IH|].
  apply sim_bind.
  { apply sim_atomic. intros σ1 σ2 HR. split; [done|].
    unfold same_md5s in *. cbn. by rewrite HR. }
  intros _. destruct (zstd_decompress _) as [decompressed|e]; [|apply IH].
  apply sim_bind; [by apply sim_atomic|]. intros _.
  apply sim_bind; [by apply sim_atomic|]. intros _. apply IH.
Qed.

Lemma PPK_process_sim max_block_size file_name file_data output_root :
  sim same_md5s
    (PPKUnlocker.process_ppk_file_with max_block_size file_name file_data output_root).
Proof.
  unfold PPKUnlocker.process_ppk_file_with.
  apply sim_bind; [apply PPK_block_loop_sim|]. intros l. apply sim_ret.
Qed.

Lemma PPK_run_files_reproducible max_block_size schedule ppk_files output_root σ σ' :
  same_md5s σ σ' →
  (PPKUnlocker.run_files max_block_size schedule ppk_files output_root σ).1
  = (PPKUnlocker.run_files max_block_size schedule ppk_files output_root σ').1
  ∧ same_md5s
      (PPKUnlocker.run_files max_block_size schedule ppk_files output_root σ).2
      (PPKUnlocker.run_files max_block_size schedule ppk_files output_root σ').2.
Proof.
  intros HR. unfold PPKUnlocker.run_files. apply run_pool_sim; [|done].
  apply Forall_fmap, Forall_forall. intros [file_name file_data] _.
  apply PPK_process_sim.
Qed.

Lemma GUI_task_hashes_grow data frame_start output_root frame_idx stop_flag
    enable_md5 enable_type_detect σ :
  NpkUnlock_GUI.extracted_hashes σ
  ⊆ NpkUnlock_GUI.extracted_hashes
      (exec (NpkUnlock_GUI.extract_single_frame data frame_start output_root
               frame_idx stop_flag enable_md5 enable_type_detect) σ).2.
Proof.
  destruct (GUI_task_hashes data frame_start output_root frame_idx stop_flag
              enable_md5 enable_type_detect σ) as [->|(d & _ & ->)]; [done|].
  apply union_subseteq_r.
Qed.

End RunTwiceMore.

(** ** Check and mark under interleaving *)

(** C2.  The membership test and the insertion are separate atomic actions
    with no lock around them.  When the two tasks of [twin_frames] both
    test before either inserts, both are admitted and two artifacts with
    the same content leave the run; run one after the other, the second is
    skipped.  The block extractor behaves alike on two files that hold the
    same block. *)
Theorem C2_check_and_mark_not_exclusive :
  NpkUnlock_GUI.finished_counts (twin_run racy_schedule) = [2]
  ∧ map NpkUnlock_GUI.info_name (NpkUnlock_GUI.artifacts (twin_run racy_schedule))
    = ["extracted_frame_1"; "extracted_frame_2"]
  ∧ NpkUnlock_GUI.finished_counts (twin_run []) = [1]
  ∧ extracted_per_file [0; 1] = [Some 1; Some 1]
  ∧ extracted_per_file [] = [Some 1; Some 0].
Proof.
  vm_compute. repeat split.
Qed.

(** ** Results that do not depend on the interleaving *)

Section Always.
Context {S : Type}.

Lemma always_ret {A} (P : A → Prop) (r : A) : P r → always P (mret r : prog S A).
Proof. done. Qed.

Lemma always_bind {A B} (P : B → Prop) (p : prog S A) (f : A → prog S B) :
  always (λ x, always P (f x)) p → always P (p ≫= f).
Proof.
  induction p as [r|X a k IH]; simpl; [done|].
  intros Hk σ. apply IH, Hk.
Qed.

Lemma always_atomic {A} (P : A → Prop) (a : State S A) :
  (∀ σ, P (a σ).1) → always P (atomic a).
Proof. intros Ha σ. apply Ha. Qed.

Lemma always_mono {A} (P Q : A → Prop) (p : prog S A) :
  (∀ x, P x → Q x) → always P p → always Q p.
Proof.
  intros HPQ. induction p as [r|X a k IH]; simpl; [apply HPQ|].
  intros Hk σ. apply IH, Hk.
Qed.

Lemma always_exec {A} (P : A → Prop) (p : prog S A) σ :
  always P p → P (exec p σ).1.
Proof.
  revert σ. induction p as [r|X a k IH]; intros σ; simpl; [done|].
  intros Hk. specialize (Hk σ). destruct (a σ) as [x σ']. by apply IH.
Qed.

Lemma always_step {A} (P : A → Prop) (p : prog S A) σ :
  always P p → always P (step p σ).1.
Proof.
  destruct p as [r|X a k]; simpl; [done|].
  intros Hk. specialize (Hk σ). by destruct (a σ) as [x σ'].
Qed.

Lemma always_interleave {A} (Ps : list (A → Prop)) max_workers schedule
    (pool : list (job S A)) σ :
  Forall2 (λ P j, always P (job_prog j)) Ps pool →
  Forall2 (λ P j, always P (job_prog j)) Ps
    (interleave max_workers schedule pool σ).1.
Proof.
  revert pool σ. induction schedule as [|i schedule IH]; intros pool σ Hpool; [done|].
  simpl. destruct (pool !! i) as [j|] eqn:Hj; [|by apply IH].
  destruct (can_step max_workers pool i); [|by apply IH].
  destruct (step (job_prog j) σ) as [p' σ'] eqn:Hstep.
  apply IH.
  destruct (Forall2_lookup_r _ _ _ _ _ Hpool Hj) as (P & HP & Hal).
  rewrite <- (list_insert_id Ps i P) by done.
  apply Forall2_insert; [done|]. simpl.
  replace p' with (step (job_prog j) σ).1 by by rewrite Hstep.
  by apply always_step.
Qed.

Lemma always_join {A} (Ps : list (A → Prop)) (pool : list (job S A)) σ :
  Forall2 (λ P j, always P (job_prog j)) Ps pool →
  Forall2 (λ P r, P r) Ps (join pool σ).1.
Proof.
  intros Hpool. revert σ.
  induction Hpool as [|P j Ps pool HP _ IH]; intros σ; simpl; [constructor|].
  pose proof (always_exec P (job_prog j) σ HP) as Hr.
  destruct (exec (job_prog j) σ) as [r σ1].
  specialize (IH σ1). destruct (join pool σ1) as [rs σ2].
  by constructor.
Qed.

(** Whatever the schedule, a pool returns for each task a value that the
    task always returns. *)
Lemma always_run_pool {A} (Ps : list (A → Prop)) max_workers schedule
    (tasks : list (prog S A)) σ :
  Forall2 always Ps tasks →
  Forall2 (λ P r, P r) Ps (run_pool max_workers schedule tasks σ).1.
Proof.
  intros Htasks. unfold run_pool.
  pose proof (always_interleave Ps max_workers schedule (submit_all tasks) σ) as Hi.
  destruct (interleave max_workers schedule (submit_all tasks) σ) as [pool σ'].
  apply always_join, Hi. unfold submit_all.
  apply Forall2_fmap_r. by eapply Forall2_impl.
Qed.

(** Tasks that each return one fixed value give these values, in
    submission order. *)
Lemma run_pool_fixed {A} (rs : list A) max_workers schedule
    (tasks : list (prog S A)) σ :
  Forall2 (λ r p, always (λ x, x = r) p) rs tasks →
  (run_pool max_workers schedule tasks σ).1 = rs.
Proof.
  intros Htasks.
  pose proof (always_run_pool (map (λ r x, x = r) rs) max_workers schedule tasks σ)
    as Hpool.
  apply list_eq_Forall2.
  assert (Forall2 (λ (P : A → Prop) r, P r) (map (λ r x, x = r) rs)
            (run_pool max_workers schedule tasks σ).1) as Hall.
  { apply Hpool. by apply Forall2_fmap_l. }
  apply Forall2_fmap_l in Hall. apply Forall2_flip.
  eapply Forall2_impl; [exact Hall|]. by intros r x ->.
Qed.

Lemma run_pool_Forall {A} (P : A → Prop) max_workers schedule
    (tasks : list (prog S A)) σ :
  Forall (always P) tasks →
  Forall P (run_pool max_workers schedule tasks σ).1.
Proof.
  intros Htasks.
  pose proof (always_run_pool (replicate (length tasks) P) max_workers schedule
                tasks σ) as Hpool.
  assert (Forall2 always (replicate (length tasks) P) tasks) as H2.
  { clear Hpool. induction Htasks; simpl; by constructor. }
  specialize (Hpool H2).
  remember (run_pool max_workers schedule tasks σ).1 as rs eqn:Hrs. clear Hrs H2.
  remember (replicate (length tasks) P) as Ps eqn:HPs.
  assert (Forall (λ Q, Q = P) Ps) as HQ.
  { subst Ps. apply Forall_forall. intros Q HQ.
    by apply elem_of_replicate in HQ as [-> _]. }
  clear HPs. induction Hpool as [|Q r Ps rs Hr _ IH]; [constructor|].
  inversion HQ as [|?? -> HQ']; subst. constructor; [done|]. by apply IH.
Qed.

End Always.

(** ** The labels of the classifier and the category maps *)

Lemma first_match_label chain data :
  Spec.first_match chain data ∈ "" :: map snd chain.
Proof.
  induction chain as [|[check label] chain IH]; simpl; [left|].
  destruct (check data); [right; left|].
  apply elem_of_cons in IH as [->|IH]; [left|by do 2 right].
Qed.

Lemma classify_label data : Spec.classify data ∈ labels.
Proof.
  pose proof (first_match_label Spec.classifier_chain data) as Hl.
  unfold Spec.classify. revert Hl. generalize (Spec.first_match Spec.classifier_chain data).
  intros l Hl. cbn in Hl. unfold labels.
  apply list_elem_of_In in Hl. apply list_elem_of_In. simpl in *. tauto.
Qed.

Lemma sample_label label : label ∈ labels → Spec.classify (sample label) = label.
Proof.
  unfold labels. intros Hl.
  repeat (apply elem_of_cons in Hl as [->|Hl]; [vm_compute; reflexivity|]).
  by apply elem_of_nil in Hl.
Qed.

Lemma category_key_label (categories : list (string * string)) label :
  is_Some ((list_to_map categories : gmap string string) !! label) →
  label ∈ map fst categories.
Proof.
  intros [category Hc]. apply elem_of_list_to_map_2 in Hc.
  apply list_elem_of_fmap. by exists (label, category).
Qed.

Lemma NpkUnlocker_category_keys label :
  is_Some (NpkUnlocker.FILE_CATEGORY_MAP !! label) ↔ label ∈ labels.
Proof.
  split.
  - intros Hl. apply category_key_label in Hl.
    apply list_elem_of_In in Hl. apply list_elem_of_In. simpl in *. tauto.
  - unfold labels. intros Hl.
    repeat (apply elem_of_cons in Hl as [->|Hl]; [by eexists; vm_compute|]).
    by apply elem_of_nil in Hl.
Qed.

Lemma GUI_category_keys label :
  is_Some (NpkUnlock_GUI.FILE_CATEGORY_MAP !! label) ↔ label ∈ labels.
Proof.
  split.
  - intros Hl. apply category_key_label in Hl.
    apply list_elem_of_In in Hl. apply list_elem_of_In. simpl in *. tauto.
  - unfold labels. intros Hl.
    repeat (apply elem_of_cons in Hl as [->|Hl]; [by eexists; vm_compute|]).
    by apply elem_of_nil in Hl.
Qed.

Lemma PPK_category_keys label :
  is_Some (PPKUnlocker.FILE_CATEGORY_MAP !! label) ↔ label ∈ labels.
Proof.
  split.
  - intros Hl. apply category_key_label in Hl.
    apply list_elem_of_In in Hl. apply list_elem_of_In. simpl in *. tauto.
  - unfold labels. intros Hl.
    repeat (apply elem_of_cons in Hl as [->|Hl]; [by eexists; vm_compute|]).
    by apply elem_of_nil in Hl.
Qed.

(** In each of the three programs the keys of [FILE_CATEGORY_MAP] are
    exactly the labels that [detect_file_extension] returns on some buffer:
    the default of [FILE_CATEGORY_MAP.get(ext, ...)] is never used after a
    detection, and no category of the map is out of reach. *)
Theorem category_map_keys_are_the_detected_labels (label : string) :
  (is_Some (NpkUnlocker.FILE_CATEGORY_MAP !! label)
   ↔ ∃ data, NpkUnlocker.detect_file_extension data = label)
  ∧ (is_Some (NpkUnlock_GUI.FILE_CATEGORY_MAP !! label)
     ↔ ∃ data, NpkUnlock_GUI.detect_file_extension data = label)
  ∧ (is_Some (PPKUnlocker.FILE_CATEGORY_MAP !! label)
     ↔ ∃ data, PPKUnlocker.detect_file_extension data = label).
Proof.
  rewrite NpkUnlocker_category_keys, GUI_category_keys, PPK_category_keys.
  split; [|split]; (split;
    [ intros Hl; exists (sample label);
      rewrite ?NpkUnlocker_detect_classify, ?GUI_detect_classify,
        ?PPK_detect_classify; by apply sample_label
    | intros [data <-];
      rewrite ?NpkUnlocker_detect_classify, ?GUI_detect_classify,
        ?PPK_detect_classify; apply classify_label ]).
Qed.

(** The three copies of [detect_file_extension] return the same label on
    every buffer. *)
Theorem three_classifiers_agree (data : list byte) :
  NpkUnlocker.detect_file_extension data = NpkUnlock_GUI.detect_file_extension data
  ∧ PPKUnlocker.detect_file_extension data = NpkUnlock_GUI.detect_file_extension data.
Proof.
  rewrite NpkUnlocker_detect_classify, PPK_detect_classify, GUI_detect_classify.
  by split.
Qed.

Lemma classify_short data : length data < 3 → Spec.classify data = "".
Proof.
  intros Hshort.
  destruct data as [|b0 [|b1 [|b2 data]]]; [done| | |simpl in Hshort; lia].
  - vm_compute. by destruct b0.
  - unfold Spec.classify. simpl.
    unfold Spec.has_prefix, Spec.has_trailer.
    repeat (rewrite bool_decide_eq_false_2;
            [|intros Hp; apply prefix_length in Hp || apply suffix_length in Hp;
              simpl in Hp; lia]).
    reflexivity.
Qed.

(** A payload of fewer than three bytes gets the empty label, and so the
    category of unknown files, from each of the three programs: the
    shortest signature, [DDS], has three bytes. *)
Theorem short_payload_is_unknown (data : list byte) :
  length data < 3 →
  NpkUnlocker.detect_file_extension data = ""
  ∧ NpkUnlock_GUI.detect_file_extension data = ""
  ∧ PPKUnlocker.detect_file_extension data = ""
  ∧ NpkUnlock_GUI.FILE_CATEGORY_MAP !! NpkUnlock_GUI.detect_file_extension data
    = Some "未知文件".
Proof.
  intros Hshort.
  rewrite NpkUnlocker_detect_classify, PPK_detect_classify, GUI_detect_classify.
  rewrite classify_short by done. by repeat split.
Qed.

Lemma short_payload_is_unknown_witness :
  length (Py.b "DD") < 3 ∧ NpkUnlock_GUI.detect_file_extension (Py.b "DD") = "".
Proof.
  split; [simpl; lia|].
  apply (short_payload_is_unknown (Py.b "DD")). simpl. lia.
Defined.

(** ** How many frames a buffer can hold *)

Lemma offsets_from_count data pos :
  4 * length (offsets_from data pos) ≤ length data - pos.
Proof.
  remember (length data - pos) as n eqn:Hn.
  revert pos Hn. induction (lt_wf n) as [n _ IH]. intros pos ->.
  destruct (Py.find data ZSTD pos) as [p|] eqn:Hf.
  - destruct (offsets_from_Some _ _ _ Hf) as [-> Hb].
    destruct (find_Some _ _ _ _ Hf) as (Hle & _).
    cbn [length].
    specialize (IH (length data - (p + 4)) ltac:(lia) (p + 4) eq_refl). lia.
  - rewrite offsets_from_None by done. simpl. lia.
Qed.

(** Both scanners return, and a buffer of [n] bytes holds at most [n / 4]
    frame positions; in particular a buffer of fewer than four bytes,
    the empty one included, holds none. *)
Theorem scanner_frames_fit_the_buffer (data : list byte) :
  ∃ frame_positions,
    NpkUnlock_GUI.scan_zstd_frames data = Some frame_positions
    ∧ NpkUnlocker.scan_frames data = Some frame_positions
    ∧ 4 * length frame_positions ≤ length data
    ∧ Forall (λ p, p + 4 ≤ length data) frame_positions.
Proof.
  exists (Spec.signature_offsets data).
  split; [apply GUI_scan_zstd_frames_spec|].
  split; [apply NpkUnlocker_scan_frames_spec|]. split.
  - pose proof (offsets_from_count data 0) as Hc.
    unfold offsets_from in Hc. rewrite Nat.sub_0_r in Hc. exact Hc.
  - apply Forall_forall. intros p Hp.
    apply signature_offsets_elem in Hp as [_ Hocc].
    by destruct (occurs_at_bound _ _ _ Hocc).
Qed.

(** ** What an extraction task leaves on disk *)

Section TaskFiles.
Context `{Primitives}.

Lemma GUI_task_success data frame_start output_root frame_idx stop_flag enable_md5
    enable_type_detect σ msg i :
  (exec (NpkUnlock_GUI.extract_single_frame data frame_start output_root frame_idx
           stop_flag enable_md5 enable_type_detect) σ).1 = (true, msg, Some i) →
  ∃ decompressed,
    zstd_decompress (drop frame_start data) = Decoded decompressed
    ∧ i = frame_info output_root enable_type_detect frame_idx decompressed
    ∧ (exec (NpkUnlock_GUI.extract_single_frame data frame_start output_root
               frame_idx stop_flag enable_md5 enable_type_detect) σ).2
      = after_write output_root frame_idx (gui_ext enable_type_detect decompressed)
          enable_md5 decompressed σ.
Proof.
  rewrite GUI_task_exec. unfold task_outcome. cbv zeta.
  destruct (stop_flag (NpkUnlock_GUI.polls σ)); [done|].
  destruct (stop_flag (1 + NpkUnlock_GUI.polls σ)); [done|].
  destruct (zstd_decompress (drop frame_start data)) as [decompressed|e]; [|done].
  destruct (stop_flag (2 + NpkUnlock_GUI.polls σ)); [done|].
  destruct (enable_md5 && bool_decide _); [done|].
  destruct (stop_flag (3 + NpkUnlock_GUI.polls σ)); [done|].
  cbn [fst snd]. intros [= <- <-]. by exists decompressed.
Qed.

Lemma GUI_task_failure data frame_start output_root frame_idx stop_flag enable_md5
    enable_type_detect σ :
  (exec (NpkUnlock_GUI.extract_single_frame data frame_start output_root frame_idx
           stop_flag enable_md5 enable_type_detect) σ).1.1.1 = false →
  let r := exec (NpkUnlock_GUI.extract_single_frame data frame_start output_root
                   frame_idx stop_flag enable_md5 enable_type_detect) σ in
  r.1.2 = None
  ∧ fs_files (NpkUnlock_GUI.fs r.2) = fs_files (NpkUnlock_GUI.fs σ)
  ∧ NpkUnlock_GUI.extracted_hashes r.2 = NpkUnlock_GUI.extracted_hashes σ.
Proof.
  rewrite GUI_task_exec. unfold task_outcome. cbv zeta.
  destruct (stop_flag (NpkUnlock_GUI.polls σ)); [done|].
  destruct (stop_flag (1 + NpkUnlock_GUI.polls σ)); [done|].
  destruct (zstd_decompress (drop frame_start data)) as [decompressed|e]; [|done].
  destruct (stop_flag (2 + NpkUnlock_GUI.polls σ)); [done|].
  destruct (enable_md5 && bool_decide _); [done|].
  destruct (stop_flag (3 + NpkUnlock_GUI.polls σ)); done.
Qed.

End TaskFiles.

(** A task of the graphical tool that reports success has decompressed the
    bytes from its frame position to the end of the buffer, and leaves the
    payload in the file that its [info] dictionary names: the path is
    [output_root/category/extracted_frame_N.ext] with [N] the frame number
    counted from one, the category is the map's entry for the extension,
    the category folder exists and [size] is the length of the payload.
    With the index of digests switched on the digest of the payload is in
    the index afterwards. *)
Theorem GUI_task_success_leaves_the_payload `{Primitives} (data : list byte)
    (frame_start : nat) (output_root : string) (frame_idx : nat)
    (stop_flag : nat → bool) (enable_md5 enable_type_detect : bool)
    (σ : NpkUnlock_GUI.task_state) (msg : string) (i : NpkUnlock_GUI.info) :
  let task := NpkUnlock_GUI.extract_single_frame data frame_start output_root
                frame_idx stop_flag enable_md5 enable_type_detect in
  (exec task σ).1 = (true, msg, Some i) →
  ∃ decompressed,
    zstd_decompress (drop frame_start data) = Decoded decompressed
    ∧ fs_files (NpkUnlock_GUI.fs (exec task σ).2) !! NpkUnlock_GUI.info_path i
      = Some decompressed
    ∧ NpkUnlock_GUI.info_size i = length decompressed
    ∧ NpkUnlock_GUI.info_path i
      = path_join (path_join output_root (NpkUnlock_GUI.info_category i))
          (NpkUnlock_GUI.info_name i)
    ∧ NpkUnlock_GUI.info_name i
      = "extracted_frame_" +:+ pretty (frame_idx + 1) +:+ NpkUnlock_GUI.info_ext i
    ∧ NpkUnlock_GUI.FILE_CATEGORY_MAP !! NpkUnlock_GUI.info_ext i
      = Some (NpkUnlock_GUI.info_category i)
    ∧ path_join output_root (NpkUnlock_GUI.info_category i)
      ∈ fs_dirs (NpkUnlock_GUI.fs (exec task σ).2)
    ∧ (enable_md5 = true →
       md5_hexdigest decompressed
       ∈ NpkUnlock_GUI.extracted_hashes (exec task σ).2).
Proof.
  intros task Hok. subst task.
  destruct (GUI_task_success _ _ _ _ _ _ _ _ _ _ Hok) as (decompressed & Hz & -> & ->).
  exists decompressed. split; [done|].
  unfold frame_info, after_write. cbn.
  split; [apply lookup_insert_eq|]. split; [done|]. split; [done|]. split; [done|].
  split.
  { unfold gui_category.
    assert (gui_ext enable_type_detect decompressed ∈ labels) as Hl.
    { unfold gui_ext. destruct enable_type_detect.
      - rewrite GUI_detect_classify. apply classify_label.
      - unfold labels. apply list_elem_of_In. simpl. tauto. }
    apply GUI_category_keys in Hl as [category Hc]. by rewrite Hc. }
  split; [set_solver|].
  intros ->. set_solver.
Qed.

Lemma GUI_task_success_leaves_the_payload_witness :
  ∃ decompressed,
    zstd_decompress (drop 0 one_frame) = Decoded decompressed
    ∧ fs_files (NpkUnlock_GUI.fs
                  (exec (NpkUnlock_GUI.extract_single_frame one_frame 0 "Output" 0
                           Toy.never true true) fresh_task_state).2)
        !! "Output/未知文件/extracted_frame_1"
      = Some decompressed.
Proof.
  destruct (GUI_task_success_leaves_the_payload one_frame 0 "Output" 0 Toy.never
              true true fresh_task_state
              (NpkUnlock_GUI.msg_success (NpkUnlock_GUI.frame_prefix 0 0)
                 "extracted_frame_1" "未知文件" 1 (md5_hexdigest [x01]))
              {| NpkUnlock_GUI.info_name := "extracted_frame_1";
                 NpkUnlock_GUI.info_ext := "";
                 NpkUnlock_GUI.info_category := "未知文件";
                 NpkUnlock_GUI.info_size := 1;
                 NpkUnlock_GUI.info_path := "Output/未知文件/extracted_frame_1" |})
    as (decompressed & Hz & Hfile & _).
  - vm_compute. reflexivity.
  - exists decompressed. split; [exact Hz|exact Hfile].
Defined.

(** ** File names of different frames *)

Lemma length_append (s t : string) :
  String.length (s +:+ t) = String.length s + String.length t.
Proof. induction s as [|c s IH]; simpl; [done|]. by rewrite IH. Qed.

Lemma append_assoc (s t u : string) : (s +:+ t) +:+ u = s +:+ t +:+ u.
Proof.
  induction s as [|c s IH]; [done|].
  change (String c ((s +:+ t) +:+ u) = String c (s +:+ t +:+ u)). by rewrite IH.
Qed.

Lemma append_nil_l (s : string) : "" +:+ s = s.
Proof. reflexivity. Qed.

Lemma append_cons (c : ascii) (s t : string) : String c s +:+ t = String c (s +:+ t).
Proof. reflexivity. Qed.

Lemma append_inj_length (a b x y : string) :
  String.length a = String.length b → a +:+ x = b +:+ y → a = b ∧ x = y.
Proof.
  revert b. induction a as [|c a IH]; intros [|d b]; simpl; try done.
  intros [= Hlen] [= -> Heq]. destruct (IH b Hlen Heq) as [-> ->]. done.
Qed.

Lemma append_inj_suffix_length (x y a b : string) :
  String.length a = String.length b → x +:+ a = y +:+ b → x = y ∧ a = b.
Proof.
  intros Hlen Heq. apply append_inj_length; [|done].
  apply (f_equal String.length) in Heq. rewrite !length_append in Heq. lia.
Qed.

Lemma gui_ext_label enable_type_detect decompressed :
  gui_ext enable_type_detect decompressed ∈ labels.
Proof.
  unfold gui_ext. destruct enable_type_detect.
  - rewrite GUI_detect_classify. apply classify_label.
  - unfold labels. apply list_elem_of_In. simpl. tauto.
Qed.

Ltac each_label Hl :=
  unfold labels in Hl;
  repeat (apply elem_of_cons in Hl as [->|Hl]);
  [..|by apply elem_of_nil in Hl].

Lemma gui_category_length ext : ext ∈ labels → String.length (gui_category ext) = 12.
Proof. intros Hl. each_label Hl; vm_compute; reflexivity. Qed.

Lemma gui_category_ext_length ext1 ext2 :
  ext1 ∈ labels → ext2 ∈ labels →
  gui_category ext1 = gui_category ext2 → String.length ext1 = String.length ext2.
Proof.
  intros Hl1 Hl2. each_label Hl1; each_label Hl2; vm_compute;
    intros Heq; first [reflexivity|discriminate Heq].
Qed.

(** The path of an artifact determines the frame number and the label. *)
Lemma gui_path_inj output_root i j ext1 ext2 :
  ext1 ∈ labels → ext2 ∈ labels →
  gui_path output_root i ext1 = gui_path output_root j ext2 → i = j ∧ ext1 = ext2.
Proof.
  intros Hl1 Hl2. unfold gui_path, path_join, gui_filename.
  rewrite !append_assoc. intros Heq.
  apply append_inj_prefix in Heq.
  rewrite !append_cons, !append_nil_l in Heq. injection Heq as Heq.
  apply append_inj_length in Heq as [Hcat Heq];
    [|by rewrite !gui_category_length].
  injection Heq as Heq.
  apply append_inj_suffix_length in Heq as [Hn He];
    [|by apply gui_category_ext_length].
  apply (inj pretty) in Hn. split; [lia|done].
Qed.

(** ** The artifacts of a serial run are on disk *)

Section SerialDisk.
Context `{Primitives}.

Lemma GUI_task_cases data frame_start output_root frame_idx stop_flag enable_md5
    enable_type_detect σ :
  let r := exec (NpkUnlock_GUI.extract_single_frame data frame_start output_root
                   frame_idx stop_flag enable_md5 enable_type_detect) σ in
  (∃ msg, r.1 = (false, msg, None)
          ∧ fs_files (NpkUnlock_GUI.fs r.2) = fs_files (NpkUnlock_GUI.fs σ))
  ∨ (∃ msg decompressed,
       zstd_decompress (drop frame_start data) = Decoded decompressed
       ∧ r.1 = (true, msg,
                Some (frame_info output_root enable_type_detect frame_idx decompressed))
       ∧ fs_files (NpkUnlock_GUI.fs r.2)
         = <[gui_path output_root frame_idx (gui_ext enable_type_detect decompressed)
             := decompressed]> (fs_files (NpkUnlock_GUI.fs σ))).
Proof.
  cbv zeta. rewrite GUI_task_exec. unfold task_outcome. cbv zeta.
  destruct (stop_flag (NpkUnlock_GUI.polls σ)); [left; by eexists|].
  destruct (stop_flag (1 + NpkUnlock_GUI.polls σ)); [left; by eexists|].
  destruct (zstd_decompress (drop frame_start data)) as [decompressed|e];
    [|left; by eexists].
  destruct (stop_flag (2 + NpkUnlock_GUI.polls σ)); [left; by eexists|].
  destruct (enable_md5 && bool_decide _); [left; by eexists|].
  destruct (stop_flag (3 + NpkUnlock_GUI.polls σ)); [left; by eexists|].
  right. by eexists _, decompressed.
Qed.

Lemma stored_mono data output_root enable_type_detect frame_positions n m files
    files' a :
  n ≤ m → fs_files files' = fs_files files →
  stored data output_root enable_type_detect frame_positions n files a →
  stored data output_root enable_type_detect frame_positions m files' a.
Proof.
  intros Hle Hfiles (frame_idx & frame_start & d & Hlt & Hpos & Hz & Ha & Hfile).
  exists frame_idx, frame_start, d. rewrite Hfiles. repeat split; try done. lia.
Qed.

Lemma disk_ok_mono data output_root enable_type_detect frame_positions n m files
    files' announced :
  n ≤ m → fs_files files' = fs_files files →
  disk_ok data output_root enable_type_detect frame_positions n files announced →
  disk_ok data output_root enable_type_detect frame_positions m files' announced.
Proof.
  intros Hle Hfiles [Hall Hnd]. split; [|done].
  eapply Forall_impl; [exact Hall|]. intros a. by apply stored_mono.
Qed.

Lemma stored_path_below data output_root enable_type_detect frame_positions n files
    a ext :
  ext ∈ labels →
  stored data output_root enable_type_detect frame_positions n files a →
  NpkUnlock_GUI.info_path a ≠ gui_path output_root n ext.
Proof.
  intros Hl (frame_idx & frame_start & d & Hlt & _ & _ & -> & _) Heq.
  cbn in Heq. apply gui_path_inj in Heq as [Hidx _];
    [lia|apply gui_ext_label|done].
Qed.

Lemma disk_ok_write data output_root enable_type_detect frame_positions n files
    files' announced frame_start decompressed :
  frame_positions !! n = Some frame_start →
  zstd_decompress (drop frame_start data) = Decoded decompressed →
  fs_files files'
  = <[gui_path output_root n (gui_ext enable_type_detect decompressed) := decompressed]>
      (fs_files files) →
  disk_ok data output_root enable_type_detect frame_positions n files announced →
  disk_ok data output_root enable_type_detect frame_positions (S n) files'
    (announced ++ [frame_info output_root enable_type_detect n decompressed]).
Proof.
  intros Hpos Hz Hfiles [Hall Hnd]. split.
  - apply Forall_app. split.
    + apply Forall_forall. intros a Ha.
      pose proof (proj1 (Forall_forall _ _) Hall a Ha) as Hst.
      pose proof (stored_path_below _ _ _ _ _ _ _ _
                    (gui_ext_label enable_type_detect decompressed) Hst) as Hne.
      destruct Hst as (frame_idx & fstart & d & Hlt & Hp & Hd & Heq & Hfile).
      exists frame_idx, fstart, d. rewrite Hfiles.
      rewrite lookup_insert_ne by done. repeat split; try done. lia.
    + apply Forall_singleton. exists n, frame_start, decompressed.
      rewrite Hfiles. cbn. rewrite lookup_insert_eq. repeat split; try done. lia.
  - rewrite map_app. apply NoDup_app. split; [done|]. split.
    + intros path Hin Hnew. cbn in Hnew. apply list_elem_of_singleton in Hnew.
      apply list_elem_of_fmap in Hin as (a & -> & Ha).
      pose proof (proj1 (Forall_forall _ _) Hall a Ha) as Hst.
      by apply (stored_path_below _ _ _ _ _ _ _ _
                  (gui_ext_label enable_type_detect decompressed)) in Hst.
    + cbn. apply NoDup_singleton.
Qed.

Lemma artifacts_account_failure msg position total acc :
  NpkUnlock_GUI.artifacts (NpkUnlock_GUI.account (false, msg, None) position total acc).2
  = NpkUnlock_GUI.artifacts acc.2.
Proof.
  destruct acc as [c out]. cbn [NpkUnlock_GUI.account fst snd].
  rewrite !artifacts_app. cbn. by rewrite !app_nil_r.
Qed.

Lemma artifacts_account_success msg i position total acc :
  NpkUnlock_GUI.artifacts (NpkUnlock_GUI.account (true, msg, Some i) position total acc).2
  = NpkUnlock_GUI.artifacts acc.2 ++ [i].
Proof.
  destruct acc as [c out]. cbn [NpkUnlock_GUI.account fst snd].
  rewrite !artifacts_app. cbn. by rewrite !app_nil_r.
Qed.

Lemma GUI_serial_loop_stored data output_root stop_flag enable_md5 enable_type_detect
    total frame_positions n l acc σ :
  (∀ k frame_start, l !! k = Some frame_start →
                    frame_positions !! (n + k) = Some frame_start) →
  disk_ok data output_root enable_type_detect frame_positions n (NpkUnlock_GUI.fs σ)
    (NpkUnlock_GUI.artifacts acc.2) →
  wp (NpkUnlock_GUI.serial_loop data output_root stop_flag enable_md5
        enable_type_detect total (zip (seq n (length l)) l) acc)
     (λ acc' σ',
        disk_ok data output_root enable_type_detect frame_positions (n + length l)
          (NpkUnlock_GUI.fs σ') (NpkUnlock_GUI.artifacts acc'.2)) σ.
Proof.
  revert n acc σ. induction l as [|frame_start l IH]; intros n acc σ Hl Hok.
  - apply wp_ret. eapply disk_ok_mono; [|reflexivity|exact Hok]. simpl. lia.
  - cbn [length seq zip zip_with NpkUnlock_GUI.serial_loop]. wp_atomic_step.
    cbn [NpkUnlock_GUI.read_stop fst snd].
    destruct (stop_flag (NpkUnlock_GUI.polls σ)).
    { apply wp_ret. eapply disk_ok_mono; [|reflexivity|exact Hok]. lia. }
    apply wp_bind. unfold wp at 1.
    match goal with |- context [exec ?t ?σ1] =>
      pose proof (GUI_task_cases data frame_start output_root n stop_flag enable_md5
                    enable_type_detect σ1) as Hcases;
      cbv zeta in Hcases;
      destruct (exec (NpkUnlock_GUI.extract_single_frame data frame_start output_root
                        n stop_flag enable_md5 enable_type_detect) σ1) as [r σ2]
    end.
    cbn [fst snd] in *.
    replace (n + S (length l)) with (S n + length l) by lia.
    destruct Hcases as [(msg & -> & Hfiles)|(msg & d & Hz & -> & Hfiles)].
    + apply IH.
      * intros k fs Hk. replace (S n + k) with (n + S k) by lia. by apply Hl.
      * rewrite artifacts_account_failure.
        eapply disk_ok_mono; [|exact Hfiles|exact Hok]. lia.
    + apply IH.
      * intros k fs Hk. replace (S n + k) with (n + S k) by lia. by apply Hl.
      * rewrite artifacts_account_success.
        eapply disk_ok_write; [|exact Hz|exact Hfiles|exact Hok].
        rewrite <- (Nat.add_0_r n). by apply Hl.
Qed.

Lemma GUI_finish_artifacts stop_flag acc σ :
  NpkUnlock_GUI.artifacts (exec (NpkUnlock_GUI.finish stop_flag acc) σ).1
  = NpkUnlock_GUI.artifacts acc.2
  ∧ NpkUnlock_GUI.fs (exec (NpkUnlock_GUI.finish stop_flag acc) σ).2
    = NpkUnlock_GUI.fs σ.
Proof.
  destruct acc as [c out]. unfold NpkUnlock_GUI.finish.
  rewrite exec_bind, exec_atomic. cbn [NpkUnlock_GUI.read_stop fst snd exec mret prog_ret].
  destruct (stop_flag (NpkUnlock_GUI.polls σ));
    rewrite !artifacts_app; cbn; by rewrite !app_nil_r.
Qed.

Lemma GUI_serial_run_stored input_file data output_root max_threads enable_md5
    enable_type_detect stop_flag schedule σ :
  ∃ p,
    NpkUnlock_GUI.run input_file (Some data) output_root false max_threads enable_md5
      enable_type_detect stop_flag schedule = Some p
    ∧ disk_ok data output_root enable_type_detect (Spec.signature_offsets data)
        (length (Spec.signature_offsets data)) (NpkUnlock_GUI.fs (exec p σ).2)
        (NpkUnlock_GUI.artifacts (exec p σ).1).
Proof.
  unfold NpkUnlock_GUI.run.
  rewrite GUI_scan_zstd_frames_spec. cbn [mbind option_bind].
  eexists. split; [reflexivity|].
  set (frame_positions := Spec.signature_offsets data).
  match goal with |- disk_ok _ _ _ _ _ (NpkUnlock_GUI.fs (exec ?p σ).2) _ =>
    change (wp p (λ out σ', disk_ok data output_root enable_type_detect
                              frame_positions (length frame_positions)
                              (NpkUnlock_GUI.fs σ') (NpkUnlock_GUI.artifacts out)) σ)
  end.
  assert (Hnone : ∀ files, disk_ok data output_root enable_type_detect frame_positions
                             0 files []).
  { intros files. split; [constructor|constructor]. }
  wp_atomic_step. cbv zeta. wp_atomic_step.
  match goal with |- context [NpkUnlock_GUI.read_stop stop_flag ?σ'] =>
    destruct (NpkUnlock_GUI.read_stop stop_flag σ') as [s σ1] end.
  cbn [fst snd]. destruct s.
  { apply wp_ret. eapply disk_ok_mono; [|reflexivity|apply (Hnone (NpkUnlock_GUI.fs σ1))].
    lia. }
  destruct (length frame_positions =? 0) eqn:Hz.
  { apply wp_ret. eapply disk_ok_mono; [|reflexivity|apply (Hnone (NpkUnlock_GUI.fs σ1))].
    lia. }
  wp_atomic_step.
  match goal with |- wp _ _ ?σ' => generalize σ'; intros σ2 end.
  apply wp_bind.
  eapply wp_mono;
    [|apply (GUI_serial_loop_stored data output_root stop_flag enable_md5
               enable_type_detect (length frame_positions) frame_positions 0
               frame_positions);
      [done|apply Hnone]].
  cbn beta. intros acc σ3 Hok. unfold wp.
  destruct (GUI_finish_artifacts stop_flag acc σ3) as [-> ->]. exact Hok.
Qed.

End SerialDisk.

(** ** The artifacts of a run, whatever the mode *)

Section AnyMode.
Context `{Primitives}.

Ltac always_step :=
  apply always_bind, always_atomic; intros ?;
  cbn [NpkUnlock_GUI.read_stop gets modify fst snd].

Lemma GUI_task_always data frame_start output_root frame_idx stop_flag enable_md5
    enable_type_detect :
  always (λ r, announced r `sublist_of`
               option_list (frame_artifact data output_root enable_type_detect
                              (frame_idx, frame_start)))
    (NpkUnlock_GUI.extract_single_frame data frame_start output_root frame_idx
       stop_flag enable_md5 enable_type_detect).
Proof.
  unfold NpkUnlock_GUI.extract_single_frame, frame_artifact. cbn [fst snd].
  always_step. destruct (stop_flag _); [apply always_ret, sublist_nil_l|].
  cbv zeta. always_step. destruct (stop_flag _); [apply always_ret, sublist_nil_l|].
  destruct (zstd_decompress (drop frame_start data)) as [decompressed|e];
    [|apply always_ret, sublist_nil_l].
  always_step. destruct (stop_flag _); [apply always_ret, sublist_nil_l|].
  destruct enable_md5.
  - always_step. case_bool_decide; [apply always_ret, sublist_nil_l|].
    always_step. always_step.
    destruct (stop_flag _); [apply always_ret, sublist_nil_l|].
    always_step. cbn [when_]. always_step. apply always_ret. reflexivity.
  - cbn [mbind prog_mbind prog_bind mret prog_ret].
    always_step. always_step.
    destruct (stop_flag _); [apply always_ret, sublist_nil_l|].
    always_step. cbn [when_ mbind prog_mbind prog_bind mret prog_ret].
    apply always_ret. reflexivity.
Qed.

Lemma GUI_task_plain data frame_start output_root frame_idx stop_flag
    enable_type_detect :
  (∀ k, stop_flag k = false) →
  always (λ r, r = frame_result data output_root enable_type_detect frame_idx frame_start)
    (NpkUnlock_GUI.extract_single_frame data frame_start output_root frame_idx
       stop_flag false enable_type_detect).
Proof.
  intros Hstop.
  unfold NpkUnlock_GUI.extract_single_frame, frame_result. cbn [fst snd].
  always_step. rewrite Hstop. cbv zeta. always_step. rewrite Hstop.
  destruct (zstd_decompress (drop frame_start data)) as [decompressed|e];
    [|by apply always_ret].
  always_step. rewrite Hstop.
  cbn [mbind prog_mbind prog_bind mret prog_ret].
  always_step. always_step. rewrite Hstop.
  always_step. cbn [when_ mbind prog_mbind prog_bind mret prog_ret].
  by apply always_ret.
Qed.

Lemma announced_frame_result data output_root enable_type_detect frame_idx frame_start :
  announced (frame_result data output_root enable_type_detect frame_idx frame_start)
  = option_list (frame_artifact data output_root enable_type_detect
                   (frame_idx, frame_start)).
Proof.
  unfold frame_result, frame_artifact. cbn [fst snd].
  by destruct (zstd_decompress (drop frame_start data)).
Qed.

Lemma artifacts_account r position total acc :
  NpkUnlock_GUI.artifacts (NpkUnlock_GUI.account r position total acc).2
  = NpkUnlock_GUI.artifacts acc.2 ++ announced r.
Proof.
  destruct r as [[ok msg] inf], acc as [c out].
  destruct ok, inf as [i|]; cbn [NpkUnlock_GUI.account fst snd];
    rewrite !artifacts_app; cbn; by rewrite ?app_nil_r.
Qed.

Lemma omap_concat_option_list {A B} (f : A → option B) (l : list A) :
  omap f l = concat (map (λ x, option_list (f x)) l).
Proof.
  induction l as [|x l IH]; [done|]. cbn [omap list_omap map concat].
  rewrite <- IH. by destruct (f x).
Qed.

(** The serial loop announces a subsequence of the artifacts of the frames
    it is given, in frame order. *)
Lemma GUI_serial_loop_sublist data output_root stop_flag enable_md5 enable_type_detect
    total frames acc σ :
  wp (NpkUnlock_GUI.serial_loop data output_root stop_flag enable_md5
        enable_type_detect total frames acc)
     (λ acc' _,
        ∃ more, NpkUnlock_GUI.artifacts acc'.2 = NpkUnlock_GUI.artifacts acc.2 ++ more
                ∧ more `sublist_of`
                  decodable_artifacts data output_root enable_type_detect frames) σ.
Proof.
  revert acc σ. induction frames as [|[i frame_start] frames IH]; intros acc σ.
  - apply wp_ret. exists []. by rewrite app_nil_r.
  - cbn [NpkUnlock_GUI.serial_loop]. wp_atomic_step.
    destruct (NpkUnlock_GUI.read_stop stop_flag σ).1.
    { apply wp_ret. exists []. rewrite app_nil_r. split; [done|apply sublist_nil_l]. }
    apply wp_bind. unfold wp at 1.
    match goal with |- context [exec ?t ?σ1] =>
      pose proof (always_exec _ t σ1
                    (GUI_task_always data frame_start output_root i stop_flag
                       enable_md5 enable_type_detect)) as Hr;
      destruct (exec t σ1) as [r σ2]
    end.
    cbn [fst snd] in *.
    eapply wp_mono; [|apply IH].
    cbn beta. intros acc' _ (more & Hacc & Hsub).
    rewrite artifacts_account in Hacc.
    exists (announced r ++ more). rewrite Hacc, <- app_assoc. split; [done|].
    unfold decodable_artifacts. rewrite omap_concat_option_list. cbn [map concat].
    rewrite <- omap_concat_option_list. by apply sublist_app.
Qed.

(** With the index switched off and no stop request the serial loop
    announces the artifact of every frame that decompresses. *)
Lemma GUI_serial_loop_plain data output_root stop_flag enable_type_detect
    total frames acc σ :
  (∀ k, stop_flag k = false) →
  wp (NpkUnlock_GUI.serial_loop data output_root stop_flag false
        enable_type_detect total frames acc)
     (λ acc' _,
        NpkUnlock_GUI.artifacts acc'.2
        = NpkUnlock_GUI.artifacts acc.2
          ++ decodable_artifacts data output_root enable_type_detect frames) σ.
Proof.
  intros Hstop.
  revert acc σ. induction frames as [|[i frame_start] frames IH]; intros acc σ.
  - apply wp_ret. cbn. by rewrite app_nil_r.
  - cbn [NpkUnlock_GUI.serial_loop]. wp_atomic_step.
    cbn [NpkUnlock_GUI.read_stop fst snd]. rewrite Hstop.
    apply wp_bind. unfold wp at 1.
    match goal with |- context [exec ?t ?σ1] =>
      pose proof (always_exec _ t σ1
                    (GUI_task_plain data frame_start output_root i stop_flag
                       enable_type_detect Hstop)) as Hr;
      destruct (exec t σ1) as [r σ2]
    end.
    cbn [fst snd] in *. subst r.
    eapply wp_mono; [|apply IH].
    cbn beta. intros acc' _ Hacc.
    rewrite artifacts_account, announced_frame_result in Hacc.
    rewrite Hacc, <- app_assoc. f_equal.
    unfold decodable_artifacts. rewrite !omap_concat_option_list. reflexivity.
Qed.

Lemma GUI_collect_loop_sublist stop_flag total results acc σ :
  wp (NpkUnlock_GUI.collect_loop stop_flag total results acc)
     (λ acc' _,
        ∃ more, NpkUnlock_GUI.artifacts acc'.2 = NpkUnlock_GUI.artifacts acc.2 ++ more
                ∧ more `sublist_of` concat (map (λ r, announced r.2) results)) σ.
Proof.
  revert acc σ. induction results as [|[idx r] results IH]; intros acc σ.
  - apply wp_ret. exists []. by rewrite app_nil_r.
  - cbn [NpkUnlock_GUI.collect_loop]. wp_atomic_step.
    destruct (NpkUnlock_GUI.read_stop stop_flag σ).1.
    { apply wp_ret. exists []. rewrite app_nil_r. split; [done|apply sublist_nil_l]. }
    eapply wp_mono; [|apply IH].
    cbn beta. intros acc' _ (more & Hacc & Hsub).
    rewrite artifacts_account in Hacc.
    exists (announced r ++ more). rewrite Hacc, <- app_assoc. split; [done|].
    cbn [map concat snd]. by apply sublist_app.
Qed.

Lemma GUI_collect_loop_plain stop_flag total results acc σ :
  (∀ k, stop_flag k = false) →
  wp (NpkUnlock_GUI.collect_loop stop_flag total results acc)
     (λ acc' _,
        NpkUnlock_GUI.artifacts acc'.2
        = NpkUnlock_GUI.artifacts acc.2 ++ concat (map (λ r, announced r.2) results)) σ.
Proof.
  intros Hstop.
  revert acc σ. induction results as [|[idx r] results IH]; intros acc σ.
  - apply wp_ret. cbn. by rewrite app_nil_r.
  - cbn [NpkUnlock_GUI.collect_loop]. wp_atomic_step.
    cbn [NpkUnlock_GUI.read_stop fst snd]. rewrite Hstop.
    eapply wp_mono; [|apply IH].
    cbn beta. intros acc' _ Hacc.
    rewrite artifacts_account in Hacc. rewrite Hacc, <- app_assoc. done.
Qed.

(** The first loop of the fast mode submits the tasks of a prefix of the
    frames. *)
Lemma GUI_submit_loop_prefix data output_root stop_flag enable_md5 enable_type_detect
    frames futures σ :
  wp (NpkUnlock_GUI.submit_loop data output_root stop_flag enable_md5
        enable_type_detect frames futures)
     (λ futures' _,
        ∃ k, futures'
             = futures ++
               map (λ '(i, frame_start),
                      NpkUnlock_GUI.extract_single_frame data frame_start output_root i
                        stop_flag enable_md5 enable_type_detect) (take k frames)) σ.
Proof.
  revert futures σ. induction frames as [|[i frame_start] frames IH]; intros futures σ.
  - apply wp_ret. exists 0. by rewrite app_nil_r.
  - cbn [NpkUnlock_GUI.submit_loop]. wp_atomic_step.
    destruct (NpkUnlock_GUI.read_stop stop_flag σ).1.
    { apply wp_ret. exists 0. by rewrite app_nil_r. }
    eapply wp_mono; [|apply IH].
    cbn beta. intros futures' _ [k ->]. exists (S k).
    cbn [take map]. by rewrite <- app_assoc.
Qed.

Lemma snd_enumerate {A} (l : list A) : map snd (enumerate l) = l.
Proof. unfold enumerate. apply snd_zip. by rewrite length_seq. Qed.

Lemma concat_announced_enumerate (results : list (bool * string * option NpkUnlock_GUI.info)) :
  concat (map (λ r : nat * _, announced r.2) (enumerate results))
  = concat (map announced results).
Proof.
  rewrite <- (snd_enumerate results) at 2. by rewrite <- list_fmap_compose.
Qed.

(** What the pool returns for the tasks of [frames]. *)
Lemma GUI_pool_sublist data output_root stop_flag enable_md5 enable_type_detect
    max_workers schedule frames σ :
  concat (map announced
            (run_pool max_workers schedule
               (map (λ '(i, frame_start),
                       NpkUnlock_GUI.extract_single_frame data frame_start output_root
                         i stop_flag enable_md5 enable_type_detect) frames) σ).1)
  `sublist_of` decodable_artifacts data output_root enable_type_detect frames.
Proof.
  pose proof (always_run_pool
                (map (λ frame r, announced r `sublist_of`
                                 option_list (frame_artifact data output_root
                                                enable_type_detect frame)) frames)
                max_workers schedule
                (map (λ '(i, frame_start),
                        NpkUnlock_GUI.extract_single_frame data frame_start output_root
                          i stop_flag enable_md5 enable_type_detect) frames) σ) as Hpool.
  match type of Hpool with ?P → _ => assert P as Htasks end.
  { apply Forall2_fmap. apply Forall_Forall2_diag, Forall_forall.
    intros [i frame_start] _. apply GUI_task_always. }
  specialize (Hpool Htasks). clear Htasks.
  apply Forall2_fmap_l in Hpool.
  unfold decodable_artifacts. rewrite omap_concat_option_list.
  induction Hpool as [|frame r frames rs Hr _ IH]; [done|].
  cbn [map concat]. by apply sublist_app.
Qed.

Lemma GUI_pool_plain data output_root stop_flag enable_type_detect
    max_workers schedule frames σ :
  (∀ k, stop_flag k = false) →
  (run_pool max_workers schedule
     (map (λ '(i, frame_start),
             NpkUnlock_GUI.extract_single_frame data frame_start output_root
               i stop_flag false enable_type_detect) frames) σ).1
  = map (λ '(i, frame_start),
           frame_result data output_root enable_type_detect i frame_start) frames.
Proof.
  intros Hstop. apply run_pool_fixed.
  apply Forall2_fmap. apply Forall_Forall2_diag, Forall_forall.
  intros [i frame_start] _. by apply GUI_task_plain.
Qed.

Lemma decodable_artifacts_take data output_root enable_type_detect frames k :
  decodable_artifacts data output_root enable_type_detect (take k frames)
  `sublist_of` decodable_artifacts data output_root enable_type_detect frames.
Proof.
  rewrite <- (take_drop k frames) at 2. unfold decodable_artifacts.
  rewrite omap_app. apply sublist_inserts_r. done.
Qed.

End AnyMode.

Section RunArtifacts.
Context `{Primitives}.

Lemma fst_enumerate {A} (l : list A) : map fst (enumerate l) = seq 0 (length l).
Proof. unfold enumerate. apply fst_zip. by rewrite length_seq. Qed.

Lemma decodable_artifacts_elem data output_root enable_type_detect frames a :
  a ∈ decodable_artifacts data output_root enable_type_detect frames →
  ∃ frame_idx frame_start decompressed,
    (frame_idx, frame_start) ∈ frames
    ∧ zstd_decompress (drop frame_start data) = Decoded decompressed
    ∧ a = frame_info output_root enable_type_detect frame_idx decompressed.
Proof.
  unfold decodable_artifacts. rewrite list_elem_of_omap.
  intros ([frame_idx frame_start] & Hin & Ha).
  unfold frame_artifact in Ha. cbn [fst snd] in Ha.
  destruct (zstd_decompress (drop frame_start data)) as [d|e] eqn:Hz; [|done].
  injection Ha as <-. by exists frame_idx, frame_start, d.
Qed.

Lemma decodable_artifacts_NoDup data output_root enable_type_detect frames :
  NoDup (map fst frames) →
  NoDup (map NpkUnlock_GUI.info_path
           (decodable_artifacts data output_root enable_type_detect frames)).
Proof.
  induction frames as [|[i frame_start] frames IH]; [constructor|].
  cbn [map fst]. intros Hnd. apply NoDup_cons in Hnd as [Hi Hnd].
  unfold decodable_artifacts. cbn [omap list_omap].
  fold (decodable_artifacts data output_root enable_type_detect frames).
  unfold frame_artifact at 1. cbn [fst snd].
  destruct (zstd_decompress (drop frame_start data)) as [d|e]; [|by apply IH].
  cbn [map]. apply NoDup_cons. split; [|by apply IH].
  intros Hin. apply list_elem_of_fmap in Hin as (a & Hpath & Ha).
  apply decodable_artifacts_elem in Ha as (j & fs & d' & Hj & _ & ->).
  cbn in Hpath. apply gui_path_inj in Hpath as [-> _]; [|apply gui_ext_label..].
  apply Hi. apply list_elem_of_fmap. by exists (j, fs).
Qed.

Lemma GUI_run_sublist input_file data output_root fast_mode max_threads enable_md5
    enable_type_detect stop_flag schedule σ :
  ∃ p,
    NpkUnlock_GUI.run input_file (Some data) output_root fast_mode max_threads
      enable_md5 enable_type_detect stop_flag schedule = Some p
    ∧ NpkUnlock_GUI.artifacts (exec p σ).1
      `sublist_of` decodable_artifacts data output_root enable_type_detect
                     (enumerate (Spec.signature_offsets data)).
Proof.
  unfold NpkUnlock_GUI.run.
  rewrite GUI_scan_zstd_frames_spec. cbn [mbind option_bind].
  eexists. split; [reflexivity|].
  set (frame_positions := Spec.signature_offsets data).
  set (D := decodable_artifacts data output_root enable_type_detect).
  match goal with |- NpkUnlock_GUI.artifacts (exec ?p σ).1 `sublist_of` _ =>
    change (wp p (λ out _, NpkUnlock_GUI.artifacts out
                           `sublist_of` D (enumerate frame_positions)) σ)
  end.
  wp_atomic_step. cbv zeta. wp_atomic_step.
  match goal with |- context [NpkUnlock_GUI.read_stop stop_flag ?σ'] =>
    destruct (NpkUnlock_GUI.read_stop stop_flag σ') as [s σ1] end.
  cbn [fst snd]. destruct s.
  { apply wp_ret. exact (sublist_nil_l _). }
  destruct (length frame_positions =? 0) eqn:Hz.
  { apply wp_ret. exact (sublist_nil_l _). }
  wp_atomic_step.
  match goal with |- wp _ _ ?σ' => generalize σ'; intros σ2 end.
  destruct fast_mode.
  - destruct (max_threads =? 0).
    { apply wp_ret. exact (sublist_nil_l _). }
    apply wp_bind. eapply wp_mono; [|apply GUI_submit_loop_prefix].
    cbn beta. intros futures σ3 [k ->]. cbn [app]. wp_atomic_step.
    apply wp_bind. eapply wp_mono; [|apply GUI_collect_loop_sublist].
    cbn beta. intros acc σ4 (more & Hacc & Hsub). unfold wp.
    destruct (GUI_finish_artifacts stop_flag acc σ4) as [-> _].
    rewrite Hacc. cbn [snd].
    match goal with |- ?arts ++ more `sublist_of` _ => change arts with (@nil NpkUnlock_GUI.info) end.
    cbn [app]. etransitivity; [exact Hsub|].
    rewrite concat_announced_enumerate.
    etransitivity; [apply GUI_pool_sublist|]. apply decodable_artifacts_take.
  - apply wp_bind. eapply wp_mono; [|apply GUI_serial_loop_sublist].
    cbn beta. intros acc σ3 (more & Hacc & Hsub). unfold wp.
    destruct (GUI_finish_artifacts stop_flag acc σ3) as [-> _].
    rewrite Hacc. cbn [snd].
    match goal with |- ?arts ++ more `sublist_of` _ => change arts with (@nil NpkUnlock_GUI.info) end.
    exact Hsub.
Qed.

Lemma GUI_run_plain input_file data output_root fast_mode max_threads
    enable_type_detect stop_flag schedule σ :
  (∀ k, stop_flag k = false) →
  fast_mode = false ∨ 0 < max_threads →
  ∃ p,
    NpkUnlock_GUI.run input_file (Some data) output_root fast_mode max_threads
      false enable_type_detect stop_flag schedule = Some p
    ∧ NpkUnlock_GUI.artifacts (exec p σ).1
      = decodable_artifacts data output_root enable_type_detect
          (enumerate (Spec.signature_offsets data)).
Proof.
  intros Hstop Hpool. unfold NpkUnlock_GUI.run.
  rewrite GUI_scan_zstd_frames_spec. cbn [mbind option_bind].
  eexists. split; [reflexivity|].
  set (frame_positions := Spec.signature_offsets data).
  set (D := decodable_artifacts data output_root enable_type_detect).
  match goal with |- NpkUnlock_GUI.artifacts (exec ?p σ).1 = _ =>
    change (wp p (λ out _, NpkUnlock_GUI.artifacts out
                           = D (enumerate frame_positions)) σ)
  end.
  wp_atomic_step. cbv zeta. wp_atomic_step.
  cbn [NpkUnlock_GUI.read_stop fst snd]. rewrite Hstop.
  destruct (Nat.eqb_spec (length frame_positions) 0) as [Hz|Hz].
  { apply wp_ret. apply nil_length_inv in Hz. by rewrite Hz. }
  wp_atomic_step.
  match goal with |- wp _ _ ?σ' => generalize σ'; intros σ2 end.
  destruct fast_mode.
  - destruct Hpool as [|Hpool]; [done|].
    destruct (Nat.eqb_spec max_threads 0) as [|_]; [lia|].
    apply wp_bind. unfold wp at 1. rewrite GUI_submit_loop_exec by done.
    cbn [fst snd app]. wp_atomic_step. rewrite GUI_pool_plain by done.
    apply wp_bind. eapply wp_mono; [|by apply GUI_collect_loop_plain].
    cbn beta. intros acc σ4 Hacc. unfold wp.
    destruct (GUI_finish_artifacts stop_flag acc σ4) as [-> _].
    rewrite Hacc. cbn [snd].
    match goal with |- ?arts ++ _ = _ => change arts with (@nil NpkUnlock_GUI.info) end.
    cbn [app]. rewrite concat_announced_enumerate.
    unfold D, decodable_artifacts. rewrite omap_concat_option_list.
    rewrite <- list_fmap_compose. f_equal. apply list_fmap_ext.
    intros _ [i frame_start] _. apply announced_frame_result.
  - apply wp_bind. eapply wp_mono; [|by apply GUI_serial_loop_plain].
    cbn beta. intros acc σ3 Hacc. unfold wp.
    destruct (GUI_finish_artifacts stop_flag acc σ3) as [-> _].
    rewrite Hacc. reflexivity.
Qed.

End RunArtifacts.

(** In every mode of the graphical tool, whatever the schedule of the pool,
    the switches and the moments at which the stop flag is raised, the
    artifacts announced by [file_signal] are artifacts of frames that
    decompress, each announced at most once and in frame order: the list
    is a subsequence of the per-frame artifacts.  No two announced
    artifacts share a path, so no frame is announced under the file of
    another. *)
Theorem GUI_run_announces_frames_in_order `{Primitives} (input_file : string)
    (data : list byte) (output_root : string) (fast_mode : bool) (max_threads : nat)
    (enable_md5 enable_type_detect : bool) (stop_flag : nat → bool)
    (schedule : list nat) (σ : NpkUnlock_GUI.task_state) :
  ∃ p frame_positions,
    NpkUnlock_GUI.scan_zstd_frames data = Some frame_positions
    ∧ NpkUnlock_GUI.run input_file (Some data) output_root fast_mode max_threads
        enable_md5 enable_type_detect stop_flag schedule = Some p
    ∧ NpkUnlock_GUI.artifacts (exec p σ).1
      `sublist_of` decodable_artifacts data output_root enable_type_detect
                     (enumerate frame_positions)
    ∧ (∀ a, a ∈ NpkUnlock_GUI.artifacts (exec p σ).1 →
            ∃ frame_idx frame_start decompressed,
              frame_positions !! frame_idx = Some frame_start
              ∧ zstd_decompress (drop frame_start data) = Decoded decompressed
              ∧ NpkUnlock_GUI.info_name a
                = "extracted_frame_" +:+ pretty (frame_idx + 1)
                  +:+ NpkUnlock_GUI.info_ext a
              ∧ NpkUnlock_GUI.info_size a = length decompressed)
    ∧ NoDup (map NpkUnlock_GUI.info_path (NpkUnlock_GUI.artifacts (exec p σ).1)).
Proof.
  destruct (GUI_run_sublist input_file data output_root fast_mode max_threads
              enable_md5 enable_type_detect stop_flag schedule σ) as (p & Hp & Hsub).
  exists p, (Spec.signature_offsets data).
  split; [apply GUI_scan_zstd_frames_spec|]. split; [exact Hp|].
  split; [exact Hsub|]. split.
  - intros a Ha. apply (elem_of_sublist _ _ _ Ha) in Hsub as Ha'. clear Ha.
    rename Ha' into Ha.
    apply decodable_artifacts_elem in Ha as (frame_idx & frame_start & d & Hin & Hz & ->).
    exists frame_idx, frame_start, d. split; [|by split].
    unfold enumerate in Hin. apply list_elem_of_lookup in Hin as [k Hk].
    apply lookup_zip_with_Some in Hk as (x & y & [= <- <-] & Hx & Hy).
    apply lookup_seq in Hx as [-> _]. exact Hy.
  - eapply sublist_NoDup;
      [|exact (fmap_sublist NpkUnlock_GUI.info_path _ _ Hsub)].
    apply decodable_artifacts_NoDup. rewrite fst_enumerate. apply NoDup_seq.
Qed.

(** In the normal mode of the graphical tool, whatever the switches and
    the moments at which the stop flag is raised, every artifact announced
    by [file_signal] is on disk when the run ends: the file at its path
    holds the payload of the frame it was announced for, no later frame has
    overwritten it, and its [size] is the length of that payload. *)
Theorem GUI_serial_run_keeps_every_artifact `{Primitives} (input_file : string)
    (data : list byte) (output_root : string) (max_threads : nat)
    (enable_md5 enable_type_detect : bool) (stop_flag : nat → bool)
    (schedule : list nat) (σ : NpkUnlock_GUI.task_state) :
  ∃ p frame_positions,
    NpkUnlock_GUI.scan_zstd_frames data = Some frame_positions
    ∧ NpkUnlock_GUI.run input_file (Some data) output_root false max_threads
        enable_md5 enable_type_detect stop_flag schedule = Some p
    ∧ ∀ a, a ∈ NpkUnlock_GUI.artifacts (exec p σ).1 →
           ∃ frame_idx frame_start decompressed,
             frame_positions !! frame_idx = Some frame_start
             ∧ zstd_decompress (drop frame_start data) = Decoded decompressed
             ∧ NpkUnlock_GUI.info_name a
               = "extracted_frame_" +:+ pretty (frame_idx + 1)
                 +:+ NpkUnlock_GUI.info_ext a
             ∧ fs_files (NpkUnlock_GUI.fs (exec p σ).2) !! NpkUnlock_GUI.info_path a
               = Some decompressed
             ∧ NpkUnlock_GUI.info_size a = length decompressed.
Proof.
  destruct (GUI_serial_run_stored input_file data output_root max_threads enable_md5
              enable_type_detect stop_flag schedule σ) as (p & Hp & Hall & _).
  exists p, (Spec.signature_offsets data).
  split; [apply GUI_scan_zstd_frames_spec|]. split; [exact Hp|].
  intros a Ha.
  destruct (proj1 (Forall_forall _ _) Hall a Ha)
    as (frame_idx & frame_start & d & _ & Hpos & Hz & -> & Hfile).
  by exists frame_idx, frame_start, d.
Qed.

(** With the index of digests switched off and no stop request, the
    graphical tool announces the artifact of every frame that decompresses,
    once and in frame order, and ends with the [finished_signal] that
    carries their number; the fast mode, whatever the number of worker
    threads and their schedule, announces exactly what the normal mode
    announces. *)
Theorem GUI_plain_run_extracts_every_decodable_frame `{Primitives}
    (input_file : string) (data : list byte) (output_root : string)
    (fast_mode : bool) (max_threads : nat) (enable_type_detect : bool)
    (stop_flag : nat → bool) (schedule : list nat) (σ : NpkUnlock_GUI.task_state) :
  (∀ k, stop_flag k = false) →
  fast_mode = false ∨ 0 < max_threads →
  ∃ p frame_positions,
    NpkUnlock_GUI.scan_zstd_frames data = Some frame_positions
    ∧ NpkUnlock_GUI.run input_file (Some data) output_root fast_mode max_threads
        false enable_type_detect stop_flag schedule = Some p
    ∧ NpkUnlock_GUI.artifacts (exec p σ).1
      = decodable_artifacts data output_root enable_type_detect
          (enumerate frame_positions)
    ∧ last (exec p σ).1
      = Some (NpkUnlock_GUI.finished_signal
                (length (decodable_artifacts data output_root enable_type_detect
                           (enumerate frame_positions)))).
Proof.
  intros Hstop Hpool.
  destruct (GUI_run_plain input_file data output_root fast_mode max_threads
              enable_type_detect stop_flag schedule σ Hstop Hpool) as (p & Hp & Harts).
  exists p, (Spec.signature_offsets data).
  split; [apply GUI_scan_zstd_frames_spec|]. split; [exact Hp|].
  split; [exact Harts|].
  destruct (GUI_run_completes input_file data output_root fast_mode max_threads
              false enable_type_detect stop_flag schedule σ Hpool)
    as (p1 & Hp1 & n & out' & Hout & _).
  destruct (GUI_extracted_le_found input_file (Some data) output_root fast_mode
              max_threads false enable_type_detect stop_flag schedule σ)
    as (p2 & Hp2 & _ & Hfin).
  rewrite Hp in Hp1, Hp2. injection Hp1 as <-. injection Hp2 as <-.
  rewrite <- Harts, Hout, last_snoc. do 2 f_equal.
  rewrite <- Hout. apply Hfin. rewrite Hout, finished_counts_app.
  apply elem_of_app. right. cbn. left.
Qed.

Lemma twin_png_artifacts :
  map NpkUnlock_GUI.info_name
    (decodable_artifacts twin_png_frames "Output" true
       (enumerate (default [] (NpkUnlock_GUI.scan_zstd_frames twin_png_frames))))
  = ["extracted_frame_1.png"; "extracted_frame_2.png"].
Proof. vm_compute. reflexivity. Qed.

Lemma GUI_plain_run_extracts_every_decodable_frame_witness :
  ∃ p,
    NpkUnlock_GUI.run "gui2.npk" (Some twin_png_frames) "Output" true 2 false true
      Toy.never racy_schedule = Some p
    ∧ map NpkUnlock_GUI.info_name (NpkUnlock_GUI.artifacts (exec p fresh_task_state).1)
      = ["extracted_frame_1.png"; "extracted_frame_2.png"].
Proof.
  destruct (GUI_plain_run_extracts_every_decodable_frame "gui2.npk" twin_png_frames
              "Output" true 2 true Toy.never racy_schedule fresh_task_state)
    as (p & frame_positions & Hscan & Hp & Harts & _).
  - reflexivity.
  - right. lia.
  - exists p. split; [exact Hp|]. rewrite Harts.
    pose proof twin_png_artifacts as Hnames. rewrite Hscan in Hnames. exact Hnames.
Defined.

(** ** The reports to the progress bar *)

Section Progress.
Context `{Primitives}.

Lemma progress_reports_app out1 out2 :
  progress_reports (out1 ++ out2) = progress_reports out1 ++ progress_reports out2.
Proof. apply omap_app. Qed.

Lemma progress_reports_account r position total acc :
  progress_reports (NpkUnlock_GUI.account r position total acc).2
  = progress_reports acc.2 ++ [(position + 1, total)].
Proof.
  destruct r as [[ok msg] inf], acc as [c out].
  destruct ok, inf as [i|]; cbn [NpkUnlock_GUI.account fst snd];
    rewrite !progress_reports_app; cbn; by rewrite ?app_nil_r.
Qed.

Lemma reports_step (n total j : nat) :
  [(n + 1, total)] ++ map (λ done, (done, total)) (seq (S n + 1) j)
  = map (λ done, (done, total)) (seq (n + 1) (S j)).
Proof. cbn [seq map app]. by replace (S (n + 1)) with (S n + 1) by lia. Qed.

(** Both loops report [(n + 1, total)], [(n + 2, total)], ... for the
    positions they get through, all of them when nobody asks to stop. *)
Lemma GUI_serial_loop_progress data output_root stop_flag enable_md5
    enable_type_detect total n l acc σ :
  wp (NpkUnlock_GUI.serial_loop data output_root stop_flag enable_md5
        enable_type_detect total (zip (seq n (length l)) l) acc)
     (λ acc' _,
        ∃ j, j ≤ length l
             ∧ ((∀ k, stop_flag k = false) → j = length l)
             ∧ progress_reports acc'.2
               = progress_reports acc.2
                 ++ map (λ done, (done, total)) (seq (n + 1) j)) σ.
Proof.
  revert n acc σ. induction l as [|frame_start l IH]; intros n acc σ.
  - apply wp_ret. exists 0. cbn. by rewrite app_nil_r.
  - cbn [length seq zip zip_with NpkUnlock_GUI.serial_loop]. wp_atomic_step.
    cbn [NpkUnlock_GUI.read_stop fst snd].
    destruct (stop_flag (NpkUnlock_GUI.polls σ)) eqn:Hs.
    { apply wp_ret. exists 0. cbn. rewrite app_nil_r.
      split; [lia|]. split; [|done]. intros Hstop. by rewrite Hstop in Hs. }
    apply wp_bind. unfold wp at 1.
    eapply wp_mono; [|apply IH].
    cbn beta. intros acc' _ (j & Hj & Hall & Hacc). exists (S j).
    split; [lia|]. split; [intros Hstop; by rewrite Hall|].
    rewrite Hacc, progress_reports_account, <- app_assoc.
    by rewrite reports_step.
Qed.

Lemma GUI_collect_loop_progress stop_flag total n
    (results : list (bool * string * option NpkUnlock_GUI.info)) acc σ :
  wp (NpkUnlock_GUI.collect_loop stop_flag total (zip (seq n (length results)) results)
        acc)
     (λ acc' _,
        ∃ j, j ≤ length results
             ∧ ((∀ k, stop_flag k = false) → j = length results)
             ∧ progress_reports acc'.2
               = progress_reports acc.2
                 ++ map (λ done, (done, total)) (seq (n + 1) j)) σ.
Proof.
  revert n acc σ. induction results as [|r results IH]; intros n acc σ.
  - apply wp_ret. exists 0. cbn. by rewrite app_nil_r.
  - cbn [length seq zip zip_with NpkUnlock_GUI.collect_loop]. wp_atomic_step.
    cbn [NpkUnlock_GUI.read_stop fst snd].
    destruct (stop_flag (NpkUnlock_GUI.polls σ)) eqn:Hs.
    { apply wp_ret. exists 0. cbn. rewrite app_nil_r.
      split; [lia|]. split; [|done]. intros Hstop. by rewrite Hstop in Hs. }
    eapply wp_mono; [|apply IH].
    cbn beta. intros acc' _ (j & Hj & Hall & Hacc). exists (S j).
    split; [lia|]. split; [intros Hstop; by rewrite Hall|].
    rewrite Hacc, progress_reports_account, <- app_assoc.
    by rewrite reports_step.
Qed.

Lemma GUI_finish_progress stop_flag acc σ :
  progress_reports (exec (NpkUnlock_GUI.finish stop_flag acc) σ).1
  = progress_reports acc.2.
Proof.
  destruct acc as [c out]. unfold NpkUnlock_GUI.finish.
  rewrite exec_bind, exec_atomic. cbn [NpkUnlock_GUI.read_stop fst snd exec mret prog_ret].
  destruct (stop_flag (NpkUnlock_GUI.polls σ));
    rewrite !progress_reports_app; cbn; by rewrite !app_nil_r.
Qed.

Lemma all_reports_prefix total j :
  j ≤ total →
  [(0, total)] ++ map (λ done, (done, total)) (seq (0 + 1) j)
  `prefix_of` all_reports total.
Proof.
  intros Hj. unfold all_reports. cbn [seq map app Nat.add].
  apply prefix_cons.
  exists (map (λ done, (done, total)) (seq (1 + j) (total - j))).
  rewrite <- map_app, <- seq_app. do 2 f_equal. lia.
Qed.

Lemma GUI_submit_loop_count data output_root stop_flag enable_md5
    enable_type_detect frames futures σ :
  wp (NpkUnlock_GUI.submit_loop data output_root stop_flag enable_md5
        enable_type_detect frames futures)
     (λ futures' _,
        length futures' ≤ length futures + length frames
        ∧ ((∀ k, stop_flag k = false) →
           length futures' = length futures + length frames)) σ.
Proof.
  revert futures σ. induction frames as [|[i frame_start] frames IH]; intros futures σ.
  - apply wp_ret. cbn. lia.
  - cbn [NpkUnlock_GUI.submit_loop]. wp_atomic_step.
    cbn [NpkUnlock_GUI.read_stop fst snd].
    destruct (stop_flag (NpkUnlock_GUI.polls σ)) eqn:Hs.
    { apply wp_ret. split; [cbn; lia|]. intros Hstop. by rewrite Hstop in Hs. }
    eapply wp_mono; [|apply IH].
    cbn beta. intros futures' _ [Hle Heq]. rewrite length_app in Hle, Heq.
    cbn [length] in *. split; [lia|]. intros Hstop. specialize (Heq Hstop). lia.
Qed.

Lemma GUI_run_progress input_file data output_root fast_mode max_threads enable_md5
    enable_type_detect stop_flag schedule σ :
  ∃ p,
    NpkUnlock_GUI.run input_file (Some data) output_root fast_mode max_threads
      enable_md5 enable_type_detect stop_flag schedule = Some p
    ∧ progress_reports (exec p σ).1
      `prefix_of` all_reports (length (Spec.signature_offsets data))
    ∧ ((∀ k, stop_flag k = false) →
       0 < length (Spec.signature_offsets data) →
       fast_mode = false ∨ 0 < max_threads →
       progress_reports (exec p σ).1
       = all_reports (length (Spec.signature_offsets data))).
Proof.
  unfold NpkUnlock_GUI.run.
  rewrite GUI_scan_zstd_frames_spec. cbn [mbind option_bind].
  eexists. split; [reflexivity|].
  set (frame_positions := Spec.signature_offsets data).
  set (total := length frame_positions).
  match goal with |- progress_reports (exec ?p σ).1 `prefix_of` _ ∧ _ =>
    change (wp p (λ out _, progress_reports out `prefix_of` all_reports total
                           ∧ ((∀ k, stop_flag k = false) → 0 < total →
                              fast_mode = false ∨ 0 < max_threads →
                              progress_reports out = all_reports total)) σ)
  end.
  wp_atomic_step. cbv zeta. wp_atomic_step.
  cbn [NpkUnlock_GUI.read_stop fst snd].
  match goal with |- context [stop_flag ?k] => destruct (stop_flag k) eqn:Hs end.
  { apply wp_ret. split; [exact (prefix_nil _)|].
    intros Hstop. by rewrite Hstop in Hs. }
  fold total. destruct (Nat.eqb_spec total 0) as [Hz|Hz].
  { apply wp_ret. split; [exact (prefix_nil _)|]. lia. }
  wp_atomic_step.
  match goal with |- wp _ _ ?σ' => generalize σ'; intros σ2 end.
  assert (Hfull : ∀ j, j = total →
            [(0, total)] ++ map (λ done, (done, total)) (seq (0 + 1) j)
            = all_reports total).
  { intros j ->. reflexivity. }
  destruct fast_mode.
  - destruct (Nat.eqb_spec max_threads 0) as [Hm|Hm].
    { apply wp_ret. split.
      - exists (map (λ done, (done, total)) (seq 1 total)). reflexivity.
      - intros _ _ [|]; [done|lia]. }
    apply wp_bind. eapply wp_mono; [|apply GUI_submit_loop_count].
    cbn beta. intros futures σ3 [Hfut Hfut']. wp_atomic_step.
    unfold enumerate at 1.
    match goal with |- context [run_pool max_threads schedule futures ?σ'] =>
      pose proof (length_run_pool max_threads schedule futures σ') as Hlen;
      destruct (run_pool max_threads schedule futures σ') as [results σ4]
    end.
    cbn [fst snd] in *. rewrite length_enumerate in Hfut, Hfut'.
    cbn [length] in Hfut, Hfut'. fold total in Hfut, Hfut'.
    apply wp_bind. eapply wp_mono; [|apply GUI_collect_loop_progress].
    cbn beta. intros acc σ5 (j & Hj & Hall & Hacc). unfold wp.
    rewrite GUI_finish_progress, Hacc. cbn [snd].
    match goal with |- context [progress_reports ?out ++ _] =>
      change (progress_reports out) with [(0, total)] end.
    split; [apply all_reports_prefix; lia|].
    intros Hstop _ _. apply Hfull. rewrite Hall by done.
    specialize (Hfut' Hstop). lia.
  - apply wp_bind. unfold enumerate.
    eapply wp_mono; [|apply GUI_serial_loop_progress].
    cbn beta. intros acc σ5 (j & Hj & Hall & Hacc). unfold wp.
    rewrite GUI_finish_progress, Hacc. cbn [snd].
    match goal with |- context [progress_reports ?out ++ _] =>
      change (progress_reports out) with [(0, total)] end.
    split; [apply all_reports_prefix; fold total in Hj; lia|].
    intros Hstop _ _. apply Hfull. by rewrite Hall.
Qed.

End Progress.

Lemma update_progress_range (done total : nat) :
  done ≤ total →
  (0 ≤ MainWindow.update_progress (Z.of_nat done) (Z.of_nat total) ≤ 100)%Z.
Proof.
  intros Hle. unfold MainWindow.update_progress.
  destruct (Z.leb_spec (Z.of_nat total) 0) as [|Hpos]; [lia|].
  rewrite Z.quot_div_nonneg by lia. split.
  - apply Z.div_pos; lia.
  - apply Z.div_le_upper_bound; lia.
Qed.

Lemma update_progress_full (total : nat) :
  0 < total →
  MainWindow.update_progress (Z.of_nat total) (Z.of_nat total) = 100%Z.
Proof.
  intros Hpos. unfold MainWindow.update_progress.
  destruct (Z.leb_spec (Z.of_nat total) 0) as [|_]; [lia|].
  rewrite Z.mul_comm. apply Z.quot_mul. lia.
Qed.

Lemma all_reports_bounded total :
  Forall (λ report : nat * nat, report.1 ≤ report.2) (all_reports total).
Proof.
  unfold all_reports. apply Forall_fmap, Forall_forall. intros done Hin.
  apply elem_of_seq in Hin. simpl. lia.
Qed.

(** Whatever the mode, the schedule, the switches and the stop requests,
    the reports of a run to the progress bar are an initial part of
    [(0, total)], [(1, total)], ..., [(total, total)], with [total] the
    number of frames found; so the value that [update_progress] hands to
    the bar is always between 0 and 100. *)
Theorem progress_reports_count_up `{Primitives} (input_file : string)
    (data : list byte) (output_root : string) (fast_mode : bool) (max_threads : nat)
    (enable_md5 enable_type_detect : bool) (stop_flag : nat → bool)
    (schedule : list nat) (σ : NpkUnlock_GUI.task_state) :
  ∃ p frame_positions,
    NpkUnlock_GUI.scan_zstd_frames data = Some frame_positions
    ∧ NpkUnlock_GUI.run input_file (Some data) output_root fast_mode max_threads
        enable_md5 enable_type_detect stop_flag schedule = Some p
    ∧ progress_reports (exec p σ).1 `prefix_of` all_reports (length frame_positions)
    ∧ Forall (λ report : nat * nat,
                (0 ≤ MainWindow.update_progress (Z.of_nat report.1)
                       (Z.of_nat report.2) ≤ 100)%Z)
        (progress_reports (exec p σ).1).
Proof.
  destruct (GUI_run_progress input_file data output_root fast_mode max_threads
              enable_md5 enable_type_detect stop_flag schedule σ)
    as (p & Hp & Hprefix & _).
  exists p, (Spec.signature_offsets data).
  split; [apply GUI_scan_zstd_frames_spec|]. split; [exact Hp|].
  split; [exact Hprefix|].
  destruct Hprefix as [rest Hrest].
  pose proof (all_reports_bounded (length (Spec.signature_offsets data))) as Hall.
  rewrite Hrest in Hall. apply Forall_app in Hall as [Hall _].
  eapply Forall_impl; [exact Hall|].
  intros [done total] Hle. by apply update_progress_range.
Qed.

(** A run that nobody stops, on a container with at least one frame,
    reports every step from [(0, total)] to [(total, total)], in the normal
    mode and in the fast mode with at least one worker thread; the last
    value that [update_progress] hands to the bar is 100. *)
Theorem uninterrupted_run_fills_the_progress_bar `{Primitives} (input_file : string)
    (data : list byte) (output_root : string) (fast_mode : bool) (max_threads : nat)
    (enable_md5 enable_type_detect : bool) (stop_flag : nat → bool)
    (schedule : list nat) (σ : NpkUnlock_GUI.task_state)
    (frame_positions : list nat) :
  (∀ k, stop_flag k = false) →
  NpkUnlock_GUI.scan_zstd_frames data = Some frame_positions →
  0 < length frame_positions →
  fast_mode = false ∨ 0 < max_threads →
  ∃ p,
    NpkUnlock_GUI.run input_file (Some data) output_root fast_mode max_threads
      enable_md5 enable_type_detect stop_flag schedule = Some p
    ∧ progress_reports (exec p σ).1 = all_reports (length frame_positions)
    ∧ last (map (λ report : nat * nat,
                   MainWindow.update_progress (Z.of_nat report.1) (Z.of_nat report.2))
              (progress_reports (exec p σ).1))
      = Some 100%Z.
Proof.
  intros Hstop Hscan Hpos Hpool.
  rewrite GUI_scan_zstd_frames_spec in Hscan. injection Hscan as <-.
  destruct (GUI_run_progress input_file data output_root fast_mode max_threads
              enable_md5 enable_type_detect stop_flag schedule σ)
    as (p & Hp & _ & Hfull).
  exists p. split; [exact Hp|]. rewrite Hfull by done. split; [done|].
  unfold all_reports. rewrite <- list_fmap_compose.
  replace (S (length (Spec.signature_offsets data)))
    with (length (Spec.signature_offsets data) + 1) by lia.
  rewrite seq_app, fmap_app. cbn [seq fmap list_fmap]. rewrite last_snoc.
  cbn. f_equal. by apply update_progress_full.
Qed.

Lemma twin_png_frames_positions :
  NpkUnlock_GUI.scan_zstd_frames twin_png_frames = Some [0; 9].
Proof. vm_compute. reflexivity. Qed.

Lemma uninterrupted_run_fills_the_progress_bar_witness :
  ∃ p,
    NpkUnlock_GUI.run "gui2.npk" (Some twin_png_frames) "Output" true 2 true true
      Toy.never racy_schedule = Some p
    ∧ progress_reports (exec p fresh_task_state).1 = [(0, 2); (1, 2); (2, 2)].
Proof.
  destruct (uninterrupted_run_fills_the_progress_bar "gui2.npk" twin_png_frames
              "Output" true 2 true true Toy.never racy_schedule fresh_task_state
              [0; 9])
    as (p & Hp & Hreports & _).
  - reflexivity.
  - exact twin_png_frames_positions.
  - simpl. lia.
  - right. lia.
  - exists p. split; [exact Hp|exact Hreports].
Defined.

(** ** A container without frames *)

(** On a buffer in which the scanner finds no frame, the empty file
    included, a run of the graphical tool creates the output folder and
    nothing else: it announces no artifact, makes no report to the
    progress bar, emits no error, writes no file, leaves the index of
    digests alone and ends with [finished_signal 0], whatever the mode and
    the stop flag. *)
Theorem GUI_run_without_frames `{Primitives} (input_file : string)
    (data : list byte) (output_root : string) (fast_mode : bool) (max_threads : nat)
    (enable_md5 enable_type_detect : bool) (stop_flag : nat → bool)
    (schedule : list nat) (σ : NpkUnlock_GUI.task_state) :
  NpkUnlock_GUI.scan_zstd_frames data = Some [] →
  ∃ p,
    NpkUnlock_GUI.run input_file (Some data) output_root fast_mode max_threads
      enable_md5 enable_type_detect stop_flag schedule = Some p
    ∧ NpkUnlock_GUI.artifacts (exec p σ).1 = []
    ∧ progress_reports (exec p σ).1 = []
    ∧ NpkUnlock_GUI.error_messages (exec p σ).1 = []
    ∧ last (exec p σ).1 = Some (NpkUnlock_GUI.finished_signal 0)
    ∧ fs_files (NpkUnlock_GUI.fs (exec p σ).2) = fs_files (NpkUnlock_GUI.fs σ)
    ∧ fs_dirs (NpkUnlock_GUI.fs (exec p σ).2)
      = {[output_root]} ∪ fs_dirs (NpkUnlock_GUI.fs σ)
    ∧ NpkUnlock_GUI.extracted_hashes (exec p σ).2 = NpkUnlock_GUI.extracted_hashes σ.
Proof.
  intros Hscan. unfold NpkUnlock_GUI.run. rewrite Hscan. cbn [mbind option_bind].
  eexists. split; [reflexivity|].
  rewrite exec_bind, exec_atomic. cbn [modify fst snd]. cbv zeta.
  rewrite exec_bind, exec_atomic. cbn [NpkUnlock_GUI.read_stop fst snd].
  destruct (stop_flag _); cbn; done.
Qed.

Lemma GUI_run_without_frames_witness :
  ∃ p,
    NpkUnlock_GUI.run "gui2.npk" (Some []) "Output" true 8 true true Toy.never []
    = Some p
    ∧ last (exec p fresh_task_state).1 = Some (NpkUnlock_GUI.finished_signal 0).
Proof.
  destruct (GUI_run_without_frames "gui2.npk" [] "Output" true 8 true true Toy.never
              [] fresh_task_state) as (p & Hp & _ & _ & _ & Hlast & _).
  - reflexivity.
  - exists p. split; [exact Hp|exact Hlast].
Defined.

(** ** The file table *)

Lemma gui_category_has_a_button ext :
  ext ∈ labels →
  bool_decide (gui_category ext ∈
               ({["普通文件"]} ∪ {["图片文件"]} ∪ {["模型文件"]} ∪ {["数据文件"]}
                ∪ {["压缩文件"]} ∪ {["未知文件"]} : gset string)) = true.
Proof. intros Hl. each_label Hl; vm_compute; reflexivity. Qed.

Lemma omap_all_Some {A B} (f : A → option B) (g : A → B) (l : list A) :
  Forall (λ x, f x = Some (g x)) l → omap f l = map g l.
Proof.
  induction 1 as [|x l Hx _ IH]; [done|].
  cbn [omap list_omap map]. by rewrite Hx, IH.
Qed.

(** With the six filter buttons checked and a search box that is empty
    once stripped, the table lists every artifact that a run announced,
    whatever the mode, the schedule and the stop requests: one row per
    [file_signal], in the order of the signals, with the name and the path
    of the artifact.  Every category that the worker can assign has a
    filter button. *)
Theorem cleared_filters_list_every_artifact `{Primitives}
    (str_strip str_lower : string → string) (edit_search : string)
    (input_file : string) (data : list byte) (output_root : string)
    (fast_mode : bool) (max_threads : nat) (enable_md5 enable_type_detect : bool)
    (stop_flag : nat → bool) (schedule : list nat) (σ : NpkUnlock_GUI.task_state) :
  str_lower (str_strip edit_search) = "" →
  ∃ p,
    NpkUnlock_GUI.run input_file (Some data) output_root fast_mode max_threads
      enable_md5 enable_type_detect stop_flag schedule = Some p
    ∧ map (λ r, (MainWindow.col_name r, MainWindow.col_ext r, MainWindow.col_path r))
        (MainWindow.apply_filters str_strip str_lower edit_search
           true true true true true true (NpkUnlock_GUI.artifacts (exec p σ).1))
      = map (λ a, (NpkUnlock_GUI.info_name a, NpkUnlock_GUI.info_ext a,
                   NpkUnlock_GUI.info_path a))
          (NpkUnlock_GUI.artifacts (exec p σ).1).
Proof.
  intros Hsearch.
  destruct (GUI_run_sublist input_file data output_root fast_mode max_threads
              enable_md5 enable_type_detect stop_flag schedule σ) as (p & Hp & Hsub).
  exists p. split; [exact Hp|].
  unfold MainWindow.apply_filters. cbv zeta. rewrite Hsearch.
  rewrite (omap_all_Some _
             (λ a, {| MainWindow.col_name := NpkUnlock_GUI.info_name a;
                      MainWindow.col_ext := NpkUnlock_GUI.info_ext a;
                      MainWindow.col_category :=
                        if bool_decide (NpkUnlock_GUI.info_category a = "普通文件")
                        then "音频文件" else NpkUnlock_GUI.info_category a;
                      MainWindow.col_size :=
                        MainWindow.format_size (NpkUnlock_GUI.info_size a);
                      MainWindow.col_path := NpkUnlock_GUI.info_path a |}));
    [by rewrite <- list_fmap_compose|].
  apply Forall_forall. intros a Ha.
  apply (elem_of_sublist _ _ _ Ha) in Hsub.
  apply decodable_artifacts_elem in Hsub as (frame_idx & frame_start & d & _ & _ & ->).
  cbn [frame_info NpkUnlock_GUI.info_category].
  rewrite gui_category_has_a_button by apply gui_ext_label.
  reflexivity.
Qed.

Lemma cleared_filters_list_every_artifact_witness :
  ∃ p,
    NpkUnlock_GUI.run "gui2.npk" (Some twin_png_frames) "Output" false 1 true true
      Toy.never [] = Some p
    ∧ map (λ r, (MainWindow.col_name r, MainWindow.col_ext r, MainWindow.col_path r))
        (MainWindow.apply_filters id id "" true true true true true true
           (NpkUnlock_GUI.artifacts (exec p fresh_task_state).1))
      = map (λ a, (NpkUnlock_GUI.info_name a, NpkUnlock_GUI.info_ext a,
                   NpkUnlock_GUI.info_path a))
          (NpkUnlock_GUI.artifacts (exec p fresh_task_state).1).
Proof.
  apply (cleared_filters_list_every_artifact id id "" "gui2.npk" twin_png_frames
           "Output" false 1 true true Toy.never [] fresh_task_state).
  reflexivity.
Defined.

(** ** The flow layout of the filter buttons *)

Section FlowLayoutItems.
Context {Item : Type} (widget : Item → option FlowLayout.QSize).

Lemma FlowLayout_loop_translate spacing rect rect' testOnly testOnly' itemList
    x y lineHeight geometries geometries' dx dy :
  FlowLayout.rect_width rect' = FlowLayout.rect_width rect →
  FlowLayout.rect_x rect' = (FlowLayout.rect_x rect + dx)%Z →
  let r := FlowLayout.doLayout_loop widget spacing rect testOnly itemList x y
             lineHeight geometries in
  let r' := FlowLayout.doLayout_loop widget spacing rect' testOnly' itemList
              (x + dx)%Z (y + dy)%Z lineHeight geometries' in
  r'.1.1 = (r.1.1 + dy)%Z ∧ r'.1.2 = r.1.2.
Proof.
  intros Hw Hx. cbv zeta.
  revert x y lineHeight geometries geometries'.
  induction itemList as [|item itemList IH]; intros x y lineHeight g g'; [done|].
  cbn [FlowLayout.doLayout_loop]. destruct (widget item) as [sizeHint|]; [|apply IH].
  cbv zeta.
  assert ((FlowLayout.right rect' <? x + dx + FlowLayout.width sizeHint + spacing - spacing)%Z
          = (FlowLayout.right rect <? x + FlowLayout.width sizeHint + spacing - spacing)%Z)
    as ->.
  { unfold FlowLayout.right. rewrite Hw, Hx.
    destruct (Z.ltb_spec (FlowLayout.rect_x rect + dx + FlowLayout.rect_width rect - 1)
                (x + dx + FlowLayout.width sizeHint + spacing - spacing));
      destruct (Z.ltb_spec (FlowLayout.rect_x rect + FlowLayout.rect_width rect - 1)
                  (x + FlowLayout.width sizeHint + spacing - spacing)); lia. }
  destruct ((FlowLayout.right rect <? _)%Z && (0 <? lineHeight)%Z).
  - rewrite Hx.
    replace (FlowLayout.rect_x rect + dx + FlowLayout.width sizeHint + spacing)%Z
      with (FlowLayout.rect_x rect + FlowLayout.width sizeHint + spacing + dx)%Z by lia.
    replace (y + dy + lineHeight + spacing)%Z with (y + lineHeight + spacing + dy)%Z
      by lia.
    apply IH.
  - replace (x + dx + FlowLayout.width sizeHint + spacing)%Z
      with (x + FlowLayout.width sizeHint + spacing + dx)%Z by lia.
    apply IH.
Qed.

Lemma FlowLayout_loop_testOnly spacing rect itemList x y lineHeight geometries :
  (FlowLayout.doLayout_loop widget spacing rect true itemList x y lineHeight
     geometries).2 = geometries.
Proof.
  revert x y lineHeight.
  induction itemList as [|item itemList IH]; intros x y lineHeight; [done|].
  cbn [FlowLayout.doLayout_loop]. destruct (widget item) as [sizeHint|]; apply IH.
Qed.

Lemma FlowLayout_loop_sizes spacing rect itemList x y lineHeight geometries :
  map (λ g : Item * FlowLayout.QRect,
         {| FlowLayout.width := FlowLayout.rect_width g.2;
            FlowLayout.height := FlowLayout.rect_height g.2 |})
    (FlowLayout.doLayout_loop widget spacing rect false itemList x y lineHeight
       geometries).2
  = map (λ g : Item * FlowLayout.QRect,
           {| FlowLayout.width := FlowLayout.rect_width g.2;
              FlowLayout.height := FlowLayout.rect_height g.2 |}) geometries
    ++ omap widget itemList.
Proof.
  revert x y lineHeight geometries.
  induction itemList as [|item itemList IH]; intros x y lineHeight g.
  - cbn. by rewrite app_nil_r.
  - cbn [FlowLayout.doLayout_loop omap list_omap].
    destruct (widget item) as [[w h]|]; [|apply IH].
    cbv zeta. rewrite IH, map_app, <- app_assoc. reflexivity.
Qed.

Lemma FlowLayout_loop_within spacing rect itemList x y lineHeight geometries :
  (0 ≤ spacing)%Z →
  Forall (λ item, ∀ sizeHint, widget item = Some sizeHint →
                    (0 ≤ FlowLayout.width sizeHint ≤ FlowLayout.rect_width rect
                     ∧ 0 < FlowLayout.height sizeHint)%Z) itemList →
  (FlowLayout.rect_x rect ≤ x)%Z → (0 ≤ lineHeight)%Z →
  (lineHeight = 0%Z → x = FlowLayout.rect_x rect) →
  Forall (λ g : Item * FlowLayout.QRect,
            (FlowLayout.rect_x rect ≤ FlowLayout.rect_x g.2
             ∧ FlowLayout.right g.2 ≤ FlowLayout.right rect)%Z) geometries →
  Forall (λ g : Item * FlowLayout.QRect,
            (FlowLayout.rect_x rect ≤ FlowLayout.rect_x g.2
             ∧ FlowLayout.right g.2 ≤ FlowLayout.right rect)%Z)
    (FlowLayout.doLayout_loop widget spacing rect false itemList x y lineHeight
       geometries).2.
Proof.
  intros Hsp Hitems. revert x y lineHeight geometries.
  induction Hitems as [|item itemList Hitem _ IH];
    intros x y lineHeight g Hx Hlh Hstart Hg; [done|].
  cbn [FlowLayout.doLayout_loop].
  destruct (widget item) as [sizeHint|] eqn:Hwid; [|by apply IH].
  destruct (Hitem sizeHint eq_refl) as [Hw Hh]. cbv zeta.
  destruct (Z.ltb_spec (FlowLayout.right rect)
              (x + FlowLayout.width sizeHint + spacing - spacing)) as [Hover|Hfits];
    cbn [andb].
  - destruct (Z.ltb_spec 0 lineHeight) as [Hline|Hline].
    + apply IH; [lia|lia|lia|].
      apply Forall_app. split; [done|]. apply Forall_singleton.
      unfold FlowLayout.right. cbn. lia.
    + assert (x = FlowLayout.rect_x rect) as -> by (apply Hstart; lia).
      apply IH; [lia|lia|lia|].
      apply Forall_app. split; [done|]. apply Forall_singleton.
      unfold FlowLayout.right. cbn. lia.
  - apply IH; [lia|lia|lia|].
    apply Forall_app. split; [done|]. apply Forall_singleton.
    unfold FlowLayout.right in *. cbn. lia.
Qed.

End FlowLayoutItems.

(** [heightForWidth] announces the height that laying out really uses: for
    every rectangle, wherever it lies, [doLayout] returns the height that
    [heightForWidth] gives for the width of the rectangle, in a test run
    and in a real one.  A test run sets no geometry; a real one sets one
    per item that holds a widget, in item order, with the size hint of the
    widget as its size. *)
Theorem FlowLayout_height_for_width_is_the_height_used {Item : Type}
    (widget : Item → option FlowLayout.QSize) (spacing : Z) (itemList : list Item)
    (rect : FlowLayout.QRect) (testOnly : bool) :
  (FlowLayout.doLayout widget spacing itemList rect testOnly).1
  = FlowLayout.heightForWidth widget spacing itemList (FlowLayout.rect_width rect)
  ∧ (FlowLayout.doLayout widget spacing itemList rect true).2 = []
  ∧ map (λ g : Item * FlowLayout.QRect,
           {| FlowLayout.width := FlowLayout.rect_width g.2;
              FlowLayout.height := FlowLayout.rect_height g.2 |})
      (FlowLayout.doLayout widget spacing itemList rect false).2
    = omap widget itemList.
Proof.
  unfold FlowLayout.heightForWidth, FlowLayout.doLayout. split; [|split].
  - pose proof (FlowLayout_loop_translate widget spacing
                  {| FlowLayout.rect_x := 0; FlowLayout.rect_y := 0;
                     FlowLayout.rect_width := FlowLayout.rect_width rect;
                     FlowLayout.rect_height := 0 |}
                  rect true testOnly itemList 0 0 0 [] []
                  (FlowLayout.rect_x rect) (FlowLayout.rect_y rect)) as Ht.
    cbv zeta in Ht. cbn [FlowLayout.rect_x FlowLayout.rect_y FlowLayout.rect_width] in *.
    rewrite !Z.add_0_l in Ht.
    destruct (FlowLayout.doLayout_loop widget spacing rect testOnly itemList _ _ _ _)
      as [[y' lineHeight'] geometries'].
    destruct (FlowLayout.doLayout_loop widget spacing _ true itemList _ _ _ _)
      as [[y0 lineHeight0] geometries0].
    cbn [fst snd] in *. destruct Ht as [-> ->]; [done..|]. lia.
  - pose proof (FlowLayout_loop_testOnly widget spacing rect itemList
                  (FlowLayout.rect_x rect) (FlowLayout.rect_y rect) 0 []) as Ht.
    by destruct (FlowLayout.doLayout_loop _ _ _ _ _ _ _ _ _) as [[y' lh'] g'].
  - pose proof (FlowLayout_loop_sizes widget spacing rect itemList
                  (FlowLayout.rect_x rect) (FlowLayout.rect_y rect) 0 []) as Ht.
    by destruct (FlowLayout.doLayout_loop _ _ _ _ _ _ _ _ _) as [[y' lh'] g'].
Qed.

(** When the spacing is not negative, every widget is at most as wide as
    the rectangle and has a positive height, [doLayout] places every
    widget between the left and the right edge of the rectangle: a widget
    that would cross the right edge starts a new line. *)
Theorem FlowLayout_keeps_widgets_inside {Item : Type}
    (widget : Item → option FlowLayout.QSize) (spacing : Z) (itemList : list Item)
    (rect : FlowLayout.QRect) :
  (0 ≤ spacing)%Z →
  Forall (λ item, ∀ sizeHint, widget item = Some sizeHint →
                    (0 ≤ FlowLayout.width sizeHint ≤ FlowLayout.rect_width rect
                     ∧ 0 < FlowLayout.height sizeHint)%Z) itemList →
  Forall (λ g : Item * FlowLayout.QRect,
            (FlowLayout.rect_x rect ≤ FlowLayout.rect_x g.2
             ∧ FlowLayout.right g.2 ≤ FlowLayout.right rect)%Z)
    (FlowLayout.doLayout widget spacing itemList rect false).2.
Proof.
  intros Hsp Hitems. unfold FlowLayout.doLayout.
  pose proof (FlowLayout_loop_within widget spacing rect itemList
                (FlowLayout.rect_x rect) (FlowLayout.rect_y rect) 0 [] Hsp Hitems)
    as Hin.
  destruct (FlowLayout.doLayout_loop _ _ _ _ _ _ _ _ _) as [[y' lh'] g'].
  apply Hin; [lia|lia|done|constructor].
Qed.

Lemma three_buttons_fit :
  Forall (λ item, ∀ sizeHint, Some item = Some sizeHint →
                    (0 ≤ FlowLayout.width sizeHint ≤ FlowLayout.rect_width narrow_strip
                     ∧ 0 < FlowLayout.height sizeHint)%Z) three_buttons.
Proof.
  apply Forall_forall. intros item Hin sizeHint [= <-].
  apply elem_of_replicate in Hin as [-> _]. cbn. lia.
Qed.

Lemma FlowLayout_keeps_widgets_inside_witness :
  Forall (λ g : FlowLayout.QSize * FlowLayout.QRect,
            (FlowLayout.rect_x narrow_strip ≤ FlowLayout.rect_x g.2
             ∧ FlowLayout.right g.2 ≤ FlowLayout.right narrow_strip)%Z)
    (FlowLayout.doLayout Some 6 three_buttons narrow_strip false).2
  ∧ (FlowLayout.doLayout Some 6 three_buttons narrow_strip false).1 = 46%Z.
Proof.
  split.
  - apply (FlowLayout_keeps_widgets_inside Some 6 three_buttons narrow_strip).
    + lia.
    + exact three_buttons_fit.
  - reflexivity.
Defined.

(** ** Items of the flow layout by index *)

Section FlowLayoutIndex.
Context {Item : Type}.

Lemma FlowLayout_in_range (itemList : list Item) (index : Z) :
  ((0 <=? index) && (index <? Z.of_nat (length itemList)))%Z = true
  ↔ (0 ≤ index < FlowLayout.count itemList)%Z.
Proof.
  unfold FlowLayout.count. rewrite andb_true_iff, Z.leb_le, Z.ltb_lt. done.
Qed.

Lemma FlowLayout_addItem_itemAt (itemList : list Item) (item : Item) :
  FlowLayout.itemAt (FlowLayout.addItem itemList item) (FlowLayout.count itemList)
  = Some item
  ∧ FlowLayout.count (FlowLayout.addItem itemList item)
    = (FlowLayout.count itemList + 1)%Z.
Proof.
  unfold FlowLayout.itemAt, FlowLayout.addItem, FlowLayout.count.
  rewrite length_app. cbn [length]. split; [|lia].
  assert ((0 <=? Z.of_nat (length itemList))
          && (Z.of_nat (length itemList) <? Z.of_nat (length itemList + 1)) = true)%Z
    as ->.
  { apply andb_true_iff. rewrite Z.leb_le, Z.ltb_lt. lia. }
  by rewrite Nat2Z.id, lookup_app_r, Nat.sub_diag by lia.
Qed.

End FlowLayoutIndex.

(** [itemAt] and [takeAt] answer [None] exactly for an index that is
    negative or not below [count()], and then [takeAt] leaves the list as
    it is: a negative index never counts from the end.  [takeAt] returns
    what [itemAt] returns, and an item added by [addItem] is found at the
    index that [count()] gave before. *)
Theorem FlowLayout_index_out_of_range {Item : Type} (itemList : list Item)
    (index : Z) (item : Item) :
  (FlowLayout.takeAt itemList index).1 = FlowLayout.itemAt itemList index
  ∧ (FlowLayout.itemAt itemList index = None
     ↔ (index < 0 ∨ FlowLayout.count itemList ≤ index)%Z)
  ∧ (FlowLayout.itemAt itemList index = None →
     (FlowLayout.takeAt itemList index).2 = itemList)
  ∧ FlowLayout.itemAt (FlowLayout.addItem itemList item) (FlowLayout.count itemList)
    = Some item
  ∧ FlowLayout.count (FlowLayout.addItem itemList item)
    = (FlowLayout.count itemList + 1)%Z.
Proof.
  split; [|split; [|split; [|apply FlowLayout_addItem_itemAt]]];
    unfold FlowLayout.takeAt, FlowLayout.itemAt;
    destruct ((0 <=? index) && (index <? Z.of_nat (length itemList)))%Z eqn:Hin;
    try done.
  - apply FlowLayout_in_range in Hin. unfold FlowLayout.count in *.
    destruct (lookup_lt_is_Some_2 itemList (Z.to_nat index)) as [found Hfound]; [lia|].
    rewrite Hfound. split; [done|lia].
  - split; [|done]. intros _.
    apply andb_false_iff in Hin as [Hn|Hn];
      [apply Z.leb_gt in Hn|apply Z.ltb_ge in Hn]; unfold FlowLayout.count; lia.
  - apply FlowLayout_in_range in Hin. unfold FlowLayout.count in *.
    destruct (lookup_lt_is_Some_2 itemList (Z.to_nat index)) as [found Hfound]; [lia|].
    by rewrite Hfound.
Qed.

(** For an index in range [takeAt] removes exactly the item it returns:
    the count goes down by one, the items before the index stay where they
    are and the items after it move down by one. *)
Theorem FlowLayout_takeAt_removes_one {Item : Type} (itemList : list Item)
    (index : Z) :
  (0 ≤ index < FlowLayout.count itemList)%Z →
  is_Some (FlowLayout.takeAt itemList index).1
  ∧ FlowLayout.count (FlowLayout.takeAt itemList index).2
    = (FlowLayout.count itemList - 1)%Z
  ∧ ∀ j, (0 ≤ j)%Z →
         FlowLayout.itemAt (FlowLayout.takeAt itemList index).2 j
         = FlowLayout.itemAt itemList (if (j <? index)%Z then j else (j + 1)%Z).
Proof.
  intros Hin. pose proof Hin as Hin'. apply FlowLayout_in_range in Hin'.
  unfold FlowLayout.takeAt. rewrite Hin'. cbn [fst snd].
  unfold FlowLayout.count in *.
  split; [apply lookup_lt_is_Some_2; lia|].
  assert (length (delete (Z.to_nat index) itemList) = length itemList - 1) as Hlen.
  { rewrite length_delete; [done|]. apply lookup_lt_is_Some_2. lia. }
  split; [rewrite Hlen; lia|].
  intros j Hj. unfold FlowLayout.itemAt. rewrite Hlen.
  destruct (Z.ltb_spec j index) as [Hlt|Hge].
  - rewrite list_lookup_delete_lt by lia.
    assert ((0 <=? j) && (j <? Z.of_nat (length itemList - 1)) = true)%Z as ->.
    { apply andb_true_iff. rewrite Z.leb_le, Z.ltb_lt. lia. }
    assert ((0 <=? j) && (j <? Z.of_nat (length itemList)) = true)%Z as ->.
    { apply andb_true_iff. rewrite Z.leb_le, Z.ltb_lt. lia. }
    done.
  - rewrite list_lookup_delete_ge by lia.
    replace (S (Z.to_nat j)) with (Z.to_nat (j + 1)) by lia.
    destruct (Z.ltb_spec j (Z.of_nat (length itemList - 1))) as [Hj'|Hj'].
    + assert ((0 <=? j + 1) && (j + 1 <? Z.of_nat (length itemList)) = true)%Z as ->.
      { apply andb_true_iff. rewrite Z.leb_le, Z.ltb_lt. lia. }
      by rewrite (proj2 (Z.leb_le 0 j)) by lia.
    + assert ((j + 1 <? Z.of_nat (length itemList)) = false)%Z as ->.
      { apply Z.ltb_ge. lia. }
      by rewrite !andb_false_r.
Qed.

Lemma FlowLayout_takeAt_removes_one_witness :
  FlowLayout.count (FlowLayout.takeAt ["音频"; "图片"; "模型"] 1).2 = 2%Z
  ∧ FlowLayout.itemAt (FlowLayout.takeAt ["音频"; "图片"; "模型"] 1).2 1 = Some "模型".
Proof.
  destruct (FlowLayout_takeAt_removes_one ["音频"; "图片"; "模型"] 1)
    as (_ & Hcount & Hshift).
  - unfold FlowLayout.count. cbn [length]. lia.
  - split; [exact Hcount|]. rewrite Hshift by lia. reflexivity.
Defined.

(** ** The block extractor under any schedule *)

Section PPKAlways.
Context `{Primitives}.

Lemma PPK_block_loop_always fuel max_block_size file_name file_data output_root l :
  0 < max_block_size →
  length file_data - PPKUnlocker.offset l < fuel →
  always (λ r, ∃ l', r = Some l'
                     ∧ PPKUnlocker.processed_blocks l'
                       = PPKUnlocker.processed_blocks l
                         + length (offsets_from file_data (PPKUnlocker.offset l))
                     ∧ PPKUnlocker.extracted_blocks l'
                       ≤ PPKUnlocker.extracted_blocks l
                         + length (offsets_from file_data (PPKUnlocker.offset l)))
    (PPKUnlocker.block_loop fuel max_block_size file_name file_data output_root l).
Proof.
  intros Hmax. revert l. induction fuel as [|fuel IH]; intros l Hfuel; [lia|].
  cbn [PPKUnlocker.block_loop].
  destruct (Nat.ltb_spec (PPKUnlocker.offset l) (length file_data)) as [Hlt|Hge].
  2:{ apply always_ret. exists l. rewrite offsets_from_end by done.
      cbn [length]. split; [done|lia]. }
  unfold PPKUnlocker.ZSTD_MAGIC.
  destruct (Py.find file_data ZSTD (PPKUnlocker.offset l)) as [magic_pos|] eqn:Hfind.
  2:{ apply always_ret. exists l. rewrite offsets_from_None by done.
      cbn [length]. split; [done|lia]. }
  destruct (ppk_block_end_spec max_block_size _ _ _ Hmax Hfind)
    as (Hle & Hlt' & Hb & Hoffs & _).
  unfold ppk_block_end, PPKUnlocker.ZSTD_MAGIC in *. cbv zeta.
  set (block_end := (default (length file_data) (Py.find file_data ZSTD (magic_pos + 4)))
                    `min` (magic_pos + max_block_size)) in *.
  rewrite Hoffs. cbn [length].
  assert (Hnext : ∀ l1,
            PPKUnlocker.offset l1 = block_end →
            PPKUnlocker.processed_blocks l1 = PPKUnlocker.processed_blocks l + 1 →
            PPKUnlocker.extracted_blocks l1 ≤ PPKUnlocker.extracted_blocks l + 1 →
            always (λ r, ∃ l', r = Some l'
                     ∧ PPKUnlocker.processed_blocks l'
                       = PPKUnlocker.processed_blocks l
                         + S (length (offsets_from file_data block_end))
                     ∧ PPKUnlocker.extracted_blocks l'
                       ≤ PPKUnlocker.extracted_blocks l
                         + S (length (offsets_from file_data block_end)))
              (PPKUnlocker.block_loop fuel max_block_size file_name file_data
                 output_root l1)).
  { intros l1 Hoff Hp He. eapply always_mono; [|apply IH; rewrite Hoff; lia].
    cbn beta. intros r (l' & -> & Hp' & He'). exists l'. rewrite Hoff in *.
    split; [done|]. lia. }
  destruct (length _ <? 1024); [apply Hnext; cbn; lia|].
  apply always_bind, always_atomic. intros σ. cbn [gets fst].
  case_bool_decide; [apply Hnext; cbn; lia|].
  apply always_bind, always_atomic. intros σ1. cbn [modify fst].
  destruct (zstd_decompress _) as [decompressed|e]; [|apply Hnext; cbn; lia].
  apply always_bind, always_atomic. intros σ2. cbn [modify fst].
  apply always_bind, always_atomic. intros σ3. cbn [modify fst].
  apply Hnext; cbn; lia.
Qed.

Lemma PPK_process_always max_block_size file_name file_data output_root :
  0 < max_block_size →
  always (λ r, ∃ res, r = Some res
                      ∧ PPKUnlocker.file res = file_name
                      ∧ PPKUnlocker.processed res
                        = length (Spec.signature_offsets file_data)
                      ∧ PPKUnlocker.extracted res ≤ PPKUnlocker.processed res)
    (PPKUnlocker.process_ppk_file_with max_block_size file_name file_data output_root).
Proof.
  intros Hmax. unfold PPKUnlocker.process_ppk_file_with.
  apply always_bind. eapply always_mono; [|apply PPK_block_loop_always; [done|simpl; lia]].
  cbn beta. intros r (l' & -> & Hp & He). apply always_ret.
  eexists. split; [reflexivity|]. cbn in *.
  unfold offsets_from in *. rewrite Nat.sub_0_r in *.
  fold (Spec.signature_offsets file_data) in *. repeat split; lia.
Qed.

Lemma PPK_run_files_reports max_block_size schedule ppk_files output_root σ :
  0 < max_block_size →
  Forall2 (λ f r, ∃ res, r = Some res
                         ∧ PPKUnlocker.file res = f.1
                         ∧ PPKUnlocker.processed res
                           = length (Spec.signature_offsets f.2)
                         ∧ PPKUnlocker.extracted res ≤ PPKUnlocker.processed res)
    ppk_files
    (PPKUnlocker.run_files max_block_size schedule ppk_files output_root σ).1.
Proof.
  intros Hmax. unfold PPKUnlocker.run_files.
  pose proof (always_run_pool
                (map (λ f r, ∃ res, r = Some res
                         ∧ PPKUnlocker.file res = f.1
                         ∧ PPKUnlocker.processed res
                           = length (Spec.signature_offsets f.2)
                         ∧ PPKUnlocker.extracted res ≤ PPKUnlocker.processed res)
                   ppk_files)
                PPKUnlocker.MAX_THREADS schedule
                (map (λ '(file_name, file_data),
                        PPKUnlocker.process_ppk_file_with max_block_size file_name
                          file_data output_root) ppk_files) σ) as Hpool.
  apply Forall2_fmap_l in Hpool; [exact Hpool|].
  apply Forall2_fmap. apply Forall_Forall2_diag, Forall_forall.
  intros [file_name file_data] _. by apply PPK_process_always.
Qed.

Lemma tally_acc results acc acc' :
  PPKUnlocker_main.total_processed (PPKUnlocker_main.tally results acc)
  + PPKUnlocker_main.total_processed acc'
  = PPKUnlocker_main.total_processed (PPKUnlocker_main.tally results acc')
    + PPKUnlocker_main.total_processed acc
  ∧ PPKUnlocker_main.total_extracted (PPKUnlocker_main.tally results acc)
    + PPKUnlocker_main.total_extracted acc'
    = PPKUnlocker_main.total_extracted (PPKUnlocker_main.tally results acc')
      + PPKUnlocker_main.total_extracted acc
  ∧ PPKUnlocker_main.failed_files (PPKUnlocker_main.tally results acc)
    + PPKUnlocker_main.failed_files acc'
    = PPKUnlocker_main.failed_files (PPKUnlocker_main.tally results acc')
      + PPKUnlocker_main.failed_files acc.
Proof.
  revert acc acc'.
  induction results as [|[file p e|file error] results IH]; intros acc acc'.
  - cbn. lia.
  - cbn [PPKUnlocker_main.tally].
    specialize (IH {| PPKUnlocker_main.total_processed :=
                        PPKUnlocker_main.total_processed acc + p;
                      PPKUnlocker_main.total_extracted :=
                        PPKUnlocker_main.total_extracted acc + e;
                      PPKUnlocker_main.failed_files :=
                        PPKUnlocker_main.failed_files acc |}
                   {| PPKUnlocker_main.total_processed :=
                        PPKUnlocker_main.total_processed acc' + p;
                      PPKUnlocker_main.total_extracted :=
                        PPKUnlocker_main.total_extracted acc' + e;
                      PPKUnlocker_main.failed_files :=
                        PPKUnlocker_main.failed_files acc' |}).
    cbn [PPKUnlocker_main.total_processed PPKUnlocker_main.total_extracted
         PPKUnlocker_main.failed_files] in IH. lia.
  - cbn [PPKUnlocker_main.tally].
    specialize (IH {| PPKUnlocker_main.total_processed :=
                        PPKUnlocker_main.total_processed acc;
                      PPKUnlocker_main.total_extracted :=
                        PPKUnlocker_main.total_extracted acc;
                      PPKUnlocker_main.failed_files :=
                        PPKUnlocker_main.failed_files acc + 1 |}
                   {| PPKUnlocker_main.total_processed :=
                        PPKUnlocker_main.total_processed acc';
                      PPKUnlocker_main.total_extracted :=
                        PPKUnlocker_main.total_extracted acc';
                      PPKUnlocker_main.failed_files :=
                        PPKUnlocker_main.failed_files acc' + 1 |}).
    cbn [PPKUnlocker_main.total_processed PPKUnlocker_main.total_extracted
         PPKUnlocker_main.failed_files] in IH. lia.
Qed.

Lemma final_statistics_cons report results :
  let s := PPKUnlocker_main.final_statistics (report :: results) in
  let s1 := PPKUnlocker_main.final_statistics [report] in
  let s2 := PPKUnlocker_main.final_statistics results in
  PPKUnlocker_main.total_processed s
  = PPKUnlocker_main.total_processed s1 + PPKUnlocker_main.total_processed s2
  ∧ PPKUnlocker_main.total_extracted s
    = PPKUnlocker_main.total_extracted s1 + PPKUnlocker_main.total_extracted s2
  ∧ PPKUnlocker_main.failed_files s
    = PPKUnlocker_main.failed_files s1 + PPKUnlocker_main.failed_files s2.
Proof.
  cbv zeta. unfold PPKUnlocker_main.final_statistics.
  destruct report as [file p e|file error]; cbn [PPKUnlocker_main.tally];
    match goal with |- context [PPKUnlocker_main.tally results ?acc] =>
      pose proof (tally_acc results acc
                    {| PPKUnlocker_main.total_processed := 0;
                       PPKUnlocker_main.total_extracted := 0;
                       PPKUnlocker_main.failed_files := 0 |}) as Hacc
    end;
    cbn [PPKUnlocker_main.total_processed PPKUnlocker_main.total_extracted
         PPKUnlocker_main.failed_files] in *; lia.
Qed.

(** The counters do not depend on the order of the results. *)
Lemma final_statistics_Permutation results results' :
  results ≡ₚ results' →
  PPKUnlocker_main.final_statistics results
  = PPKUnlocker_main.final_statistics results'.
Proof.
  assert (Heq : ∀ s s' : PPKUnlocker_main.statistics,
            PPKUnlocker_main.total_processed s = PPKUnlocker_main.total_processed s' →
            PPKUnlocker_main.total_extracted s = PPKUnlocker_main.total_extracted s' →
            PPKUnlocker_main.failed_files s = PPKUnlocker_main.failed_files s' →
            s = s').
  { intros [] []; cbn; by intros -> -> ->. }
  induction 1 as [|r l l' _ IH|r1 r2 l|l l' l'' _ IH1 _ IH2].
  - done.
  - destruct (final_statistics_cons r l) as (H1 & H2 & H3).
    destruct (final_statistics_cons r l') as (H1' & H2' & H3').
    cbv zeta in *. apply Heq; rewrite ?H1, ?H2, ?H3, ?H1', ?H2', ?H3', IH; done.
  - destruct (final_statistics_cons r1 (r2 :: l)) as (H1 & H2 & H3).
    destruct (final_statistics_cons r2 l) as (G1 & G2 & G3).
    destruct (final_statistics_cons r2 (r1 :: l)) as (H1' & H2' & H3').
    destruct (final_statistics_cons r1 l) as (G1' & G2' & G3').
    cbv zeta in *. apply Heq; lia.
  - by rewrite IH1.
Qed.

Lemma PPK_reports_statistics (ppk_files : list (string * list byte))
    (rs : list (option PPKUnlocker.result)) :
  Forall2 (λ f r, ∃ res, r = Some res
                         ∧ PPKUnlocker.file res = f.1
                         ∧ PPKUnlocker.processed res
                           = length (Spec.signature_offsets f.2)
                         ∧ PPKUnlocker.extracted res ≤ PPKUnlocker.processed res)
    ppk_files rs →
  let reports := omap (fmap PPKUnlocker_main.report_of) rs in
  length reports = length ppk_files
  ∧ PPKUnlocker_main.failed_files (PPKUnlocker_main.final_statistics reports) = 0
  ∧ PPKUnlocker_main.total_processed (PPKUnlocker_main.final_statistics reports)
    = sum_list (signatures_per_file ppk_files)
  ∧ PPKUnlocker_main.total_extracted (PPKUnlocker_main.final_statistics reports)
    ≤ PPKUnlocker_main.total_processed (PPKUnlocker_main.final_statistics reports).
Proof.
  cbv zeta. induction 1 as [|f r files rs (res & -> & _ & Hp & He) _ IH].
  - cbn. lia.
  - cbn [omap list_omap fmap option_fmap option_map].
    destruct IH as (Hlen & Hfail & Hproc & Hext).
    destruct (final_statistics_cons (PPKUnlocker_main.report_of res)
                (omap (fmap PPKUnlocker_main.report_of) rs)) as (H1 & H2 & H3).
    cbv zeta in *. rewrite H1, H2, H3, Hfail, Hproc. rewrite Hproc in Hext.
    change (PPKUnlocker_main.final_statistics [PPKUnlocker_main.report_of res])
      with {| PPKUnlocker_main.total_processed := 0 + PPKUnlocker.processed res;
              PPKUnlocker_main.total_extracted := 0 + PPKUnlocker.extracted res;
              PPKUnlocker_main.failed_files := 0 |}.
    cbn [PPKUnlocker_main.total_processed PPKUnlocker_main.total_extracted
         PPKUnlocker_main.failed_files length].
    unfold signatures_per_file in *. cbn [map sum_list sum_list_with].
    change (id (length (Spec.signature_offsets f.2)))
      with (length (Spec.signature_offsets f.2)). lia.
Qed.

End PPKAlways.

(** ** The count of a serial run *)

Section DistinctDigests.
Context `{Primitives}.

Lemma NpkUnlocker_task_digests data frame_start output_root frame_idx σ :
  let r := exec (NpkUnlocker.extract_single_frame data frame_start output_root
                   frame_idx) σ in
  NpkUnlocker.extracted_hashes r.2
  = NpkUnlocker.extracted_hashes σ
    ∪ list_to_set (payload_digests data [(frame_idx, frame_start)])
  ∧ (if r.1 then 1 else 0) + size (NpkUnlocker.extracted_hashes σ)
    = size (NpkUnlocker.extracted_hashes r.2).
Proof.
  cbv zeta. unfold payload_digests. cbn [omap list_omap snd].
  destruct (zstd_decompress (drop frame_start data)) as [d|e] eqn:Hz.
  - destruct (decide (md5_hexdigest d ∈ NpkUnlocker.extracted_hashes σ)) as [Hin|Hnew].
    + rewrite (NpkUnlocker_task_duplicate _ _ _ _ _ _ Hz Hin). cbn.
      split; [|done]. rewrite (right_id_L ∅ (∪)).
      symmetry. rewrite (comm_L (∪)).
      apply subseteq_union_1_L. by apply singleton_subseteq_l.
    + destruct (NpkUnlocker_task_admitted _ _ output_root frame_idx _ _ Hz Hnew)
        as [Hr Hh].
      cbv zeta in Hr, Hh. rewrite Hr, Hh. cbn [list_to_set].
      rewrite (right_id_L ∅ (∪)). split; [apply (comm_L (∪))|].
      rewrite size_union by (by apply disjoint_singleton_l).
      rewrite size_singleton. lia.
  - rewrite (NpkUnlocker_task_decode_failure _ _ _ _ _ _ Hz). cbn.
    split; [|done]. by rewrite (right_id_L ∅ (∪)).
Qed.

Lemma payload_digests_cons data frame frames :
  (list_to_set (payload_digests data (frame :: frames)) : gset string)
  = list_to_set (payload_digests data [frame])
    ∪ list_to_set (payload_digests data frames).
Proof.
  unfold payload_digests. cbn [omap list_omap].
  destruct (zstd_decompress (drop frame.2 data)); cbn [list_to_set].
  - by rewrite (right_id_L ∅ (∪)).
  - by rewrite (left_id_L ∅ (∪)).
Qed.

Lemma NpkUnlocker_serial_loop_digests data output_folder total frames c σ :
  wp (NpkUnlocker.serial_loop data output_folder total frames c)
     (λ n σ',
        NpkUnlocker.extracted_hashes σ'
        = NpkUnlocker.extracted_hashes σ ∪ list_to_set (payload_digests data frames)
        ∧ n + size (NpkUnlocker.extracted_hashes σ)
          = c + size (NpkUnlocker.extracted_hashes σ')) σ.
Proof.
  revert c σ. induction frames as [|[i frame_start] frames IH]; intros c σ.
  - apply wp_ret. cbn. split; [|done]. by rewrite (right_id_L ∅ (∪)).
  - cbn [NpkUnlocker.serial_loop]. unfold NpkUnlocker.print_noend.
    wp_atomic_step. cbn [modify fst snd].
    match goal with |- wp _ _ ?σ0 => set (σ1 := σ0) end.
    apply wp_bind. unfold wp at 1.
    destruct (NpkUnlocker_task_digests data frame_start output_folder i σ1)
      as [Hh Hc]. cbv zeta in Hh, Hc.
    destruct (exec (NpkUnlocker.extract_single_frame data frame_start output_folder i)
                σ1) as [r σ2].
    cbn [fst snd] in *.
    eapply wp_mono; [|apply IH].
    cbn beta. intros n σ' [Hh' Hc']. subst σ1.
    cbn [NpkUnlocker.extracted_hashes] in *. split.
    + rewrite payload_digests_cons, Hh', Hh. by rewrite (assoc_L (∪)).
    + destruct r; lia.
Qed.

End DistinctDigests.

(** In its serial branch [extract_zstd_container] returns the number of
    distinct digests among the payloads of the frames that decompress, and
    leaves exactly these digests in [extracted_hashes]: a frame is counted
    when, and only when, no earlier frame of the container decompressed
    to a payload with the same digest. *)
Theorem CLI_serial_count_is_the_number_of_distinct_digests `{Primitives}
    (max_threads : nat) (schedule : list nat) (pkg_file_path : string)
    (data : list byte) (output_folder : string) (σ : NpkUnlocker.run_state) :
  ∃ p frame_positions,
    NpkUnlocker.scan_frames data = Some frame_positions
    ∧ NpkUnlocker.extract_zstd_container_with false max_threads schedule
        pkg_file_path data output_folder = Some p
    ∧ NpkUnlocker.extracted_hashes (exec p σ).2
      = list_to_set (payload_digests data (enumerate frame_positions))
    ∧ (exec p σ).1
      = NpkUnlocker.Returned
          (size (list_to_set (payload_digests data (enumerate frame_positions))
                 : gset string)).
Proof.
  unfold NpkUnlocker.extract_zstd_container_with.
  rewrite NpkUnlocker_scan_frames_spec. cbn [mbind option_bind].
  eexists _, (Spec.signature_offsets data). split; [reflexivity|].
  split; [reflexivity|].
  set (frame_positions := Spec.signature_offsets data).
  set (D := list_to_set (payload_digests data (enumerate frame_positions)) : gset string).
  match goal with |- NpkUnlocker.extracted_hashes (exec ?p σ).2 = _ ∧ _ =>
    change (wp p (λ o σ', NpkUnlocker.extracted_hashes σ' = D
                          ∧ o = NpkUnlocker.Returned (size D)) σ)
  end.
  unfold NpkUnlocker.print.
  do 10 wp_atomic_step. cbn [andb].
  apply wp_bind. apply wp_bind.
  match goal with |- wp _ _ ?σ' => set (σ1 := σ') end.
  eapply wp_mono; [|apply NpkUnlocker_serial_loop_digests].
  cbn beta. intros n σ2 [Hh Hc]. apply wp_ret.
  do 2 wp_atomic_step. apply wp_ret. cbn [NpkUnlocker.extracted_hashes fst snd].
  subst σ1. cbn [NpkUnlocker.extracted_hashes NpkUnlocker.with_hashes modify snd] in *.
  rewrite (left_id_L ∅ (∪)) in Hh. rewrite size_empty, Hh in Hc.
  subst D. split; [done|]. f_equal. lia.
Qed.

Section DistinctDigestsGUI.
Context `{Primitives}.

Lemma GUI_task_digests data frame_start output_root frame_idx stop_flag
    enable_type_detect σ :
  (∀ k, stop_flag k = false) →
  let r := exec (NpkUnlock_GUI.extract_single_frame data frame_start output_root
                   frame_idx stop_flag true enable_type_detect) σ in
  NpkUnlock_GUI.extracted_hashes r.2
  = NpkUnlock_GUI.extracted_hashes σ
    ∪ list_to_set (payload_digests data [(frame_idx, frame_start)])
  ∧ length (announced r.1) + size (NpkUnlock_GUI.extracted_hashes σ)
    = size (NpkUnlock_GUI.extracted_hashes r.2).
Proof.
  intros Hstop. cbv zeta. rewrite GUI_task_exec. unfold task_outcome. cbv zeta.
  rewrite !Hstop. unfold payload_digests. cbn [omap list_omap snd andb].
  destruct (zstd_decompress (drop frame_start data)) as [d|e] eqn:Hz.
  - case_bool_decide as Hin; cbn [fst snd list_to_set announced length].
    + cbn [polled NpkUnlock_GUI.extracted_hashes]. split; [|done].
      rewrite (right_id_L ∅ (∪)). symmetry. rewrite (comm_L (∪)).
      apply subseteq_union_1_L. by apply singleton_subseteq_l.
    + cbn [after_write NpkUnlock_GUI.extracted_hashes].
      rewrite (right_id_L ∅ (∪)). split; [apply (comm_L (∪))|].
      rewrite size_union by (by apply disjoint_singleton_l).
      rewrite size_singleton. lia.
  - cbn. split; [|done]. by rewrite (right_id_L ∅ (∪)).
Qed.

Lemma GUI_serial_loop_digests data output_root stop_flag enable_type_detect total
    frames acc σ :
  (∀ k, stop_flag k = false) →
  wp (NpkUnlock_GUI.serial_loop data output_root stop_flag true enable_type_detect
        total frames acc)
     (λ acc' σ',
        NpkUnlock_GUI.extracted_hashes σ'
        = NpkUnlock_GUI.extracted_hashes σ ∪ list_to_set (payload_digests data frames)
        ∧ length (NpkUnlock_GUI.artifacts acc'.2)
          + size (NpkUnlock_GUI.extracted_hashes σ)
          = length (NpkUnlock_GUI.artifacts acc.2)
            + size (NpkUnlock_GUI.extracted_hashes σ')) σ.
Proof.
  intros Hstop.
  revert acc σ. induction frames as [|[i frame_start] frames IH]; intros acc σ.
  - apply wp_ret. cbn. split; [|done]. by rewrite (right_id_L ∅ (∪)).
  - cbn [NpkUnlock_GUI.serial_loop]. wp_atomic_step.
    cbn [NpkUnlock_GUI.read_stop fst snd]. rewrite Hstop.
    match goal with |- wp _ _ ?σ0 => set (σ1 := σ0) end.
    apply wp_bind. unfold wp at 1.
    destruct (GUI_task_digests data frame_start output_root i stop_flag
                enable_type_detect σ1 Hstop) as [Hh Hc]. cbv zeta in Hh, Hc.
    destruct (exec (NpkUnlock_GUI.extract_single_frame data frame_start output_root i
                      stop_flag true enable_type_detect) σ1) as [r σ2].
    cbn [fst snd] in *.
    eapply wp_mono; [|apply IH].
    cbn beta. intros acc' σ' [Hh' Hc']. subst σ1.
    cbn [NpkUnlock_GUI.extracted_hashes] in *. split.
    + rewrite payload_digests_cons, Hh', Hh. by rewrite (assoc_L (∪)).
    + rewrite artifacts_account, length_app in Hc'. lia.
Qed.

Lemma GUI_serial_run_digests input_file data output_root max_threads
    enable_type_detect stop_flag schedule σ :
  (∀ k, stop_flag k = false) →
  0 < length (Spec.signature_offsets data) →
  ∃ p,
    NpkUnlock_GUI.run input_file (Some data) output_root false max_threads
      true enable_type_detect stop_flag schedule = Some p
    ∧ NpkUnlock_GUI.extracted_hashes (exec p σ).2
      = list_to_set (payload_digests data (enumerate (Spec.signature_offsets data)))
    ∧ length (NpkUnlock_GUI.artifacts (exec p σ).1)
      = size (list_to_set
                (payload_digests data (enumerate (Spec.signature_offsets data)))
              : gset string).
Proof.
  intros Hstop Hpos. unfold NpkUnlock_GUI.run.
  rewrite GUI_scan_zstd_frames_spec. cbn [mbind option_bind].
  eexists. split; [reflexivity|].
  set (frame_positions := Spec.signature_offsets data) in *.
  set (D := list_to_set (payload_digests data (enumerate frame_positions)) : gset string).
  match goal with |- NpkUnlock_GUI.extracted_hashes (exec ?p σ).2 = _ ∧ _ =>
    change (wp p (λ out σ', NpkUnlock_GUI.extracted_hashes σ' = D
                            ∧ length (NpkUnlock_GUI.artifacts out) = size D) σ)
  end.
  wp_atomic_step. cbv zeta. wp_atomic_step.
  cbn [NpkUnlock_GUI.read_stop fst snd]. rewrite Hstop.
  destruct (Nat.eqb_spec (length frame_positions) 0) as [Hz|_]; [lia|].
  wp_atomic_step. cbn [modify fst snd NpkUnlock_GUI.with_hashes].
  match goal with |- wp _ _ ?σ' => set (σ1 := σ') end.
  apply wp_bind.
  eapply wp_mono; [|by apply GUI_serial_loop_digests].
  cbn beta. intros acc σ2 [Hh Hc]. unfold wp.
  destruct (GUI_finish_artifacts stop_flag acc σ2) as [-> _].
  unfold NpkUnlock_GUI.finish. destruct acc as [c out].
  rewrite exec_bind, exec_atomic.
  cbn [NpkUnlock_GUI.read_stop fst snd exec mret prog_ret NpkUnlock_GUI.extracted_hashes].
  subst σ1. cbn [NpkUnlock_GUI.extracted_hashes NpkUnlock_GUI.with_hashes snd] in Hh, Hc.
  rewrite (left_id_L ∅ (∪)) in Hh. rewrite size_empty, Hh in Hc.
  split; [done|].
  match type of Hc with _ + 0 = length ?arts + _ =>
    change arts with (@nil NpkUnlock_GUI.info) in Hc end.
  cbn [length] in Hc. subst D. lia.
Qed.

End DistinctDigestsGUI.

(** In the normal mode of the graphical tool, with the index of digests
    switched on and no stop request, the artifacts announced by a run on a
    container with at least one frame are as many as there are distinct
    digests among the payloads of the frames that decompress; the index
    holds exactly these digests at the end, and the run ends with the
    [finished_signal] that carries this number. *)
Theorem GUI_serial_count_is_the_number_of_distinct_digests `{Primitives}
    (input_file : string) (data : list byte) (output_root : string)
    (max_threads : nat) (enable_type_detect : bool) (stop_flag : nat → bool)
    (schedule : list nat) (σ : NpkUnlock_GUI.task_state)
    (frame_positions : list nat) :
  (∀ k, stop_flag k = false) →
  NpkUnlock_GUI.scan_zstd_frames data = Some frame_positions →
  0 < length frame_positions →
  ∃ p,
    NpkUnlock_GUI.run input_file (Some data) output_root false max_threads
      true enable_type_detect stop_flag schedule = Some p
    ∧ NpkUnlock_GUI.extracted_hashes (exec p σ).2
      = list_to_set (payload_digests data (enumerate frame_positions))
    ∧ length (NpkUnlock_GUI.artifacts (exec p σ).1)
      = size (list_to_set (payload_digests data (enumerate frame_positions))
              : gset string)
    ∧ last (exec p σ).1
      = Some (NpkUnlock_GUI.finished_signal
                (size (list_to_set (payload_digests data (enumerate frame_positions))
                       : gset string))).
Proof.
  intros Hstop Hscan Hpos.
  rewrite GUI_scan_zstd_frames_spec in Hscan. injection Hscan as <-.
  destruct (GUI_serial_run_digests input_file data output_root max_threads
              enable_type_detect stop_flag schedule σ Hstop Hpos)
    as (p & Hp & Hh & Hlen).
  exists p. split; [exact Hp|]. split; [exact Hh|]. split; [exact Hlen|].
  destruct (GUI_run_completes input_file data output_root false max_threads
              true enable_type_detect stop_flag schedule σ (or_introl eq_refl))
    as (p1 & Hp1 & n & out' & Hout & _).
  destruct (GUI_extracted_le_found input_file (Some data) output_root false
              max_threads true enable_type_detect stop_flag schedule σ)
    as (p2 & Hp2 & _ & Hfin).
  rewrite Hp in Hp1, Hp2. injection Hp1 as <-. injection Hp2 as <-.
  rewrite <- Hlen, Hout, last_snoc. do 2 f_equal.
  rewrite <- Hout. apply Hfin. rewrite Hout, finished_counts_app.
  apply elem_of_app. right. cbn. left.
Qed.

Lemma twin_png_digests :
  size (list_to_set (payload_digests twin_png_frames (enumerate [0; 9])) : gset string)
  = 1.
Proof. vm_compute. reflexivity. Qed.

Lemma GUI_serial_count_is_the_number_of_distinct_digests_witness :
  ∃ p,
    NpkUnlock_GUI.run "gui2.npk" (Some twin_png_frames) "Output" false 1 true true
      Toy.never [] = Some p
    ∧ length (NpkUnlock_GUI.artifacts (exec p fresh_task_state).1) = 1.
Proof.
  destruct (GUI_serial_count_is_the_number_of_distinct_digests "gui2.npk"
              twin_png_frames "Output" 1 true Toy.never [] fresh_task_state [0; 9])
    as (p & Hp & _ & Hlen & _).
  - reflexivity.
  - exact twin_png_frames_positions.
  - simpl. lia.
  - exists p. split; [exact Hp|]. rewrite Hlen. exact twin_png_digests.
Defined.

(** ** The command-line tool with its shipped switches *)

(** With the switches as shipped, [FAST_MODE = True] and [MAX_THREADS = 8],
    [extract_zstd_container] returns a count for every container and every
    schedule of the pool: the pool is never created without workers, and
    the count is at most the number of frames found. *)
Theorem CLI_shipped_switches_always_return `{Primitives} (schedule : list nat)
    (pkg_file_path : string) (data : list byte) (output_folder : string)
    (σ : NpkUnlocker.run_state) :
  ∃ p frame_positions extracted_count,
    NpkUnlocker.scan_frames data = Some frame_positions
    ∧ NpkUnlocker.extract_zstd_container schedule pkg_file_path data output_folder
      = Some p
    ∧ (exec p σ).1 = NpkUnlocker.Returned extracted_count
    ∧ extracted_count ≤ length frame_positions.
Proof.
  destruct (NpkUnlocker_extracted_le_found NpkUnlocker.FAST_MODE NpkUnlocker.MAX_THREADS
              schedule pkg_file_path data output_folder σ) as (p & Hp & Hle).
  exists p, (Spec.signature_offsets data).
  destruct (exec p σ).1 as [n|exception] eqn:Hr.
  - exists n. split; [apply NpkUnlocker_scan_frames_spec|]. by repeat split.
  - destruct Hle as [_ Hno]. discriminate Hno.
Qed.

(** On a buffer in which the scanner finds no frame, the empty file
    included, the command-line tool takes the serial branch although
    [FAST_MODE] is set: it creates the output folder, writes no file,
    returns 0 and ends its output with the line that reports 0 files. *)
Theorem CLI_run_without_frames `{Primitives} (schedule : list nat)
    (pkg_file_path : string) (data : list byte) (output_folder : string)
    (σ : NpkUnlocker.run_state) :
  NpkUnlocker.scan_frames data = Some [] →
  ∃ p,
    NpkUnlocker.extract_zstd_container schedule pkg_file_path data output_folder
    = Some p
    ∧ (exec p σ).1 = NpkUnlocker.Returned 0
    ∧ fs_files (NpkUnlocker.fs (exec p σ).2) = fs_files (NpkUnlocker.fs σ)
    ∧ fs_dirs (NpkUnlocker.fs (exec p σ).2)
      = {[output_folder]} ∪ fs_dirs (NpkUnlocker.fs σ)
    ∧ length (NpkUnlocker.stdout (exec p σ).2) = length (NpkUnlocker.stdout σ) + 10
    ∧ last (NpkUnlocker.stdout (exec p σ).2)
      = Some ("提取完成! 共提取 0 个不重复文件" +:+ NpkUnlocker.newline).
Proof.
  intros Hscan.
  unfold NpkUnlocker.extract_zstd_container, NpkUnlocker.extract_zstd_container_with.
  rewrite Hscan. cbn [mbind option_bind].
  eexists. split; [reflexivity|].
  cbn [length Nat.ltb Nat.leb andb NpkUnlocker.FAST_MODE enumerate zip zip_with seq].
  cbn [exec mbind prog_mbind prog_bind mret prog_ret NpkUnlocker.print atomic modify
       NpkUnlocker.serial_loop NpkUnlocker.with_fs NpkUnlocker.with_hashes
       fst snd NpkUnlocker.fs NpkUnlocker.stdout NpkUnlocker.extracted_hashes
       fs_mkdir fs_files fs_dirs].
  split; [done|]. split; [done|]. split; [done|].
  rewrite !length_app. cbn [length]. split; [lia|].
  by rewrite last_snoc.
Qed.

Lemma CLI_run_without_frames_witness :
  ∃ p,
    NpkUnlocker.extract_zstd_container [] "gui2.npk" [] "Output" = Some p
    ∧ (exec p fresh_run_state).1 = NpkUnlocker.Returned 0.
Proof.
  destruct (CLI_run_without_frames [] "gui2.npk" [] "Output" fresh_run_state)
    as (p & Hp & Hr & _).
  - reflexivity.
  - exists p. split; [exact Hp|exact Hr].
Defined.

(** ** The files of the block extractor *)

Lemma append_slash_inj (a b x y : string) :
  no_slash a = true → no_slash b = true →
  a +:+ "/" +:+ x = b +:+ "/" +:+ y → a = b ∧ x = y.
Proof.
  revert b. induction a as [|c a IH]; intros [|d b] Ha Hb Heq.
  - rewrite !append_nil_l, !append_cons, !append_nil_l in Heq.
    by injection Heq as ->.
  - rewrite append_nil_l, !append_cons in Heq. injection Heq as <- _.
    cbn in Hb. done.
  - rewrite append_nil_l, !append_cons in Heq. injection Heq as -> _.
    cbn in Ha. done.
  - rewrite !append_cons in Heq. injection Heq as -> Heq.
    cbn in Ha, Hb. apply andb_true_iff in Ha as [_ Ha], Hb as [_ Hb].
    destruct (IH b Ha Hb Heq) as [-> ->]. done.
Qed.

Lemma ppk_category_no_slash ext :
  ext ∈ labels →
  no_slash (default "未知文件" (PPKUnlocker.FILE_CATEGORY_MAP !! ext)) = true.
Proof. intros Hl. each_label Hl; vm_compute; reflexivity. Qed.

Lemma ppk_category_ext_length ext1 ext2 :
  ext1 ∈ labels → ext2 ∈ labels →
  default "未知文件" (PPKUnlocker.FILE_CATEGORY_MAP !! ext1)
  = default "未知文件" (PPKUnlocker.FILE_CATEGORY_MAP !! ext2) →
  String.length ext1 = String.length ext2.
Proof.
  intros Hl1 Hl2. each_label Hl1; each_label Hl2; vm_compute;
    intros Heq; first [reflexivity|discriminate Heq].
Qed.

Lemma ppk_save_path_inj file_name output_root k k' d d' :
  ppk_save_path file_name output_root k d = ppk_save_path file_name output_root k' d' →
  k = k'.
Proof.
  unfold ppk_save_path, path_join. cbv zeta.
  assert (Hl : PPKUnlocker.detect_file_extension d ∈ labels)
    by (rewrite PPK_detect_classify; apply classify_label).
  assert (Hl' : PPKUnlocker.detect_file_extension d' ∈ labels)
    by (rewrite PPK_detect_classify; apply classify_label).
  revert Hl Hl'.
  generalize (PPKUnlocker.detect_file_extension d) as ext.
  generalize (PPKUnlocker.detect_file_extension d') as ext'.
  intros ext' ext Hl Hl'. rewrite !append_assoc. intros Heq.
  apply append_inj_prefix in Heq.
  rewrite !append_cons, !append_nil_l in Heq. injection Heq as Heq.
  apply append_slash_inj in Heq as [Hcat Heq]; [|by apply ppk_category_no_slash..].
  apply append_inj_prefix in Heq. injection Heq as Heq.
  apply append_inj_suffix_length in Heq as [Hn _];
    [|by apply ppk_category_ext_length].
  by apply (inj pretty) in Hn.
Qed.

Section PPKDisk.
Context `{Primitives}.

Lemma saved_blocks_snoc trace b :
  saved_blocks (trace ++ [b])
  = saved_blocks trace ++ (if is_saved b then [b] else []).
Proof. unfold saved_blocks. rewrite List.filter_app. cbn. by destruct (is_saved b). Qed.

Lemma saved_on_disk_skip file_name output_root files trace b :
  is_saved b = false →
  saved_on_disk file_name output_root files trace →
  saved_on_disk file_name output_root files (trace ++ [b]).
Proof.
  intros Hb Hdisk. unfold saved_on_disk. rewrite saved_blocks_snoc, Hb, app_nil_r.
  exact Hdisk.
Qed.

Lemma saved_blocks_skip trace b :
  is_saved b = false → saved_blocks (trace ++ [b]) = saved_blocks trace.
Proof. intros Hb. by rewrite saved_blocks_snoc, Hb, app_nil_r. Qed.

Lemma block_step_saved max_block_size file_name file_data output_root l magic_pos σ :
  let r := block_step max_block_size file_name file_data output_root l magic_pos σ in
  PPKUnlocker.block_idx l = length (saved_blocks (PPKUnlocker.seen l)) →
  saved_on_disk file_name output_root (PPKUnlocker.fs σ) (PPKUnlocker.seen l) →
  PPKUnlocker.block_idx r.1 = length (saved_blocks (PPKUnlocker.seen r.1))
  ∧ saved_on_disk file_name output_root (PPKUnlocker.fs r.2) (PPKUnlocker.seen r.1).
Proof.
  cbv zeta. intros Hidx Hdisk. unfold block_step. cbv zeta.
  destruct (length _ <? 1024).
  { cbn [fst snd ppk_continue PPKUnlocker.seen PPKUnlocker.block_idx].
    rewrite saved_blocks_skip by done. split; [done|].
    by apply saved_on_disk_skip. }
  case_bool_decide.
  { cbn [fst snd ppk_continue PPKUnlocker.seen PPKUnlocker.block_idx].
    rewrite saved_blocks_skip by done. split; [done|].
    by apply saved_on_disk_skip. }
  destruct (zstd_decompress _) as [decompressed|e].
  2:{ cbn [fst snd ppk_continue PPKUnlocker.seen PPKUnlocker.block_idx].
      rewrite saved_blocks_skip by done. split; [done|].
      by apply saved_on_disk_skip. }
  cbn [fst snd ppk_saved PPKUnlocker.seen PPKUnlocker.block_idx].
  unfold saved_on_disk.
  rewrite saved_blocks_snoc. unfold is_saved at 1 2. cbn [PPKUnlocker.block_outcome].
  rewrite length_app. cbn [length]. split; [lia|].
  intros k b save_path d Hk Hb.
  cbn [PPKUnlocker.with_fs PPKUnlocker.fs ppk_marked PPKUnlocker.with_md5s fs_write
       fs_mkdir fs_files].
  destruct (decide (k < length (saved_blocks (PPKUnlocker.seen l)))) as [Hlt|Hge].
  - rewrite lookup_app_l in Hk by done.
    destruct (Hdisk k b save_path d Hk Hb) as [-> Hfile]. split; [done|].
    rewrite lookup_insert_ne; [done|].
    intros Heq. apply ppk_save_path_inj in Heq. lia.
  - rewrite lookup_app_r in Hk by lia.
    apply list_lookup_singleton_Some in Hk as [Hk <-].
    cbn [PPKUnlocker.block_outcome] in Hb. injection Hb as <- <-.
    assert (k = PPKUnlocker.block_idx l) as -> by lia.
    split; [done|]. apply lookup_insert_eq.
Qed.

Lemma block_loop_saved fuel max_block_size file_name file_data output_root l σ :
  PPKUnlocker.block_idx l = length (saved_blocks (PPKUnlocker.seen l)) →
  saved_on_disk file_name output_root (PPKUnlocker.fs σ) (PPKUnlocker.seen l) →
  let r := exec (PPKUnlocker.block_loop fuel max_block_size file_name file_data
                   output_root l) σ in
  ∀ l', r.1 = Some l' →
        saved_on_disk file_name output_root (PPKUnlocker.fs r.2) (PPKUnlocker.seen l').
Proof.
  cbv zeta. revert l σ. induction fuel as [|fuel IH]; intros l σ Hidx Hdisk l'.
  { cbn. done. }
  destruct (decide (length file_data ≤ PPKUnlocker.offset l)) as [Hend|Hin].
  { rewrite block_loop_done by by left. cbn. by intros [= <-]. }
  destruct (Py.find file_data ZSTD (PPKUnlocker.offset l)) as [magic_pos|] eqn:Hfind.
  2:{ rewrite block_loop_done by by right. cbn. by intros [= <-]. }
  rewrite (block_loop_unfold _ _ _ _ _ _ magic_pos) by (lia || done).
  destruct (block_step_saved max_block_size file_name file_data output_root l
              magic_pos σ Hidx Hdisk) as [Hidx' Hdisk'].
  by apply IH.
Qed.

End PPKDisk.

(** After [process_ppk_file] every block it saved is on disk: the [k]-th
    saved block, counted from zero over the saved blocks only, is in
    [category/NAME_blockK.ext] under the output root, with the decompressed
    bytes of the block as content; a block saved later never overwrites an
    earlier one of the same file. *)
Theorem PPK_saved_blocks_are_on_disk `{Primitives} (max_block_size : nat)
    (file_name : string) (file_data : list byte) (output_root : string)
    (σ : PPKUnlocker.shared) :
  0 < max_block_size →
  ∃ res σ',
    exec (PPKUnlocker.process_ppk_file_with max_block_size file_name file_data
            output_root) σ = (Some res, σ')
    ∧ PPKUnlocker.extracted res = length (saved_blocks (PPKUnlocker.blocks res))
    ∧ ∀ k b save_path decompressed,
        saved_blocks (PPKUnlocker.blocks res) !! k = Some b →
        PPKUnlocker.block_outcome b = PPKUnlocker.Saved save_path decompressed →
        zstd_decompress (bytes_of file_data b) = Decoded decompressed
        ∧ save_path
          = path_join
              (path_join output_root
                 (default "未知文件"
                    (PPKUnlocker.FILE_CATEGORY_MAP
                       !! PPKUnlocker.detect_file_extension decompressed)))
              (file_name +:+ "_block" +:+ pretty k
               +:+ PPKUnlocker.detect_file_extension decompressed)
        ∧ fs_files (PPKUnlocker.fs σ') !! save_path = Some decompressed.
Proof.
  intros Hmax.
  destruct (process_ppk_file_trace max_block_size file_name file_data output_root
              σ Hmax) as (res & σ' & Hexec & _ & Htrace & _ & _ & Hext).
  exists res, σ'. split; [exact Hexec|]. split; [exact Hext|].
  intros k b save_path d Hk Hb.
  assert (Hin : b ∈ PPKUnlocker.blocks res).
  { apply list_elem_of_lookup_2 in Hk. unfold saved_blocks in Hk.
    apply list_elem_of_In, List.filter_In in Hk as [Hk _]. by apply list_elem_of_In. }
  split; [by eapply trace_ok_saved|].
  unfold PPKUnlocker.process_ppk_file_with in Hexec. rewrite exec_bind in Hexec.
  pose proof (block_loop_saved (S (length file_data)) max_block_size file_name
                file_data output_root
                {| PPKUnlocker.offset := 0; PPKUnlocker.block_idx := 0;
                   PPKUnlocker.processed_blocks := 0;
                   PPKUnlocker.extracted_blocks := 0; PPKUnlocker.seen := [] |} σ)
    as Hloop.
  cbv zeta in Hloop.
  destruct (exec (PPKUnlocker.block_loop _ _ _ _ _ _) σ) as [[l'|] σ1];
    cbn in Hexec; [|done].
  injection Hexec as <- <-.
  assert (Hnil : saved_on_disk file_name output_root (PPKUnlocker.fs σ) []).
  { intros k0 b0 p0 d0 Hk0. cbn in Hk0. by rewrite lookup_nil in Hk0. }
  exact (Hloop eq_refl Hnil l' eq_refl k b save_path d Hk Hb).
Qed.

Lemma good_block_saved :
  PPKUnlocker.blocks <$>
    (exec (PPKUnlocker.process_ppk_file_with 4096 "0a1b2c3d" good_block "Output")
       fresh_shared).1
  = Some [{| PPKUnlocker.magic_pos := 0; PPKUnlocker.block_end := 1024;
             PPKUnlocker.block_outcome :=
               PPKUnlocker.Saved "Output/未知文件/0a1b2c3d_block0"
                 (replicate 255 x07) |}].
Proof. vm_compute. reflexivity. Qed.

Lemma PPK_saved_blocks_are_on_disk_witness :
  ∃ res σ',
    exec (PPKUnlocker.process_ppk_file_with 4096 "0a1b2c3d" good_block "Output")
      fresh_shared = (Some res, σ')
    ∧ fs_files (PPKUnlocker.fs σ') !! "Output/未知文件/0a1b2c3d_block0"
      = Some (replicate 255 x07).
Proof.
  destruct (PPK_saved_blocks_are_on_disk 4096 "0a1b2c3d" good_block "Output"
              fresh_shared) as (res & σ' & Hexec & _ & Hdisk).
  - lia.
  - exists res, σ'. split; [exact Hexec|].
    pose proof good_block_saved as Hblocks. rewrite Hexec in Hblocks.
    injection Hblocks as Hblocks.
    apply (Hdisk 0 _ _ _ (f_equal (λ t, saved_blocks t !! 0) Hblocks) eq_refl).
Defined.

(** ** Settings across a restart *)

Section SettingsStore.
Variable int_of_str : string → option Z.
Variable persist : PyValue.value → PyValue.value.

Lemma value_setValue_eq settings key v defaultValue :
  AppSettings.value (AppSettings.setValue persist key v settings) key defaultValue
  = persist v.
Proof.
  unfold AppSettings.value, AppSettings.setValue. by rewrite String.eqb_refl.
Qed.

Lemma value_setValue_ne settings key key' v defaultValue :
  key' ≠ key →
  AppSettings.value (AppSettings.setValue persist key v settings) key' defaultValue
  = AppSettings.value settings key' defaultValue.
Proof.
  intros Hne. unfold AppSettings.value, AppSettings.setValue.
  destruct (String.eqb_spec key' key); [done|reflexivity].
Qed.

Lemma flag_round_trip (b : bool) :
  PyValue.eq_str
    (PyValue.Str (if PyValue.truth (PyValue.Bool b) then "true" else "false")) "true"
  = b.
Proof. by destruct b. Qed.

(** After [apply_settings] the dictionary answers with the value of [s]
    for every key of [s]. *)
Lemma apply_settings_get (s app_settings : gmap string PyValue.value) settings key v
    default_ :
  s !! key = Some v →
  PyValue.get (AppSettings.apply_settings persist s app_settings settings).1 key default_
  = v.
Proof.
  intros Hs. unfold AppSettings.apply_settings, PyValue.get. cbn [fst].
  destruct (decide (key = "theme")) as [->|Ht].
  { rewrite lookup_insert_eq. cbn. by rewrite Hs. }
  rewrite lookup_insert_ne by done.
  destruct (decide (key = "font_size")) as [->|Hz].
  { rewrite lookup_insert_eq. cbn. by rewrite Hs. }
  rewrite lookup_insert_ne by done.
  destruct (decide (key = "font_family")) as [->|Hf].
  { rewrite lookup_insert_eq. cbn. by rewrite Hs. }
  rewrite lookup_insert_ne by done.
  by rewrite (lookup_union_Some_l _ _ _ _ Hs).
Qed.

End SettingsStore.
(** What the settings dialog shows when it is accepted is what the next
    start of the program loads: after [apply_settings] on the dictionary of
    [collect_settings], [load_settings] on the store succeeds and returns a
    dictionary that holds every key of the dialog with the value of the
    dialog, the check boxes included, which travel as the texts ["true"]
    and ["false"]; this for every store that hands strings back unchanged
    and integers in a form that [int] reads back. *)
Theorem dialog_settings_survive_a_restart (str_strip : string → string)
    (int_of_str : string → option Z) (persist : PyValue.value → PyValue.value)
    (w : SettingsDialog.widgets) (app_settings : gmap string PyValue.value)
    (settings : AppSettings.QSettings) :
  (∀ s, persist (PyValue.Str s) = PyValue.Str s) →
  (∀ z, AppSettings.int int_of_str (persist (PyValue.Int z)) = Some z) →
  ∃ loaded,
    AppSettings.load_settings int_of_str
      (AppSettings.apply_settings persist (SettingsDialog.collect_settings str_strip w)
         app_settings settings).2
    = Some loaded
    ∧ SettingsDialog.collect_settings str_strip w ⊆ loaded.
Proof.
  intros Hstr Hint.
  set (s := SettingsDialog.collect_settings str_strip w).
  pose proof (apply_settings_get persist s app_settings settings) as Hget.
  unfold AppSettings.apply_settings in *. cbn [fst snd] in *.
  set (app := (<["theme" := _]> _ : gmap string PyValue.value)) in *.
  assert (H_font_family : ∀ d, PyValue.get app "font_family" d
            = PyValue.Str (SettingsDialog.combo_font w))
    by (intros d; apply Hget; reflexivity).
  assert (H_font_size : ∀ d, PyValue.get app "font_size" d
            = PyValue.Int (SettingsDialog.spin_font_size w))
    by (intros d; apply Hget; reflexivity).
  assert (H_theme : ∀ d, PyValue.get app "theme" d
            = PyValue.Str (if bool_decide (SettingsDialog.combo_theme w = 0%Z) then "dark" else "light"))
    by (intros d; apply Hget; reflexivity).
  assert (H_default_threads : ∀ d, PyValue.get app "default_threads" d
            = PyValue.Int (SettingsDialog.spin_default_threads w))
    by (intros d; apply Hget; reflexivity).
  assert (H_default_fast : ∀ d, PyValue.get app "default_fast" d
            = PyValue.Bool (SettingsDialog.chk_default_fast w))
    by (intros d; apply Hget; reflexivity).
  assert (H_default_output_dir : ∀ d, PyValue.get app "default_output_dir" d
            = PyValue.Str (str_strip (SettingsDialog.edit_default_output w)))
    by (intros d; apply Hget; reflexivity).
  assert (H_log_level : ∀ d, PyValue.get app "log_level" d
            = PyValue.Str (SettingsDialog.combo_log_level w))
    by (intros d; apply Hget; reflexivity).
  assert (H_log_to_file : ∀ d, PyValue.get app "log_to_file" d
            = PyValue.Bool (SettingsDialog.chk_log_to_file w))
    by (intros d; apply Hget; reflexivity).
  assert (H_log_dir : ∀ d, PyValue.get app "log_dir" d
            = PyValue.Str (str_strip (SettingsDialog.edit_log_dir w)))
    by (intros d; apply Hget; reflexivity).
  assert (H_show_program_log_in_gui : ∀ d, PyValue.get app "show_program_log_in_gui" d
            = PyValue.Bool (SettingsDialog.chk_show_program_log_in_gui w))
    by (intros d; apply Hget; reflexivity).
  assert (H_show_extract_log_in_gui : ∀ d, PyValue.get app "show_extract_log_in_gui" d
            = PyValue.Bool (SettingsDialog.chk_show_extract_log_in_gui w))
    by (intros d; apply Hget; reflexivity).
  assert (H_remember_last_input : ∀ d, PyValue.get app "remember_last_input" d
            = PyValue.Bool (SettingsDialog.chk_remember_last_input w))
    by (intros d; apply Hget; reflexivity).
  assert (H_remember_last_output : ∀ d, PyValue.get app "remember_last_output" d
            = PyValue.Bool (SettingsDialog.chk_remember_last_output w))
    by (intros d; apply Hget; reflexivity).
  assert (H_remember_window : ∀ d, PyValue.get app "remember_window" d
            = PyValue.Bool (SettingsDialog.chk_remember_window w))
    by (intros d; apply Hget; reflexivity).
  assert (H_remember_theme_font : ∀ d, PyValue.get app "remember_theme_font" d
            = PyValue.Bool (SettingsDialog.chk_remember_theme_font w))
    by (intros d; apply Hget; reflexivity).
  assert (H_enable_md5 : ∀ d, PyValue.get app "enable_md5" d
            = PyValue.Bool (SettingsDialog.chk_enable_md5 w))
    by (intros d; apply Hget; reflexivity).
  assert (H_enable_type_detect : ∀ d, PyValue.get app "enable_type_detect" d
            = PyValue.Bool (SettingsDialog.chk_enable_type_detect w))
    by (intros d; apply Hget; reflexivity).
  assert (H_enable_crash_log : ∀ d, PyValue.get app "enable_crash_log" d
            = PyValue.Bool (SettingsDialog.chk_enable_crash_log w))
    by (intros d; apply Hget; reflexivity).
  clear Hget.
  unfold AppSettings.load_settings, AppSettings.save_settings. cbv zeta.
  repeat (first [rewrite value_setValue_eq | rewrite value_setValue_ne by done]).
  rewrite H_font_family, H_font_size, H_theme, H_default_threads, H_default_fast, H_default_output_dir, H_log_level, H_log_to_file, H_log_dir, H_show_program_log_in_gui, H_show_extract_log_in_gui, H_remember_last_input, H_remember_last_output, H_remember_window, H_remember_theme_font, H_enable_md5, H_enable_type_detect, H_enable_crash_log.
  rewrite !Hstr, !Hint, !flag_round_trip. cbn [mbind option_bind].
  eexists. split; [reflexivity|].
  etransitivity; [|apply insert_subseteq; reflexivity].
  etransitivity; [|apply insert_subseteq; reflexivity].
  reflexivity.
Qed.

Lemma dialog_settings_survive_a_restart_witness :
  ∃ loaded,
    AppSettings.load_settings (λ _, None)
      (AppSettings.apply_settings id (SettingsDialog.collect_settings id dialog_with_font_12)
         ∅ empty_store).2
    = Some loaded
    ∧ SettingsDialog.collect_settings id dialog_with_font_12 ⊆ loaded.
Proof.
  apply (dialog_settings_survive_a_restart id (λ _, None) id dialog_with_font_12 ∅
           empty_store).
  - reflexivity.
  - reflexivity.
Defined.

(** ** The crash report of the launcher *)

Lemma last_items_shrink {A} (n : nat) (l r : list A) :
  n ≤ length l →
  Launcher.last_items n (Launcher.last_items n l ++ r) = Launcher.last_items n (l ++ r).
Proof.
  intros Hn. unfold Launcher.last_items.
  rewrite !length_app, length_drop.
  replace (length l - (length l - n) + length r - n) with (length r) by lia.
  replace (length l + length r - n) with ((length l - n) + length r) by lia.
  rewrite <- (drop_drop (l ++ r) (length r) (length l - n)).
  by rewrite (drop_app_le l r (length l - n)) by lia.
Qed.

Lemma last_items_all {A} (n : nat) (l : list A) :
  length l ≤ n → Launcher.last_items n l = l.
Proof.
  intros Hn. unfold Launcher.last_items. by replace (length l - n) with 0 by lia.
Qed.

Lemma length_last_items {A} (n : nat) (l : list A) :
  length (Launcher.last_items n l) = length l `min` n.
Proof. unfold Launcher.last_items. rewrite length_drop. lia. Qed.

Lemma last_items_last_items {A} (n m : nat) (l : list A) :
  n ≤ m → Launcher.last_items n (Launcher.last_items m l) = Launcher.last_items n l.
Proof.
  intros Hnm. unfold Launcher.last_items. rewrite length_drop, drop_drop.
  f_equal. lia.
Qed.

Lemma reader_keeps_the_last_800 stdout lines :
  length lines ≤ 800 →
  Launcher.reader stdout lines
  = Launcher.last_items 800 (lines ++ map Launcher.rstrip_newline stdout).
Proof.
  revert lines. induction stdout as [|line stdout IH]; intros lines Hlen.
  - cbn [Launcher.reader map]. rewrite app_nil_r. by rewrite last_items_all.
  - cbn [Launcher.reader map]. cbv zeta.
    generalize (Launcher.rstrip_newline line). intros stripped.
    change (lines ++ stripped :: map Launcher.rstrip_newline stdout)
      with (lines ++ [stripped] ++ map Launcher.rstrip_newline stdout).
    rewrite (app_assoc lines [stripped]).
    destruct (Nat.ltb_spec 800 (length (lines ++ [stripped]))) as [Hover|Hfits].
    + rewrite IH by (rewrite length_last_items; lia).
      apply last_items_shrink. lia.
    + by rewrite IH.
Qed.

(** The launcher keeps at most 800 lines of the child's output, and the
    cut to 800 never costs the crash report a line: when the child ends
    with a return code other than 0, the text handed to the crash window
    is made of the last 200 lines of the whole output, each without its
    line end, or of all lines when there are fewer; when the child returns
    0 there is no report. *)
Theorem crash_report_shows_the_last_200_lines (stdout : list string)
    (returncode : Z) :
  length (Launcher.reader stdout []) = length stdout `min` 800
  ∧ Launcher.run_launcher_parent stdout returncode
    = if bool_decide (returncode = 0%Z) then None
      else Some (Launcher.join_lines
                   (Launcher.last_items 200 (map Launcher.rstrip_newline stdout))).
Proof.
  unfold Launcher.run_launcher_parent. cbv zeta.
  rewrite reader_keeps_the_last_800 by (simpl; lia). cbn [app].
  split.
  - by rewrite length_last_items, length_map.
  - case_bool_decide; [done|]. by rewrite last_items_last_items by lia.
Qed.

(** ** Invariants of a pool *)

Section Pool.
Context {S : Type}.

(** A property of the tasks and the state that every single step of every
    task keeps holds of the results and the state the pool leaves. *)
Lemma exec_invariant {A} (Inv : list (prog S A) → S → Prop) progs i p σ :
  (∀ progs σ i p, progs !! i = Some p → Inv progs σ →
                  Inv (<[i := (step p σ).1]> progs) (step p σ).2) →
  progs !! i = Some p → Inv progs σ →
  Inv (<[i := Ret (exec p σ).1]> progs) (exec p σ).2.
Proof.
  intros Hstep. revert progs σ.
  induction p as [r|X a k IH]; intros progs σ Hi Hinv.
  - simpl. by rewrite list_insert_id.
  - pose proof (Hstep progs σ i (Act a k) Hi Hinv) as Hinv'.
    simpl in *. destruct (a σ) as [x σ']. simpl in *.
    specialize (IH x (<[i := k x]> progs) σ').
    rewrite list_insert_insert_eq in IH. apply IH; [|done].
    apply list_lookup_insert_eq. by eapply lookup_lt_Some.
Qed.

Lemma interleave_invariant {A} (Inv : list (prog S A) → S → Prop) max_workers
    schedule (pool : list (job S A)) σ :
  (∀ progs σ i p, progs !! i = Some p → Inv progs σ →
                  Inv (<[i := (step p σ).1]> progs) (step p σ).2) →
  Inv (map job_prog pool) σ →
  Inv (map job_prog (interleave max_workers schedule pool σ).1)
      (interleave max_workers schedule pool σ).2.
Proof.
  intros Hstep. revert pool σ.
  induction schedule as [|i schedule IH]; intros pool σ Hinv; [done|].
  simpl. destruct (pool !! i) as [j|] eqn:Hj; [|by apply IH].
  destruct (can_step max_workers pool i); [|by apply IH].
  assert (Hi : map job_prog pool !! i = Some (job_prog j)).
  { by rewrite list_lookup_fmap, Hj. }
  pose proof (Hstep _ σ i _ Hi Hinv) as Hinv'.
  destruct (step (job_prog j) σ) as [p' σ']. simpl in Hinv'.
  apply IH. by rewrite list_fmap_insert.
Qed.

Lemma join_invariant {A} (Inv : list (prog S A) → S → Prop) (rs : list A)
    (pool : list (job S A)) σ :
  (∀ progs σ i p, progs !! i = Some p → Inv progs σ →
                  Inv (<[i := (step p σ).1]> progs) (step p σ).2) →
  Inv (map Ret rs ++ map job_prog pool) σ →
  Inv (map Ret (rs ++ (join pool σ).1)) (join pool σ).2.
Proof.
  intros Hstep. revert rs σ.
  induction pool as [|j pool IH]; intros rs σ Hinv.
  - simpl in *. by rewrite app_nil_r in *.
  - simpl.
    pose proof (exec_invariant Inv (map Ret rs ++ job_prog j :: map job_prog pool)
                  (length rs) (job_prog j) σ Hstep) as He.
    destruct (exec (job_prog j) σ) as [r σ1]. simpl in He.
    specialize (IH (rs ++ [r]) σ1).
    destruct (join pool σ1) as [rs' σ2]. simpl in *.
    rewrite <- app_assoc in IH. apply IH.
    rewrite map_app, <- app_assoc. simpl.
    replace (map Ret rs ++ Ret r :: map job_prog pool)
      with (<[length rs := Ret r]> (map Ret rs ++ job_prog j :: map job_prog pool)).
    + apply He; [|done].
      rewrite lookup_app_r by (rewrite length_map; lia).
      by rewrite length_map, Nat.sub_diag.
    + rewrite insert_app_r_alt by (rewrite length_map; lia).
      by rewrite length_map, Nat.sub_diag.
Qed.

Lemma run_pool_invariant {A} (Inv : list (prog S A) → S → Prop) max_workers
    schedule (tasks : list (prog S A)) σ :
  (∀ progs σ i p, progs !! i = Some p → Inv progs σ →
                  Inv (<[i := (step p σ).1]> progs) (step p σ).2) →
  Inv tasks σ →
  Inv (map Ret (run_pool max_workers schedule tasks σ).1)
      (run_pool max_workers schedule tasks σ).2.
Proof.
  intros Hstep Hinv. unfold run_pool.
  pose proof (interleave_invariant Inv max_workers schedule (submit_all tasks) σ Hstep)
    as Hi.
  destruct (interleave max_workers schedule (submit_all tasks) σ) as [pool σ'].
  simpl in Hi.
  apply (join_invariant Inv [] pool σ' Hstep). simpl. apply Hi.
  unfold submit_all. rewrite map_map. simpl. by rewrite map_id.
Qed.

End Pool.

(** ** Tasks beside other tasks *)

Section Rely.
Context {S : Type}.

Lemma guar_ret {A} (G : S → S → Prop) (r : A) : guar G (mret r : prog S A).
Proof. done. Qed.

Lemma guar_atomic {A} (G : S → S → Prop) (a : State S A) :
  (∀ σ, G σ (a σ).2) → guar G (atomic a).
Proof. intros Ha. by split. Qed.

Lemma guar_bind {A B} (G : S → S → Prop) (p : prog S A) (f : A → prog S B) :
  guar G p → (∀ x, guar G (f x)) → guar G (p ≫= f).
Proof.
  intros Hp Hf. induction p as [r|X a k IH]; [apply Hf|].
  destruct Hp as [Ha Hk]. split; [done|]. intros x. apply IH, Hk.
Qed.

Lemma guar_mono {A} (G G' : S → S → Prop) (p : prog S A) :
  (∀ σ σ', G σ σ' → G' σ σ') → guar G p → guar G' p.
Proof.
  intros HG. induction p as [r|X a k IH]; [done|].
  intros [Ha Hk]. split; [intros σ; apply HG, Ha|]. intros x. apply IH, Hk.
Qed.

Lemma guar_step {A} (G : S → S → Prop) `{!Reflexive G} (p : prog S A) σ :
  guar G p → G σ (step p σ).2 ∧ guar G (step p σ).1.
Proof.
  destruct p as [r|X a k]; [intros _; split; [reflexivity|done]|].
  intros [Ha Hk]. simpl.
  specialize (Ha σ). destruct (a σ) as [x σ']. simpl in *. by split.
Qed.

Lemma guar_exec {A} (G : S → S → Prop) `{!PreOrder G} (p : prog S A) σ :
  guar G p → G σ (exec p σ).2.
Proof.
  revert σ. induction p as [r|X a k IH]; intros σ; [done|].
  intros [Ha Hk]. simpl. specialize (Ha σ). destruct (a σ) as [x σ']. simpl in *.
  etrans; [exact Ha|]. apply IH, Hk.
Qed.

Lemma post_ret {A} (R : S → S → Prop) (Q : A → S → Prop) (r : A) σ :
  (∀ σ', R σ σ' → Q r σ') → post R Q (mret r) σ.
Proof. done. Qed.

Lemma post_atomic {A} (R : S → S → Prop) (Q : A → S → Prop) (a : State S A) σ :
  (∀ σ' σ'', R σ σ' → R (a σ').2 σ'' → Q (a σ').1 σ'') → post R Q (atomic a) σ.
Proof. intros Ha σ' HR σ'' HR'. by apply Ha. Qed.

Lemma post_bind {A B} (R : S → S → Prop) `{!Reflexive R} (Q : B → S → Prop)
    (p : prog S A) (f : A → prog S B) σ :
  post R (λ x σ', post R Q (f x) σ') p σ → post R Q (p ≫= f) σ.
Proof.
  revert σ. induction p as [r|X a k IH]; intros σ Hp.
  - by apply Hp.
  - intros σ' HR. apply IH, Hp, HR.
Qed.

Lemma post_mono {A} (R : S → S → Prop) (Q Q' : A → S → Prop) (p : prog S A) σ :
  (∀ x σ', Q x σ' → Q' x σ') → post R Q p σ → post R Q' p σ.
Proof.
  intros HQ. revert σ. induction p as [r|X a k IH]; intros σ Hp σ' HR.
  - apply HQ, Hp, HR.
  - apply IH, Hp, HR.
Qed.

(** A step of another task, along [R], takes nothing away. *)
Lemma post_rely {A} (R : S → S → Prop) `{!Transitive R} (Q : A → S → Prop)
    (p : prog S A) σ σ' :
  R σ σ' → post R Q p σ → post R Q p σ'.
Proof.
  intros HR. destruct p as [r|X a k]; intros Hp σ'' HR'; apply Hp; by etrans.
Qed.

Lemma post_step {A} (R : S → S → Prop) `{!Reflexive R} (Q : A → S → Prop)
    (p : prog S A) σ :
  post R Q p σ → post R Q (step p σ).1 (step p σ).2.
Proof.
  destruct p as [r|X a k]; [done|]. intros Hp. simpl.
  specialize (Hp σ (reflexivity σ)). by destruct (a σ) as [x σ'].
Qed.

(** Run alone, the task keeps its promise. *)
Lemma post_exec {A} (R : S → S → Prop) `{!Reflexive R} (Q : A → S → Prop)
    (p : prog S A) σ :
  post R Q p σ → Q (exec p σ).1 (exec p σ).2.
Proof.
  revert σ. induction p as [r|X a k IH]; intros σ Hp.
  - by apply Hp.
  - simpl. specialize (Hp σ (reflexivity σ)). destruct (a σ) as [x σ']. by apply IH.
Qed.

(** What a value satisfying [always] adds to [post]. *)
Lemma post_always {A} (R : S → S → Prop) (P : A → Prop) (p : prog S A) σ :
  always P p → post R (λ r _, P r) p σ.
Proof.
  revert σ. induction p as [r|X a k IH]; intros σ Hp σ' HR; [done|].
  apply IH, Hp.
Qed.

(** Each task of a pool relies on its own relation; when every other task
    keeps to it, each result is as the task promises, whatever the
    schedule. *)
Lemma run_pool_post {A} (R : nat → S → S → Prop) (Q : nat → A → S → Prop)
    max_workers schedule (tasks : list (prog S A)) σ :
  (∀ i, PreOrder (R i)) →
  (∀ i p, tasks !! i = Some p → post (R i) (Q i) p σ) →
  (∀ i j p, i ≠ j → tasks !! j = Some p → guar (R i) p) →
  ∀ i r, (run_pool max_workers schedule tasks σ).1 !! i = Some r →
         Q i r (run_pool max_workers schedule tasks σ).2.
Proof.
  intros HR Hpost Hguar.
  set (Inv := λ (progs : list (prog S A)) (σ : S),
         ∀ i p, progs !! i = Some p →
                post (R i) (Q i) p σ ∧ ∀ j, j ≠ i → guar (R j) p).
  assert (Hfinal : Inv (map Ret (run_pool max_workers schedule tasks σ).1)
                       (run_pool max_workers schedule tasks σ).2).
  { apply run_pool_invariant.
    - clear Hpost Hguar. intros progs σ0 j p Hj Hinv i q Hi.
      destruct (decide (i = j)) as [->|Hne].
      + rewrite list_lookup_insert_eq in Hi by by eapply lookup_lt_Some.
        injection Hi as <-. destruct (Hinv j p Hj) as [Hp Hg].
        split; [apply post_step; [apply HR|done]|].
        intros i Hi. apply guar_step; [apply HR|by apply Hg].
      + rewrite list_lookup_insert_ne in Hi by done.
        destruct (Hinv i q Hi) as [Hq Hg]. split; [|done].
        destruct (Hinv j p Hj) as [_ Hgj].
        eapply post_rely; [apply HR| |done].
        apply guar_step; [apply HR|by apply Hgj].
    - intros i p Hi. split; [by apply Hpost|].
      intros j Hj. by apply (Hguar j i). }
  intros i r Hi. destruct (Hfinal i (Ret r)) as [Hq _].
  { by rewrite list_lookup_fmap, Hi. }
  apply Hq. reflexivity.
Qed.

(** What every task keeps to, the pool keeps to. *)
Lemma run_pool_guar {A} (G : S → S → Prop) `{!PreOrder G} max_workers schedule
    (tasks : list (prog S A)) σ :
  Forall (guar G) tasks → G σ (run_pool max_workers schedule tasks σ).2.
Proof.
  intros Hguar.
  set (Inv := λ (progs : list (prog S A)) (σ' : S), G σ σ' ∧ Forall (guar G) progs).
  assert (Hfinal : Inv (map Ret (run_pool max_workers schedule tasks σ).1)
                       (run_pool max_workers schedule tasks σ).2).
  { apply run_pool_invariant; [|split; [reflexivity|done]].
    intros progs σ0 j p Hj [HG Hall].
    pose proof (Forall_lookup_1 _ _ _ _ Hall Hj) as Hp.
    apply (guar_step G p σ0) in Hp as [Hs Hp'].
    split; [by etrans|]. by apply Forall_insert. }
  apply Hfinal.
Qed.

End Rely.

(** ** Tasks that mark what they extract *)

Section Marks.
Context {S : Type}.

#[global] Instance grows_preorder (h : S → gset string) : PreOrder (grows h).
Proof.
  split; [intros σ; unfold grows; done|].
  intros σ1 σ2 σ3 H1 H2. unfold grows in *. by etrans.
Qed.

Lemma marks_ret {A} h d (ok : A → Prop) (r : A) : marks h d ok (mret r : prog S A).
Proof. done. Qed.

Lemma marks_bind {A B} h d (ok : B → Prop) (p : prog S A) (f : A → prog S B) :
  marks h d (λ x, always ok (f x)) p → (∀ x, marks h d ok (f x)) →
  marks h d ok (p ≫= f).
Proof.
  intros Hp Hf. induction p as [r|X a k IH]; [apply Hf|].
  destruct Hp as [Ha Hk]. split.
  - intros σ. destruct (Ha σ) as [Hsame|(d' & -> & Hadd & Hal)]; [by left|].
    right. exists d'. split; [done|]. split; [done|].
    change (always ok (k (a σ).1 ≫= f)). by apply always_bind.
  - intros x. apply IH, Hk.
Qed.

(** An action that does not touch the set. *)
Lemma marks_quiet {A B} h d (ok : B → Prop) (a : State S A) (f : A → prog S B) :
  (∀ σ, h (a σ).2 = h σ) → (∀ x, marks h d ok (f x)) →
  marks h d ok (atomic a ≫= f).
Proof. intros Ha Hf. split; [intros σ; left; apply Ha|apply Hf]. Qed.

(** The action that adds the digest. *)
Lemma marks_add {A B} h d (ok : B → Prop) (a : State S A) (f : A → prog S B) :
  (∀ σ, h (a σ).2 = {[d]} ∪ h σ) → (∀ x, always ok (f x)) → (∀ x, marks h (Some d) ok (f x)) →
  marks h (Some d) ok (atomic a ≫= f).
Proof.
  intros Ha Hal Hf. split; [|apply Hf].
  intros σ. right. exists d. split; [done|]. split; [apply Ha|apply Hal].
Qed.

Lemma marks_guar {A} h d (ok : A → Prop) (p : prog S A) :
  marks h d ok p → guar (grows h) p.
Proof.
  induction p as [r|X a k IH]; [done|].
  intros [Ha Hk]. split; [|intros x; apply IH, Hk].
  intros σ. unfold grows. destruct (Ha σ) as [->|(d' & _ & -> & _)]; [done|].
  apply union_subseteq_r.
Qed.

Lemma marks_step {A} h d (ok : A → Prop) (p : prog S A) σ :
  marks h d ok p → marks h d ok (step p σ).1.
Proof.
  destruct p as [r|X a k]; [done|]. intros [_ Hk]. simpl.
  specialize (Hk (a σ).1). by destruct (a σ).
Qed.

(** Whatever the schedule, every digest in the set when the pool is done
    was put there by a task that returned a value accepted by [ok]. *)
Lemma run_pool_marks {A} h (ok : A → Prop) (ds : list (option string))
    max_workers schedule (tasks : list (prog S A)) σ :
  h σ = ∅ →
  Forall2 (λ d p, marks h d ok p) ds tasks →
  ∀ d, d ∈ h (run_pool max_workers schedule tasks σ).2 →
       ∃ i r, ds !! i = Some (Some d)
              ∧ (run_pool max_workers schedule tasks σ).1 !! i = Some r ∧ ok r.
Proof.
  intros Hempty Htasks.
  set (Inv := λ (progs : list (prog S A)) (σ : S),
         Forall2 (λ d p, marks h d ok p) ds progs
         ∧ ∀ d, d ∈ h σ → ∃ i p, ds !! i = Some (Some d) ∧ progs !! i = Some p
                                 ∧ always ok p).
  assert (Hfinal : Inv (map Ret (run_pool max_workers schedule tasks σ).1)
                       (run_pool max_workers schedule tasks σ).2).
  { apply run_pool_invariant.
    - clear. intros progs σ j p Hj [Hmarks Hin].
      destruct (Forall2_lookup_r _ _ _ _ _ Hmarks Hj) as (dj & Hdj & Hp).
      split.
      { rewrite <- (list_insert_id ds j dj) by done.
        apply Forall2_insert; [done|]. by apply marks_step. }
      assert (Hold : ∀ d, d ∈ h σ →
                ∃ i q, ds !! i = Some (Some d)
                       ∧ <[j := (step p σ).1]> progs !! i = Some q ∧ always ok q).
      { intros d Hd. destruct (Hin d Hd) as (i & q & Hi & Hq & Hal).
        destruct (decide (i = j)) as [->|Hne].
        - exists j, (step p σ).1. split; [done|].
          rewrite list_lookup_insert_eq by by eapply lookup_lt_Some.
          split; [done|]. rewrite Hj in Hq. injection Hq as <-.
          by apply always_step.
        - exists i, q. by rewrite list_lookup_insert_ne. }
      destruct p as [r|X a k]; [exact Hold|].
      destruct Hp as [Ha _]. simpl. intros d Hd.
      destruct (Ha σ) as [Hsame|(d' & -> & Hadd & Hal)].
      + simpl in Hold. destruct (a σ) as [x σ']. simpl in *.
        rewrite Hsame in Hd. by apply Hold.
      + simpl in Hold. destruct (a σ) as [x σ']. simpl in *.
        rewrite Hadd in Hd. apply elem_of_union in Hd as [Hd|Hd]; [|by apply Hold].
        apply elem_of_singleton in Hd as ->.
        exists j, (k x). split; [done|].
        rewrite list_lookup_insert_eq by by eapply lookup_lt_Some. done.
    - split; [done|]. intros d. rewrite Hempty. by intros ?%not_elem_of_empty. }
  destruct Hfinal as [_ Hfinal]. intros d Hd.
  destruct (Hfinal d Hd) as (i & p & Hi & Hp & Hal).
  rewrite list_lookup_fmap in Hp.
  destruct ((run_pool max_workers schedule tasks σ).1 !! i) as [r|] eqn:Hr; [|done].
  injection Hp as <-. by exists i, r.
Qed.

(** One relation relied on by every task of the pool. *)
Lemma run_pool_post_uniform {A} (R : S → S → Prop) `{!PreOrder R}
    (Qs : list (A → S → Prop)) max_workers schedule (tasks : list (prog S A)) σ :
  Forall2 (λ Q p, post R Q p σ) Qs tasks →
  Forall (guar R) tasks →
  Forall2 (λ Q r, Q r (run_pool max_workers schedule tasks σ).2) Qs
    (run_pool max_workers schedule tasks σ).1.
Proof.
  intros Hpost Hguar.
  pose proof (run_pool_post (λ _, R)
                (λ i r σ', ∀ Q, Qs !! i = Some Q → Q r σ')
                max_workers schedule tasks σ) as Hpool.
  apply Forall2_same_length_lookup_2.
  { rewrite length_run_pool. by eapply Forall2_length. }
  intros i Q r HQ Hr. eapply Hpool; [done| | |exact Hr|exact HQ].
  - intros j p Hp.
    destruct (Forall2_lookup_r _ _ _ _ _ Hpost Hp) as (Q' & HQ' & Hpost').
    eapply post_mono; [|exact Hpost']. cbn beta. intros x σ' Hx Q'' HQ''. congruence.
  - intros _ j p _ Hp. by eapply Forall_lookup_1.
Qed.

End Marks.

Lemma size_list_to_set_le (l : list string) :
  size (list_to_set l : gset string) ≤ length l.
Proof.
  induction l as [|x l IH]; [by rewrite list_to_set_nil, size_empty|].
  rewrite list_to_set_cons, size_union_alt, size_singleton. cbn [length].
  pose proof (subseteq_size (list_to_set l ∖ {[x]}) (list_to_set l : gset string)
                (subseteq_difference_l _ _ _ (reflexivity _))).
  lia.
Qed.

(** The number of accepted results lies between the number of distinct
    digests and the number of digests. *)
Lemma count_between_distinct_and_all (ds : list (option string)) (oks : list bool) :
  Forall2 (λ d ok, ok = true → is_Some d) ds oks →
  (∀ d, Some d ∈ ds → ∃ i, ds !! i = Some (Some d) ∧ oks !! i = Some true) →
  size (list_to_set (omap id ds) : gset string) ≤ length (List.filter id oks)
  ∧ length (List.filter id oks) ≤ length (omap id ds).
Proof.
  intros Hsome Hall. split.
  - set (won := omap id (zip_with (λ d (ok : bool), if ok then d else None) ds oks)).
    assert (Hsub : (list_to_set (omap id ds) : gset string) ⊆ list_to_set won).
    { intros d Hd. apply elem_of_list_to_set in Hd. apply elem_of_list_to_set.
      apply list_elem_of_omap in Hd as (od & Hod & Hd). simpl in Hd. subst od.
      destruct (Hall d Hod) as (i & Hi & Hok).
      apply list_elem_of_omap. exists (Some d). split; [|done].
      apply list_elem_of_lookup. exists i.
      by rewrite lookup_zip_with, Hi, Hok. }
    etrans; [apply subseteq_size, Hsub|].
    etrans; [apply size_list_to_set_le|].
    subst won. clear. revert oks.
    induction ds as [|d ds IH]; intros [|ok oks]; simpl; try lia.
    specialize (IH oks). unfold omap in *. destruct ok, d; simpl; lia.
  - clear Hall. induction Hsome as [|d ok ds oks Hd _ IH]; simpl; [lia|].
    unfold omap in *. destruct ok; simpl.
    + destruct (Hd eq_refl) as [d' ->]. simpl. lia.
    + destruct d; simpl; lia.
Qed.

(** ** The tasks of the graphical tool beside each other *)

Section TaskBeside.
Context `{Primitives}.

Lemma post_act {S A B} (R : S → S → Prop) (Q : B → S → Prop) (a : State S A)
    (f : A → prog S B) σ :
  (∀ σ', R σ σ' → post R Q (f (a σ').1) (a σ').2) → post R Q (atomic a ≫= f) σ.
Proof. intros Ha σ' HR. by apply Ha. Qed.

Ltac quiet_step x := apply marks_quiet; [done|intros x].

Lemma GUI_task_marks data frame_start output_root frame_idx stop_flag enable_md5
    enable_type_detect :
  marks NpkUnlock_GUI.extracted_hashes (frame_digest data (frame_idx, frame_start))
    (λ r, reports_success r = true)
    (NpkUnlock_GUI.extract_single_frame data frame_start output_root frame_idx
       stop_flag enable_md5 enable_type_detect).
Proof.
  unfold NpkUnlock_GUI.extract_single_frame, frame_digest. cbn [fst snd].
  quiet_step s. destruct s; [apply marks_ret|]. cbv zeta.
  quiet_step s. destruct s; [apply marks_ret|].
  destruct (zstd_decompress (drop frame_start data)) as [decompressed|e];
    [|apply marks_ret].
  quiet_step s. destruct s; [apply marks_ret|].
  destruct enable_md5.
  - quiet_step dup. destruct dup; [apply marks_ret|].
    quiet_step u. quiet_step s. destruct s; [apply marks_ret|].
    quiet_step u'. cbn [when_].
    apply marks_add; [done| |intros ?; apply marks_ret].
    intros ?. by apply always_ret.
  - cbn [mbind prog_mbind prog_bind mret prog_ret].
    quiet_step u. quiet_step s. destruct s; [apply marks_ret|].
    quiet_step u'. cbn [when_ mbind prog_mbind prog_bind mret prog_ret].
    apply marks_ret.
Qed.

Ltac always_step :=
  apply always_bind, always_atomic; intros ?;
  cbn [NpkUnlock_GUI.read_stop gets modify fst snd].

(** What a task returns when nobody asks to stop, whatever the other tasks
    do in between. *)
Lemma GUI_task_processed data frame_start output_root frame_idx stop_flag enable_md5
    enable_type_detect :
  (∀ k, stop_flag k = false) →
  always (frame_processed data output_root enable_md5 enable_type_detect
            (frame_idx, frame_start))
    (NpkUnlock_GUI.extract_single_frame data frame_start output_root frame_idx
       stop_flag enable_md5 enable_type_detect).
Proof.
  intros Hstop.
  unfold NpkUnlock_GUI.extract_single_frame, frame_processed, frame_result.
  cbn [fst snd].
  always_step. rewrite Hstop. cbv zeta. always_step. rewrite Hstop.
  destruct (zstd_decompress (drop frame_start data)) as [decompressed|e];
    [|apply always_ret; by left].
  always_step. rewrite Hstop.
  destruct enable_md5.
  - always_step. case_bool_decide.
    { apply always_ret. right. split; [done|]. by exists decompressed. }
    always_step. always_step. rewrite Hstop.
    always_step. cbn [when_]. always_step. apply always_ret. by left.
  - cbn [mbind prog_mbind prog_bind mret prog_ret].
    always_step. always_step. rewrite Hstop.
    always_step. cbn [when_ mbind prog_mbind prog_bind mret prog_ret].
    apply always_ret. by left.
Qed.

(** With the index switched on, the digest of a frame that decompresses is
    in the index once its task is done, and stays there. *)
Lemma GUI_task_post data frame_start output_root frame_idx stop_flag
    enable_type_detect σ :
  (∀ k, stop_flag k = false) →
  post (grows NpkUnlock_GUI.extracted_hashes)
    (λ _ σ', ∀ d, frame_digest data (frame_idx, frame_start) = Some d →
                  d ∈ NpkUnlock_GUI.extracted_hashes σ')
    (NpkUnlock_GUI.extract_single_frame data frame_start output_root frame_idx
       stop_flag true enable_type_detect) σ.
Proof.
  intros Hstop.
  unfold NpkUnlock_GUI.extract_single_frame, frame_digest. cbn [fst snd].
  apply post_act. intros σ1 _. cbn [NpkUnlock_GUI.read_stop fst snd]. rewrite Hstop.
  cbv zeta.
  apply post_act. intros σ2 _. cbn [NpkUnlock_GUI.read_stop fst snd]. rewrite Hstop.
  destruct (zstd_decompress (drop frame_start data)) as [decompressed|e];
    [|by apply post_ret].
  apply post_act. intros σ3 _. cbn [NpkUnlock_GUI.read_stop fst snd]. rewrite Hstop.
  apply post_act. intros σ4 _. cbn [gets fst snd].
  case_bool_decide as Hdup.
  { apply post_ret. intros σ' HR d [= <-]. by apply HR. }
  apply post_act. intros σ5 _. cbn [modify fst snd].
  apply post_act. intros σ6 _. cbn [NpkUnlock_GUI.read_stop fst snd]. rewrite Hstop.
  apply post_act. intros σ7 _. cbn [modify fst snd when_].
  apply post_act. intros σ8 _. cbn [modify fst snd].
  apply post_ret. intros σ' HR d [= <-]. apply HR.
  cbn. apply elem_of_union. left. by apply elem_of_singleton.
Qed.

End TaskBeside.

(** ** Every frame is processed *)

Section EveryFrame.
Context `{Primitives}.

Lemma payload_digests_frame_digest data frames :
  payload_digests data frames = omap (frame_digest data) frames.
Proof. reflexivity. Qed.

Lemma omap_id_fmap {A B} (f : A → option B) (l : list A) :
  omap id (map f l) = omap f l.
Proof. induction l as [|x l IH]; [done|]. cbn. rewrite <- IH. by destruct (f x). Qed.

Lemma frame_result_success data output_root enable_type_detect frame d :
  frame_digest data frame = Some d →
  reports_success (frame_result data output_root enable_type_detect frame.1 frame.2)
  = true.
Proof.
  unfold frame_digest, frame_result.
  by destruct (zstd_decompress (drop frame.2 data)).
Qed.

(** Without the index the frame itself is extracted. *)
Lemma every_content_extracted_plain data output_root enable_type_detect frames results :
  Forall2 (frame_processed data output_root false enable_type_detect) frames results →
  every_content_extracted data frames reports_success results.
Proof.
  intros Hall d Hd.
  apply list_elem_of_fmap in Hd as (frame & Hdig & Hin).
  apply list_elem_of_lookup in Hin as [i Hi].
  destruct (Forall2_lookup_l _ _ _ _ _ Hall Hi) as (r & Hr & [->|[? _]]); [|done].
  exists i, frame, (frame_result data output_root enable_type_detect frame.1 frame.2).
  split; [done|]. split; [done|]. split; [done|].
  by eapply frame_result_success.
Qed.

Lemma GUI_pool_processed data output_root stop_flag enable_md5 enable_type_detect
    max_workers schedule frames σ :
  (∀ k, stop_flag k = false) →
  (enable_md5 = true → NpkUnlock_GUI.extracted_hashes σ = ∅) →
  let tasks := map (λ '(i, frame_start),
                      NpkUnlock_GUI.extract_single_frame data frame_start output_root
                        i stop_flag enable_md5 enable_type_detect) frames in
  let done := run_pool max_workers schedule tasks σ in
  Forall2 (frame_processed data output_root enable_md5 enable_type_detect) frames done.1
  ∧ every_content_extracted data frames reports_success done.1
  ∧ (enable_md5 = true →
     NpkUnlock_GUI.extracted_hashes done.2 = list_to_set (payload_digests data frames)).
Proof.
  intros Hstop Hempty tasks done.
  assert (Hall : Forall2 (frame_processed data output_root enable_md5 enable_type_detect)
                   frames done.1).
  { pose proof (always_run_pool
                  (map (frame_processed data output_root enable_md5 enable_type_detect)
                     frames)
                  max_workers schedule tasks σ) as Hpool.
    apply Forall2_fmap_l in Hpool; [exact Hpool|].
    apply Forall2_fmap. apply Forall_Forall2_diag, Forall_forall.
    intros [i frame_start] _. by apply GUI_task_processed. }
  split; [exact Hall|].
  destruct enable_md5.
  2:{ split; [|done]. by eapply every_content_extracted_plain. }
  specialize (Hempty eq_refl).
  assert (Hmarks : ∀ d, d ∈ NpkUnlock_GUI.extracted_hashes done.2 →
            ∃ i r, map (frame_digest data) frames !! i = Some (Some d)
                   ∧ done.1 !! i = Some r ∧ reports_success r = true).
  { apply (run_pool_marks NpkUnlock_GUI.extracted_hashes
             (λ r, reports_success r = true)); [done|].
    apply Forall2_fmap. apply Forall_Forall2_diag, Forall_forall.
    intros [i frame_start] _. apply GUI_task_marks. }
  assert (Hpost : Forall2 (λ frame (_ : bool * string * option NpkUnlock_GUI.info),
                     ∀ d, frame_digest data frame = Some d →
                          d ∈ NpkUnlock_GUI.extracted_hashes done.2)
                    frames done.1).
  { pose proof (run_pool_post_uniform (grows NpkUnlock_GUI.extracted_hashes)
                  (map (λ frame (_ : bool * string * option NpkUnlock_GUI.info) σ',
                          ∀ d, frame_digest data frame = Some d →
                               d ∈ NpkUnlock_GUI.extracted_hashes σ') frames)
                  max_workers schedule tasks σ) as Hpool.
    apply Forall2_fmap_l in Hpool; [exact Hpool| |].
    - apply Forall2_fmap. apply Forall_Forall2_diag, Forall_forall.
      intros [i frame_start] _. by apply GUI_task_post.
    - apply Forall_fmap, Forall_forall. intros [i frame_start] _.
      eapply marks_guar, GUI_task_marks. }
  assert (Hin : ∀ d, Some d ∈ map (frame_digest data) frames →
            d ∈ NpkUnlock_GUI.extracted_hashes done.2).
  { intros d Hd. apply list_elem_of_fmap in Hd as (frame & Hdig & Hf).
    apply list_elem_of_lookup in Hf as [i Hi].
    destruct (Forall2_lookup_l _ _ _ _ _ Hpost Hi) as (r & _ & Hr). by apply Hr. }
  split.
  - intros d Hd. destruct (Hmarks d (Hin d Hd)) as (i & r & Hi & Hr & Hok).
    rewrite list_lookup_fmap in Hi.
    destruct (frames !! i) as [frame|] eqn:Hframe; [|done].
    injection Hi as Hi. by exists i, frame, r.
  - intros _. apply set_eq. intros d.
    rewrite elem_of_list_to_set, payload_digests_frame_digest, <- omap_id_fmap.
    rewrite list_elem_of_omap. split.
    + intros Hd. destruct (Hmarks d Hd) as (i & r & Hi & _).
      exists (Some d). split; [|done]. by eapply list_elem_of_lookup_2.
    + intros (od & Hod & Hd). simpl in Hd. subst od. by apply Hin.
Qed.

End EveryFrame.

Section EveryFrameRun.
Context `{Primitives}.

Lemma extract_log_app out1 out2 :
  NpkUnlock_GUI.extract_log (out1 ++ out2)
  = NpkUnlock_GUI.extract_log out1 ++ NpkUnlock_GUI.extract_log out2.
Proof. apply omap_app. Qed.

Lemma extract_log_account r position total acc :
  NpkUnlock_GUI.extract_log (NpkUnlock_GUI.account r position total acc).2
  = NpkUnlock_GUI.extract_log acc.2 ++ [r.1.2].
Proof.
  destruct r as [[ok msg] inf], acc as [c out].
  destruct ok, inf as [i|]; cbn [NpkUnlock_GUI.account fst snd];
    rewrite !extract_log_app; cbn; by rewrite ?app_nil_r.
Qed.

Lemma GUI_collect_loop_log stop_flag total results acc σ :
  (∀ k, stop_flag k = false) →
  wp (NpkUnlock_GUI.collect_loop stop_flag total results acc)
     (λ acc' _,
        NpkUnlock_GUI.extract_log acc'.2
        = NpkUnlock_GUI.extract_log acc.2 ++ map (λ r, r.2.1.2) results
        ∧ NpkUnlock_GUI.artifacts acc'.2
          = NpkUnlock_GUI.artifacts acc.2 ++ concat (map (λ r, announced r.2) results)) σ.
Proof.
  intros Hstop.
  revert acc σ. induction results as [|[idx r] results IH]; intros acc σ.
  - apply wp_ret. cbn. by rewrite !app_nil_r.
  - cbn [NpkUnlock_GUI.collect_loop]. wp_atomic_step.
    cbn [NpkUnlock_GUI.read_stop fst snd]. rewrite Hstop.
    eapply wp_mono; [|apply IH].
    cbn beta. intros acc' _ [Hlog Hart].
    rewrite extract_log_account in Hlog. rewrite artifacts_account in Hart.
    rewrite Hlog, Hart, <- !app_assoc. done.
Qed.

(** The task of a frame run alone when nobody asks to stop. *)
Lemma GUI_task_alone data frame_start output_root frame_idx stop_flag enable_md5
    enable_type_detect σ :
  (∀ k, stop_flag k = false) →
  let r := exec (NpkUnlock_GUI.extract_single_frame data frame_start output_root
                   frame_idx stop_flag enable_md5 enable_type_detect) σ in
  frame_processed data output_root enable_md5 enable_type_detect
    (frame_idx, frame_start) r.1
  ∧ (∀ d, frame_digest data (frame_idx, frame_start) = Some d →
          reports_success r.1 = true
          ∨ (enable_md5 = true ∧ d ∈ NpkUnlock_GUI.extracted_hashes σ))
  ∧ (∀ d, d ∈ NpkUnlock_GUI.extracted_hashes r.2 →
          d ∈ NpkUnlock_GUI.extracted_hashes σ
          ∨ (reports_success r.1 = true
             ∧ frame_digest data (frame_idx, frame_start) = Some d)).
Proof.
  intros Hstop. cbv zeta. rewrite GUI_task_exec.
  unfold task_outcome, frame_processed, frame_result, frame_digest. cbv zeta.
  rewrite !Hstop. cbn [fst snd].
  destruct (zstd_decompress (drop frame_start data)) as [decompressed|e] eqn:Hz.
  - destruct enable_md5; cbn [andb].
    + case_bool_decide as Hdup; cbn [fst snd].
      * split; [right; split; [done|]; by exists decompressed|].
        split; [intros d [= <-]; by right|]. intros d Hd. by left.
      * split; [by left|]. split; [intros d _; by left|].
        intros d Hd. cbn in Hd.
        apply elem_of_union in Hd as [->%elem_of_singleton|Hd]; [by right|by left].
    + cbn [fst snd]. split; [by left|]. split; [intros d _; by left|].
      intros d Hd. by left.
  - cbn [fst snd]. split; [by left|]. split; [done|]. intros d Hd. by left.
Qed.

Lemma GUI_serial_loop_processed data output_root stop_flag enable_md5 enable_type_detect
    total frames acc σ :
  (∀ k, stop_flag k = false) →
  wp (NpkUnlock_GUI.serial_loop data output_root stop_flag enable_md5
        enable_type_detect total frames acc)
     (λ acc' σ',
        ∃ results,
          Forall2 (frame_processed data output_root enable_md5 enable_type_detect)
            frames results
          ∧ NpkUnlock_GUI.extract_log acc'.2
            = NpkUnlock_GUI.extract_log acc.2 ++ map (λ r, r.1.2) results
          ∧ NpkUnlock_GUI.artifacts acc'.2
            = NpkUnlock_GUI.artifacts acc.2 ++ concat (map announced results)
          ∧ ∀ d, Some d ∈ map (frame_digest data) frames →
                 (enable_md5 = true ∧ d ∈ NpkUnlock_GUI.extracted_hashes σ)
                 ∨ ∃ i frame r, frames !! i = Some frame
                                ∧ frame_digest data frame = Some d
                                ∧ results !! i = Some r
                                ∧ reports_success r = true) σ.
Proof.
  intros Hstop.
  revert acc σ. induction frames as [|[i frame_start] frames IH]; intros acc σ.
  - apply wp_ret. exists []. cbn. rewrite !app_nil_r.
    split; [constructor|]. split; [done|]. split; [done|].
    intros d Hd. by apply elem_of_nil in Hd.
  - cbn [NpkUnlock_GUI.serial_loop]. wp_atomic_step.
    cbn [NpkUnlock_GUI.read_stop fst snd]. rewrite Hstop.
    match goal with |- wp _ _ ?σ0 => set (σ1 := σ0) end.
    apply wp_bind. unfold wp at 1.
    destruct (GUI_task_alone data frame_start output_root i stop_flag enable_md5
                enable_type_detect σ1 Hstop) as (Hr & Hnew & Hold). cbv zeta in *.
    destruct (exec (NpkUnlock_GUI.extract_single_frame data frame_start output_root i
                      stop_flag enable_md5 enable_type_detect) σ1) as [r σ2].
    cbn [fst snd] in *.
    eapply wp_mono; [|apply IH].
    cbn beta. intros acc' σ' (results & Hall & Hlog & Hart & Hout).
    exists (r :: results). split; [by constructor|].
    rewrite extract_log_account in Hlog. rewrite artifacts_account in Hart.
    split; [by rewrite Hlog, <- app_assoc|]. split; [by rewrite Hart, <- app_assoc|].
    intros d Hd. cbn [map] in Hd. apply elem_of_cons in Hd as [Hd|Hd].
    + destruct (Hnew d (eq_sym Hd)) as [Hok|[Hmd5 Hin]]; [|by left].
      right. by exists 0, (i, frame_start), r.
    + destruct (Hout d Hd) as [[Hmd5 Hin]|(j & frame & r' & Hj & Hdig & Hr' & Hok)].
      * destruct (Hold d Hin) as [Hin'|[Hok Hdig]]; [by left|].
        right. by exists 0, (i, frame_start), r.
      * right. by exists (S j), frame, r'.
Qed.

(** A run that nobody stops processes every frame, in every mode and
    under every schedule: the log of tasks has one entry per frame, in
    frame order, each the result of that frame; the artifacts are those of
    the results; and every content that some frame holds is extracted. *)
Lemma GUI_run_processed input_file data output_root fast_mode max_threads enable_md5
    enable_type_detect stop_flag schedule σ :
  (∀ k, stop_flag k = false) →
  fast_mode = false ∨ 0 < max_threads →
  ∃ p,
    NpkUnlock_GUI.run input_file (Some data) output_root fast_mode max_threads
      enable_md5 enable_type_detect stop_flag schedule = Some p
    ∧ ∃ results,
        Forall2 (frame_processed data output_root enable_md5 enable_type_detect)
          (enumerate (Spec.signature_offsets data)) results
        ∧ every_content_extracted data (enumerate (Spec.signature_offsets data))
            reports_success results
        ∧ NpkUnlock_GUI.extract_log (exec p σ).1 = map (λ r, r.1.2) results
        ∧ NpkUnlock_GUI.artifacts (exec p σ).1 = concat (map announced results).
Proof.
  intros Hstop Hpool. unfold NpkUnlock_GUI.run.
  rewrite GUI_scan_zstd_frames_spec. cbn [mbind option_bind].
  eexists. split; [reflexivity|].
  set (frame_positions := Spec.signature_offsets data).
  match goal with |- ∃ results, _ ∧ _ ∧ _ (exec ?p σ).1 = _ ∧ _ =>
    change (wp p (λ out _,
              ∃ results,
                Forall2 (frame_processed data output_root enable_md5 enable_type_detect)
                  (enumerate frame_positions) results
                ∧ every_content_extracted data (enumerate frame_positions)
                    reports_success results
                ∧ NpkUnlock_GUI.extract_log out = map (λ r, r.1.2) results
                ∧ NpkUnlock_GUI.artifacts out = concat (map announced results)) σ)
  end.
  wp_atomic_step. cbv zeta. wp_atomic_step.
  cbn [NpkUnlock_GUI.read_stop fst snd]. rewrite Hstop.
  destruct (Nat.eqb_spec (length frame_positions) 0) as [Hz|Hz].
  { apply wp_ret. apply nil_length_inv in Hz. rewrite Hz. exists [].
    split; [constructor|]. split; [|done]. intros d Hd. by apply elem_of_nil in Hd. }
  wp_atomic_step. cbn [modify fst snd].
  match goal with |- wp _ _ ?σ' => set (σ2 := σ') end.
  assert (Hempty : NpkUnlock_GUI.extracted_hashes σ2 = ∅) by done.
  clearbody σ2.
  destruct fast_mode.
  - destruct Hpool as [|Hpool]; [done|].
    destruct (Nat.eqb_spec max_threads 0) as [|_]; [lia|].
    apply wp_bind. unfold wp at 1. rewrite GUI_submit_loop_exec by done.
    cbn [fst snd app]. wp_atomic_step.
    match goal with |- context [run_pool _ _ _ ?σ'] => set (σ3 := σ') end.
    destruct (GUI_pool_processed data output_root stop_flag enable_md5
                enable_type_detect max_threads schedule (enumerate frame_positions)
                σ3 Hstop (λ _, Hempty)) as (Hall & Hevery & _). cbv zeta in Hall, Hevery.
    destruct (run_pool max_threads schedule _ σ3) as [results σ4]. cbn [fst snd] in *.
    apply wp_bind. eapply wp_mono; [|by apply GUI_collect_loop_log].
    cbn beta. intros acc σ5 [Hlog Hart]. unfold wp.
    exists results. split; [done|]. split; [done|].
    destruct (GUI_finish_artifacts stop_flag acc σ5) as [-> _].
    rewrite Hart, concat_announced_enumerate. split; [|done].
    unfold NpkUnlock_GUI.finish. destruct acc as [c out].
    rewrite exec_bind, exec_atomic.
    cbn [NpkUnlock_GUI.read_stop fst snd exec mret prog_ret]. rewrite Hstop.
    rewrite extract_log_app. cbn [snd] in Hlog. rewrite Hlog. cbn.
    rewrite app_nil_r. rewrite <- (snd_enumerate results) at 2.
    by rewrite <- list_fmap_compose.
  - apply wp_bind. eapply wp_mono; [|by apply GUI_serial_loop_processed].
    cbn beta. intros acc σ3 (results & Hall & Hlog & Hart & Hout). unfold wp.
    exists results. split; [done|]. split.
    { intros d Hd. destruct (Hout d Hd) as [[_ Hin]|Hex]; [|done].
      rewrite Hempty in Hin. by apply not_elem_of_empty in Hin. }
    destruct (GUI_finish_artifacts stop_flag acc σ3) as [-> _].
    split; [|by rewrite Hart].
    unfold NpkUnlock_GUI.finish. destruct acc as [c out].
    rewrite exec_bind, exec_atomic.
    cbn [NpkUnlock_GUI.read_stop fst snd exec mret prog_ret]. rewrite Hstop.
    rewrite extract_log_app. cbn [snd] in Hlog. rewrite Hlog. cbn.
    by rewrite app_nil_r.
Qed.

End EveryFrameRun.

(** ** The tasks of the command-line tool beside each other *)

#[global] Instance cli_grows_preorder : PreOrder cli_grows.
Proof.
  split.
  - intros σ. by split.
  - intros σ1 σ2 σ3 [Hh Hs] [Hh' Hs']. split; [by etrans|]. intros line Hl. auto.
Qed.

Section CliBeside.
Context `{Primitives}.

Ltac quiet_step x := apply marks_quiet; [done|intros x].

Lemma CLI_task_marks data output_folder total frame_idx frame_start :
  marks NpkUnlocker.extracted_hashes (frame_digest data (frame_idx, frame_start))
    (λ r, r = true)
    (NpkUnlocker.thread_task data output_folder total frame_idx frame_start).
Proof.
  unfold NpkUnlocker.thread_task, NpkUnlocker.extract_single_frame, frame_digest,
    NpkUnlocker.print_noend, NpkUnlocker.print.
  cbn [fst snd]. quiet_step u.
  destruct (zstd_decompress (drop frame_start data)) as [decompressed|e].
  - cbv zeta. quiet_step dup. destruct dup.
    { quiet_step u1. apply marks_ret. }
    quiet_step u1. quiet_step u2.
    apply marks_add; [done| |].
    + intros ?. apply always_bind, always_atomic. intros ?. by apply always_ret.
    + intros ?. quiet_step u3. apply marks_ret.
  - quiet_step u1. apply marks_ret.
Qed.

Lemma CLI_task_guar data output_folder total frame_idx frame_start :
  guar cli_grows (NpkUnlocker.thread_task data output_folder total frame_idx frame_start).
Proof.
  assert (Hprint : ∀ s, guar cli_grows (NpkUnlocker.print s)).
  { intros s. apply guar_atomic. intros σ. split; [done|].
    intros line Hl. cbn. apply elem_of_app. by left. }
  unfold NpkUnlocker.thread_task, NpkUnlocker.extract_single_frame.
  apply guar_bind.
  { apply guar_atomic. intros σ. split; [done|].
    intros line Hl. cbn. apply elem_of_app. by left. }
  intros _. destruct (zstd_decompress (drop frame_start data)) as [decompressed|e].
  - cbv zeta. apply guar_bind; [by apply guar_atomic|]. intros [|].
    { apply guar_bind; [apply Hprint|]. intros _. apply guar_ret. }
    apply guar_bind; [by apply guar_atomic|]. intros _.
    apply guar_bind; [by apply guar_atomic|]. intros _.
    apply guar_bind.
    { apply guar_atomic. intros σ. split; [|done]. cbn. apply union_subseteq_r. }
    intros _. apply guar_bind; [apply Hprint|]. intros _. apply guar_ret.
  - apply guar_bind; [apply Hprint|]. intros _. apply guar_ret.
Qed.

Lemma CLI_task_always data output_folder total frame_idx frame_start :
  always (λ r, r = true → is_Some (frame_digest data (frame_idx, frame_start)))
    (NpkUnlocker.thread_task data output_folder total frame_idx frame_start).
Proof.
  unfold NpkUnlocker.thread_task, NpkUnlocker.extract_single_frame, frame_digest,
    NpkUnlocker.print_noend, NpkUnlocker.print.
  cbn [fst snd]. apply always_bind, always_atomic. intros σ0.
  destruct (zstd_decompress (drop frame_start data)) as [decompressed|e].
  - apply (always_mono (λ _, True)); [intros r _ _; by eexists|].
    cbv zeta. apply always_bind, always_atomic. intros σ1. cbn [gets fst].
    case_bool_decide.
    { apply always_bind, always_atomic. intros ?. by apply always_ret. }
    do 4 (apply always_bind, always_atomic; intros ?). by apply always_ret.
  - apply always_bind, always_atomic. intros ?. by apply always_ret.
Qed.

Lemma CLI_task_post data output_folder total frame_idx frame_start σ :
  post cli_grows
    (λ _ σ', (∀ d, frame_digest data (frame_idx, frame_start) = Some d →
                   d ∈ NpkUnlocker.extracted_hashes σ')
             ∧ cli_reported data total (frame_idx, frame_start) (NpkUnlocker.stdout σ'))
    (NpkUnlocker.thread_task data output_folder total frame_idx frame_start) σ.
Proof.
  unfold NpkUnlocker.thread_task, NpkUnlocker.extract_single_frame, frame_digest,
    cli_reported, NpkUnlocker.print_noend, NpkUnlocker.print.
  cbn [fst snd].
  apply post_act. intros σ1 _. cbn [modify fst snd].
  match goal with |- post _ _ _ ?σ0 => set (σ2 := σ0) end.
  assert (Hline : NpkUnlocker.processing_line frame_idx total frame_start
                  ∈ NpkUnlocker.stdout σ2).
  { cbn. apply elem_of_app. right. left. }
  clearbody σ2.
  destruct (zstd_decompress (drop frame_start data)) as [decompressed|e].
  - cbv zeta. apply post_act. intros σ3 HR3. cbn [gets fst snd].
    case_bool_decide as Hdup.
    { apply post_act. intros σ4 HR4. cbn [modify fst snd]. apply post_ret.
      intros σ' HR. split; [|split; [|done]].
      - intros d [= <-]. apply HR. cbn. by apply HR4.
      - apply HR. cbn. apply elem_of_app. left. by apply HR4, HR3. }
    apply post_act. intros σ4 HR4. cbn [modify fst snd].
    apply post_act. intros σ5 HR5. cbn [modify fst snd].
    apply post_act. intros σ6 HR6. cbn [modify fst snd].
    apply post_act. intros σ7 HR7. cbn [modify fst snd]. apply post_ret.
    intros σ' HR. split; [|split; [|done]].
    + intros d [= <-]. apply HR. cbn. apply HR7. cbn.
      apply elem_of_union. left. by apply elem_of_singleton.
    + apply HR. cbn. apply elem_of_app. left. apply HR7. cbn.
      apply HR6. cbn. apply HR5. cbn. by apply HR4, HR3.
  - apply post_act. intros σ3 HR3. cbn [modify fst snd]. apply post_ret.
    intros σ' HR. split; [done|]. split.
    + apply HR. cbn. apply elem_of_app. left. by apply HR3.
    + intros e' [= <-]. apply HR. cbn. apply elem_of_app. right. left.
Qed.

Lemma NpkUnlocker_collect_count results c :
  NpkUnlocker.collect results c = c + length (List.filter id results).
Proof.
  revert c. induction results as [|r results IH]; intros c; simpl; [lia|].
  rewrite IH. destruct r; simpl; lia.
Qed.

(** The pool of the command-line tool, whatever the schedule. *)
Lemma CLI_pool_processed data output_folder total max_workers schedule frames σ :
  NpkUnlocker.extracted_hashes σ = ∅ →
  let tasks := map (λ '(i, frame_start),
                      NpkUnlocker.thread_task data output_folder total i frame_start)
                 frames in
  let done := run_pool max_workers schedule tasks σ in
  size (list_to_set (payload_digests data frames) : gset string)
  ≤ NpkUnlocker.collect done.1 0
  ∧ NpkUnlocker.collect done.1 0 ≤ length (payload_digests data frames)
  ∧ NpkUnlocker.extracted_hashes done.2 = list_to_set (payload_digests data frames)
  ∧ (∀ line, line ∈ NpkUnlocker.stdout σ → line ∈ NpkUnlocker.stdout done.2)
  ∧ ∀ frame, frame ∈ frames → cli_reported data total frame (NpkUnlocker.stdout done.2).
Proof.
  intros Hempty tasks done.
  assert (Hall : Forall2 (λ frame r, r = true → is_Some (frame_digest data frame))
                   frames done.1).
  { pose proof (always_run_pool
                  (map (λ frame r, r = true → is_Some (frame_digest data frame)) frames)
                  max_workers schedule tasks σ) as Hpool.
    apply Forall2_fmap_l in Hpool; [exact Hpool|].
    apply Forall2_fmap. apply Forall_Forall2_diag, Forall_forall.
    intros [i frame_start] _. apply CLI_task_always. }
  assert (Hmarks : ∀ d, d ∈ NpkUnlocker.extracted_hashes done.2 →
            ∃ i r, map (frame_digest data) frames !! i = Some (Some d)
                   ∧ done.1 !! i = Some r ∧ r = true).
  { apply (run_pool_marks NpkUnlocker.extracted_hashes (λ r, r = true)); [done|].
    apply Forall2_fmap. apply Forall_Forall2_diag, Forall_forall.
    intros [i frame_start] _. apply CLI_task_marks. }
  assert (Hguar : Forall (guar cli_grows) tasks).
  { apply Forall_fmap, Forall_forall. intros [i frame_start] _. apply CLI_task_guar. }
  assert (Hpost : Forall2 (λ frame (_ : bool),
                     (∀ d, frame_digest data frame = Some d →
                           d ∈ NpkUnlocker.extracted_hashes done.2)
                     ∧ cli_reported data total frame (NpkUnlocker.stdout done.2))
                    frames done.1).
  { pose proof (run_pool_post_uniform cli_grows
                  (map (λ frame (_ : bool) σ',
                          (∀ d, frame_digest data frame = Some d →
                                d ∈ NpkUnlocker.extracted_hashes σ')
                          ∧ cli_reported data total frame (NpkUnlocker.stdout σ')) frames)
                  max_workers schedule tasks σ) as Hpool.
    apply Forall2_fmap_l in Hpool; [exact Hpool| |done].
    apply Forall2_fmap. apply Forall_Forall2_diag, Forall_forall.
    intros [i frame_start] _. apply CLI_task_post. }
  assert (Hin : ∀ d, Some d ∈ map (frame_digest data) frames →
            d ∈ NpkUnlocker.extracted_hashes done.2).
  { intros d Hd. apply list_elem_of_fmap in Hd as (frame & Hdig & Hf).
    apply list_elem_of_lookup in Hf as [i Hi].
    destruct (Forall2_lookup_l _ _ _ _ _ Hpost Hi) as (r & _ & Hr & _). by apply Hr. }
  destruct (count_between_distinct_and_all (map (frame_digest data) frames) done.1)
    as [Hlow Hhigh].
  { by apply Forall2_fmap_l. }
  { intros d Hd. destruct (Hmarks d (Hin d Hd)) as (i & r & Hi & Hr & ->). by exists i. }
  rewrite omap_id_fmap in Hlow, Hhigh. rewrite NpkUnlocker_collect_count.
  rewrite payload_digests_frame_digest.
  split; [exact Hlow|]. split; [exact Hhigh|]. split; [|split].
  - apply set_eq. intros d.
    rewrite elem_of_list_to_set, <- omap_id_fmap, list_elem_of_omap. split.
    + intros Hd. destruct (Hmarks d Hd) as (i & r & Hi & _).
      exists (Some d). split; [|done]. by eapply list_elem_of_lookup_2.
    + intros (od & Hod & Hd). simpl in Hd. subst od. by apply Hin.
  - by apply (run_pool_guar cli_grows max_workers schedule tasks σ).
  - intros frame Hf. apply list_elem_of_lookup in Hf as [i Hi].
    destruct (Forall2_lookup_l _ _ _ _ _ Hpost Hi) as (r & _ & _ & Hr). exact Hr.
Qed.

End CliBeside.

Section CliRun.
Context `{Primitives}.

Lemma NpkUnlocker_serial_loop_guar data output_folder total frames c :
  guar cli_grows (NpkUnlocker.serial_loop data output_folder total frames c).
Proof.
  revert c. induction frames as [|[i frame_start] frames IH]; intros c; [apply guar_ret|].
  cbn [NpkUnlocker.serial_loop].
  change (guar cli_grows
            (NpkUnlocker.thread_task data output_folder total i frame_start
             ≫= λ result,
               NpkUnlocker.serial_loop data output_folder total frames
                 (if result : bool then c + 1 else c))).
  apply guar_bind; [apply CLI_task_guar|]. intros r. apply IH.
Qed.

Lemma NpkUnlocker_serial_loop_reported data output_folder total frames c σ :
  wp (NpkUnlocker.serial_loop data output_folder total frames c)
     (λ _ σ', ∀ frame, frame ∈ frames →
                       cli_reported data total frame (NpkUnlocker.stdout σ')) σ.
Proof.
  revert c σ. induction frames as [|[i frame_start] frames IH]; intros c σ.
  - apply wp_ret. intros frame Hf. by apply elem_of_nil in Hf.
  - cbn [NpkUnlocker.serial_loop].
    change (wp (NpkUnlocker.thread_task data output_folder total i frame_start
                ≫= λ result,
                  NpkUnlocker.serial_loop data output_folder total frames
                    (if result : bool then c + 1 else c))
              (λ _ σ', ∀ frame, frame ∈ (i, frame_start) :: frames →
                                cli_reported data total frame (NpkUnlocker.stdout σ')) σ).
    apply wp_bind. unfold wp at 1.
    pose proof (post_exec cli_grows _ _ σ
                  (CLI_task_post data output_folder total i frame_start σ))
      as [_ Hhead].
    destruct (exec (NpkUnlocker.thread_task data output_folder total i frame_start) σ)
      as [r σ1]. cbn [fst snd] in *.
    pose proof (guar_exec cli_grows _ σ1
                  (NpkUnlocker_serial_loop_guar data output_folder total frames
                     (if r then c + 1 else c))) as [_ Hkeep].
    pose proof (IH (if r then c + 1 else c) σ1) as Htail. unfold wp in *.
    intros frame Hf. apply elem_of_cons in Hf as [->|Hf]; [|by apply Htail].
    destruct Hhead as [Hline Hfail]. split; [by apply Hkeep|].
    intros e He. by apply Hkeep, Hfail.
Qed.

(** Every frame of a container is processed by the command-line tool, in
    the serial branch and in the pool under every schedule. *)
Lemma CLI_run_processed fast_mode max_threads schedule pkg_file_path data
    output_folder σ :
  fast_mode = false ∨ 0 < max_threads →
  ∃ p n,
    NpkUnlocker.extract_zstd_container_with fast_mode max_threads schedule
      pkg_file_path data output_folder = Some p
    ∧ (exec p σ).1 = NpkUnlocker.Returned n
    ∧ size (list_to_set (payload_digests data (enumerate (Spec.signature_offsets data)))
            : gset string) ≤ n
    ∧ n ≤ length (payload_digests data (enumerate (Spec.signature_offsets data)))
    ∧ NpkUnlocker.extracted_hashes (exec p σ).2
      = list_to_set (payload_digests data (enumerate (Spec.signature_offsets data)))
    ∧ ∀ frame, frame ∈ enumerate (Spec.signature_offsets data) →
               cli_reported data (length (Spec.signature_offsets data)) frame
                 (NpkUnlocker.stdout (exec p σ).2).
Proof.
  intros Hpool. unfold NpkUnlocker.extract_zstd_container_with.
  rewrite NpkUnlocker_scan_frames_spec. cbn [mbind option_bind].
  set (frame_positions := Spec.signature_offsets data).
  set (frames := enumerate frame_positions).
  set (D := list_to_set (payload_digests data frames) : gset string).
  match goal with |- ∃ p n, Some ?q = Some p ∧ _ =>
    cut (wp q (λ o σ', ∃ n, o = NpkUnlocker.Returned n
                            ∧ size D ≤ n ∧ n ≤ length (payload_digests data frames)
                            ∧ NpkUnlocker.extracted_hashes σ' = D
                            ∧ ∀ frame, frame ∈ frames →
                                cli_reported data (length frame_positions) frame
                                  (NpkUnlocker.stdout σ')) σ);
    [intros (n & Hn & Hrest); by exists q, n|]
  end.
  unfold NpkUnlocker.print.
  do 10 wp_atomic_step. cbn [modify fst snd].
  match goal with |- wp _ _ ?σ' => set (σ1 := σ') end.
  assert (Hempty : NpkUnlocker.extracted_hashes σ1 = ∅) by done.
  clearbody σ1.
  assert (Hend : ∀ n σ2,
            size D ≤ n → n ≤ length (payload_digests data frames) →
            NpkUnlocker.extracted_hashes σ2 = D →
            (∀ frame, frame ∈ frames →
                      cli_reported data (length frame_positions) frame
                        (NpkUnlocker.stdout σ2)) →
            wp (_ ← atomic (modify (λ σ, {| NpkUnlocker.extracted_hashes :=
                                               NpkUnlocker.extracted_hashes σ;
                                             NpkUnlocker.fs := NpkUnlocker.fs σ;
                                             NpkUnlocker.stdout :=
                                               NpkUnlocker.stdout σ
                                               ++ [NpkUnlocker.dashes +:+ NpkUnlocker.newline]
                                          |}));
                _ ← atomic (modify (λ σ, {| NpkUnlocker.extracted_hashes :=
                                               NpkUnlocker.extracted_hashes σ;
                                             NpkUnlocker.fs := NpkUnlocker.fs σ;
                                             NpkUnlocker.stdout :=
                                               NpkUnlocker.stdout σ
                                               ++ [("提取完成! 共提取 " +:+ pretty n
                                                    +:+ " 个不重复文件")
                                                   +:+ NpkUnlocker.newline] |}));
                mret (NpkUnlocker.Returned n))
              (λ o σ', ∃ n, o = NpkUnlocker.Returned n
                            ∧ size D ≤ n ∧ n ≤ length (payload_digests data frames)
                            ∧ NpkUnlocker.extracted_hashes σ' = D
                            ∧ ∀ frame, frame ∈ frames →
                                cli_reported data (length frame_positions) frame
                                  (NpkUnlocker.stdout σ')) σ2).
  { intros n σ2 Hlow Hhigh Hh Hrep. do 2 wp_atomic_step. apply wp_ret.
    exists n. split; [done|]. split; [done|]. split; [done|]. split; [done|].
    intros frame Hf. destruct (Hrep frame Hf) as [Hline Hfail]. cbn.
    split; [rewrite !elem_of_app; by do 2 left|].
    intros e He. rewrite !elem_of_app. do 2 left. by apply Hfail. }
  apply wp_bind.
  destruct (fast_mode && (0 <? length frame_positions)) eqn:Hfast.
  - apply andb_true_iff in Hfast as [-> _].
    destruct Hpool as [|Hpool]; [done|].
    destruct (Nat.eqb_spec max_threads 0) as [|_]; [lia|].
    wp_atomic_step.
    destruct (CLI_pool_processed data output_folder (length frame_positions)
                max_threads schedule frames σ1 Hempty)
      as (Hlow & Hhigh & Hh & _ & Hrep). cbv zeta in *.
    destruct (run_pool max_threads schedule _ σ1) as [results σ2]. cbn [fst snd] in *.
    apply wp_ret. by apply Hend.
  - apply wp_bind. unfold wp at 1.
    pose proof (NpkUnlocker_serial_loop_digests data output_folder
                  (length frame_positions) frames 0 σ1) as Hdig.
    pose proof (NpkUnlocker_serial_loop_reported data output_folder
                  (length frame_positions) frames 0 σ1) as Hrep.
    unfold wp in Hdig, Hrep.
    destruct (exec (NpkUnlocker.serial_loop data output_folder (length frame_positions)
                      frames 0) σ1) as [n σ2]. cbn [fst snd] in *.
    destruct Hdig as [Hh Hc]. rewrite Hempty, (left_id_L ∅ (∪)) in Hh.
    rewrite Hempty, size_empty, Hh in Hc.
    apply wp_ret. apply Hend; [fold D in Hc; lia| |done|done].
    replace n with (size D) by (fold D in Hc; lia).
    apply size_list_to_set_le.
Qed.

End CliRun.

(** ** A frame that does not decompress costs only that frame *)

Lemma GUI_run_completed_with_its_count `{Primitives} input_file data output_root
    fast_mode max_threads enable_md5 enable_type_detect stop_flag schedule σ p :
  fast_mode = false ∨ 0 < max_threads →
  NpkUnlock_GUI.run input_file (Some data) output_root fast_mode max_threads
    enable_md5 enable_type_detect stop_flag schedule = Some p →
  completed_with (length (NpkUnlock_GUI.artifacts (exec p σ).1)) (exec p σ).1.
Proof.
  intros Hpool Hp.
  destruct (GUI_run_completes input_file data output_root fast_mode max_threads
              enable_md5 enable_type_detect stop_flag schedule σ Hpool)
    as (p1 & Hp1 & n & out' & Hout & Herr).
  destruct (GUI_extracted_le_found input_file (Some data) output_root fast_mode
              max_threads enable_md5 enable_type_detect stop_flag schedule σ)
    as (p2 & Hp2 & _ & Hfin).
  rewrite Hp in Hp1, Hp2. injection Hp1 as <-. injection Hp2 as <-.
  exists out'. split; [|done]. rewrite Hout at 1. do 3 f_equal.
  apply Hfin. rewrite Hout, finished_counts_app.
  apply elem_of_app. right. cbn. left.
Qed.

(** C5.  A frame whose decompression raises [ZstdError] costs only that
    frame.  The task returns its failure with the failure message and
    leaves files and index as they were, and the serial loops carry on with
    the remaining frames.  A run of the worker ends with [finished_signal]
    and never [error_signal].  When nobody asks to stop, every frame is
    processed in both modes and under every schedule of the pool: the log
    of tasks holds one entry per frame in frame order, the failure for a
    frame that does not decompress and the artifact or the duplicate notice
    for one that does; the artifacts announced are those of the results,
    the run finishes with their number, and every content held by a frame
    that decompresses is extracted.  The command-line tool, in its serial
    branch and in its pool under every schedule, returns a count between
    the number of distinct contents and the number of frames that
    decompress, has every digest of such a frame in its set and has
    printed, for every frame, the line that announces it and, when it does
    not decompress, the line that reports the failure.  A container with
    one signature that does not decompress yields a finished run with zero
    artifacts. *)
Theorem C5_decode_failure_is_recoverable `{Primitives} (data : list byte) :
  (∀ frame_start e,
     zstd_decompress (drop frame_start data) = ZstdError e →
     (∀ output_root frame_idx stop_flag enable_md5 enable_type_detect σ,
        stop_flag (NpkUnlock_GUI.polls σ) = false →
        stop_flag (S (NpkUnlock_GUI.polls σ)) = false →
        exec (NpkUnlock_GUI.extract_single_frame data frame_start output_root
                frame_idx stop_flag enable_md5 enable_type_detect) σ
        = ((false,
            NpkUnlock_GUI.msg_decode_failed
              (NpkUnlock_GUI.frame_prefix frame_idx frame_start) e,
            None),
           polled 2 σ))
     ∧ (∀ output_root frame_idx σ,
          exec (NpkUnlocker.extract_single_frame data frame_start output_root frame_idx) σ
          = (false, printed [cli_failure_line frame_idx e] σ))
     ∧ (∀ output_root stop_flag enable_md5 enable_type_detect total i rest acc σ,
          stop_flag (NpkUnlock_GUI.polls σ) = false →
          stop_flag (1 + NpkUnlock_GUI.polls σ) = false →
          stop_flag (2 + NpkUnlock_GUI.polls σ) = false →
          exec (NpkUnlock_GUI.serial_loop data output_root stop_flag enable_md5
                  enable_type_detect total ((i, frame_start) :: rest) acc) σ
          = exec (NpkUnlock_GUI.serial_loop data output_root stop_flag enable_md5
                    enable_type_detect total rest
                    (NpkUnlock_GUI.account
                       (false,
                        NpkUnlock_GUI.msg_decode_failed
                          (NpkUnlock_GUI.frame_prefix i frame_start) e,
                        None) i total acc))
                 (polled 3 σ))
     ∧ (∀ output_folder total i rest c σ,
          exec (NpkUnlocker.serial_loop data output_folder total
                  ((i, frame_start) :: rest) c) σ
          = exec (NpkUnlocker.serial_loop data output_folder total rest c)
                 (printed [NpkUnlocker.processing_line i total frame_start;
                           cli_failure_line i e] σ)))
  ∧ (∀ input_file output_root fast_mode max_threads enable_md5 enable_type_detect
       stop_flag schedule σ,
       fast_mode = false ∨ 0 < max_threads →
       ∃ p, NpkUnlock_GUI.run input_file (Some data) output_root fast_mode max_threads
              enable_md5 enable_type_detect stop_flag schedule = Some p
            ∧ ∃ n, completed_with n (exec p σ).1)
  ∧ (∀ input_file output_root fast_mode max_threads enable_md5 enable_type_detect
       stop_flag schedule σ,
       (∀ k, stop_flag k = false) →
       fast_mode = false ∨ 0 < max_threads →
       ∃ p, NpkUnlock_GUI.run input_file (Some data) output_root fast_mode max_threads
              enable_md5 enable_type_detect stop_flag schedule = Some p
            ∧ ∃ results,
                Forall2 (frame_processed data output_root enable_md5 enable_type_detect)
                  (enumerate (Spec.signature_offsets data)) results
                ∧ every_content_extracted data (enumerate (Spec.signature_offsets data))
                    reports_success results
                ∧ NpkUnlock_GUI.extract_log (exec p σ).1 = map (λ r, r.1.2) results
                ∧ NpkUnlock_GUI.artifacts (exec p σ).1 = concat (map announced results)
                ∧ completed_with (length (NpkUnlock_GUI.artifacts (exec p σ).1))
                    (exec p σ).1)
  ∧ (∀ fast_mode max_threads schedule pkg_file_path output_folder σ,
       fast_mode = false ∨ 0 < max_threads →
       ∃ p n,
         NpkUnlocker.extract_zstd_container_with fast_mode max_threads schedule
           pkg_file_path data output_folder = Some p
         ∧ (exec p σ).1 = NpkUnlocker.Returned n
         ∧ size (list_to_set
                   (payload_digests data (enumerate (Spec.signature_offsets data)))
                 : gset string) ≤ n
         ∧ n ≤ length (payload_digests data (enumerate (Spec.signature_offsets data)))
         ∧ NpkUnlocker.extracted_hashes (exec p σ).2
           = list_to_set (payload_digests data (enumerate (Spec.signature_offsets data)))
         ∧ ∀ frame, frame ∈ enumerate (Spec.signature_offsets data) →
                    cli_reported data (length (Spec.signature_offsets data)) frame
                      (NpkUnlocker.stdout (exec p σ).2))
  ∧ (∀ pos e,
       Spec.signature_offsets data = [pos] →
       zstd_decompress (drop pos data) = ZstdError e →
       (∀ input_file output_root fast_mode max_threads enable_md5 enable_type_detect
          stop_flag schedule σ,
          (∀ k, stop_flag k = false) →
          fast_mode = false ∨ 0 < max_threads →
          ∃ p, NpkUnlock_GUI.run input_file (Some data) output_root fast_mode
                 max_threads enable_md5 enable_type_detect stop_flag schedule = Some p
               ∧ ∃ out', (exec p σ).1 = out' ++ [NpkUnlock_GUI.finished_signal 0]
                         ∧ NpkUnlock_GUI.artifacts out' = []
                         ∧ NpkUnlock_GUI.error_messages out' = []
                         ∧ NpkUnlock_GUI.extract_log out'
                           = [NpkUnlock_GUI.msg_decode_failed
                                (NpkUnlock_GUI.frame_prefix 0 pos) e]
                         ∧ fs_files (NpkUnlock_GUI.fs (exec p σ).2)
                           = fs_files (NpkUnlock_GUI.fs σ))
       ∧ (∀ fast_mode max_threads schedule pkg_file_path output_folder σ,
            fast_mode = false ∨ 0 < max_threads →
            ∃ p, NpkUnlocker.extract_zstd_container_with fast_mode max_threads
                   schedule pkg_file_path data output_folder = Some p
                 ∧ (exec p σ).1 = NpkUnlocker.Returned 0
                 ∧ fs_files (NpkUnlocker.fs (exec p σ).2)
                   = fs_files (NpkUnlocker.fs σ))).
Proof.
  split; [|split; [|split; [|split]]].
  - intros frame_start e He. repeat split; intros.
    + by apply GUI_task_decode_failure.
    + by apply NpkUnlocker_task_decode_failure.
    + by apply GUI_serial_loop_decode_failure.
    + by apply NpkUnlocker_serial_loop_decode_failure.
  - intros. by apply GUI_run_completes.
  - intros input_file output_root fast_mode max_threads enable_md5 enable_type_detect
      stop_flag schedule σ Hstop Hpool.
    destruct (GUI_run_processed input_file data output_root fast_mode max_threads
                enable_md5 enable_type_detect stop_flag schedule σ Hstop Hpool)
      as (p & Hp & results & Hall & Hevery & Hlog & Hart).
    exists p. split; [exact Hp|]. exists results. repeat (split; [done|]).
    by eapply GUI_run_completed_with_its_count.
  - intros. by apply CLI_run_processed.
  - intros pos e Hsig He. split; intros.
    + by apply (GUI_single_truncated_frame _ _ _ _ _ _ _ _ _ _ pos e).
    + by apply (NpkUnlocker_single_truncated_frame _ _ _ _ _ _ _ pos e).
Qed.

Lemma bad_then_good_frames :
  enumerate (Spec.signature_offsets bad_then_good) = [(0, 0); (1, 5)]
  ∧ frame_digest bad_then_good (0, 0) = None
  ∧ frame_digest bad_then_good (1, 5) = Some (Toy.digest [x01]).
Proof. vm_compute. repeat split. Qed.

Lemma C5_witness :
  (∀ k : nat, Toy.never k = false)
  ∧ ∃ p, NpkUnlock_GUI.run "gui2.npk" (Some bad_then_good) "Output" true 2 true true
           Toy.never racy_schedule = Some p
         ∧ ∃ results,
             length results = 2
             ∧ NpkUnlock_GUI.extract_log (exec p fresh_task_state).1
               = map (λ r, r.1.2) results
             ∧ ∃ r, results !! 1 = Some r ∧ reports_success r = true.
Proof.
  split; [reflexivity|].
  destruct (C5_decode_failure_is_recoverable bad_then_good) as (_ & _ & Hrun & _).
  destruct (Hrun "gui2.npk" "Output" true 2 true true Toy.never racy_schedule
              fresh_task_state (λ _, eq_refl) (or_intror (le_S 1 1 (le_n 1))))
    as (p & Hp & results & Hall & Hevery & Hlog & _).
  exists p. split; [exact Hp|]. exists results.
  destruct bad_then_good_frames as (Hframes & Hbad & Hgood).
  rewrite Hframes in Hall, Hevery.
  split; [symmetry; exact (Forall2_length _ _ _ Hall)|]. split; [exact Hlog|].
  destruct (Hevery (Toy.digest [x01])) as (i & frame & r & Hi & Hdig & Hr & Hok).
  - cbn [map]. rewrite Hbad, Hgood. right. left.
  - destruct i as [|[|i]]; cbn in Hi.
    + injection Hi as <-. rewrite Hbad in Hdig. discriminate Hdig.
    + exists r. split; [exact Hr|exact Hok].
    + discriminate Hi.
Defined.

(** ** The index of the block extractor *)

#[global] Instance ppk_adds_preorder (D : gset string) : PreOrder (ppk_adds D).
Proof.
  split.
  - intros σ. split; [done|]. apply union_subseteq_l.
  - intros σ1 σ2 σ3 [H1 H1'] [H2 H2']. split; [by etrans|].
    etrans; [exact H2'|]. apply union_least; [done|apply union_subseteq_r].
Qed.

Section PpkIndex.
Context `{Primitives}.

Lemma ppk_adds_grows D σ σ' :
  ppk_adds D σ σ' → grows PPKUnlocker.DUPLICATE_MD5 σ σ'.
Proof. by intros [? _]. Qed.

Lemma find_signature_offset data off magic_pos :
  Py.find data ZSTD off = Some magic_pos → magic_pos ∈ Spec.signature_offsets data.
Proof.
  intros Hfind. destruct (find_Some _ _ _ _ Hfind) as (_ & Hocc & _).
  apply signature_offsets_elem. split; [|done].
  destruct (occurs_at_bound _ _ _ Hocc) as [Hb|]; [|done]. simpl in Hb. lia.
Qed.

(** Every action of the block loop leaves the index as it is or adds the
    digest of a block of the file that passes the size filter. *)
Lemma PPK_block_loop_guar D fuel max_block_size file_name file_data output_root l :
  list_to_set (ppk_digests_at max_block_size file_data
                 (Spec.signature_offsets file_data)) ⊆ D →
  guar (ppk_adds D)
    (PPKUnlocker.block_loop fuel max_block_size file_name file_data output_root l).
Proof.
  intros HD. revert l. induction fuel as [|fuel IH]; intros l; [apply guar_ret|].
  cbn [PPKUnlocker.block_loop].
  destruct (_ <? _); [|apply guar_ret].
  unfold PPKUnlocker.ZSTD_MAGIC.
  destruct (Py.find file_data ZSTD (PPKUnlocker.offset l)) as [magic_pos|] eqn:Hfind;
    [|apply guar_ret].
  cbv zeta.
  destruct (length _ <? 1024) eqn:Hsmall; [apply IH|].
  apply guar_bind; [apply guar_atomic; intros σ; reflexivity|]. intros [|]; [apply IH|].
  apply guar_bind.
  { apply guar_atomic. intros σ. split; [apply union_subseteq_r|].
    cbn. apply union_least; [|apply union_subseteq_l].
    etrans; [|apply union_subseteq_r]. etrans; [|exact HD].
    apply singleton_subseteq_l, elem_of_list_to_set.
    apply list_elem_of_omap. exists magic_pos.
    split; [by eapply find_signature_offset|].
    cbv zeta. unfold ppk_block_bytes, ppk_block_end, PPKUnlocker.ZSTD_MAGIC.
    by rewrite Hsmall. }
  intros _. destruct (zstd_decompress _) as [decompressed|e]; [|apply IH].
  apply guar_bind.
  { apply guar_atomic. intros σ. cbn. split; [done|apply union_subseteq_l]. }
  intros _. apply guar_bind.
  { apply guar_atomic. intros σ. cbn. split; [done|apply union_subseteq_l]. }
  intros _. apply IH.
Qed.

Lemma PPK_process_guar D max_block_size file_name file_data output_root :
  list_to_set (ppk_digests_at max_block_size file_data
                 (Spec.signature_offsets file_data)) ⊆ D →
  guar (ppk_adds D)
    (PPKUnlocker.process_ppk_file_with max_block_size file_name file_data output_root).
Proof.
  intros HD. unfold PPKUnlocker.process_ppk_file_with.
  apply guar_bind; [by apply PPK_block_loop_guar|]. intros l. apply guar_ret.
Qed.

Lemma PPK_block_loop_grows fuel max_block_size file_name file_data output_root l :
  guar (grows PPKUnlocker.DUPLICATE_MD5)
    (PPKUnlocker.block_loop fuel max_block_size file_name file_data output_root l).
Proof.
  eapply guar_mono; [|by apply (PPK_block_loop_guar _ _ _ _ _ _ _ (reflexivity _))].
  intros σ σ'. apply ppk_adds_grows.
Qed.

Lemma ppk_digests_at_cons max_block_size file_data magic_pos offsets d :
  d ∈ ppk_digests_at max_block_size file_data (magic_pos :: offsets) ↔
  ((length (ppk_block_bytes max_block_size file_data magic_pos) <? 1024) = false
   ∧ d = md5_hexdigest (ppk_block_bytes max_block_size file_data magic_pos))
  ∨ d ∈ ppk_digests_at max_block_size file_data offsets.
Proof.
  unfold ppk_digests_at at 1. cbn [omap list_omap]. cbv zeta.
  fold (ppk_digests_at max_block_size file_data offsets).
  destruct (length _ <? 1024).
  - split; [by right|]. by intros [[? _]|?].
  - rewrite elem_of_cons. split; (intros [Hd|Hd]; [left|by right]).
    + by split.
    + by destruct Hd.
Qed.

(** Once the loop is done every block that it had before it and that
    passes the size filter has its digest in the index, whatever the other
    threads do in between. *)
Lemma PPK_block_loop_marked (K : gset string) fuel max_block_size file_name file_data
    output_root l σ :
  0 < max_block_size →
  length file_data - PPKUnlocker.offset l < fuel →
  K ⊆ PPKUnlocker.DUPLICATE_MD5 σ →
  post (grows PPKUnlocker.DUPLICATE_MD5)
    (λ _ σ', K ⊆ PPKUnlocker.DUPLICATE_MD5 σ'
             ∧ ∀ d, d ∈ ppk_digests_at max_block_size file_data
                          (offsets_from file_data (PPKUnlocker.offset l)) →
                    d ∈ PPKUnlocker.DUPLICATE_MD5 σ')
    (PPKUnlocker.block_loop fuel max_block_size file_name file_data output_root l) σ.
Proof.
  intros Hmax. revert K l σ. induction fuel as [|fuel IH]; intros K l σ Hfuel HK; [lia|].
  cbn [PPKUnlocker.block_loop].
  destruct (Nat.ltb_spec (PPKUnlocker.offset l) (length file_data)) as [Hlt|Hge].
  2:{ apply post_ret. intros σ' HR. split; [by etrans|]. intros d.
      rewrite offsets_from_end by done. by intros ?%elem_of_nil. }
  unfold PPKUnlocker.ZSTD_MAGIC.
  destruct (Py.find file_data ZSTD (PPKUnlocker.offset l)) as [magic_pos|] eqn:Hfind.
  2:{ apply post_ret. intros σ' HR. split; [by etrans|]. intros d.
      rewrite offsets_from_None by done. by intros ?%elem_of_nil. }
  destruct (ppk_block_end_spec max_block_size _ _ _ Hmax Hfind)
    as (Hle & Hlt' & Hb & Hoffs & _).
  rewrite Hoffs.
  assert (Hskip : ∀ l1 σ1,
            PPKUnlocker.offset l1 = ppk_block_end max_block_size file_data magic_pos →
            K ⊆ PPKUnlocker.DUPLICATE_MD5 σ1 →
            (length (ppk_block_bytes max_block_size file_data magic_pos) <? 1024) = true →
            post (grows PPKUnlocker.DUPLICATE_MD5)
              (λ _ σ', K ⊆ PPKUnlocker.DUPLICATE_MD5 σ'
                       ∧ ∀ d, d ∈ ppk_digests_at max_block_size file_data
                                    (magic_pos :: offsets_from file_data
                                       (ppk_block_end max_block_size file_data magic_pos)) →
                              d ∈ PPKUnlocker.DUPLICATE_MD5 σ')
              (PPKUnlocker.block_loop fuel max_block_size file_name file_data
                 output_root l1) σ1).
  { intros l1 σ1 Hoff HK1 Hsmall.
    pose proof (IH K l1 σ1) as Hrest. rewrite Hoff in Hrest.
    eapply post_mono; [|apply Hrest; [lia|done]].
    cbn beta. intros _ σ' [HK' Hrest']. split; [done|]. intros d.
    rewrite ppk_digests_at_cons, Hsmall. intros [[? _]|Hd]; [done|by apply Hrest']. }
  assert (Hnext : ∀ l1 σ1,
            PPKUnlocker.offset l1 = ppk_block_end max_block_size file_data magic_pos →
            K ⊆ PPKUnlocker.DUPLICATE_MD5 σ1 →
            md5_hexdigest (ppk_block_bytes max_block_size file_data magic_pos)
            ∈ PPKUnlocker.DUPLICATE_MD5 σ1 →
            post (grows PPKUnlocker.DUPLICATE_MD5)
              (λ _ σ', K ⊆ PPKUnlocker.DUPLICATE_MD5 σ'
                       ∧ ∀ d, d ∈ ppk_digests_at max_block_size file_data
                                    (magic_pos :: offsets_from file_data
                                       (ppk_block_end max_block_size file_data magic_pos)) →
                              d ∈ PPKUnlocker.DUPLICATE_MD5 σ')
              (PPKUnlocker.block_loop fuel max_block_size file_name file_data
                 output_root l1) σ1).
  { intros l1 σ1 Hoff HK1 Hin.
    pose proof (IH ({[md5_hexdigest (ppk_block_bytes max_block_size file_data magic_pos)]}
                    ∪ K) l1 σ1) as Hrest. rewrite Hoff in Hrest.
    eapply post_mono; [|apply Hrest; [lia|]].
    - cbn beta. intros _ σ' [HK' Hrest']. split.
      { etrans; [apply union_subseteq_r|exact HK']. }
      intros d. rewrite ppk_digests_at_cons.
      intros [[_ ->]|Hd]; [|by apply Hrest'].
      apply HK', elem_of_union. left. by apply elem_of_singleton.
    - apply union_least; [by apply singleton_subseteq_l|done]. }
  unfold ppk_block_bytes, ppk_block_end, PPKUnlocker.ZSTD_MAGIC in *. cbv zeta.
  destruct (length _ <? 1024) eqn:Hsmall; [by apply Hskip|].
  apply post_act. intros σ1 HR1. cbn [gets fst snd].
  case_bool_decide as Hdup; [apply Hnext; [done|by etrans|done]|].
  apply post_act. intros σ2 HR2. cbn [modify fst snd].
  assert (HK2 : K ⊆ PPKUnlocker.DUPLICATE_MD5 σ2) by (etrans; [|exact HR2]; by etrans).
  destruct (zstd_decompress _) as [decompressed|e].
  2:{ apply Hnext; [done| |]; cbn.
      - etrans; [exact HK2|apply union_subseteq_r].
      - apply elem_of_union. left. by apply elem_of_singleton. }
  apply post_act. intros σ3 HR3. cbn [modify fst snd].
  apply post_act. intros σ4 HR4. cbn [modify fst snd].
  assert (HR24 : PPKUnlocker.DUPLICATE_MD5
                   (PPKUnlocker.with_md5s
                      (λ s, {[md5_hexdigest (Py.slice file_data magic_pos
                               ((default (length file_data)
                                   (Py.find file_data ZSTD (magic_pos + 4)))
                                `min` (magic_pos + max_block_size)))]} ∪ s) σ2)
                 ⊆ PPKUnlocker.DUPLICATE_MD5 σ4).
  { etrans; [|exact HR4]. exact HR3. }
  apply Hnext; [done| |]; cbn.
  - etrans; [|exact HR24]. etrans; [exact HK2|apply union_subseteq_r].
  - apply HR24. cbn. apply elem_of_union. left. by apply elem_of_singleton.
Qed.

(** A pass that finds all its digests in the index saves nothing. *)
Lemma PPK_block_loop_known fuel max_block_size file_name file_data output_root l σ :
  0 < max_block_size →
  length file_data - PPKUnlocker.offset l < fuel →
  (∀ d, d ∈ ppk_digests_at max_block_size file_data
              (offsets_from file_data (PPKUnlocker.offset l)) →
        d ∈ PPKUnlocker.DUPLICATE_MD5 σ) →
  post (grows PPKUnlocker.DUPLICATE_MD5)
    (λ r _, ∃ l', r = Some l'
                  ∧ PPKUnlocker.extracted_blocks l' = PPKUnlocker.extracted_blocks l
                  ∧ PPKUnlocker.processed_blocks l'
                    = PPKUnlocker.processed_blocks l
                      + length (offsets_from file_data (PPKUnlocker.offset l)))
    (PPKUnlocker.block_loop fuel max_block_size file_name file_data output_root l) σ.
Proof.
  intros Hmax. revert l σ. induction fuel as [|fuel IH]; intros l σ Hfuel Hknown; [lia|].
  cbn [PPKUnlocker.block_loop].
  destruct (Nat.ltb_spec (PPKUnlocker.offset l) (length file_data)) as [Hlt|Hge].
  2:{ apply post_ret. intros σ' _. exists l. rewrite offsets_from_end by done.
      cbn [length]. repeat split; lia. }
  unfold PPKUnlocker.ZSTD_MAGIC.
  destruct (Py.find file_data ZSTD (PPKUnlocker.offset l)) as [magic_pos|] eqn:Hfind.
  2:{ apply post_ret. intros σ' _. exists l. rewrite offsets_from_None by done.
      cbn [length]. repeat split; lia. }
  destruct (ppk_block_end_spec max_block_size _ _ _ Hmax Hfind)
    as (Hle & Hlt' & Hb & Hoffs & _).
  rewrite Hoffs in Hknown |- *. cbn [length].
  assert (Hnext : ∀ l1 σ1,
            PPKUnlocker.offset l1 = ppk_block_end max_block_size file_data magic_pos →
            PPKUnlocker.extracted_blocks l1 = PPKUnlocker.extracted_blocks l →
            PPKUnlocker.processed_blocks l1 = PPKUnlocker.processed_blocks l + 1 →
            grows PPKUnlocker.DUPLICATE_MD5 σ σ1 →
            post (grows PPKUnlocker.DUPLICATE_MD5)
              (λ r _, ∃ l', r = Some l'
                 ∧ PPKUnlocker.extracted_blocks l' = PPKUnlocker.extracted_blocks l
                 ∧ PPKUnlocker.processed_blocks l'
                   = PPKUnlocker.processed_blocks l
                     + S (length (offsets_from file_data
                                    (ppk_block_end max_block_size file_data magic_pos))))
              (PPKUnlocker.block_loop fuel max_block_size file_name file_data
                 output_root l1) σ1).
  { intros l1 σ1 Hoff He Hp HR.
    pose proof (IH l1 σ1) as Hrest. rewrite Hoff in Hrest.
    eapply post_mono; [|apply Hrest; [lia|]].
    - cbn beta. intros r _ (l' & -> & He' & Hp'). exists l'. split; [done|].
      split; lia.
    - intros d Hd. apply HR, Hknown, ppk_digests_at_cons. by right. }
  pose proof (Hknown (md5_hexdigest (ppk_block_bytes max_block_size file_data magic_pos)))
    as Hhead.
  rewrite ppk_digests_at_cons in Hhead.
  unfold ppk_block_bytes, ppk_block_end, PPKUnlocker.ZSTD_MAGIC in *. cbv zeta.
  destruct (length _ <? 1024) eqn:Hsmall; [by apply Hnext|].
  apply post_act. intros σ1 HR1. cbn [gets fst snd].
  rewrite bool_decide_eq_true_2; [by apply Hnext|].
  apply HR1, Hhead. by left.
Qed.

Lemma PPK_process_marked max_block_size file_name file_data output_root σ :
  0 < max_block_size →
  post (grows PPKUnlocker.DUPLICATE_MD5)
    (λ _ σ', ∀ d, d ∈ ppk_digests_at max_block_size file_data
                        (Spec.signature_offsets file_data) →
                  d ∈ PPKUnlocker.DUPLICATE_MD5 σ')
    (PPKUnlocker.process_ppk_file_with max_block_size file_name file_data output_root) σ.
Proof.
  intros Hmax. unfold PPKUnlocker.process_ppk_file_with.
  apply post_bind; [apply _|].
  eapply post_mono;
    [|apply (PPK_block_loop_marked ∅); [done|simpl; lia|apply empty_subseteq]].
  cbn beta. intros l σ1 [_ Hall]. apply post_ret. intros σ' HR d Hd.
  apply HR, Hall. cbn [PPKUnlocker.offset]. unfold offsets_from.
  by rewrite Nat.sub_0_r.
Qed.

Lemma PPK_process_known max_block_size file_name file_data output_root σ :
  0 < max_block_size →
  (∀ d, d ∈ ppk_digests_at max_block_size file_data (Spec.signature_offsets file_data) →
        d ∈ PPKUnlocker.DUPLICATE_MD5 σ) →
  post (grows PPKUnlocker.DUPLICATE_MD5)
    (λ r _, ∃ res, r = Some res
                   ∧ PPKUnlocker.extracted res = 0
                   ∧ PPKUnlocker.processed res
                     = length (Spec.signature_offsets file_data))
    (PPKUnlocker.process_ppk_file_with max_block_size file_name file_data output_root) σ.
Proof.
  intros Hmax Hknown. unfold PPKUnlocker.process_ppk_file_with.
  apply post_bind; [apply _|].
  eapply post_mono; [|apply PPK_block_loop_known; [done|simpl; lia|]].
  - cbn beta. intros r σ1 (l' & -> & He & Hp). apply post_ret. intros σ' _.
    eexists. split; [reflexivity|]. cbn in *. split; [done|].
    unfold offsets_from in Hp. by rewrite Nat.sub_0_r in Hp.
  - cbn [PPKUnlocker.offset]. unfold offsets_from. by rewrite Nat.sub_0_r.
Qed.

Lemma ppk_digests_elem max_block_size ppk_files d :
  d ∈ ppk_digests max_block_size ppk_files ↔
  ∃ f, f ∈ ppk_files
       ∧ d ∈ ppk_digests_at max_block_size f.2 (Spec.signature_offsets f.2).
Proof.
  unfold ppk_digests. rewrite elem_of_list_to_set, list_elem_of_In, in_concat. split.
  - intros (ds & Hds & Hd). apply in_map_iff in Hds as (f & <- & Hf).
    exists f. by rewrite !list_elem_of_In.
  - intros (f & Hf & Hd). eexists. rewrite in_map_iff.
    split; [exists f; split; [reflexivity|by apply list_elem_of_In]|].
    by apply list_elem_of_In.
Qed.

(** A pass over [ppk_files] leaves the index with the digests it had and
    those of the blocks of the files that pass the size filter, whatever the
    schedule. *)
Lemma PPK_run_files_index max_block_size schedule ppk_files output_root σ :
  0 < max_block_size →
  PPKUnlocker.DUPLICATE_MD5
    (PPKUnlocker.run_files max_block_size schedule ppk_files output_root σ).2
  = PPKUnlocker.DUPLICATE_MD5 σ ∪ ppk_digests max_block_size ppk_files.
Proof.
  intros Hmax. unfold PPKUnlocker.run_files.
  set (tasks := map _ ppk_files).
  set (D := ppk_digests max_block_size ppk_files).
  assert (Hguar : Forall (guar (ppk_adds D)) tasks).
  { apply Forall_fmap, Forall_forall. intros [file_name file_data] Hf.
    apply PPK_process_guar. intros d Hd. apply ppk_digests_elem.
    exists (file_name, file_data). split; [done|]. by apply elem_of_list_to_set in Hd. }
  destruct (run_pool_guar (ppk_adds D) PPKUnlocker.MAX_THREADS schedule tasks σ Hguar)
    as [Hgrow Honly].
  apply (anti_symm (⊆)); [done|].
  apply union_least; [done|].
  pose proof (run_pool_post_uniform (grows PPKUnlocker.DUPLICATE_MD5)
                (map (λ (f : string * list byte) (_ : option PPKUnlocker.result) σ',
                        ∀ d, d ∈ ppk_digests_at max_block_size f.2
                                   (Spec.signature_offsets f.2) →
                             d ∈ PPKUnlocker.DUPLICATE_MD5 σ') ppk_files)
                PPKUnlocker.MAX_THREADS schedule tasks σ) as Hpool.
  apply Forall2_fmap_l in Hpool.
  - intros d Hd. apply ppk_digests_elem in Hd as (f & Hf & Hd).
    apply list_elem_of_lookup in Hf as [i Hi].
    destruct (Forall2_lookup_l _ _ _ _ _ Hpool Hi) as (r & _ & Hr). by apply Hr.
  - apply Forall2_fmap. apply Forall_Forall2_diag, Forall_forall.
    intros [file_name file_data] _. by apply PPK_process_marked.
  - eapply Forall_impl; [exact Hguar|]. intros p Hp.
    eapply guar_mono; [|exact Hp]. intros ? ?. apply ppk_adds_grows.
Qed.

(** The index is never reset: a pass that starts with the digests of its
    files in the index saves no block and leaves the index as it is. *)
Lemma PPK_run_files_known max_block_size schedule ppk_files output_root σ :
  0 < max_block_size →
  ppk_digests max_block_size ppk_files ⊆ PPKUnlocker.DUPLICATE_MD5 σ →
  Forall2 (λ f r, ∃ res, r = Some res
                         ∧ PPKUnlocker.extracted res = 0
                         ∧ PPKUnlocker.processed res
                           = length (Spec.signature_offsets f.2))
    ppk_files
    (PPKUnlocker.run_files max_block_size schedule ppk_files output_root σ).1
  ∧ PPKUnlocker.DUPLICATE_MD5
      (PPKUnlocker.run_files max_block_size schedule ppk_files output_root σ).2
    = PPKUnlocker.DUPLICATE_MD5 σ.
Proof.
  intros Hmax Hknown. split.
  2:{ rewrite PPK_run_files_index by done. rewrite (comm_L (∪)).
      by apply subseteq_union_1_L. }
  unfold PPKUnlocker.run_files.
  set (tasks := map _ ppk_files).
  pose proof (run_pool_post_uniform (grows PPKUnlocker.DUPLICATE_MD5)
                (map (λ (f : string * list byte) (r : option PPKUnlocker.result)
                        (_ : PPKUnlocker.shared),
                        ∃ res, r = Some res
                               ∧ PPKUnlocker.extracted res = 0
                               ∧ PPKUnlocker.processed res
                                 = length (Spec.signature_offsets f.2)) ppk_files)
                PPKUnlocker.MAX_THREADS schedule tasks σ) as Hpool.
  apply Forall2_fmap_l in Hpool; [exact Hpool| |].
  - apply Forall2_fmap. apply Forall_Forall2_diag, Forall_forall.
    intros [file_name file_data] Hf. apply PPK_process_known; [done|].
    intros d Hd. apply Hknown, ppk_digests_elem. by exists (file_name, file_data).
  - apply Forall_fmap, Forall_forall. intros [file_name file_data] _.
    unfold PPKUnlocker.process_ppk_file_with.
    apply guar_bind; [apply PPK_block_loop_grows|]. intros l. apply guar_ret.
Qed.

End PpkIndex.

(** ** The index of a run of the worker *)

Section RunIndex.
Context `{Primitives}.

Lemma NoDup_omap_lookup {A B} (f : A → option B) (l : list A) i j x y d :
  NoDup (omap f l) → l !! i = Some x → l !! j = Some y →
  f x = Some d → f y = Some d → i = j.
Proof.
  revert i j. induction l as [|a l IH]; intros i j Hnd Hi Hj Hx Hy; [done|].
  cbn [omap list_omap] in Hnd.
  assert (Hin : ∀ k z, l !! k = Some z → f z = Some d → d ∈ omap f l).
  { intros k z Hk Hz. apply list_elem_of_omap. exists z.
    split; [by eapply list_elem_of_lookup_2|done]. }
  destruct i as [|i], j as [|j]; cbn in Hi, Hj.
  - done.
  - injection Hi as ->. rewrite Hx in Hnd. apply NoDup_cons in Hnd as [Hnot _].
    destruct Hnot. by eapply Hin.
  - injection Hj as ->. rewrite Hy in Hnd. apply NoDup_cons in Hnd as [Hnot _].
    destruct Hnot. by eapply Hin.
  - f_equal. apply IH; try done.
    destruct (f a); [by apply NoDup_cons in Hnd as [_ ?]|done].
Qed.

(** When no two frames hold the same content every frame that decompresses
    is extracted itself. *)
Lemma processed_distinct data output_root enable_md5 enable_type_detect frames results :
  NoDup (payload_digests data frames) →
  Forall2 (frame_processed data output_root enable_md5 enable_type_detect)
    frames results →
  every_content_extracted data frames reports_success results →
  results = map (λ frame, frame_result data output_root enable_type_detect frame.1 frame.2)
              frames.
Proof.
  intros Hnd Hall Hevery. apply list_eq_Forall2. apply Forall2_fmap_r.
  apply Forall2_flip. apply Forall2_same_length_lookup_2; [by eapply Forall2_length|].
  intros i frame r Hi Hr.
  destruct (Forall2_lookup_lr _ _ _ _ _ _ Hall Hi Hr) as [->|(_ & d & Hd & ->)]; [done|].
  assert (Hdig : frame_digest data frame = Some (md5_hexdigest d)).
  { unfold frame_digest. by rewrite Hd. }
  destruct (Hevery (md5_hexdigest d)) as (j & frame' & r' & Hj & Hdig' & Hr' & Hok).
  { apply list_elem_of_fmap. exists frame.
    split; [done|by eapply list_elem_of_lookup_2]. }
  assert (i = j) as <-.
  { by eapply (NoDup_omap_lookup (frame_digest data) frames). }
  rewrite Hr in Hr'. injection Hr' as <-. discriminate Hok.
Qed.

Lemma GUI_collect_loop_hashes stop_flag total results acc σ :
  NpkUnlock_GUI.extracted_hashes
    (exec (NpkUnlock_GUI.collect_loop stop_flag total results acc) σ).2
  = NpkUnlock_GUI.extracted_hashes σ.
Proof.
  revert acc σ. induction results as [|[idx r] results IH]; intros acc σ; [done|].
  cbn [NpkUnlock_GUI.collect_loop]. rewrite exec_bind, exec_atomic.
  cbn [NpkUnlock_GUI.read_stop]. destruct (stop_flag _); [done|]. by rewrite IH.
Qed.

Lemma GUI_finish_hashes stop_flag acc σ :
  NpkUnlock_GUI.extracted_hashes (exec (NpkUnlock_GUI.finish stop_flag acc) σ).2
  = NpkUnlock_GUI.extracted_hashes σ.
Proof.
  destruct acc as [c out]. unfold NpkUnlock_GUI.finish.
  by rewrite exec_bind, exec_atomic.
Qed.

(** With the index switched on, a run on a container with at least one
    frame that nobody stops ends with exactly the digests of the payloads
    of its frames in the index, in every mode and under every schedule,
    whatever the state it started from. *)
Lemma GUI_run_index input_file data output_root fast_mode max_threads
    enable_type_detect stop_flag schedule σ :
  (∀ k, stop_flag k = false) →
  fast_mode = false ∨ 0 < max_threads →
  Spec.signature_offsets data ≠ [] →
  ∃ p,
    NpkUnlock_GUI.run input_file (Some data) output_root fast_mode max_threads
      true enable_type_detect stop_flag schedule = Some p
    ∧ NpkUnlock_GUI.extracted_hashes (exec p σ).2
      = list_to_set (payload_digests data (enumerate (Spec.signature_offsets data))).
Proof.
  intros Hstop Hpool Hsome.
  assert (Hpos : 0 < length (Spec.signature_offsets data)).
  { destruct (Spec.signature_offsets data); [done|simpl; lia]. }
  destruct fast_mode.
  2:{ destruct (GUI_serial_run_digests input_file data output_root max_threads
                  enable_type_detect stop_flag schedule σ Hstop Hpos) as (p & Hp & Hh & _).
      by exists p. }
  destruct Hpool as [|Hpool]; [done|].
  unfold NpkUnlock_GUI.run.
  rewrite GUI_scan_zstd_frames_spec. cbn [mbind option_bind].
  eexists. split; [reflexivity|].
  set (frame_positions := Spec.signature_offsets data) in *.
  rewrite exec_bind, exec_atomic. cbn [modify]. cbv zeta.
  rewrite exec_bind, exec_atomic. cbn [NpkUnlock_GUI.read_stop]. rewrite Hstop.
  destruct (Nat.eqb_spec (length frame_positions) 0) as [|_]; [lia|].
  rewrite exec_bind, exec_atomic. cbn [modify].
  destruct (Nat.eqb_spec max_threads 0) as [|_]; [lia|].
  rewrite exec_bind, GUI_submit_loop_exec by done. cbn [app].
  rewrite exec_bind, exec_atomic.
  match goal with |- context [run_pool _ _ _ ?σ'] => set (σ3 := σ') end.
  destruct (GUI_pool_processed data output_root stop_flag true
              enable_type_detect max_threads schedule (enumerate frame_positions)
              σ3 Hstop (λ _, eq_refl)) as (_ & _ & Hh). cbv zeta in Hh.
  destruct (run_pool max_threads schedule _ σ3) as [results σ4]. cbn [fst snd] in *.
  rewrite exec_bind.
  match goal with |- context [exec (NpkUnlock_GUI.collect_loop ?s ?t ?rs ?a) σ4] =>
    pose proof (GUI_collect_loop_hashes s t rs a σ4) as Hc;
    destruct (exec (NpkUnlock_GUI.collect_loop s t rs a) σ4) as [acc σ5]
  end.
  cbn [fst snd] in *. rewrite GUI_finish_hashes, Hc. by apply Hh.
Qed.

(** When no two frames hold the same content, a run that nobody stops
    announces the artifact of every frame that decompresses, in every mode
    and under every schedule. *)
Lemma GUI_run_distinct input_file data output_root fast_mode max_threads enable_md5
    enable_type_detect stop_flag schedule σ :
  (∀ k, stop_flag k = false) →
  fast_mode = false ∨ 0 < max_threads →
  NoDup (payload_digests data (enumerate (Spec.signature_offsets data))) →
  ∃ p,
    NpkUnlock_GUI.run input_file (Some data) output_root fast_mode max_threads
      enable_md5 enable_type_detect stop_flag schedule = Some p
    ∧ NpkUnlock_GUI.artifacts (exec p σ).1
      = decodable_artifacts data output_root enable_type_detect
          (enumerate (Spec.signature_offsets data)).
Proof.
  intros Hstop Hpool Hnd.
  destruct (GUI_run_processed input_file data output_root fast_mode max_threads
              enable_md5 enable_type_detect stop_flag schedule σ Hstop Hpool)
    as (p & Hp & results & Hall & Hevery & _ & Hart).
  exists p. split; [exact Hp|]. rewrite Hart.
  rewrite (processed_distinct _ _ _ _ _ _ Hnd Hall Hevery).
  unfold decodable_artifacts. rewrite omap_concat_option_list.
  rewrite <- list_fmap_compose. f_equal. apply list_fmap_ext.
  intros _ [i frame_start] _. apply announced_frame_result.
Qed.

End RunIndex.

(** ** Running twice *)

Lemma GUI_run_serial_schedule `{Primitives} input_file input output_root max_threads
    max_threads' enable_md5 enable_type_detect stop_flag schedule schedule' :
  NpkUnlock_GUI.run input_file input output_root false max_threads enable_md5
    enable_type_detect stop_flag schedule
  = NpkUnlock_GUI.run input_file input output_root false max_threads' enable_md5
      enable_type_detect stop_flag schedule'.
Proof.
  unfold NpkUnlock_GUI.run. destruct input as [data|]; [|done].
  by destruct (NpkUnlock_GUI.scan_zstd_frames data).
Qed.

Lemma NpkUnlocker_serial_schedule `{Primitives} max_threads max_threads' schedule
    schedule' pkg_file_path data output_folder :
  NpkUnlocker.extract_zstd_container_with false max_threads schedule pkg_file_path
    data output_folder
  = NpkUnlocker.extract_zstd_container_with false max_threads' schedule' pkg_file_path
      data output_folder.
Proof.
  unfold NpkUnlocker.extract_zstd_container_with.
  by destruct (NpkUnlocker.scan_frames data).
Qed.

(** The block extractor finds its index, in a second pass of the same
    process, as the first pass left it, and extracts nothing.  The fast
    mode of the worker, run twice on [twin_frames], announces one artifact
    under one order of the worker steps and two under another. *)
Lemma C9_counterexample :
  two_passes = ([Some 1], [Some 0])
  ∧ NpkUnlock_GUI.finished_counts (twin_run []) = [1]
  ∧ NpkUnlock_GUI.finished_counts (twin_rerun [] racy_schedule) = [2]
  ∧ length (NpkUnlock_GUI.artifacts (twin_rerun [] racy_schedule)) = 2.
Proof. vm_compute. repeat split. Qed.

(** C9, amended.  [ExtractWorker.run] and [extract_zstd_container] create
    an empty index at the start of every run.  Within the run a task only
    adds to it, in all three programs, and a run that nobody stops ends
    with exactly the digests of the payloads of the frames of its container
    that decompress in the index, in every mode, under every schedule and
    whatever the state the run started from; what a run returns does not
    depend on that state either.  Run twice on the same input, the worker
    in normal mode and the command-line tool in its serial branch return
    the second time what they returned the first time; and when no two
    frames of the container hold the same content, every run announces the
    artifacts of all frames that decompress, in every mode and under every
    schedule.  The block extractor creates its index once, when the module
    is loaded, and never resets it: the first pass of a process starts with
    the empty index and ends with the digests of the blocks that pass the
    size filter, and a second pass over the same files in the same process
    finds them all there, extracts nothing and leaves the index as it
    is. *)
Theorem C9_index_of_a_run `{Primitives} (data : list byte) :
  (∀ input_file output_root fast_mode max_threads enable_type_detect stop_flag
     schedule σ,
     (∀ k, stop_flag k = false) →
     fast_mode = false ∨ 0 < max_threads →
     Spec.signature_offsets data ≠ [] →
     ∃ p, NpkUnlock_GUI.run input_file (Some data) output_root fast_mode max_threads
            true enable_type_detect stop_flag schedule = Some p
          ∧ NpkUnlock_GUI.extracted_hashes (exec p σ).2
            = list_to_set
                (payload_digests data (enumerate (Spec.signature_offsets data))))
  ∧ (∀ input_file output_root fast_mode max_threads enable_type_detect stop_flag
       schedule,
       (∀ k, stop_flag k = false) →
       ∃ p, NpkUnlock_GUI.run input_file (Some data) output_root fast_mode max_threads
              true enable_type_detect stop_flag schedule = Some p
            ∧ ∀ σ σ', (exec p σ).1 = (exec p σ').1)
  ∧ (∀ input_file output_root max_threads max_threads' enable_type_detect stop_flag
       schedule schedule',
       (∀ k, stop_flag k = false) →
       ∃ p p',
         NpkUnlock_GUI.run input_file (Some data) output_root false max_threads
           true enable_type_detect stop_flag schedule = Some p
         ∧ NpkUnlock_GUI.run input_file (Some data) output_root false max_threads'
             true enable_type_detect stop_flag schedule' = Some p'
         ∧ ∀ σ, let once := exec p σ in
                let twice := exec p' once.2 in
                twice.1 = once.1
                ∧ NpkUnlock_GUI.extracted_hashes twice.2
                  = NpkUnlock_GUI.extracted_hashes once.2)
  ∧ (NoDup (payload_digests data (enumerate (Spec.signature_offsets data))) →
     ∀ input_file output_root fast_mode max_threads enable_type_detect stop_flag
       schedule σ,
       (∀ k, stop_flag k = false) →
       fast_mode = false ∨ 0 < max_threads →
       ∃ p, NpkUnlock_GUI.run input_file (Some data) output_root fast_mode max_threads
              true enable_type_detect stop_flag schedule = Some p
            ∧ NpkUnlock_GUI.artifacts (exec p σ).1
              = decodable_artifacts data output_root enable_type_detect
                  (enumerate (Spec.signature_offsets data)))
  ∧ (∀ frame_start output_root frame_idx stop_flag enable_md5 enable_type_detect,
       guar (grows NpkUnlock_GUI.extracted_hashes)
         (NpkUnlock_GUI.extract_single_frame data frame_start output_root frame_idx
            stop_flag enable_md5 enable_type_detect)
       ∧ ∀ σ, NpkUnlock_GUI.extracted_hashes σ
              ⊆ NpkUnlock_GUI.extracted_hashes
                  (exec (NpkUnlock_GUI.extract_single_frame data frame_start
                           output_root frame_idx stop_flag enable_md5
                           enable_type_detect) σ).2)
  ∧ (∀ output_folder total frame_idx frame_start,
       guar cli_grows
         (NpkUnlocker.thread_task data output_folder total frame_idx frame_start))
  ∧ (∀ max_block_size file_name output_root,
       guar (grows PPKUnlocker.DUPLICATE_MD5)
         (PPKUnlocker.process_ppk_file_with max_block_size file_name data output_root))
  ∧ (∀ fast_mode max_threads schedule pkg_file_path output_folder σ,
       fast_mode = false ∨ 0 < max_threads →
       ∃ p n,
         NpkUnlocker.extract_zstd_container_with fast_mode max_threads schedule
           pkg_file_path data output_folder = Some p
         ∧ (exec p σ).1 = NpkUnlocker.Returned n
         ∧ NpkUnlocker.extracted_hashes (exec p σ).2
           = list_to_set (payload_digests data (enumerate (Spec.signature_offsets data)))
         ∧ size (list_to_set
                   (payload_digests data (enumerate (Spec.signature_offsets data)))
                 : gset string) ≤ n
         ∧ n ≤ length (payload_digests data (enumerate (Spec.signature_offsets data))))
  ∧ (∀ max_threads max_threads' schedule schedule' pkg_file_path output_folder,
       ∃ p p',
         NpkUnlocker.extract_zstd_container_with false max_threads schedule
           pkg_file_path data output_folder = Some p
         ∧ NpkUnlocker.extract_zstd_container_with false max_threads' schedule'
             pkg_file_path data output_folder = Some p'
         ∧ ∀ σ, let once := exec p σ in
                let twice := exec p' once.2 in
                twice.1 = once.1
                ∧ NpkUnlocker.extracted_hashes twice.2
                  = NpkUnlocker.extracted_hashes once.2)
  ∧ (∀ max_block_size schedule schedule' ppk_files output_root files,
       0 < max_block_size →
       let first_pass :=
         PPKUnlocker.run_files max_block_size schedule ppk_files output_root
           (PPKUnlocker.module_loaded files) in
       let second_pass :=
         PPKUnlocker.run_files max_block_size schedule' ppk_files output_root
           first_pass.2 in
       PPKUnlocker.DUPLICATE_MD5 (PPKUnlocker.module_loaded files) = ∅
       ∧ PPKUnlocker.DUPLICATE_MD5 first_pass.2 = ppk_digests max_block_size ppk_files
       ∧ PPKUnlocker.DUPLICATE_MD5 second_pass.2 = PPKUnlocker.DUPLICATE_MD5 first_pass.2
       ∧ Forall2 (λ f r, ∃ res, r = Some res
                                ∧ PPKUnlocker.extracted res = 0
                                ∧ PPKUnlocker.processed res
                                  = length (Spec.signature_offsets f.2))
           ppk_files second_pass.1).
Proof.
  split; [|split; [|split; [|split; [|split; [|split; [|split; [|split; [|split]]]]]]]].
  - intros. by apply GUI_run_index.
  - intros input_file output_root fast_mode max_threads enable_type_detect stop_flag
      schedule Hstop.
    destruct (GUI_run_reproducible input_file data output_root fast_mode max_threads
                true enable_type_detect stop_flag schedule Hstop) as (p & Hp & Hrep).
    exists p. split; [done|]. intros σ σ'. apply Hrep.
  - intros input_file output_root max_threads max_threads' enable_type_detect stop_flag
      schedule schedule' Hstop.
    destruct (GUI_run_reproducible input_file data output_root false max_threads
                true enable_type_detect stop_flag schedule Hstop) as (p & Hp & Hrep).
    exists p, p. split; [done|].
    split; [by rewrite <- Hp; apply GUI_run_serial_schedule|].
    intros σ. cbv zeta.
    destruct (Hrep (exec p σ).2 σ) as (Hout & Hsome & Hnone).
    split; [done|].
    destruct (Spec.signature_offsets data) as [|pos positions] eqn:Hsig.
    + by apply Hnone.
    + by apply Hsome.
  - intros Hnd. intros. by apply GUI_run_distinct.
  - intros frame_start output_root frame_idx stop_flag enable_md5 enable_type_detect.
    split; [eapply marks_guar, GUI_task_marks|]. intros σ. apply GUI_task_hashes_grow.
  - intros. apply CLI_task_guar.
  - intros max_block_size file_name output_root.
    eapply guar_mono; [|by apply (PPK_process_guar _ _ _ _ _ (reflexivity _))].
    intros σ σ'. apply ppk_adds_grows.
  - intros fast_mode max_threads schedule pkg_file_path output_folder σ Hpool.
    destruct (CLI_run_processed fast_mode max_threads schedule pkg_file_path data
                output_folder σ Hpool) as (p & n & Hp & Hn & Hlow & Hhigh & Hh & _).
    by exists p, n.
  - intros max_threads max_threads' schedule schedule' pkg_file_path output_folder.
    destruct (NpkUnlocker_run_reproducible false max_threads schedule pkg_file_path
                data output_folder) as (p & Hp & Hrep).
    exists p, p. split; [done|].
    split; [by rewrite <- Hp; apply NpkUnlocker_serial_schedule|].
    intros σ. cbv zeta. apply Hrep.
  - intros max_block_size schedule schedule' ppk_files output_root files Hmax. cbv zeta.
    split; [reflexivity|].
    assert (Hfirst : PPKUnlocker.DUPLICATE_MD5
                       (PPKUnlocker.run_files max_block_size schedule ppk_files
                          output_root (PPKUnlocker.module_loaded files)).2
                     = ppk_digests max_block_size ppk_files).
    { rewrite PPK_run_files_index by done. cbn. by rewrite (left_id_L ∅ (∪)). }
    split; [exact Hfirst|].
    destruct (PPK_run_files_known max_block_size schedule' ppk_files output_root
                (PPKUnlocker.run_files max_block_size schedule ppk_files
                   output_root (PPKUnlocker.module_loaded files)).2 Hmax)
      as [Hnone Hsame]; [by rewrite Hfirst|].
    by split.
Qed.

Lemma twin_files_digests :
  ppk_digests 4096 twin_files = {[Toy.digest good_block]}.
Proof.
  unfold ppk_digests. cbn [map concat twin_files snd].
  assert (Hd : ppk_digests_at 4096 good_block (Spec.signature_offsets good_block)
               = [Toy.digest good_block]) by (vm_compute; reflexivity).
  rewrite Hd. cbn [app list_to_set].
  rewrite (right_id_L ∅ (∪)). by rewrite (idemp_L (∪)).
Qed.

Lemma C9_witness :
  0 < 4096
  ∧ PPKUnlocker.DUPLICATE_MD5
      (PPKUnlocker.run_files 4096 racy_schedule twin_files "Output"
         (PPKUnlocker.module_loaded Toy.empty_fs)).2
    = {[Toy.digest good_block]}
  ∧ Forall2 (λ f r, ∃ res, r = Some res
                           ∧ PPKUnlocker.extracted res = 0
                           ∧ PPKUnlocker.processed res
                             = length (Spec.signature_offsets f.2))
      twin_files
      (PPKUnlocker.run_files 4096 [] twin_files "Output"
         (PPKUnlocker.run_files 4096 racy_schedule twin_files "Output"
            (PPKUnlocker.module_loaded Toy.empty_fs)).2).1.
Proof.
  split; [lia|].
  destruct (C9_index_of_a_run []) as (_ & _ & _ & _ & _ & _ & _ & _ & _ & Hppk).
  destruct (Hppk 4096 racy_schedule [] twin_files "Output" Toy.empty_fs)
    as (_ & Hfirst & _ & Hsecond).
  - lia.
  - split; [|exact Hsecond]. rewrite Hfirst. exact twin_files_digests.
Defined.

(** ** Two failing blocks in two threads *)

(** C10.  The digest of a block is added to [DUPLICATE_MD5] before the
    block is decompressed and stays there when decompression fails, so of
    two such blocks handled one after the other the second is skipped at
    the duplicate check.  The test and the insertion are separate actions
    with no lock around them: when the threads of two files that hold the
    same failing block both test before either inserts, both blocks pass
    the duplicate check and both reach the decompressor. *)
Theorem C10_racing_blocks_both_reach_the_decompressor :
  outcomes_per_file [0; 1]
  = [Some [PPKUnlocker.DecodeFailed]; Some [PPKUnlocker.DecodeFailed]]
  ∧ outcomes_per_file []
    = [Some [PPKUnlocker.DecodeFailed]; Some [PPKUnlocker.Duplicate]]
  ∧ map PPKUnlocker.block_outcome <$>
      (PPKUnlocker.blocks <$>
         (exec (PPKUnlocker.process_ppk_file_with 4096 "0a1b2c3d" twin_corrupt_blocks
                  "Output") fresh_shared).1)
    = Some [PPKUnlocker.DecodeFailed; PPKUnlocker.Duplicate].
Proof. vm_compute. repeat split. Qed.

(** ** A task whose calls raise *)

Section RaisingTask.
Context `{Primitives}.

(** When no call raises the task is the one of the main development. *)
Lemma Raising_task_as_intended data frame_start output_root frame_idx stop_flag
    enable_md5 enable_type_detect :
  Raising_GUI.extract_single_frame Raising_GUI.as_intended data frame_start output_root
    frame_idx stop_flag enable_md5 enable_type_detect
  = NpkUnlock_GUI.extract_single_frame data frame_start output_root frame_idx stop_flag
      enable_md5 enable_type_detect.
Proof. reflexivity. Qed.

Lemma Raising_task_failure calls data frame_start output_root frame_idx stop_flag
    enable_md5 enable_type_detect σ :
  wp (Raising_GUI.extract_single_frame calls data frame_start output_root frame_idx
        stop_flag enable_md5 enable_type_detect)
     (λ r σ',
        reports_success r = false →
        r.2 = None
        ∧ NpkUnlock_GUI.extracted_hashes σ' = NpkUnlock_GUI.extracted_hashes σ
        ∧ (fs_files (NpkUnlock_GUI.fs σ') = fs_files (NpkUnlock_GUI.fs σ)
           ∨ ∃ decompressed written e,
               zstd_decompress (drop frame_start data) = Decoded decompressed
               ∧ Raising_GUI.write_raises calls = Some (written, e)
               ∧ r.1.2 = Raising_GUI.msg_exception
                           (NpkUnlock_GUI.frame_prefix frame_idx frame_start) e
               ∧ fs_files (NpkUnlock_GUI.fs σ')
                 = <[gui_path output_root frame_idx
                       (gui_ext enable_type_detect decompressed)
                     := take written decompressed]> (fs_files (NpkUnlock_GUI.fs σ)))) σ.
Proof.
  unfold Raising_GUI.extract_single_frame. cbv zeta.
  wp_atomic_step. cbn [NpkUnlock_GUI.read_stop fst snd].
  destruct (stop_flag _); [apply wp_ret; by auto|].
  destruct (Raising_GUI.new_decompressor_raises calls); [apply wp_ret; by auto|].
  wp_atomic_step. cbn [NpkUnlock_GUI.read_stop fst snd].
  destruct (stop_flag _); [apply wp_ret; by auto|].
  destruct (Raising_GUI.decompress_raises calls); [apply wp_ret; by auto|].
  destruct (zstd_decompress (drop frame_start data)) as [decompressed|e0];
    [|apply wp_ret; by auto].
  wp_atomic_step. cbn [NpkUnlock_GUI.read_stop fst snd].
  destruct (stop_flag _); [apply wp_ret; by auto|].
  apply wp_bind.
  apply (wp_mono _ (λ dup σ', NpkUnlock_GUI.extracted_hashes σ'
                              = NpkUnlock_GUI.extracted_hashes σ
                              ∧ NpkUnlock_GUI.fs σ' = NpkUnlock_GUI.fs σ)).
  2:{ destruct enable_md5; [by apply wp_atomic|by apply wp_ret]. }
  cbn beta. intros dup σ1 [Hh1 Hf1].
  destruct dup; [apply wp_ret; intros _; rewrite Hf1; by auto|].
  destruct (Raising_GUI.makedirs_raises calls);
    [apply wp_ret; intros _; rewrite Hf1; by auto|].
  wp_atomic_step. wp_atomic_step. cbn [NpkUnlock_GUI.read_stop modify fst snd].
  destruct (stop_flag _); [apply wp_ret; intros _; cbn; rewrite Hf1; by auto|].
  destruct (Raising_GUI.open_raises calls);
    [apply wp_ret; intros _; cbn; rewrite Hf1; by auto|].
  destruct (Raising_GUI.write_raises calls) as [[written e]|].
  - wp_atomic_step. apply wp_ret. intros _. cbn. split; [done|]. split; [done|].
    right. exists decompressed, written, e. rewrite Hf1. by repeat split.
  - wp_atomic_step. apply wp_bind.
    apply (wp_mono _ (λ _ _, True)); [|by destruct enable_md5].
    intros _ σ2 _. apply wp_ret. by intros [=].
Qed.

End RaisingTask.

(** A task of the graphical tool that does not report success returns no
    [info] dictionary and has recorded no digest, whichever exit it took:
    a stop request, a decoding error, a duplicate, or the handler of an
    exception raised by the decompressor or by the file system.  It has
    left the files as they were, unless it was the write itself that
    raised: then the file of the frame, and no other, holds the bytes
    written before the exception. *)
Theorem GUI_task_failure_leaves_at_most_a_partial_file `{Primitives}
    (calls : Raising_GUI.task_calls) (data : list byte) (frame_start : nat)
    (output_root : string) (frame_idx : nat) (stop_flag : nat → bool)
    (enable_md5 enable_type_detect : bool) (σ : NpkUnlock_GUI.task_state) :
  let r := exec (Raising_GUI.extract_single_frame calls data frame_start output_root
                   frame_idx stop_flag enable_md5 enable_type_detect) σ in
  reports_success r.1 = false →
  r.1.2 = None
  ∧ NpkUnlock_GUI.extracted_hashes r.2 = NpkUnlock_GUI.extracted_hashes σ
  ∧ (fs_files (NpkUnlock_GUI.fs r.2) = fs_files (NpkUnlock_GUI.fs σ)
     ∨ ∃ decompressed written e,
         zstd_decompress (drop frame_start data) = Decoded decompressed
         ∧ Raising_GUI.write_raises calls = Some (written, e)
         ∧ r.1.1.2 = Raising_GUI.msg_exception
                       (NpkUnlock_GUI.frame_prefix frame_idx frame_start) e
         ∧ fs_files (NpkUnlock_GUI.fs r.2)
           = <[gui_path output_root frame_idx (gui_ext enable_type_detect decompressed)
               := take written decompressed]> (fs_files (NpkUnlock_GUI.fs σ))).
Proof. intros r Hfail. subst r. by apply Raising_task_failure. Qed.

Lemma disk_full_task_fails :
  reports_success
    (exec (Raising_GUI.extract_single_frame disk_full one_frame 0 "Output" 0 Toy.never
             true true) fresh_task_state).1 = false.
Proof. vm_compute. reflexivity. Qed.

Lemma GUI_task_failure_leaves_at_most_a_partial_file_witness :
  let r := exec (Raising_GUI.extract_single_frame disk_full one_frame 0 "Output" 0
                   Toy.never true true) fresh_task_state in
  reports_success r.1 = false
  ∧ r.1.2 = None
  ∧ NpkUnlock_GUI.extracted_hashes r.2 = ∅.
Proof.
  cbv zeta. split; [exact disk_full_task_fails|].
  destruct (GUI_task_failure_leaves_at_most_a_partial_file disk_full one_frame 0
              "Output" 0 Toy.never true true fresh_task_state disk_full_task_fails)
    as (Hinfo & Hhashes & _).
  split; [exact Hinfo|exact Hhashes].
Defined.

(** ** The block extractor when a call raises *)

Section RaisingPPK.
Context `{Primitives}.

Lemma Raising_PPK_block_loop_always calls fuel max_block_size file_name file_data
    output_root l :
  0 < max_block_size →
  length file_data - PPKUnlocker.offset l < fuel →
  always (λ r,
            (∃ l', r = Some (inl l')
                   ∧ PPKUnlocker.processed_blocks l'
                     = PPKUnlocker.processed_blocks l
                       + length (offsets_from file_data (PPKUnlocker.offset l))
                   ∧ PPKUnlocker.extracted_blocks l'
                     ≤ PPKUnlocker.extracted_blocks l
                       + length (offsets_from file_data (PPKUnlocker.offset l)))
            ∨ (∃ e magic_pos,
                 r = Some (inr e)
                 ∧ magic_pos ∈ offsets_from file_data (PPKUnlocker.offset l)
                 ∧ Raising_PPK.save_at calls magic_pos ≠ Raising_PPK.saves))
    (Raising_PPK.block_loop calls fuel max_block_size file_name file_data output_root l).
Proof.
  intros Hmax. revert l. induction fuel as [|fuel IH]; intros l Hfuel; [lia|].
  cbn [Raising_PPK.block_loop].
  destruct (Nat.ltb_spec (PPKUnlocker.offset l) (length file_data)) as [Hlt|Hge].
  2:{ apply always_ret. left. exists l. rewrite offsets_from_end by done.
      cbn [length]. split; [done|lia]. }
  unfold PPKUnlocker.ZSTD_MAGIC.
  destruct (Py.find file_data ZSTD (PPKUnlocker.offset l)) as [magic_pos|] eqn:Hfind.
  2:{ apply always_ret. left. exists l. rewrite offsets_from_None by done.
      cbn [length]. split; [done|lia]. }
  destruct (ppk_block_end_spec max_block_size _ _ _ Hmax Hfind)
    as (Hle & Hlt' & Hb & Hoffs & _).
  unfold ppk_block_end, PPKUnlocker.ZSTD_MAGIC in *. cbv zeta.
  set (block_end := (default (length file_data) (Py.find file_data ZSTD (magic_pos + 4)))
                    `min` (magic_pos + max_block_size)) in *.
  rewrite Hoffs. cbn [length].
  assert (Hnext : ∀ l1,
            PPKUnlocker.offset l1 = block_end →
            PPKUnlocker.processed_blocks l1 = PPKUnlocker.processed_blocks l + 1 →
            PPKUnlocker.extracted_blocks l1 ≤ PPKUnlocker.extracted_blocks l + 1 →
            always (λ r,
                      (∃ l', r = Some (inl l')
                         ∧ PPKUnlocker.processed_blocks l'
                           = PPKUnlocker.processed_blocks l
                             + S (length (offsets_from file_data block_end))
                         ∧ PPKUnlocker.extracted_blocks l'
                           ≤ PPKUnlocker.extracted_blocks l
                             + S (length (offsets_from file_data block_end)))
                      ∨ (∃ e pos,
                           r = Some (inr e)
                           ∧ pos ∈ magic_pos :: offsets_from file_data block_end
                           ∧ Raising_PPK.save_at calls pos ≠ Raising_PPK.saves))
              (Raising_PPK.block_loop calls fuel max_block_size file_name file_data
                 output_root l1)).
  { intros l1 Hoff Hp He. eapply always_mono; [|apply IH; rewrite Hoff; lia].
    cbn beta. rewrite Hoff. intros r [(l' & -> & Hp' & He')|(e & pos & -> & Hpos & Hcall)].
    - left. exists l'. split; [done|]. lia.
    - right. exists e, pos. split; [done|]. split; [by right|done]. }
  destruct (length _ <? 1024); [apply Hnext; cbn; lia|].
  apply always_bind, always_atomic. intros σ. cbn [gets fst].
  case_bool_decide; [apply Hnext; cbn; lia|].
  apply always_bind, always_atomic. intros σ1. cbn [modify fst].
  destruct (zstd_decompress _) as [decompressed|e]; [|apply Hnext; cbn; lia].
  destruct (Raising_PPK.save_at calls magic_pos) eqn:Hcall.
  - apply always_bind, always_atomic. intros σ2. cbn [modify fst].
    apply always_bind, always_atomic. intros σ3. cbn [modify fst].
    apply Hnext; cbn; lia.
  - apply always_ret. right. exists e, magic_pos.
    split; [done|]. split; [left|]. by rewrite Hcall.
  - apply always_bind, always_atomic. intros σ2. cbn [modify fst].
    apply always_ret. right. exists e, magic_pos.
    split; [done|]. split; [left|]. by rewrite Hcall.
  - apply always_bind, always_atomic. intros σ2. cbn [modify fst].
    apply always_bind, always_atomic. intros σ3. cbn [modify fst].
    apply always_ret. right. exists e, magic_pos.
    split; [done|]. split; [left|]. by rewrite Hcall.
Qed.

Lemma may_raise_save calls file_data magic_pos :
  magic_pos ∈ Spec.signature_offsets file_data →
  Raising_PPK.save_at calls magic_pos ≠ Raising_PPK.saves →
  Raising_PPK.may_raise calls file_data = true.
Proof.
  intros Hpos Hcall. unfold Raising_PPK.may_raise. apply orb_true_iff. right.
  apply existsb_exists. exists magic_pos. split; [by apply list_elem_of_In|].
  by destruct (Raising_PPK.save_at calls magic_pos).
Qed.

(** What the task of a file returns, whatever the other threads do: a
    report under the name of the file, of success with every signature
    counted, or of failure when one of its calls raised. *)
Lemma Raising_PPK_process_always calls max_block_size file_name file_data output_root :
  0 < max_block_size →
  always (λ r,
            (∃ processed extracted,
               r = Some (PPKUnlocker_main.success file_name processed extracted)
               ∧ processed = length (Spec.signature_offsets file_data)
               ∧ extracted ≤ processed)
            ∨ (∃ error,
                 r = Some (PPKUnlocker_main.failed file_name error)
                 ∧ Raising_PPK.may_raise calls file_data = true))
    (Raising_PPK.process_ppk_file_with calls max_block_size file_name file_data
       output_root).
Proof.
  intros Hmax. unfold Raising_PPK.process_ppk_file_with.
  destruct (Raising_PPK.read_raises calls) as [e|] eqn:Hread.
  { apply always_ret. right. eexists. split; [reflexivity|].
    unfold Raising_PPK.may_raise. rewrite Hread. by rewrite bool_decide_eq_true_2. }
  apply always_bind.
  eapply always_mono; [|apply Raising_PPK_block_loop_always; [done|simpl; lia]].
  cbn beta. cbn [PPKUnlocker.offset PPKUnlocker.processed_blocks
                 PPKUnlocker.extracted_blocks].
  unfold offsets_from. rewrite Nat.sub_0_r.
  fold (Spec.signature_offsets file_data).
  intros r [(l' & -> & Hp & He)|(e & pos & -> & Hpos & Hcall)]; apply always_ret.
  - left. eexists _, _. split; [reflexivity|]. split; lia.
  - right. eexists. split; [reflexivity|]. by eapply may_raise_save.
Qed.

Lemma Raising_PPK_run_files_reports max_block_size schedule ppk_files output_root σ :
  0 < max_block_size →
  Forall2 (λ (f : string * list byte * Raising_PPK.file_calls) r,
             (∃ processed extracted,
                r = Some (PPKUnlocker_main.success f.1.1 processed extracted)
                ∧ processed = length (Spec.signature_offsets f.1.2)
                ∧ extracted ≤ processed)
             ∨ (∃ error,
                  r = Some (PPKUnlocker_main.failed f.1.1 error)
                  ∧ Raising_PPK.may_raise f.2 f.1.2 = true))
    ppk_files
    (Raising_PPK.run_files max_block_size schedule ppk_files output_root σ).1.
Proof.
  intros Hmax. unfold Raising_PPK.run_files.
  pose proof (always_run_pool
                (map (λ (f : string * list byte * Raising_PPK.file_calls) r,
                        (∃ processed extracted,
                           r = Some (PPKUnlocker_main.success f.1.1 processed extracted)
                           ∧ processed = length (Spec.signature_offsets f.1.2)
                           ∧ extracted ≤ processed)
                        ∨ (∃ error,
                             r = Some (PPKUnlocker_main.failed f.1.1 error)
                             ∧ Raising_PPK.may_raise f.2 f.1.2 = true))
                   ppk_files)
                PPKUnlocker.MAX_THREADS schedule
                (map (λ '(file_name, file_data, calls),
                        Raising_PPK.process_ppk_file_with calls max_block_size file_name
                          file_data output_root) ppk_files) σ) as Hpool.
  apply Forall2_fmap_l in Hpool; [exact Hpool|].
  apply Forall2_fmap. apply Forall_Forall2_diag, Forall_forall.
  intros [[file_name file_data] calls] _. by apply Raising_PPK_process_always.
Qed.

Lemma Raising_PPK_reports_statistics
    (ppk_files : list (string * list byte * Raising_PPK.file_calls))
    (rs : list (option PPKUnlocker_main.report)) :
  Forall2 (λ (f : string * list byte * Raising_PPK.file_calls) r,
             (∃ processed extracted,
                r = Some (PPKUnlocker_main.success f.1.1 processed extracted)
                ∧ processed = length (Spec.signature_offsets f.1.2)
                ∧ extracted ≤ processed)
             ∨ (∃ error,
                  r = Some (PPKUnlocker_main.failed f.1.1 error)
                  ∧ Raising_PPK.may_raise f.2 f.1.2 = true))
    ppk_files rs →
  let s := PPKUnlocker_main.final_statistics (omap id rs) in
  length (omap id rs) = length ppk_files
  ∧ PPKUnlocker_main.failed_files s
    ≤ length (List.filter (λ f, Raising_PPK.may_raise f.2 f.1.2) ppk_files)
  ∧ PPKUnlocker_main.total_processed s
    + sum_list (signatures_per_file
                  (map fst (List.filter (λ f, Raising_PPK.may_raise f.2 f.1.2) ppk_files)))
    ≥ sum_list (signatures_per_file (map fst ppk_files))
  ∧ PPKUnlocker_main.total_processed s
    ≤ sum_list (signatures_per_file (map fst ppk_files))
  ∧ PPKUnlocker_main.total_extracted s ≤ PPKUnlocker_main.total_processed s
  ∧ (PPKUnlocker_main.failed_files s = 0 →
     PPKUnlocker_main.total_processed s
     = sum_list (signatures_per_file (map fst ppk_files))).
Proof.
  cbv zeta. induction 1 as [|f r files rs Hr _ IH].
  - cbn. lia.
  - destruct IH as (Hlen & Hfail & Hlow & Hproc & Hext & Hnone).
    unfold signatures_per_file in *. cbn [map sum_list sum_list_with List.filter] in *.
    change (id (length (Spec.signature_offsets f.1.2)))
      with (length (Spec.signature_offsets f.1.2)).
    destruct Hr as [(p & e & -> & -> & He)|(error & -> & Hmay)];
      cbn [omap list_omap id length].
    + destruct (final_statistics_cons
                  (PPKUnlocker_main.success f.1.1 (length (Spec.signature_offsets f.1.2)) e)
                  (omap id rs)) as (H1 & H2 & H3).
      cbv zeta in H1, H2, H3. rewrite H1, H2, H3.
      change (PPKUnlocker_main.final_statistics
                [PPKUnlocker_main.success f.1.1 (length (Spec.signature_offsets f.1.2)) e])
        with {| PPKUnlocker_main.total_processed :=
                  0 + length (Spec.signature_offsets f.1.2);
                PPKUnlocker_main.total_extracted := 0 + e;
                PPKUnlocker_main.failed_files := 0 |}.
      cbn [PPKUnlocker_main.total_processed PPKUnlocker_main.total_extracted
           PPKUnlocker_main.failed_files].
      destruct (Raising_PPK.may_raise f.2 f.1.2);
        cbn [map sum_list sum_list_with length];
        repeat split; try lia.
      all: intros Hz; rewrite Hnone by lia; lia.
    + destruct (final_statistics_cons (PPKUnlocker_main.failed f.1.1 error) (omap id rs))
        as (H1 & H2 & H3).
      cbv zeta in H1, H2, H3. rewrite H1, H2, H3.
      change (PPKUnlocker_main.final_statistics [PPKUnlocker_main.failed f.1.1 error])
        with {| PPKUnlocker_main.total_processed := 0;
                PPKUnlocker_main.total_extracted := 0;
                PPKUnlocker_main.failed_files := 0 + 1 |}.
      cbn [PPKUnlocker_main.total_processed PPKUnlocker_main.total_extracted
           PPKUnlocker_main.failed_files].
      rewrite Hmay. cbn [map sum_list sum_list_with length fst].
      change (id (length (Spec.signature_offsets f.1.2)))
        with (length (Spec.signature_offsets f.1.2)).
      repeat split; lia.
Qed.

End RaisingPPK.

(** The statistics that [main] of the block extractor prints account for
    every file, whatever the schedule of the worker threads, the order in
    which [as_completed] hands the results over and the exceptions that the
    file system raises: every file yields one report; a file counts as
    failed only if one of its calls could raise; the total of scanned
    blocks is the number of signatures in the files that did not fail, so
    at most the number of signatures in all files and exactly that number
    when no file failed; and the total of extracted blocks is at most the
    total of scanned blocks. *)
Theorem PPK_statistics_account_for_every_file `{Primitives}
    (max_block_size : nat) (schedule : list nat)
    (ppk_files : list (string * list byte * Raising_PPK.file_calls))
    (output_root : string) (σ : PPKUnlocker.shared)
    (results : list PPKUnlocker_main.report) :
  0 < max_block_size →
  results ≡ₚ omap id (Raising_PPK.run_files max_block_size schedule ppk_files
                        output_root σ).1 →
  let s := PPKUnlocker_main.final_statistics results in
  let may_fail := List.filter (λ f, Raising_PPK.may_raise f.2 f.1.2) ppk_files in
  length results = length ppk_files
  ∧ PPKUnlocker_main.failed_files s ≤ length may_fail
  ∧ PPKUnlocker_main.total_processed s
    + sum_list (signatures_per_file (map fst may_fail))
    ≥ sum_list (signatures_per_file (map fst ppk_files))
  ∧ PPKUnlocker_main.total_processed s
    ≤ sum_list (signatures_per_file (map fst ppk_files))
  ∧ PPKUnlocker_main.total_extracted s ≤ PPKUnlocker_main.total_processed s
  ∧ (PPKUnlocker_main.failed_files s = 0 →
     PPKUnlocker_main.total_processed s
     = sum_list (signatures_per_file (map fst ppk_files))).
Proof.
  intros Hmax Hperm. cbv zeta.
  rewrite (final_statistics_Permutation _ _ Hperm), (Permutation_length Hperm).
  apply Raising_PPK_reports_statistics. by apply Raising_PPK_run_files_reports.
Qed.

Lemma twin_files_disk_full_reports :
  omap id (Raising_PPK.run_files 4096 [0; 1] twin_files_disk_full "Output"
             fresh_shared).1
  = [PPKUnlocker_main.success "0a1b2c3d" 1 1;
     PPKUnlocker_main.failed "4e5f6a7b" "No space left on device"].
Proof. vm_compute. reflexivity. Qed.

Lemma PPK_statistics_account_for_every_file_witness :
  let results :=
    reverse (omap id (Raising_PPK.run_files 4096 [0; 1] twin_files_disk_full
                        "Output" fresh_shared).1) in
  0 < 4096
  ∧ length results = 2
  ∧ PPKUnlocker_main.failed_files (PPKUnlocker_main.final_statistics results) ≤ 1
  ∧ PPKUnlocker_main.total_extracted (PPKUnlocker_main.final_statistics results)
    ≤ PPKUnlocker_main.total_processed (PPKUnlocker_main.final_statistics results).
Proof.
  cbv zeta. split; [lia|].
  destruct (PPK_statistics_account_for_every_file 4096 [0; 1]
              twin_files_disk_full "Output" fresh_shared
              (reverse (omap id (Raising_PPK.run_files 4096 [0; 1]
                                   twin_files_disk_full "Output" fresh_shared).1)))
    as (Hlen & Hfail & _ & _ & Hext & _).
  - lia.
  - apply reverse_Permutation.
  - split; [exact Hlen|]. split; [|exact Hext].
    etrans; [exact Hfail|]. vm_compute. lia.
Defined.

Section RaisingPPKIntended.
Context `{Primitives}.

(** When no call raises, the loop with the handler is the loop of
    [PPKUnlocker.block_loop]. *)
Lemma Raising_PPK_block_loop_as_intended fuel max_block_size file_name file_data
    output_root l σ :
  exec (Raising_PPK.block_loop Raising_PPK.as_intended fuel max_block_size file_name
          file_data output_root l) σ
  = (inl <$> (exec (PPKUnlocker.block_loop fuel max_block_size file_name file_data
                      output_root l) σ).1,
     (exec (PPKUnlocker.block_loop fuel max_block_size file_name file_data
              output_root l) σ).2).
Proof.
  revert l σ. induction fuel as [|fuel IH]; intros l σ; [reflexivity|].
  cbn [Raising_PPK.block_loop PPKUnlocker.block_loop].
  destruct (PPKUnlocker.offset l <? length file_data); [|reflexivity].
  destruct (Py.find file_data PPKUnlocker.ZSTD_MAGIC (PPKUnlocker.offset l))
    as [magic_pos|]; [|reflexivity].
  cbv zeta. destruct (length _ <? 1024); [apply IH|].
  rewrite !exec_bind, !exec_atomic. cbn [gets fst snd].
  case_bool_decide; [apply IH|].
  rewrite !exec_bind, !exec_atomic. cbn [modify fst snd].
  destruct (zstd_decompress _) as [decompressed|e]; [|apply IH].
  cbn [Raising_PPK.save_at Raising_PPK.as_intended].
  rewrite !exec_bind, !exec_atomic. cbn [modify fst snd].
  rewrite !exec_bind, !exec_atomic. cbn [modify fst snd].
  apply IH.
Qed.

(** When no call raises, [process_ppk_file] returns the success report of
    what [PPKUnlocker.process_ppk_file_with] returns and leaves the state
    it leaves. *)
Lemma Raising_PPK_process_as_intended max_block_size file_name file_data output_root σ :
  exec (Raising_PPK.process_ppk_file_with Raising_PPK.as_intended max_block_size
          file_name file_data output_root) σ
  = (PPKUnlocker_main.report_of
       <$> (exec (PPKUnlocker.process_ppk_file_with max_block_size file_name file_data
                    output_root) σ).1,
     (exec (PPKUnlocker.process_ppk_file_with max_block_size file_name file_data
              output_root) σ).2).
Proof.
  unfold Raising_PPK.process_ppk_file_with, PPKUnlocker.process_ppk_file_with.
  cbn [Raising_PPK.read_raises Raising_PPK.as_intended].
  rewrite !exec_bind, Raising_PPK_block_loop_as_intended.
  destruct (exec (PPKUnlocker.block_loop _ _ _ _ _ _) σ) as [[l|] σ']; reflexivity.
Qed.

End RaisingPPKIntended.
